(* ===== verification/_CoqProject ===== *)
-Q . S2P
Prelude.v
Types.v
TaskUtils.v
Viewport.v
Store.v
LegacyStore.v
History.v
RenderScheduler.v
RowLayout.v
LegacyRows.v
SpatialIndex.v
IndexManager.v
Canvas.v
ColorUtils.v
ThemeColors.v
ThemeProvider.v
Renderers.v
InteractionLayer.v
Controls.v
ToolbarLayout.v
Interaction.v
GanttCanvas.v
Timeline.v
Grid.v
LegacyCanvas.v
DemoData.v
Provider.v
Subscriptions.v
Routes.v
Sidebar.v
RowFade.v
LegacyToolbar.v
DemoPage.v
