(* ===== verification/Prelude.v ===== *)
(** * A verification development for gantt-canvas (ckafrouni/gantt-canvas)

    ** The program

    gantt-canvas renders a schedule of tasks on resources in four canvas
    layers and lets the user move, resize and select tasks.  Its parts:
    - the Schedule Store (src/unnamed/part_001, [createGanttStore]): a
      zustand store holding the task, resource, dependency, order and
      group collections (JS objects keyed by id), the viewport, the
      selection, the grouping state and the drag state, one action per
      mutation, wrapped in zundo's undo history; the legacy split stores
      (store/data-store.ts and the UI store of part_004) hold the same in
      two stores;
    - the task utilities (part_005): derived fields ([hydrateTask]),
      phase ranges, snapping;
    - the Viewport Transform (engine/viewport-manager.ts) and the store's
      viewport actions (pan, zoom, scroll);
    - the Row Layout Engine (hooks/useComposableVirtualRows.ts; the legacy
      part_008): the virtual rows of a grouping mode, and the visible ones;
    - the Spatial Index (part_003) and the Index Manager (part_002): the
      box of each task, point/rectangle/time queries, the relational maps,
      the transitive dependency chain, the visible row range;
    - the Render Scheduler (engine/render-scheduler.ts): dirty layers,
      one coalesced animation frame, a fixed layer order;
    - the layer renderers (the grid renderer of part_007,
      utils/theme-colors.ts's task renderer, part_006 dependencies,
      renderers/interaction-renderer.ts), their
      drawing helpers (utils/canvas-utils.ts) and colours (the start of
      theme-colors.ts);
    - the composable canvas (components/composable/GanttCanvas.tsx): six
      React effects wiring the store, the indexes, the scheduler and the
      renderers, and its two earlier versions over the legacy stores
      (part_011, part_010); the interaction hook (part_009): mouse and keyboard input
      driving the drag/select state machine; the toolbar controls
      (components/composable/controls) and the actions hook of part_000;
    - the provider of part_000 ([GanttProvider]), which creates the store,
      loads its props into it and reports task changes, the sidebar
      (components/composable/GanttSidebar.tsx) and its legacy versions
      with the legacy toolbar (components/GanttToolbar.tsx), and the demo
      generator (utils/demo-data.ts) and demo pages
      (routes/gantt-bottom-toolbar.tsx) built on them;
    - the legacy [GanttChart] (part_014) over the legacy stores and the
      /gantt demo page that shows it (routes/gantt.tsx), the composable
      toolbar's layout (part_012) and the light/dark [ThemeProvider]
      (part_016), whose effect clears the renderers' colour cache.

    Data flows: a store action changes the collections; the canvas's next
    render recomputes the rows, its commit rebuilds the indexes and marks
    layers dirty; the scheduler redraws the dirty layers in its fixed
    order on the next frame; mouse input hit-tests through the spatial
    index and drives the store's drag actions; the history records each
    [set] that changes the tasks or dependencies.

    ** Files

    - Prelude (this file): the number model ([js_round], [Q_to_Z_exact],
      boolean comparisons on Q), the JS object model [jsobj] (insertion
      ordered association lists with JS assignment and [delete]) and its
      lemmas, JS sets ([jsset_add]), the fault type [JsFault] and
      [js_result] for code that throws, a state monad [St] for code that
      mutates module variables, the scope [gantt_scope], the hint
      database [gantt] and the development's tactics.
    - Types: the data model of types/index.ts, with decidable equality.
    - TaskUtils: part_005.  Round trip of hydration, the phase ranges tile
      the task, [snapToInterval] gives the nearest multiple,
      [formatDuration] prints different durations differently.
    - Viewport: viewport-manager.ts and the store's viewport actions.
      The transforms are inverse to each other, zoom keeps the time under
      the cursor within the zoom bounds, [snapToGrid] is the nearest
      multiple of the snap interval.
    - Store: part_001's state Record and one function per action
      ([apply_action] dispatches [StoreAction]).  In every store reached
      by any actions the collections have unique keys and every task's
      cached fields agree with its phases; that each task is stored under
      its own id holds for actions whose updates carry no other [id] (an
      update that does breaks it); [deleteTask], [updateDrag], [commitDrag] and
      [moveTasks] functionally, their error paths, the fixed-time guard,
      and what the commit's snapping and rounding do (findings).
    - LegacyStore: Modules [DataStore] and [UIStore] of the split
      stores, over a [World] holding both, and where the legacy
      [commitDrag] differs from the composable one.
    - History: zundo's [temporal] middleware (Section [Temporal], modelled
      from its documentation: a library, not code of the repository) and
      its instances for both stores, whose [equality] compares the
      objects of the tasks and the dependencies ([===]), computed from
      the writes of each recipe with Immer's rules; every change of them
      is recorded, and undoing a commit restores the drag.
    - RenderScheduler: the scheduler and the browser's frame queue as a
      [World]; at most one frame pending, the fixed order, isolation of
      throwing callbacks, coalescing, [forceRender], [dispose].
    - RowLayout, LegacyRows: the row layouts; contiguity, membership by
      mode, the visible rows a slice.
    - SpatialIndex: the R-tree as an interface (the class [RBushOps], its
      laws the class [RBushSpec], RBush's search contract) with a list
      instance;
      [queryPoint] exactly finds the tasks whose box holds the point.
    - IndexManager: the relational indexes, [getDependencyChain]
      (terminating, and exactly the reachable tasks), [getVisibleRows].
    - Canvas, ThemeColors, Renderers, InteractionLayer: a drawing is the
      list of canvas calls ([CanvasOp]); text widths and time formats are
      parameters; the colour cache runs in [St].
    - ColorUtils: canvas-utils.ts's [lightenColor], [darkenColor] and
      [hexToRgba], with JavaScript's [parseInt], ToInt32 bit operators and
      [toString(16)] written out on [Z]; for six hex digits and a
      percentage at least 0 they print the channels moved and clamped to
      [0, 255]; a negative percentage, shorthand, alpha or named colours
      give wrong colours (findings).
    - Controls: [useGanttActions] and the zoom, today, grouping and
      undo/redo controls, as steps of the store under its history.
    - Interaction: part_009's handlers as functions of an [App] state
      (store, history, interaction state, cursor) over an environment
      (canvas rectangle, the viewport manager's viewport, the index).
    - GanttCanvas: a render reads the store, its commit runs the effects
      whose dependencies changed over a [CanvasWorld] (store, scheduler
      singleton and frame queue, index singleton, viewport-manager ref,
      renderers, registered draw callbacks); sessions of renders, store
      actions and frames keep the callbacks current, rebuild the index
      before the frame, and end without a pending frame; two findings.
    - Timeline: the time axis of GanttTimeline.tsx and TimelineHeader.tsx
      (markers, day headers, current time), local time a fixed UTC offset;
      the markers are exactly the interval's multiples in view, counted
      from the epoch in UTC, which misplaces the day zoom's ticks in most
      time zones (a finding); a day header ends at the visible end of its
      day except when the day spans the whole view, where it runs past
      the right edge and its label can leave the view (a finding).
    - Grid: the grid layer (part_007's [GridRenderer] and
      [getGridRenderer]) in Module [GridRenderer]: row stripes, time grid,
      today marker and row separators as canvas calls, the colours read
      through the theme cache in [St].  The vertical lines are the times
      [floor(visibleStart/1h)*1h + k*minor] on the canvas, so the grid's
      phase follows the scroll; a line is major when its local hour is a
      multiple of [major/minor] hours (4 at the day zoom); the today
      highlight stays on the canvas around the current-time line.
    - LegacyCanvas: Module [Legacy], the two canvas components over the
      legacy stores (part_011, [commitV1]; part_010, [commitV0]), their
      ViewportManager objects in a heap so that the aliasing between
      the ref and the interaction hook's argument is explicit; part_010's
      listeners read the committed viewport in every session, part_011's
      the previous render's (a finding shared with GanttCanvas).
    - DemoData: [generateDemoData] and [generateLargeDataset]
      (utils/demo-data.ts) in a generator monad [GenM] that counts the
      calls of [Math.random()] and [Date.now()], streams given as
      parameters, and fails where the code reads a property of
      [undefined].  Given draws in [0, 1) and a resource and an order
      whenever a task is requested, the data has the requested sizes,
      unique ids, resolved references and dependencies inside one order
      from an earlier-starting task, hence acyclic (ranked by the place in
      the sorted order); with no resource or no order it throws, and
      [generateLargeDataset] never does.  A priority of 0 is possible
      (a finding).
    - Provider: [GanttProvider] (part_000): the store made once, the
      [initializeData] effect run through the history, the [onTaskChange]
      subscription, and the selection hooks.  Right after mounting with
      tasks, undo empties the chart; a deleted task is never reported,
      an updated one is reported once.
    - Subscriptions: part_000's [onSelectionChange] and
      [onViewportChange] subscriptions, the object identity of
      [selection.taskIds] and [viewport] derived from the Immer draft
      writes of each store action ([draftRun]), and the context hooks
      ([useGanttStoreApi] throws outside a provider).  Every change of
      the selection or the viewport is reported with the new value; some
      unchanged values are reported too (a finding).
    - Routes: the three pages of routes/gantt-bottom-toolbar.tsx: layout
      sizes, task count buttons, selection info, detail panel, status
      badges, priority labels, the multi-task summary, the minimal page's
      header range and its zoom, pan and selection controls.  The
      header's range is the viewport's visible range; the corner zoom
      buttons drift (1.3 then 0.7 leaves 91%); pan left then right
      restores the scroll when it was at least half a width; the average
      progress stays within the tasks' bounds.
    - Sidebar: the composable [GanttSidebar]: its rows, widths and content
      height, the new-row effect with [prevRowIdsRef], its state and
      timeout, the collapse, header and resize handlers.  The effect
      never records the rows once it has found new ones, so every new
      array of rows (a change of the rows, or of any input of the row
      layout's memo such as the tasks) marks all resource rows as new
      again; the sidebar is
      200 pixels wide whatever the props and the store say.
    - RowFade: [ResourceRow]'s [mounted] state and animation frame, and
      the rows mounted and unmounted by key across the sidebar's commits,
      frames and timeouts.  While the rows only grow the entry fade never
      plays (a finding): a row mounts before its id reaches
      [newRowIds].
    - ThemeProvider: part_016's theme state, the browser it writes
      ([localStorage], the root's class) and the colour cache of
      ThemeColors; every reachable state agrees with the browser, so a
      reload restores the theme, and after a change of theme the first
      colour read is the new theme's.
    - ToolbarLayout: both versions of the composable [GanttToolbar]
      (part_012): for every list of items the controls and dividers are
      the reference layout.
    - LegacyToolbar: GanttToolbar.tsx's toolbar over the legacy stores,
      with the legacy data store's history (History.v at its state), and
      its animated and static sidebars.
    - DemoPage: the legacy [GanttChart] (part_014: its data effect through
      the history, sizes and rows) and the /gantt page (routes/gantt.tsx:
      task count, loading flag, 10 ms timeouts, the memoised generator
      run, the placeholder that unmounts the chart) as a step function on
      a [DemoWorld] holding the page, the generator's counts, the data,
      the chart and the stores.  At most one timeout is pending, exactly
      while loading, and the next one leaves the page idle.

    ** Modelling choices

    - JavaScript numbers: integers the code keeps integral (timestamps in
      ms, phase durations in minutes) are [Z]; quantities the code divides
      (pixels, zoom factors, preview times) are exact rationals [Q].
      Floating-point rounding is modelled only for [2.55 * percent] in
      the colour helpers ([ColorUtils.roundDouble], the IEEE-754
      product); elsewhere the equations hold exactly over Q.
      [Math.round] is [js_round] (halves up, as JS).  A value the code
      passes on as an integer but computes in Q goes through
      [Q_to_Z_exact].  Where the code computes a fraction and stores it
      (the legacy commit of a drag, the demo generator's start times),
      JavaScript goes on with it, but the model's [Task] cannot hold it:
      the run stops with the fault [FractionalTime].  Likewise the NaN
      durations a resize of a zero-length task writes are the fault
      [NotANumber].  No theorem is about a run past these faults.
    - JS objects used as dictionaries keep insertion order, which the code
      observes through [Object.values] and [Object.keys]: they are
      [jsobj]s.  Sets whose order the code never observes are [gset]s.
    - Stateful code is explicit state passing (store actions, scheduler
      methods, interaction handlers, React commits); code that throws
      returns [js_result]; module variables are threaded through [St].
    - React: a listener or an effect sees the values of the render that
      created it; dependencies are compared by value, except a default
      array literal, which is new at every render, and the sidebar's
      [virtualRows] array, whose identity a commit is given.
    - Fuel: [IndexManager.bfs] runs on [chainFuel], one iteration per
      initial queue element and per push plus the final test, which
      [getDependencyChain_terminates] shows is enough (and more changes
      nothing); [truncateLoop] runs on the text's length, enough since
      each iteration drops a character ([truncateLoop_enough]); the time
      axis's loops run on the number of intervals, or days, in view plus
      one ([markerLoop_enough], [dayLoop_enough]), and so does the grid's
      loop ([forTimes_full]).  The demo generator's loops are structural.

    ** Not modelled

    DOM work
    ([setupHighDPICanvas]'s sizing, the bounding rectangles, cursor
    styles, [createHorizontalGradient]'s gradient object), [drawArrow]'s
    floating-point trigonometry, the React markup of the toolbars and routes and
    the placement of the time axis's elements, the selection and
    viewport notifications after undo and redo (the restored snapshots'
    object identity, which the value model of the history does not
    keep), daylight-saving changes of
    the local time zone, [console.time], and the libraries (RBush is an interface,
    zundo is modelled from its documentation). *)

From stdpp Require Export base list strings gmap sorting.
From Stdlib Require Export ZArith QArith Qround Qminmax Lia Lqa.

Declare Scope gantt_scope.
Delimit Scope gantt_scope with gantt.

Create HintDb gantt discriminated.
Create Rewrite HintDb gantt_rw.

(** ** Filters *)

Lemma list_filter_iff_in {A} (P1 P2 : A -> Prop)
    `{!forall x, Decision (P1 x), !forall x, Decision (P2 x)} (l : list A) :
  (forall x, x ∈ l -> P1 x <-> P2 x) -> filter P1 l = filter P2 l.
Proof.
  induction l as [|a l IH]; intros Hiff; [done|].
  rewrite !filter_cons. rewrite IH by (intros x Hx; apply Hiff; by right).
  pose proof (Hiff a ltac:(left)).
  destruct (decide (P1 a)), (decide (P2 a)); naive_solver.
Qed.

Lemma list_filter_id_in {A} (P : A -> Prop) `{!forall x, Decision (P x)} (l : list A) :
  (forall x, x ∈ l -> P x) -> filter P l = l.
Proof.
  induction l as [|a l IH]; intros Hall; [done|].
  rewrite filter_cons_True by (apply Hall; left). f_equal. apply IH.
  intros x Hx; apply Hall; by right.
Qed.

(** ** Loops *)

(** A property kept by every iteration of a [for ... of] loop, written as
    [fold_left], holds after the loop. *)
Lemma fold_left_invariant {A B} (P : B -> Prop) (f : B -> A -> B) (xs : list A) (b : B) :
  (forall b' x, x ∈ xs -> P b' -> P (f b' x)) -> P b -> P (fold_left f xs b).
Proof.
  revert b. induction xs as [|x xs IH]; intros b Hf Hb; simpl; [done|].
  apply IH; [intros b' y Hy; apply Hf; by right|]. apply Hf; [by left|done].
Qed.

(** The same, for a property of the prefix of the list already processed. *)
Lemma fold_left_invariant_prefix {A B} (P : list A -> B -> Prop) (f : B -> A -> B)
    (xs : list A) (b : B) :
  (forall p x b', P p b' -> P (p ++ [x]) (f b' x)) -> P [] b -> P xs (fold_left f xs b).
Proof.
  intros Hf. change xs with ([] ++ xs) at 1. generalize (@nil A) as p. revert b.
  induction xs as [|x xs IH]; intros b p Hb; simpl; [by rewrite app_nil_r|].
  rewrite cons_middle, app_assoc. apply IH, Hf, Hb.
Qed.

(** The elements of a list sorted by [R] that satisfy a predicate [P]
    kept along [R] and a predicate [Q] kept against [R] form a contiguous
    slice of the list. *)
Section ConvexFilter.
Context {X : Type} (R : X -> X -> Prop) (P Q : X -> Prop)
  `{!forall x, Decision (P x)} `{!forall x, Decision (Q x)}.
Hypothesis HP : forall x y, R x y -> P x -> P y.
Hypothesis HQ : forall x y, R x y -> Q y -> Q x.

Lemma filter_convex_none (x : X) (l : list X) :
  Forall (R x) l -> ~ Q x -> filter (fun y => P y /\ Q y) l = [].
Proof.
  intros Hl Hx. induction Hl as [|y l Hy Hl IH]; [done|].
  rewrite filter_cons_False; [done|]. intros [_ Hq]. by apply Hx, (HQ x y).
Qed.

Lemma filter_convex_prefix (l : list X) :
  StronglySorted R l -> Forall P l -> exists post, l = filter (fun y => P y /\ Q y) l ++ post.
Proof.
  induction 1 as [|x l Hs IH Hx]; intros Hp; [by exists []|].
  apply Forall_cons in Hp as [Hpx Hp]. destruct (decide (Q x)) as [Hq|Hq].
  - destruct (IH Hp) as [post Hpost]. exists post.
    rewrite filter_cons_True by done. simpl. by rewrite <- Hpost.
  - exists (x :: l). rewrite filter_cons_False by naive_solver.
    by rewrite (filter_convex_none x).
Qed.

Lemma filter_convex_infix (l : list X) :
  StronglySorted R l -> exists pre post, l = pre ++ filter (fun y => P y /\ Q y) l ++ post.
Proof.
  induction 1 as [|x l Hs IH Hx]; [by exists [], []|].
  destruct (decide (P x)) as [Hp|Hp]; [destruct (decide (Q x)) as [Hq|Hq]|].
  - destruct (filter_convex_prefix l Hs) as [post Hpost].
    { eapply Forall_impl; [exact Hx|]. intros y Hy. by apply (HP x y). }
    exists [], post. rewrite filter_cons_True by done. simpl. by rewrite <- Hpost.
  - exists (x :: l), []. rewrite filter_cons_False by naive_solver.
    rewrite (filter_convex_none x) by done. by rewrite app_nil_r.
  - destruct IH as (pre & post & Hl). exists (x :: pre), post.
    rewrite filter_cons_False by naive_solver. simpl. by rewrite <- Hl.
Qed.
End ConvexFilter.

Lemma omap_snoc {A B} (f : A -> option B) (l : list A) (x : A) :
  omap f (l ++ [x]) = omap f l ++ option_list (f x).
Proof. rewrite omap_app. simpl. by destruct (f x). Qed.

Lemma omap_all_None {A B} (f : A -> option B) (l : list A) :
  (forall x, x ∈ l -> f x = None) -> omap f l = [].
Proof.
  induction l as [|x l IH]; intros Hl; [done|]. simpl.
  rewrite (Hl x) by (by left). apply IH. intros y Hy. apply Hl. by right.
Qed.

Lemma StronglySorted_lookup {X} (R : X -> X -> Prop) (l : list X) i j x y :
  StronglySorted R l -> l !! i = Some x -> l !! j = Some y -> (i < j)%nat -> R x y.
Proof.
  intros Hs. revert i j. induction Hs as [|z l Hs IH Hz]; intros i j Hi Hj Hij; [done|].
  destruct i as [|i], j as [|j]; simpl in *; try lia.
  - injection Hi as <-. rewrite Forall_forall in Hz. apply Hz. by eapply list_elem_of_lookup_2.
  - apply (IH i j); auto with lia.
Qed.

(** ** JS objects used as dictionaries *)

Section JsObj.
Context {K : Type} `{!EqDecision K} {V : Type}.

(** [o[k]]: the value stored under [k], [undefined] when absent. *)
Fixpoint obj_get (k : K) (o : list (K * V)) : option V :=
  match o with
  | [] => None
  | (k', v) :: o' => if decide (k = k') then Some v else obj_get k o'
  end.

Definition obj_keys (o : list (K * V)) : list K := fst <$> o.
Definition obj_values (o : list (K * V)) : list V := snd <$> o.

Definition obj_has (k : K) (o : list (K * V)) : bool :=
  bool_decide (k ∈ obj_keys o).

(** In-place mutation of the value under [k] ([Object.assign(o[k], ..)],
    [o[k].f = ..]): the entry keeps its position. *)
Definition obj_alter (f : V -> V) (k : K) (o : list (K * V))
    : list (K * V) :=
  map (fun kv => if decide (k = kv.1) then (kv.1, f kv.2) else kv) o.

(** [o[k] = v]: replaces in place when [k] is a key, appends otherwise. *)
Definition obj_set (k : K) (v : V) (o : list (K * V))
    : list (K * V) :=
  if obj_has k o then obj_alter (fun _ => v) k o else o ++ [(k, v)].

(** [delete o[k]]. *)
Definition obj_delete (k : K) (o : list (K * V))
    : list (K * V) :=
  filter (fun kv => kv.1 ≠ k) o.

(** Well-formedness: a JS object has each key once. *)
Definition obj_wf (o : list (K * V)) : Prop := NoDup (obj_keys o).

Lemma obj_get_cons k k' v o :
  obj_get k ((k', v) :: o) = if decide (k = k') then Some v else obj_get k o.
Proof. done. Qed.

Lemma obj_get_None_notin k o : obj_get k o = None <-> k ∉ obj_keys o.
Proof.
  induction o as [|[k' v] o IH]; simpl.
  - split; [intros _; apply not_elem_of_nil|done].
  - case_decide; subst.
    + split; [done|]. intros H. exfalso. apply H. left.
    + rewrite IH, elem_of_cons. naive_solver.
Qed.

Lemma obj_has_spec k o : obj_has k o = true <-> is_Some (obj_get k o).
Proof.
  unfold obj_has. rewrite bool_decide_eq_true.
  destruct (obj_get k o) eqn:E.
  - split; [eauto|]. intros _. destruct (decide (k ∈ obj_keys o)); [done|].
    apply obj_get_None_notin in n. congruence.
  - apply obj_get_None_notin in E. split; [done|]. intros [? ?]; done.
Qed.

Lemma obj_get_alter_eq f k o : obj_get k (obj_alter f k o) = f <$> obj_get k o.
Proof.
  induction o as [|[k' v] o IH]; simpl; [done|].
  case_decide; simpl; case_decide; subst; simpl; try done; congruence.
Qed.

Lemma obj_get_alter_ne f k k' o :
  k ≠ k' -> obj_get k' (obj_alter f k o) = obj_get k' o.
Proof.
  intros Hne. induction o as [|[k'' v] o IH]; simpl; [done|].
  case_decide; simpl; case_decide; subst; simpl; try done; congruence.
Qed.

Lemma obj_keys_alter f k o : obj_keys (obj_alter f k o) = obj_keys o.
Proof.
  unfold obj_keys, obj_alter. induction o as [|[k' v] o IH]; simpl; [done|].
  case_decide; simpl; f_equal; done.
Qed.

Lemma obj_get_set_eq k v o : obj_get k (obj_set k v o) = Some v.
Proof.
  unfold obj_set. destruct (obj_has k o) eqn:E.
  - rewrite obj_get_alter_eq. apply obj_has_spec in E as [w ->]. done.
  - induction o as [|[k' w] o IH]; simpl.
    + by rewrite decide_True.
    + unfold obj_has in E, IH. simpl in E.
      rewrite bool_decide_eq_false, elem_of_cons in E.
      rewrite decide_False by naive_solver. apply IH.
      rewrite bool_decide_eq_false. naive_solver.
Qed.

Lemma obj_get_app k o1 o2 :
  obj_get k (o1 ++ o2) = match obj_get k o1 with Some v => Some v | None => obj_get k o2 end.
Proof.
  induction o1 as [|[k' w] o1 IH]; simpl; [done|]. by case_decide.
Qed.

Lemma obj_get_set_ne k k' v o :
  k ≠ k' -> obj_get k' (obj_set k v o) = obj_get k' o.
Proof.
  intros Hne. unfold obj_set. destruct (obj_has k o).
  - by apply obj_get_alter_ne.
  - rewrite obj_get_app. simpl. rewrite decide_False by congruence.
    by destruct (obj_get k' o).
Qed.

Lemma obj_get_delete_eq k o : obj_get k (obj_delete k o) = None.
Proof.
  induction o as [|[k' w] o IH]; simpl; [done|].
  unfold obj_delete in *. rewrite filter_cons. simpl.
  case_decide; simpl; [|done]. by rewrite decide_False.
Qed.

Lemma obj_get_delete_ne k k' o :
  k ≠ k' -> obj_get k' (obj_delete k o) = obj_get k' o.
Proof.
  intros Hne. induction o as [|[k'' w] o IH]; simpl; [done|].
  unfold obj_delete in *. rewrite filter_cons. simpl.
  case_decide; simpl; case_decide; subst; try done; congruence.
Qed.

(** Mutating or deleting an absent key leaves the object as it is. *)
Lemma obj_alter_absent f k o : obj_get k o = None -> obj_alter f k o = o.
Proof.
  unfold obj_alter. induction o as [|[k' v] o IH]; simpl; [done|].
  case_decide as Hk; [done|]. intros H. f_equal. by apply IH.
Qed.

Lemma obj_delete_absent k o : obj_get k o = None -> obj_delete k o = o.
Proof.
  intros H%obj_get_None_notin. apply list_filter_id_in. intros [k' v] Hin Heq.
  apply H. simpl in Heq. subst k'. apply list_elem_of_fmap. by exists (k, v).
Qed.

Lemma obj_keys_set_new k v o :
  obj_get k o = None -> obj_keys (obj_set k v o) = obj_keys o ++ [k].
Proof.
  intros H. unfold obj_set.
  assert (obj_has k o = false) as ->.
  { destruct (obj_has k o) eqn:E; [|done].
    apply obj_has_spec in E. rewrite H in E. by destruct E. }
  unfold obj_keys. by rewrite map_app.
Qed.

Lemma obj_keys_set_old k v o :
  is_Some (obj_get k o) -> obj_keys (obj_set k v o) = obj_keys o.
Proof.
  intros H. apply obj_has_spec in H. unfold obj_set. rewrite H.
  apply obj_keys_alter.
Qed.

Lemma obj_wf_set k v o : obj_wf o -> obj_wf (obj_set k v o).
Proof.
  unfold obj_wf. intros Hwf. destruct (obj_get k o) eqn:E.
  - rewrite obj_keys_set_old by eauto. done.
  - rewrite obj_keys_set_new by done. apply NoDup_app. split; [done|].
    split; [|apply NoDup_singleton].
    intros x Hx Hin. apply list_elem_of_singleton in Hin. subst.
    by apply obj_get_None_notin in E.
Qed.

(** Removing entries keeps the keys unique. *)
Lemma obj_wf_filter (P : K * V -> Prop) `{!forall kv, Decision (P kv)} o :
  obj_wf o -> obj_wf (filter P o).
Proof.
  unfold obj_wf, obj_keys. intros Hwf.
  induction o as [|[k' w] o IH]; simpl; [constructor|].
  rewrite filter_cons. simpl in *. apply NoDup_cons in Hwf as [Hn Hwf].
  case_decide; simpl; [|by apply IH].
  constructor; [|by apply IH].
  intros Hin. apply Hn. apply list_elem_of_fmap in Hin as [[k'' w''] [-> Hin]].
  apply list_elem_of_filter in Hin as [_ Hin].
  apply list_elem_of_fmap. by exists (k'', w'').
Qed.

Lemma obj_wf_delete k o : obj_wf o -> obj_wf (obj_delete k o).
Proof. apply obj_wf_filter. Qed.

Lemma obj_wf_alter f k o : obj_wf o -> obj_wf (obj_alter f k o).
Proof. unfold obj_wf. by rewrite obj_keys_alter. Qed.

(** Lookup agrees with membership of the entry. *)
Lemma obj_get_elem_of k v o : obj_get k o = Some v -> (k, v) ∈ o.
Proof.
  induction o as [|[k' w] o IH]; simpl; [done|].
  case_decide; subst.
  - intros [= ->]. left.
  - intros H'. right. by apply IH.
Qed.

Lemma obj_elem_of_get k v o : obj_wf o -> (k, v) ∈ o -> obj_get k o = Some v.
Proof.
  unfold obj_wf, obj_keys. induction o as [|[k' w] o IH]; simpl.
  - intros _ H. by apply not_elem_of_nil in H.
  - intros Hwf Hin. apply NoDup_cons in Hwf as [Hn Hwf].
    apply elem_of_cons in Hin as [[= -> ->]|Hin].
    + by rewrite decide_True.
    + rewrite decide_False; [by apply IH|].
      intros Heq. apply Hn. apply list_elem_of_fmap.
      exists (k, v). simpl. split; [congruence|done].
Qed.

Lemma obj_values_elem_of v o :
  v ∈ obj_values o <-> exists k, (k, v) ∈ o.
Proof.
  unfold obj_values. rewrite list_elem_of_fmap. split.
  - intros [[k w] [-> Hin]]. by exists k.
  - intros [k Hin]. by exists (k, v).
Qed.

(** [const o = {}; for (const x of xs) o[key(x)] = f(x);] *)
Definition obj_of_list {A} (key : A -> K) (f : A -> V) (xs : list A)
    : list (K * V) :=
  fold_left (fun o x => obj_set (key x) (f x) o) xs [].

Lemma obj_wf_fold {A} (key : A -> K) (f : A -> V) xs o :
  obj_wf o -> obj_wf (fold_left (fun o x => obj_set (key x) (f x) o) xs o).
Proof.
  revert o. induction xs as [|x xs IH]; simpl; [done|].
  intros o Ho. apply IH. by apply obj_wf_set.
Qed.

Lemma obj_wf_of_list {A} (key : A -> K) (f : A -> V) xs :
  obj_wf (obj_of_list key f xs).
Proof. apply obj_wf_fold. constructor. Qed.

Lemma obj_get_fold {A} (key : A -> K) (f : A -> V) xs o k v :
  obj_get k (fold_left (fun o x => obj_set (key x) (f x) o) xs o) = Some v ->
  obj_get k o = Some v \/ exists x, x ∈ xs /\ key x = k /\ f x = v.
Proof.
  revert o. induction xs as [|x xs IH]; simpl; [by left|].
  intros o H. apply IH in H as [H|[y (Hy & Hk & Hv)]].
  - destruct (decide (key x = k)) as [<-|Hne].
    + rewrite obj_get_set_eq in H. injection H as <-.
      right. exists x. split; [left|done].
    + rewrite obj_get_set_ne in H by done. by left.
  - right. exists y. split; [by right|done].
Qed.

(** In a well-formed object, two entries with the same key are one. *)
Lemma obj_wf_entry_unique o k v v' :
  obj_wf o -> (k, v) ∈ o -> (k, v') ∈ o -> v = v'.
Proof.
  intros Hwf H1 H2. apply (obj_elem_of_get _ _ _ Hwf) in H1, H2. congruence.
Qed.

Lemma obj_keys_elem_of k v o : (k, v) ∈ o -> k ∈ obj_keys o.
Proof. intros H. apply list_elem_of_fmap. by exists (k, v). Qed.

(** Every entry satisfies [P]. *)
Definition obj_Forall (P : K -> V -> Prop) (o : list (K * V)) : Prop :=
  forall k v, obj_get k o = Some v -> P k v.

Lemma obj_Forall_set P k v o :
  obj_Forall P o -> P k v -> obj_Forall P (obj_set k v o).
Proof.
  intros Ho Hv k' v'. destruct (decide (k = k')) as [<-|Hne].
  - rewrite obj_get_set_eq. by intros [= <-].
  - rewrite obj_get_set_ne by done. apply Ho.
Qed.

Lemma obj_Forall_alter P f k o :
  obj_Forall P o -> (forall v, P k v -> P k (f v)) -> obj_Forall P (obj_alter f k o).
Proof.
  intros Ho Hf k' v'. destruct (decide (k = k')) as [<-|Hne].
  - rewrite obj_get_alter_eq. destruct (obj_get k o) eqn:E; simpl; [|done].
    intros [= <-]. by apply Hf, Ho.
  - rewrite obj_get_alter_ne by done. apply Ho.
Qed.

Lemma obj_Forall_delete P k o : obj_Forall P o -> obj_Forall P (obj_delete k o).
Proof.
  intros Ho k' v'. destruct (decide (k = k')) as [<-|Hne].
  - by rewrite obj_get_delete_eq.
  - rewrite obj_get_delete_ne by done. apply Ho.
Qed.

Lemma obj_Forall_of_list {A} P (key : A -> K) (f : A -> V) xs :
  (forall x, x ∈ xs -> P (key x) (f x)) -> obj_Forall P (obj_of_list key f xs).
Proof.
  intros Hx k v H. apply obj_get_fold in H as [H|(x & Hin & <- & <-)]; [done|].
  by apply Hx.
Qed.

Lemma obj_Forall_nil P : obj_Forall P [].
Proof. done. Qed.

(** An entry-wise check implies [obj_Forall]; it is decidable when [P]
    is, so concrete objects are checked by evaluation. *)
Lemma obj_Forall_entries P o :
  Forall (fun kv => P kv.1 kv.2) o -> obj_Forall P o.
Proof.
  rewrite Forall_forall. intros Ho k v Hk.
  exact (Ho (k, v) (obj_get_elem_of _ _ _ Hk)).
Qed.
(** The grouping idiom [if (!m.has(k)) m.set(k, init); m.get(k).f()]. *)
Lemma obj_get_init_alter_eq (init : V) f k o :
  obj_get k (obj_alter f k (if obj_has k o then o else obj_set k init o)) =
  Some (f (default init (obj_get k o))).
Proof.
  rewrite obj_get_alter_eq. destruct (obj_has k o) eqn:E.
  - apply obj_has_spec in E as [v Hv]. by rewrite Hv.
  - rewrite obj_get_set_eq. destruct (obj_get k o) eqn:E'; [|done].
    exfalso. assert (is_Some (obj_get k o)) as Hs%obj_has_spec by eauto. congruence.
Qed.

Lemma obj_get_init_alter_ne (init : V) f k k' o :
  k ≠ k' -> obj_get k' (obj_alter f k (if obj_has k o then o else obj_set k init o)) = obj_get k' o.
Proof.
  intros Hne. rewrite obj_get_alter_ne by done. destruct (obj_has k o); [done|].
  by apply obj_get_set_ne.
Qed.

Lemma obj_wf_init_alter (init : V) f k o :
  obj_wf o -> obj_wf (obj_alter f k (if obj_has k o then o else obj_set k init o)).
Proof. intros H. apply obj_wf_alter. destruct (obj_has k o); [done|]. by apply obj_wf_set. Qed.

End JsObj.

Arguments obj_get {K _ V} k o : simpl nomatch.

Abbreviation jsobj V := (list (string * V)).

Notation "o ⟦ k ⟧" := (obj_get k o) (at level 1, format "o ⟦ k ⟧") : gantt_scope.

#[export] Hint Rewrite @obj_get_set_eq @obj_get_alter_eq @obj_get_delete_eq
  @obj_keys_alter : gantt_rw.
#[export] Hint Resolve obj_wf_set obj_wf_delete obj_wf_alter obj_wf_of_list
  obj_Forall_set obj_Forall_alter obj_Forall_delete obj_Forall_nil : gantt.

(** Normalise lookups in updated objects. *)
Ltac obj_simpl := autorewrite with gantt_rw in *.

(** ** JS [Set]s of ids *)

(** [if (set.has(x)) set.delete(x); else set.add(x);] *)
Definition set_toggle (x : string) (E : gset string) : gset string :=
  if decide (x ∈ E) then E ∖ {[x]} else {[x]} ∪ E.

Lemma set_toggle_involutive x E : set_toggle x (set_toggle x E) = E.
Proof.
  unfold set_toggle. destruct (decide (x ∈ E)) as [Hx|Hx].
  - rewrite decide_False by (rewrite elem_of_difference, elem_of_singleton; naive_solver).
    apply set_eq; intros y. rewrite elem_of_union, elem_of_difference, !elem_of_singleton.
    destruct (decide (y = x)); naive_solver.
  - rewrite decide_True by (rewrite elem_of_union, elem_of_singleton; by left).
    apply set_eq; intros y. rewrite elem_of_difference, elem_of_union, !elem_of_singleton.
    destruct (decide (y = x)); naive_solver.
Qed.

(** JS [Set]s whose iteration order the code observes are lists without
    duplicates: [set.add(x)] appends a new element, and a present
    element keeps its position. *)
Definition jsset_add {A} `{EqDecision A} (x : A) (l : list A) : list A :=
  if decide (x ∈ l) then l else l ++ [x].

Lemma elem_of_jsset_add {A} `{EqDecision A} (x y : A) l : y ∈ jsset_add x l <-> y = x \/ y ∈ l.
Proof.
  unfold jsset_add. case_decide; rewrite ?elem_of_app, ?list_elem_of_singleton; naive_solver.
Qed.

Lemma NoDup_jsset_add {A} `{EqDecision A} (x : A) l : NoDup l -> NoDup (jsset_add x l).
Proof.
  unfold jsset_add. case_decide; [done|]. intros Hl. apply NoDup_app.
  split_and!; [done| |apply NoDup_singleton]. intros y Hy ->%list_elem_of_singleton. done.
Qed.

(** ** Results of JS code that can fail *)

(** What goes wrong in a handler that the code does not guard: reading a
    property of [undefined] throws a [TypeError]; an arithmetic result
    that is not a number ([NaN], [Infinity]) has no rational value; a
    timestamp written with a fraction of a millisecond leaves the
    development's tasks, whose times are whole milliseconds ([Z]); an
    [Error] the code throws itself carries its message. *)
Inductive JsFault := TypeError_undefined | NotANumber | FractionalTime | ThrownError (message : string).

Inductive js_result (A : Type) := JsOk (a : A) | JsFail (f : JsFault).
Arguments JsOk {A} a.
Arguments JsFail {A} f.

(** ** Sums (the reference for the code's accumulation loops) *)

Definition sumZ {A} (f : A -> Z) (l : list A) : Z := foldr (fun x acc => f x + acc)%Z 0%Z l.
Definition sumQ {A} (f : A -> Q) (l : list A) : Q := foldr (fun x acc => f x + acc)%Q 0%Q l.

Lemma sumZ_map {A} (f : A -> Z) l : sumZ f l = sumZ id (map f l).
Proof. induction l as [|x l IH]; [done|]. unfold sumZ in *. simpl. by rewrite IH. Qed.

Lemma sumZ_app {A} (f : A -> Z) l1 l2 : sumZ f (l1 ++ l2) = (sumZ f l1 + sumZ f l2)%Z.
Proof. induction l1; simpl; [done|]. unfold sumZ in *. simpl. lia. Qed.

(** ** [Math.round] and [Math.max]/[Math.min] on JS numbers *)

(** The JS comparison [a < b] on rationals. *)
Definition Qlt_bool (a b : Q) : bool := negb (Qle_bool b a).

Lemma Qlt_bool_iff a b : Qlt_bool a b = true <-> a < b.
Proof.
  unfold Qlt_bool. rewrite negb_true_iff. split.
  - intros H. apply Qnot_le_lt. intros H'. apply Qle_bool_iff in H'. congruence.
  - intros H. destruct (Qle_bool b a) eqn:E; [|done].
    apply Qle_bool_iff in E. lra.
Qed.

Lemma Qle_bool_false a b : Qle_bool a b = false <-> b < a.
Proof.
  split.
  - intros H. apply Qnot_le_lt. intros H'. apply Qle_bool_iff in H'. congruence.
  - intros H. destruct (Qle_bool a b) eqn:E; [|done]. apply Qle_bool_iff in E. lra.
Qed.

Lemma Qlt_bool_false a b : Qlt_bool a b = false <-> b <= a.
Proof.
  unfold Qlt_bool. rewrite negb_false_iff. apply Qle_bool_iff.
Qed.

(** Case analysis on the first JS comparison of the goal, with the
    comparison's meaning as a hypothesis. *)
Ltac qbool_case :=
  match goal with
  | |- context [Qlt_bool ?a ?b] =>
      let E := fresh "E" in
      destruct (Qlt_bool a b) eqn:E;
      [apply Qlt_bool_iff in E | apply Qlt_bool_false in E]
  | |- context [Qle_bool ?a ?b] =>
      let E := fresh "E" in
      destruct (Qle_bool a b) eqn:E;
      [apply Qle_bool_iff in E | apply Qle_bool_false in E]
  end.

(** [lra] over rationals with embedded integers: integer literals become
    rational literals and every other [inject_Z z] an opaque rational. *)
Ltac qlra_atom z :=
  lazymatch z with
  | Zpos ?p => change (inject_Z (Zpos p)) with (Qmake (Zpos p) 1) in *
  | Z0 => change (inject_Z Z0) with (Qmake Z0 1) in *
  | Zneg ?p => change (inject_Z (Zneg p)) with (Qmake (Zneg p) 1) in *
  | _ => let q := fresh "q" in set (q := inject_Z z) in *; clearbody q
  end.

Ltac qlra :=
  repeat match goal with
  | H : context [inject_Z ?z] |- _ => qlra_atom z
  | |- context [inject_Z ?z] => qlra_atom z
  end; lra.

(** [Math.round(q)]: the integer nearest to [q], halves rounded up. *)
Definition js_round (q : Q) : Z := Qfloor (q + (1 # 2)).

Lemma js_round_spec q :
  inject_Z (js_round q) <= q + (1 # 2) < inject_Z (js_round q) + 1.
Proof.
  unfold js_round. split; [apply Qfloor_le|].
  pose proof (Qlt_floor (q + (1 # 2))) as H. rewrite inject_Z_plus in H. exact H.
Qed.

Lemma js_round_compat (a b : Q) : a == b -> js_round a = js_round b.
Proof. intros H. unfold js_round. apply Qfloor_comp. by rewrite H. Qed.

Lemma js_round_unique q (z : Z) :
  inject_Z z <= q + (1 # 2) < inject_Z z + 1 -> js_round q = z.
Proof.
  intros [H1 H2]. pose proof (js_round_spec q) as [H3 H4].
  set (r := js_round q) in *.
  assert (inject_Z r < inject_Z (z + 1)) as A by (rewrite inject_Z_plus; change (inject_Z 1) with 1; lra).
  assert (inject_Z z < inject_Z (r + 1)) as B by (rewrite inject_Z_plus; change (inject_Z 1) with 1; lra).
  rewrite <- Zlt_Qlt in A, B. lia.
Qed.

Lemma js_round_Z (z : Z) : js_round (inject_Z z) = z.
Proof. apply js_round_unique. lra. Qed.

(** [Math.round(n / I) * I] gives back [n] exactly when [n] is a multiple
    of [I]. *)
Lemma round_div_mul_eq_iff (n I : Z) :
  (0 < I)%Z -> (((2 * n + I) / (2 * I)) * I = n <-> n mod I = 0)%Z.
Proof.
  intros HI. split.
  - intros <-. apply Z.mod_mul. lia.
  - intros Hm. apply Z.mod_divide in Hm as [m ->]; [|lia].
    replace (2 * (m * I) + I)%Z with (I + m * (2 * I))%Z by lia.
    rewrite Z.div_add by lia. rewrite Z.div_small by lia. lia.
Qed.

(** Rounding the quotient of two integers: [Math.round(n / d)] for
    [d > 0] is the integer division [(2n + d) / (2d)]. *)
Lemma js_round_div (n d : Z) :
  (0 < d)%Z -> js_round (inject_Z n / inject_Z d) = ((2 * n + d) / (2 * d))%Z.
Proof.
  intros Hd. unfold js_round. rewrite Zdiv_Qdiv. apply Qfloor_comp.
  assert (~ inject_Z d == 0) as Hd'.
  { assert (0 < inject_Z d) by (change 0 with (inject_Z 0); rewrite <- Zlt_Qlt; lia).
    intros E. lra. }
  rewrite !inject_Z_plus, !inject_Z_mult. field. exact Hd'.
Qed.

(** A number stored where the development keeps whole milliseconds: its
    integer value when it has one. *)
Definition Q_to_Z_exact (q : Q) : option Z :=
  if Qeq_bool (inject_Z (Qfloor q)) q then Some (Qfloor q) else None.

Lemma Q_to_Z_exact_eq q (z : Z) : q == inject_Z z -> Q_to_Z_exact q = Some z.
Proof.
  intros H. unfold Q_to_Z_exact. rewrite (Qfloor_comp _ _ H), Qfloor_Z.
  by rewrite (proj2 (Qeq_bool_iff _ _) (Qeq_sym _ _ H)).
Qed.

Lemma Q_to_Z_exact_None q : (forall z : Z, ~ q == inject_Z z) -> Q_to_Z_exact q = None.
Proof.
  intros H. unfold Q_to_Z_exact. destruct (Qeq_bool _ _) eqn:E; [|done].
  apply Qeq_bool_iff in E. destruct (H (Qfloor q)). by rewrite E.
Qed.

(** The order of [Q] is decidable, for stdpp's [decide] and
    [merge_sort]. *)
#[export] Instance Qle_decision (a b : Q) : Decision (a <= b).
Proof. destruct (Qlt_le_dec b a) as [H|H]; [right; lra|left; exact H]. Defined.

(** [Math.floor] is determined by its bounds, and commutes with adding
    an integer. *)
Lemma Qfloor_unique q (z : Z) : inject_Z z <= q < inject_Z z + 1 -> Qfloor q = z.
Proof.
  intros [H1 H2]. pose proof (Qfloor_le q). pose proof (Qlt_floor q) as H3.
  rewrite inject_Z_plus in H3. set (f := Qfloor q) in *.
  assert (inject_Z f < inject_Z (z + 1)) as A by (rewrite inject_Z_plus; qlra).
  assert (inject_Z z < inject_Z (f + 1)) as B by (rewrite inject_Z_plus; qlra).
  rewrite <- Zlt_Qlt in A, B. lia.
Qed.

Lemma Qfloor_plus_Z q (n : Z) : Qfloor (q + inject_Z n) = (Qfloor q + n)%Z.
Proof.
  apply Qfloor_unique. pose proof (Qfloor_le q) as Hl. pose proof (Qlt_floor q) as Hu.
  rewrite inject_Z_plus in *. qlra.
Qed.

(** Membership in the concatenation of a loop's outputs. *)
Lemma elem_of_flat_map {A B} (f : A -> list B) (l : list A) (y : B) :
  y ∈ flat_map f l <-> exists x, x ∈ l /\ y ∈ f x.
Proof.
  rewrite list_elem_of_In, in_flat_map.
  setoid_rewrite <- list_elem_of_In. done.
Qed.

(** ** A state monad

    Module-level [let] variables that functions read and assign (the
    colour cache of theme-colors.ts) are threaded as a state [S]; [St S]
    is an instance of stdpp's monad classes, so the code reads with
    [x ← m; k]. *)

Definition St (S A : Type) : Type := S -> A * S.

#[export] Instance St_ret {S} : MRet (St S) := fun A a s => (a, s).
#[export] Instance St_bind {S} : MBind (St S) :=
  fun A B f m s => let '(a, s') := m s in f a s'.

Definition st_get {S} : St S S := fun s => (s, s).
Definition st_put {S} (s : S) : St S unit := fun _ => (tt, s).

(** Running [m] from [s]: its result and its final state. *)
Definition st_run {S A} (m : St S A) (s : S) : A * S := m s.

Lemma st_run_bind {S A B} (m : St S A) (f : A -> St S B) s :
  st_run (m ≫= f) s = let '(a, s') := st_run m s in st_run (f a) s'.
Proof. reflexivity. Qed.

Lemma st_run_ret {S A} (a : A) (s : S) : st_run (mret a) s = (a, s).
Proof. reflexivity. Qed.

(** Computing a run of the state monad. *)
Ltac st_unfold := unfold st_run, mbind, St_bind, mret, St_ret, st_get, st_put in *; cbn in *.
