(* ===== verification/Types.v ===== *)
(** * Types: the data model of src/src/features/gantt/types/index.ts

    One Inductive per string-literal union of the source, one Record per
    interface.  Record fields keep the source's names; where two
    interfaces share a field name ([id], [name], [color], [type],
    [priority]) the field is prefixed by its record.  Branded ids
    ([TaskId], [ResourceId], ...) are strings.  Display-only fields that
    no modelled code reads ([description], [metadata]) are left out.
    Every type has decidable equality, used by the structural-equality
    guard of the undo history and by [decide] in proofs. *)

From S2P Require Import Prelude.

(** [TaskPhase["type"]] *)
Inductive PhaseType := setup | execution | cleanup.

(** [TaskPhase]: a duration in minutes and an optional colour. *)
Record TaskPhase := mkPhase {
  phaseType : PhaseType;
  duration : Z;
  phaseColor : option string;
}.

(** [DependencyType] *)
Inductive DependencyType := FS | FF | SS | SF.

(** [TaskDependency]; [lag] in minutes, possibly negative. *)
Record TaskDependency := mkDependency {
  dep_id : string;
  predecessorId : string;
  successorId : string;
  dep_type : DependencyType;
  lag : Z;
}.

(** [ResourceType] *)
Inductive ResourceType := operator | machine | generic.

(** [Resource] *)
Record Resource := mkResource {
  resource_id : string;
  resource_name : string;
  resource_type : ResourceType;
  capacity : Z;
  groupId : option string;
  resource_color : option string;
}.

(** [ResourceGroup] *)
Record ResourceGroup := mkGroup {
  group_id : string;
  group_name : string;
  group_type : ResourceType;
  group_color : option string;
}.

(** [TaskStatus] *)
Inductive TaskStatus := scheduled | in_progress | completed | blocked.

(** [Task["constraints"]] *)
Record TaskConstraints := mkConstraints {
  earliestStart : option Z;
  latestEnd : option Z;
  fixedTime : option bool;
}.

(** [Task]: [startTime] and [_endTime] in ms, [_totalDuration] in
    minutes; [_endTime] and [_totalDuration] are the cached fields that
    [hydrateTask] computes. *)
Record Task := mkTask {
  task_id : string;
  startTime : Z;
  phases : list TaskPhase;
  _endTime : Z;
  _totalDuration : Z;
  resourceId : string;
  orderId : string;
  task_name : string;
  task_color : option string;
  task_priority : Z;
  status : TaskStatus;
  progress : Z;
  constraints : option TaskConstraints;
}.

(** [StoredTask = Omit<Task, "_endTime" | "_totalDuration">] *)
Record StoredTask := mkStoredTask {
  st_id : string;
  st_startTime : Z;
  st_phases : list TaskPhase;
  st_resourceId : string;
  st_orderId : string;
  st_name : string;
  st_color : option string;
  st_priority : Z;
  st_status : TaskStatus;
  st_progress : Z;
  st_constraints : option TaskConstraints;
}.

(** [Partial<StoredTask>]: [None] is an absent key.  The optional
    fields [color] and [constraints] may also be present with the value
    [undefined], which [Object.assign] copies: [Some None].  A required
    field set to [undefined] makes a [Task] outside its type, which the
    model does not represent. *)
Record TaskUpdate := mkTaskUpdate {
  up_id : option string;
  up_startTime : option Z;
  up_phases : option (list TaskPhase);
  up_resourceId : option string;
  up_orderId : option string;
  up_name : option string;
  up_color : option (option string);
  up_priority : option Z;
  up_status : option TaskStatus;
  up_progress : option Z;
  up_constraints : option (option TaskConstraints);
}.

Definition no_update : TaskUpdate :=
  mkTaskUpdate None None None None None None None None None None None.

(** [Order] *)
Record Order := mkOrder {
  order_id : string;
  order_name : string;
  order_priority : Z;
  dueDate : option Z;
}.

(** [ZoomLevel] *)
Inductive ZoomLevel := hour | day | week | month.

(** [ViewportState]: pixel quantities and the zoom are rationals. *)
Record ViewportState := mkViewport {
  scrollX : Q;
  timeOrigin : Q;
  pixelsPerHour : Q;
  scrollY : Q;
  rowHeight : Q;
  width : Q;
  height : Q;
  zoomLevel : ZoomLevel;
}.

(** [SelectionState] *)
Record SelectionState := mkSelection {
  sel_taskIds : gset string;
  sel_resourceIds : gset string;
  lastSelectedTaskId : option string;
}.

(** [DragType] *)
Inductive DragType := move | resize_start | resize_end | reassign.

(** An element of [DragState["dependencyViolations"]]. *)
Record DependencyViolation := mkViolation {
  dependencyId : string;
  message : string;
}.

(** [DragState]: the preview times are rationals (the pointer delta is
    divided by the zoom). *)
Record DragState := mkDrag {
  drag_type : DragType;
  drag_taskId : string;
  originalTask : Task;
  previewStartTime : Q;
  previewEndTime : Q;
  previewResourceId : string;
  collisions : list string;
  dependencyViolations : list DependencyViolation;
  startX : Q;
  startY : Q;
  currentX : Q;
  currentY : Q;
}.

(** [GroupingMode] *)
Inductive GroupingMode := mode_order | mode_resource_type | mode_none.

(** [GroupingState] *)
Record GroupingState := mkGrouping {
  mode : GroupingMode;
  expandedGroups : gset string;
}.

(** [VirtualRow] *)
Record VirtualRow := mkRow {
  row_id : string;
  row_resourceId : option string;
  virtualY : Q;
  row_height : Q;
  isGroupHeader : bool;
  row_groupId : option string;
  groupName : option string;
  isCollapsed : option bool;
}.

(** [HitZone = "body" | "resize-start" | "resize-end" | null]; [null] is
    [None] of [option HitZone]. *)
Inductive HitZone := zone_body | zone_resize_start | zone_resize_end.

(** [TaskBounds]: time along x (ms), virtual rows along y. *)
Record TaskBounds := mkBounds {
  minX : Z;
  minY : Q;
  maxX : Z;
  maxY : Q;
  bounds_taskId : string;
}.

(** [RenderLayer] *)
Inductive RenderLayer := layer_grid | layer_tasks | layer_dependencies | layer_interaction.

(** ** Decidable equality *)

#[export] Instance PhaseType_eq_dec : EqDecision PhaseType.
Proof. solve_decision. Defined.
#[export] Instance TaskPhase_eq_dec : EqDecision TaskPhase.
Proof. solve_decision. Defined.
#[export] Instance DependencyType_eq_dec : EqDecision DependencyType.
Proof. solve_decision. Defined.
#[export] Instance TaskDependency_eq_dec : EqDecision TaskDependency.
Proof. solve_decision. Defined.
#[export] Instance ResourceType_eq_dec : EqDecision ResourceType.
Proof. solve_decision. Defined.
#[export] Instance Resource_eq_dec : EqDecision Resource.
Proof. solve_decision. Defined.
#[export] Instance ResourceGroup_eq_dec : EqDecision ResourceGroup.
Proof. solve_decision. Defined.
#[export] Instance Order_eq_dec : EqDecision Order.
Proof. solve_decision. Defined.
#[export] Instance TaskStatus_eq_dec : EqDecision TaskStatus.
Proof. solve_decision. Defined.
#[export] Instance TaskConstraints_eq_dec : EqDecision TaskConstraints.
Proof. solve_decision. Defined.
#[export] Instance Task_eq_dec : EqDecision Task.
Proof. solve_decision. Defined.
#[export] Instance ZoomLevel_eq_dec : EqDecision ZoomLevel.
Proof. solve_decision. Defined.
#[export] Instance DragType_eq_dec : EqDecision DragType.
Proof. solve_decision. Defined.
#[export] Instance GroupingMode_eq_dec : EqDecision GroupingMode.
Proof. solve_decision. Defined.
#[export] Instance HitZone_eq_dec : EqDecision HitZone.
Proof. solve_decision. Defined.
#[export] Instance RenderLayer_eq_dec : EqDecision RenderLayer.
Proof. solve_decision. Defined.
#[local] Instance Q_eq_dec : EqDecision Q.
Proof. intros [n1 d1] [n2 d2]. solve_decision. Defined.
#[export] Instance VirtualRow_eq_dec : EqDecision VirtualRow.
Proof. solve_decision. Defined.
#[export] Instance TaskBounds_eq_dec : EqDecision TaskBounds.
Proof. solve_decision. Defined.

(** [task.constraints?.fixedTime] as a JS condition. *)
Definition isFixedTime (t : Task) : bool :=
  match constraints t with
  | Some c => match fixedTime c with Some true => true | _ => false end
  | None => false
  end.
