(* ===== verification/TaskUtils.v ===== *)
(** * TaskUtils: src/unnamed/part_005 (features/gantt/utils/task-utils.ts)

    The derived fields of a task ([calculateTotalDuration],
    [calculateEndTime], [hydrateTask]), the phase ranges the task renderer
    draws ([getPhaseRanges]), the overlap tests, [snapToInterval] and
    [formatDuration] (on whole minutes).
    The theorems: the cached fields of a hydrated task are a round trip of
    its stored fields, the phase ranges tile the task's time span, the
    reduce of the source equals the sum of the durations, snapping
    yields the nearest multiple of the interval, and [formatDuration]
    prints different durations differently. *)

From Stdlib Require Import Ascii.
From stdpp Require Import pretty.
From S2P Require Import Prelude Types.

Open Scope Z_scope.

(** Milliseconds per minute, as the source writes it ([60 * 1000]). *)

(** [calculateTotalDuration]: [phases.reduce((sum, p) => sum + p.duration, 0)]. *)
Definition calculateTotalDuration (ps : list TaskPhase) : Z :=
  fold_left (fun sum p => sum + duration p) ps 0.

(** [calculateEndTime] *)
Definition calculateEndTime (start : Z) (ps : list TaskPhase) : Z :=
  start + calculateTotalDuration ps * 60 * 1000.

(** [hydrateTask]: the stored fields, then the two computed ones. *)
Definition hydrateTask (s : StoredTask) : Task :=
  let totalDuration := calculateTotalDuration (st_phases s) in
  {| task_id := st_id s; startTime := st_startTime s; phases := st_phases s;
     _endTime := st_startTime s + totalDuration * 60 * 1000;
     _totalDuration := totalDuration;
     resourceId := st_resourceId s; orderId := st_orderId s;
     task_name := st_name s; task_color := st_color s;
     task_priority := st_priority s; status := st_status s;
     progress := st_progress s; constraints := st_constraints s |}.

(** One element of the array [getPhaseRanges] returns. *)
Record PhaseRange := mkRange {
  range_type : PhaseType;
  range_start : Z;
  range_end : Z;
  range_color : option string;
}.

(** The loop of [getPhaseRanges] from [currentStart] on. *)
Fixpoint phaseRangesFrom (currentStart : Z) (ps : list TaskPhase) : list PhaseRange :=
  match ps with
  | [] => []
  | p :: ps' =>
      let phaseDurationMs := duration p * 60 * 1000 in
      mkRange (phaseType p) currentStart (currentStart + phaseDurationMs) (phaseColor p)
        :: phaseRangesFrom (currentStart + phaseDurationMs) ps'
  end.

(** [getPhaseRanges] *)
Definition getPhaseRanges (t : Task) : list PhaseRange :=
  phaseRangesFrom (startTime t) (phases t).

(** [PHASE_COLORS] and [getPhaseColor]: the phase's colour, else its
    type's default. *)
Definition PHASE_COLORS (ty : PhaseType) : string :=
  match ty with
  | setup => "#f59e0b"
  | execution => "#3b82f6"
  | cleanup => "#8b5cf6"
  end.

Definition getPhaseColor (p : TaskPhase) : string :=
  match phaseColor p with Some c => c | None => PHASE_COLORS (phaseType p) end.

(** [tasksOverlap] and [taskOverlapsRange]: open-interval overlap. *)
Definition tasksOverlap (a b : Task) : bool :=
  (startTime a <? _endTime b) && (startTime b <? _endTime a).

Definition taskOverlapsRange (t : Task) (rangeStart rangeEnd : Z) : bool :=
  (startTime t <? rangeEnd) && (rangeStart <? _endTime t).

(** [snapToInterval]: [Math.round(timestamp / intervalMs) * intervalMs]. *)
Definition snapToInterval (timestamp : Q) (intervalMinutes : Z) : Z :=
  let intervalMs := intervalMinutes * 60 * 1000 in
  js_round (timestamp / inject_Z intervalMs) * intervalMs.

(** [formatDuration] on a whole number of minutes: [Math.floor] is
    [Z.div], JavaScript's [%] is [Z.rem] and an integer prints in decimal
    ([pretty]). *)
Definition formatDuration (minutes : Z) : string :=
  if decide (minutes < 60) then pretty minutes +:+ "m"
  else
    let hours := minutes / 60 in
    let remainingMinutes := Z.rem minutes 60 in
    if decide (remainingMinutes = 0) then pretty hours +:+ "h"
    else pretty hours +:+ "h " +:+ pretty remainingMinutes +:+ "m".

(** ** The invariant of a hydrated task *)

(** The cached fields agree with the stored ones.  The store keeps this
    for every task (Store.v). *)
Definition task_hydrated (t : Task) : Prop :=
  _totalDuration t = calculateTotalDuration (phases t) /\
  _endTime t = startTime t + _totalDuration t * 60 * 1000.

Definition task_hydratedb (t : Task) : bool :=
  bool_decide (_totalDuration t = calculateTotalDuration (phases t)) &&
  bool_decide (_endTime t = startTime t + _totalDuration t * 60 * 1000).

Lemma task_hydratedb_spec t : task_hydratedb t = true <-> task_hydrated t.
Proof.
  unfold task_hydratedb, task_hydrated.
  by rewrite andb_true_iff, !bool_decide_eq_true.
Qed.

(** The stored part of a task ([StoredTask] is [Task] without the cache). *)
Definition dehydrate (t : Task) : StoredTask :=
  {| st_id := task_id t; st_startTime := startTime t; st_phases := phases t;
     st_resourceId := resourceId t; st_orderId := orderId t;
     st_name := task_name t; st_color := task_color t;
     st_priority := task_priority t; st_status := status t;
     st_progress := progress t; st_constraints := constraints t |}.

(** ** Lemmas *)

Lemma calculateTotalDuration_acc ps acc :
  fold_left (fun sum p => sum + duration p) ps acc =
  acc + sumZ duration ps.
Proof.
  revert acc. induction ps as [|p ps IH]; intros acc; simpl; [lia|].
  rewrite IH. lia.
Qed.

Lemma calculateTotalDuration_cons p ps :
  calculateTotalDuration (p :: ps) = duration p + calculateTotalDuration ps.
Proof. unfold calculateTotalDuration. rewrite !calculateTotalDuration_acc. simpl. lia. Qed.

Lemma hydrateTask_hydrated s : task_hydrated (hydrateTask s).
Proof. split; reflexivity. Qed.

Lemma phaseRangesFrom_length start ps : length (phaseRangesFrom start ps) = length ps.
Proof. revert start. induction ps; simpl; auto. Qed.

(** The last range ends where the sum of the durations says. *)
Lemma phaseRangesFrom_end start ps r :
  last (phaseRangesFrom start ps) = Some r -> range_end r = calculateEndTime start ps.
Proof.
  unfold calculateEndTime. revert start.
  induction ps as [|p ps IH]; intros start; [done|].
  simpl phaseRangesFrom. destruct ps as [|p' ps'].
  - simpl. intros [= <-]. simpl. unfold calculateTotalDuration. simpl. lia.
  - rewrite last_cons. intros Hr.
    destruct (last (phaseRangesFrom (start + duration p * 60 * 1000) (p' :: ps')))
      as [y|] eqn:E.
    + injection Hr as <-. rewrite (IH _ E), (calculateTotalDuration_cons p (p' :: ps')). lia.
    + apply last_None in E. discriminate.
Qed.

(** Consecutive ranges share their boundary. *)
Lemma phaseRangesFrom_contiguous start ps i r1 r2 :
  phaseRangesFrom start ps !! i = Some r1 ->
  phaseRangesFrom start ps !! S i = Some r2 -> range_start r2 = range_end r1.
Proof.
  revert start i. induction ps as [|p ps IH]; intros start i; [done|].
  destruct i as [|i]; simpl.
  - intros [= <-]. destruct ps; simpl; [done|]. by intros [= <-].
  - apply IH.
Qed.

(** Whether a character occurs in a string. *)
Fixpoint str_mem (c : ascii) (s : string) : bool :=
  match s with
  | EmptyString => false
  | String a s' => bool_decide (a = c) || str_mem c s'
  end.

Lemma str_mem_app c s1 s2 : str_mem c (s1 +:+ s2) = str_mem c s1 || str_mem c s2.
Proof.
  induction s1 as [|a s1 IH]; [done|].
  change (String a s1 +:+ s2) with (String a (s1 +:+ s2)). cbn [str_mem]. rewrite IH. apply orb_assoc.
Qed.

(** A decimal number has no character that is neither a digit nor the
    sign. *)
Lemma pretty_Z_str_mem c (z : Z) :
  (forall d, pretty_N_char d <> c) -> c <> "-"%char -> str_mem c (pretty z) = false.
Proof.
  intros Hd Hm.
  assert (Hgo : forall x s, str_mem c s = false -> str_mem c (pretty_N_go x s) = false).
  { intros x. induction x as [x IH] using (well_founded_induction N.lt_wf_0); intros s Hs.
    destruct (decide (x = 0%N)) as [->|Hx]; [done|].
    rewrite pretty_N_go_step by lia. apply IH; [apply N.div_lt; lia|].
    cbn. rewrite Hs, orb_false_r. by apply bool_decide_eq_false. }
  assert (Hp : forall p : positive, str_mem c (pretty p) = false).
  { intros p. change (pretty p) with (pretty (N.pos p)). unfold pretty, pretty_N.
    rewrite decide_False by done. by apply Hgo. }
  destruct z as [|p|p]; cbn.
  - rewrite bool_decide_eq_false_2; [done|exact (Hd 0%N)].
  - apply Hp.
  - change ("-" +:+ pretty p) with (String "-" (pretty p)). cbn [str_mem].
    rewrite bool_decide_eq_false_2 by (intros H; by apply Hm). apply Hp.
Qed.

(** Two strings without [c] followed by [c] split at that [c]. *)
Lemma str_split_at c a b x y :
  str_mem c a = false -> str_mem c b = false ->
  a +:+ String c x = b +:+ String c y -> a = b /\ x = y.
Proof.
  revert b. induction a as [|e a IH]; intros [|e' b] Ha Hb H; cbn in *.
  - by injection H.
  - apply orb_false_iff in Hb as [Hb _]. apply bool_decide_eq_false in Hb. by injection H as ->.
  - apply orb_false_iff in Ha as [Ha _]. apply bool_decide_eq_false in Ha. by injection H as ->.
  - apply orb_false_iff in Ha as [_ Ha], Hb as [_ Hb]. injection H as -> H.
    destruct (IH b Ha Hb H) as [-> ->]. done.
Qed.

Lemma pretty_no_h (z : Z) : str_mem "h" (pretty z) = false.
Proof. apply pretty_Z_str_mem; [intros d; unfold pretty_N_char; by repeat case_match|done]. Qed.
Lemma pretty_no_m (z : Z) : str_mem "m" (pretty z) = false.
Proof. apply pretty_Z_str_mem; [intros d; unfold pretty_N_char; by repeat case_match|done]. Qed.

(** The three forms [formatDuration] prints. *)
Lemma formatDuration_cases m :
  (m < 60 /\ formatDuration m = pretty m +:+ String "m" "") \/
  (60 <= m /\ formatDuration m = pretty (m / 60) +:+ String "h" "" /\ m = 60 * (m / 60)) \/
  (60 <= m /\ formatDuration m =
     pretty (m / 60) +:+ String "h" (String " " (pretty (Z.rem m 60) +:+ String "m" "")) /\
   m = 60 * (m / 60) + Z.rem m 60).
Proof.
  unfold formatDuration. case_decide; [by left|right].
  rewrite Z.rem_mod_nonneg by lia. pose proof (Z.div_mod m 60 ltac:(lia)).
  case_decide; [left|right]; split_and!; try done; lia.
Qed.

(** A printed duration has an ["h"] exactly when it is an hour or more. *)
Lemma str_mem_h_minutes (z : Z) : str_mem "h" (pretty z +:+ String "m" "") = false.
Proof. by rewrite str_mem_app, pretty_no_h. Qed.

Lemma str_mem_h_hours (z : Z) x : str_mem "h" (pretty z +:+ String "h" x) = true.
Proof. rewrite str_mem_app. cbn. by rewrite orb_true_r. Qed.

#[export] Hint Resolve hydrateTask_hydrated : gantt.
#[export] Hint Rewrite calculateTotalDuration_cons : gantt_rw.

(** ** Theorems *)

(** Round trip of the cache: hydrating the stored part of a task
    whose cached fields are consistent gives back the task, and the stored
    part of a hydrated task is what was stored.  So recomputing
    [_endTime]/[_totalDuration] from [phases] reproduces the derived
    values of the first hydration. *)
Theorem hydrate_dehydrate_roundtrip (t : Task) (s : StoredTask) :
  task_hydrated t ->
  hydrateTask (dehydrate t) = t /\ dehydrate (hydrateTask s) = s.
Proof.
  intros [Htot Hend]. split.
  - destruct t; simpl in *. unfold hydrateTask; simpl. subst. reflexivity.
  - by destruct s.
Qed.

Lemma hydrate_dehydrate_roundtrip_witness :
  let t := hydrateTask (mkStoredTask "t1" 1000 [mkPhase setup 20 None; mkPhase execution 100 None]
                          "r1" "o1" "T" None 3 scheduled 0 None) in
  task_hydrated t /\ hydrateTask (dehydrate t) = t /\ dehydrate (hydrateTask (dehydrate t)) = dehydrate t.
Proof.
  intros t. split; [apply hydrateTask_hydrated|].
  apply hydrate_dehydrate_roundtrip. apply hydrateTask_hydrated.
Defined.

(** The phase ranges tile the task: there is one range per phase, the
    first starts at [startTime], each starts where the previous ends, and
    for a hydrated task the last ends at [_endTime]. *)
Theorem getPhaseRanges_tile (t : Task) :
  task_hydrated t ->
  length (getPhaseRanges t) = length (phases t) /\
  (forall r, head (getPhaseRanges t) = Some r -> range_start r = startTime t) /\
  (forall i r1 r2, getPhaseRanges t !! i = Some r1 -> getPhaseRanges t !! S i = Some r2 ->
     range_start r2 = range_end r1) /\
  (forall r, last (getPhaseRanges t) = Some r -> range_end r = _endTime t).
Proof.
  intros [Htot Hend]. unfold getPhaseRanges.
  split; [apply phaseRangesFrom_length|]. split; [|split].
  - destruct (phases t); simpl; [done|]. by intros r [= <-].
  - apply phaseRangesFrom_contiguous.
  - intros r Hr. rewrite (phaseRangesFrom_end _ _ _ Hr), Hend, Htot. reflexivity.
Qed.

Lemma getPhaseRanges_tile_witness :
  let t := hydrateTask (mkStoredTask "t1" 0 [mkPhase setup 20 None; mkPhase execution 100 None;
                          mkPhase cleanup 20 None] "r1" "o1" "T" None 3 scheduled 0 None) in
  task_hydrated t /\ length (getPhaseRanges t) = 3%nat /\
  last (getPhaseRanges t) = Some (mkRange cleanup 7200000 8400000 None).
Proof.
  intros t. pose proof (getPhaseRanges_tile t (hydrateTask_hydrated _)) as [Hl _].
  split; [apply hydrateTask_hydrated|]. split; [exact Hl|]. reflexivity.
Defined.

(** The [reduce] of [calculateTotalDuration] is the sum of the phase
    durations (a left fold from 0 equals the reference right-nested sum),
    and [calculateEndTime] is [hydrateTask]'s end time. *)
Theorem calculateTotalDuration_sum (ps : list TaskPhase) (s : StoredTask) :
  calculateTotalDuration ps = sumZ duration ps /\
  _endTime (hydrateTask s) = calculateEndTime (st_startTime s) (st_phases s).
Proof.
  split; [|reflexivity].
  unfold calculateTotalDuration. rewrite calculateTotalDuration_acc. lia.
Qed.

(** [snapToInterval] for a positive interval returns a multiple of the
    interval in ms that is nearest to the timestamp: no farther than half
    an interval, and ties go up. *)
Theorem snapToInterval_nearest (timestamp : Q) (intervalMinutes : Z) :
  0 < intervalMinutes ->
  let I := intervalMinutes * 60 * 1000 in
  (snapToInterval timestamp intervalMinutes) mod I = 0 /\
  (inject_Z (snapToInterval timestamp intervalMinutes) - inject_Z I * (1 # 2) <= timestamp)%Q /\
  (timestamp < inject_Z (snapToInterval timestamp intervalMinutes) + inject_Z I * (1 # 2))%Q.
Proof.
  intros Hpos I. unfold snapToInterval. fold I.
  assert (0 < I) as HI by (unfold I; lia).
  assert (0 < inject_Z I)%Q as HIq by (change 0%Q with (inject_Z 0); rewrite <- Zlt_Qlt; lia).
  pose proof (js_round_spec (timestamp / inject_Z I)) as [H1 H2].
  set (r := js_round (timestamp / inject_Z I)) in *.
  split; [apply Z_mod_mult|].
  rewrite inject_Z_mult.
  assert (Hmul : forall a b : Q, (a <= b)%Q -> (a * inject_Z I <= b * inject_Z I)%Q)
    by (intros a b Hab; apply Qmult_le_compat_r; lra).
  assert (Hmul' : forall a b : Q, (a < b)%Q -> (a * inject_Z I < b * inject_Z I)%Q)
    by (intros a b Hab; apply Qmult_lt_compat_r; lra).
  assert (Hdiv : (timestamp / inject_Z I * inject_Z I == timestamp)%Q)
    by (field; lra).
  split.
  - apply Hmul in H1. rewrite Qmult_plus_distr_l, Hdiv in H1. lra.
  - apply Hmul' in H2. rewrite Qmult_plus_distr_l, Hdiv in H2. lra.
Qed.

Lemma snapToInterval_nearest_witness :
  snapToInterval (inject_Z 2700000) 30 = 3600000 /\
  (let I := 30 * 60 * 1000 in
   (snapToInterval (inject_Z 2700000) 30) mod I = 0 /\
   (inject_Z (snapToInterval (inject_Z 2700000) 30) - inject_Z I * (1 # 2) <= inject_Z 2700000)%Q /\
   (inject_Z 2700000 < inject_Z (snapToInterval (inject_Z 2700000) 30) + inject_Z I * (1 # 2))%Q).
Proof. split; [reflexivity|]. apply snapToInterval_nearest. lia. Defined.

(** [formatDuration] loses no information on whole minutes: two
    different durations never print the same string, whether as
    minutes, whole hours or hours and minutes. *)
Theorem formatDuration_inj (m1 m2 : Z) : formatDuration m1 = formatDuration m2 -> m1 = m2.
Proof.
  intros H.
  destruct (formatDuration_cases m1) as [(? & E1)|[(? & E1 & M1)|(? & E1 & M1)]],
    (formatDuration_cases m2) as [(? & E2)|[(? & E2 & M2)|(? & E2 & M2)]];
    rewrite E1, E2 in H; clear E1 E2;
    try (apply (f_equal (str_mem "h")) in H;
         rewrite ?str_mem_h_minutes, ?str_mem_h_hours in H; discriminate).
  - apply str_split_at in H as [H _]; [by apply (inj pretty)|apply pretty_no_m..].
  - apply str_split_at in H as [H _]; [|apply pretty_no_h..]. apply (inj pretty) in H. lia.
  - apply str_split_at in H as [_ H]; [discriminate|apply pretty_no_h..].
  - apply str_split_at in H as [_ H]; [discriminate|apply pretty_no_h..].
  - apply str_split_at in H as [Hh H]; [|apply pretty_no_h..]. injection H as H.
    apply str_split_at in H as [Hr _]; [|apply pretty_no_m..].
    apply (inj pretty) in Hh, Hr. lia.
Qed.

Example formatDuration_examples :
  formatDuration 45 = "45m" /\ formatDuration 120 = "2h" /\ formatDuration 150 = "2h 30m" /\
  formatDuration (-90) = "-90m".
Proof. split_and!; reflexivity. Qed.
