(* ===== verification/Viewport.v ===== *)
(** * Viewport: the Viewport Transform

    [ViewportManager] of src/src/features/gantt/engine/viewport-manager.ts
    (coordinate transforms, visibility tests, grid snapping) and the
    viewport actions of the store in src/unnamed/part_001 ([getZoomLevel],
    [getSnapIntervalMs], [panViewport], [zoomViewport], [setZoomLevel],
    [scrollToTime], [scrollToRow]).  All quantities are exact rationals.
    The theorems: the transforms are inverse to each other, zooming keeps
    the time under the cursor and the zoom within [[0.25, 120]], the zoom
    level follows the thresholds, and the snap interval is the zoom tier's
    interval floored by the minimum resolution. *)

From S2P Require Import Prelude Types TaskUtils.

Open Scope Q_scope.

(** [MS_PER_HOUR = 60 * 60 * 1000] *)
Definition MS_PER_HOUR : Q := 3600000.

(** The state of a [ViewportManager]: the viewport, the canvas's bounding
    rectangle ([left], [top]) once [setCanvasRect] ran, and the device
    pixel ratio. *)
Record ViewportManager := mkViewportManager {
  vm_viewport : ViewportState;
  vm_canvasRect : option (Q * Q);
  vm_dpr : Q;
}.

Section Transforms.
Variable v : ViewportState.

(** [timeToX] *)
Definition timeToX (timestamp : Q) : Q :=
  let hoursFromOrigin := (timestamp - timeOrigin v) / MS_PER_HOUR in
  hoursFromOrigin * pixelsPerHour v - scrollX v.

(** [virtualYToY] *)
Definition virtualYToY (vy : Q) : Q := vy - scrollY v.

(** [dataToViewport]: (x, y). *)
Definition dataToViewport (timestamp vy : Q) : Q * Q := (timeToX timestamp, virtualYToY vy).

(** [durationToWidth] *)
Definition durationToWidth (durationMs : Q) : Q :=
  durationMs / MS_PER_HOUR * pixelsPerHour v.

(** [xToTime] *)
Definition xToTime (x : Q) : Q :=
  let hoursFromOrigin := (x + scrollX v) / pixelsPerHour v in
  timeOrigin v + hoursFromOrigin * MS_PER_HOUR.

(** [yToVirtualY] *)
Definition yToVirtualY (y : Q) : Q := y + scrollY v.

(** [viewportToData]: (timestamp, virtualY). *)
Definition viewportToData (x y : Q) : Q * Q := (xToTime x, yToVirtualY y).

(** [widthToDuration] *)
Definition widthToDuration (w : Q) : Q := w / pixelsPerHour v * MS_PER_HOUR.

(** [getVisibleTimeRange] *)
Definition getVisibleTimeRange : Q * Q := (xToTime 0, xToTime (width v)).

(** [getVisibleYRange] *)
Definition getVisibleYRange : Q * Q := (scrollY v, scrollY v + height v).

(** [isTimeRangeVisible]: open overlap with the visible range. *)
Definition isTimeRangeVisible (s e : Q) : bool :=
  let '(start, end_) := getVisibleTimeRange in
  Qlt_bool s end_ && Qlt_bool start e.

(** [isYRangeVisible] *)
Definition isYRangeVisible (lo hi : Q) : bool :=
  let '(start, end_) := getVisibleYRange in
  Qlt_bool lo end_ && Qlt_bool start hi.

(** [isVisible] *)
Definition isVisible (s e lo hi : Q) : bool :=
  isTimeRangeVisible s e && isYRangeVisible lo hi.

(** [calculateZoomToFit]: the zoom that fits [[startTime, endTime]]
    in the width less [padding] on each side (50 by default). *)
Definition calculateZoomToFit (startTime endTime padding : Q) : Q :=
  let durationHours := (endTime - startTime) / MS_PER_HOUR in
  let availableWidth := width v - padding * 2 in
  availableWidth / durationHours.
End Transforms.

(** [createViewportManager]; [dpr] is [window.devicePixelRatio]. *)
Definition createViewportManager (v : ViewportState) (dpr : Q) : ViewportManager :=
  mkViewportManager v None dpr.

(** [setViewport] of the manager *)
Definition vm_setViewport (m : ViewportManager) (v : ViewportState) : ViewportManager :=
  mkViewportManager v (vm_canvasRect m) (vm_dpr m).

(** [setCanvasRect]: only [left] and [top] of the [DOMRect] are read. *)
Definition vm_setCanvasRect (m : ViewportManager) (rectLeft rectTop : Q) : ViewportManager :=
  mkViewportManager (vm_viewport m) (Some (rectLeft, rectTop)) (vm_dpr m).

(** [scale] and [unscale] *)
Definition vm_scale (m : ViewportManager) (x : Q) : Q := x * vm_dpr m.
Definition vm_unscale (m : ViewportManager) (x : Q) : Q := x / vm_dpr m.

(** [getViewport] and [getDpr] *)
Definition vm_getViewport (m : ViewportManager) : ViewportState := vm_viewport m.
Definition vm_getDpr (m : ViewportManager) : Q := vm_dpr m.

(** [screenToViewport]: [null] until the canvas rectangle is known. *)
Definition screenToViewport (m : ViewportManager) (sx sy : Q) : option (Q * Q) :=
  match vm_canvasRect m with
  | None => None
  | Some (rectLeft, rectTop) => Some (sx - rectLeft, sy - rectTop)
  end.

(** [screenToData] *)
Definition screenToData (m : ViewportManager) (sx sy : Q) : option (Q * Q) :=
  match screenToViewport m sx sy with
  | None => None
  | Some (x, y) => Some (viewportToData (vm_viewport m) x y)
  end.

(** [ZOOM_SNAP_INTERVALS] (minutes), identical in the store and the
    viewport manager. *)
Definition ZOOM_SNAP_INTERVALS (z : ZoomLevel) : Z :=
  match z with hour => 15 | day => 60 | week => 360 | month => 1440 end.

(** [getSnapIntervalMs] of the store and [getSnapInterval] of the viewport
    manager: [max(zoom tier, minResolution)] minutes, in ms. *)
Definition getSnapIntervalMs (z : ZoomLevel) (minResolution : Z) : Z :=
  let effectiveSnapMinutes := Z.max (ZOOM_SNAP_INTERVALS z) minResolution in
  (effectiveSnapMinutes * 60 * 1000)%Z.

(** The manager's [getSnapInterval]: its own copy of the table, read at
    the zoom level of its viewport ([?? 60] never applies to the four
    levels). *)
Definition vm_getSnapInterval (m : ViewportManager) (minResolution : Z) : Z :=
  let zoomSnapMinutes := ZOOM_SNAP_INTERVALS (zoomLevel (vm_viewport m)) in
  let effectiveSnapMinutes := Z.max zoomSnapMinutes minResolution in
  (effectiveSnapMinutes * 60 * 1000)%Z.

(** [snapToGrid]: [Math.round(timestamp / interval) * interval]. *)
Definition snapToGrid (v : ViewportState) (timestamp : Q) (minResolution : Z) : Z :=
  let interval := getSnapIntervalMs (zoomLevel v) minResolution in
  (js_round (timestamp / inject_Z interval) * interval)%Z.

(** [getZoomLevel] of the store. *)
Definition getZoomLevel (pph : Q) : ZoomLevel :=
  if Qle_bool 30 pph then hour
  else if Qle_bool 5 pph then day
  else if Qle_bool 1 pph then week
  else month.

(** [ZOOM_CONFIGS[level].pixelsPerHour] *)
Definition ZOOM_CONFIG_pixelsPerHour (z : ZoomLevel) : Q :=
  match z with hour => 60 | day => 10 | week => 2 | month => 1 # 2 end.

(** The clamp of [zoomViewport]: [Math.max(0.25, Math.min(120, x))]. *)
Definition clampZoom (x : Q) : Q := Qmax (1 # 4) (Qmin 120 x).

(** [Partial<ViewportState>]: [None] is an absent key. *)
Record ViewportUpdate := mkViewportUpdate {
  vu_scrollX : option Q;
  vu_timeOrigin : option Q;
  vu_pixelsPerHour : option Q;
  vu_scrollY : option Q;
  vu_rowHeight : option Q;
  vu_width : option Q;
  vu_height : option Q;
  vu_zoomLevel : option ZoomLevel;
}.

(** [setViewport]: [Object.assign(state.viewport, viewport)], then the
    zoom level follows a given [pixelsPerHour] (overriding a given
    [zoomLevel]). *)
Definition setViewport (v : ViewportState) (u : ViewportUpdate) : ViewportState :=
  let pph := default (pixelsPerHour v) (vu_pixelsPerHour u) in
  {| scrollX := default (scrollX v) (vu_scrollX u);
     timeOrigin := default (timeOrigin v) (vu_timeOrigin u);
     pixelsPerHour := pph;
     scrollY := default (scrollY v) (vu_scrollY u);
     rowHeight := default (rowHeight v) (vu_rowHeight u);
     width := default (width v) (vu_width u);
     height := default (height v) (vu_height u);
     zoomLevel := match vu_pixelsPerHour u with
                  | Some p => getZoomLevel p
                  | None => default (zoomLevel v) (vu_zoomLevel u)
                  end |}.

(** [panViewport]: both scroll offsets clamped at 0. *)
Definition panViewport (v : ViewportState) (deltaX deltaY : Q) : ViewportState :=
  {| scrollX := Qmax 0 (scrollX v + deltaX); timeOrigin := timeOrigin v;
     pixelsPerHour := pixelsPerHour v; scrollY := Qmax 0 (scrollY v + deltaY);
     rowHeight := rowHeight v; width := width v; height := height v;
     zoomLevel := zoomLevel v |}.

(** [zoomViewport]: rescale, keep the point under [centerX], clamp the
    scroll at 0, recompute the zoom level. *)
Definition zoomViewport (v : ViewportState) (factor centerX : Q) : ViewportState :=
  let oldPixelsPerHour := pixelsPerHour v in
  let newPixelsPerHour := clampZoom (oldPixelsPerHour * factor) in
  let scrollXOffset := centerX + scrollX v in
  let timeOffset := scrollXOffset / oldPixelsPerHour in
  let newScrollX := timeOffset * newPixelsPerHour - centerX in
  {| scrollX := Qmax 0 newScrollX; timeOrigin := timeOrigin v;
     pixelsPerHour := newPixelsPerHour; scrollY := scrollY v;
     rowHeight := rowHeight v; width := width v; height := height v;
     zoomLevel := getZoomLevel newPixelsPerHour |}.

(** [setZoomLevel] *)
Definition setZoomLevel (v : ViewportState) (level : ZoomLevel) : ViewportState :=
  {| scrollX := scrollX v; timeOrigin := timeOrigin v;
     pixelsPerHour := ZOOM_CONFIG_pixelsPerHour level; scrollY := scrollY v;
     rowHeight := rowHeight v; width := width v; height := height v;
     zoomLevel := level |}.

(** [scrollToTime]: centre [timestamp]; not clamped. *)
Definition scrollToTime (v : ViewportState) (timestamp : Q) : ViewportState :=
  let hoursFromOrigin := (timestamp - timeOrigin v) / (60 * 60 * 1000) in
  {| scrollX := hoursFromOrigin * pixelsPerHour v - width v / 2;
     timeOrigin := timeOrigin v; pixelsPerHour := pixelsPerHour v;
     scrollY := scrollY v; rowHeight := rowHeight v; width := width v;
     height := height v; zoomLevel := zoomLevel v |}.

(** [scrollToRow] *)
Definition scrollToRow (v : ViewportState) (rowIndex : Q) : ViewportState :=
  {| scrollX := scrollX v; timeOrigin := timeOrigin v;
     pixelsPerHour := pixelsPerHour v; scrollY := rowIndex * rowHeight v;
     rowHeight := rowHeight v; width := width v; height := height v;
     zoomLevel := zoomLevel v |}.

(** ** Lemmas *)

Lemma clampZoom_bounds x : 1 # 4 <= clampZoom x <= 120.
Proof.
  unfold clampZoom. split; [apply Q.le_max_l|].
  apply Q.max_lub; [lra|apply Q.le_min_l].
Qed.

Lemma clampZoom_pos x : 0 < clampZoom x.
Proof. pose proof (clampZoom_bounds x). lra. Qed.

Lemma Qnonzero_of_pos q : 0 < q -> ~ q == 0.
Proof. intros H E. lra. Qed.

#[export] Hint Resolve clampZoom_pos Qnonzero_of_pos : gantt.

(** ** Theorems *)

(** (C7) The transforms are referentially consistent: for a positive zoom,
    [xToTime] inverts [timeToX] and conversely, [yToVirtualY] inverts
    [virtualYToY], and [widthToDuration] inverts [durationToWidth]. *)
Theorem viewport_transforms_roundtrip (v : ViewportState) (t x vy d : Q) :
  0 < pixelsPerHour v ->
  xToTime v (timeToX v t) == t /\ timeToX v (xToTime v x) == x /\
  yToVirtualY v (virtualYToY v vy) == vy /\
  widthToDuration v (durationToWidth v d) == d.
Proof.
  intros Hp. apply Qnonzero_of_pos in Hp.
  unfold xToTime, timeToX, yToVirtualY, virtualYToY, widthToDuration,
    durationToWidth, MS_PER_HOUR.
  split; [|split; [|split]]; field; auto.
Qed.

Lemma viewport_transforms_roundtrip_witness :
  let v := mkViewport 120 (inject_Z 1700000000000) 10 0 40 1000 600 day in
  0 < pixelsPerHour v /\
  xToTime v (timeToX v (inject_Z 1700003600000)) == inject_Z 1700003600000 /\
  timeToX v (xToTime v 37) == 37 /\ yToVirtualY v (virtualYToY v 5) == 5 /\
  widthToDuration v (durationToWidth v 60000) == 60000.
Proof.
  intros v. assert (0 < pixelsPerHour v) as Hp by (simpl; lra).
  split; [exact Hp|]. apply viewport_transforms_roundtrip. exact Hp.
Defined.

(** (C8) Anchor-preserving zoom: the zoom stays within [[0.25, 120]] with
    its zoom level recomputed, and, unless the new scroll offset is
    clamped at 0, the timestamp under [centerX] is the same before and
    after the zoom. *)
Theorem zoomViewport_anchor (v : ViewportState) (factor centerX : Q) :
  0 < pixelsPerHour v ->
  let v' := zoomViewport v factor centerX in
  1 # 4 <= pixelsPerHour v' <= 120 /\
  zoomLevel v' = getZoomLevel (pixelsPerHour v') /\
  (0 <= (centerX + scrollX v) / pixelsPerHour v * pixelsPerHour v' - centerX ->
   xToTime v' centerX == xToTime v centerX).
Proof.
  intros Hp v'. split; [apply clampZoom_bounds|]. split; [reflexivity|].
  intros Hn. unfold xToTime. subst v'. simpl in *.
  rewrite Q.max_r by exact Hn.
  assert (~ clampZoom (pixelsPerHour v * factor) == 0) by auto with gantt.
  assert (~ pixelsPerHour v == 0) by auto with gantt.
  field. auto.
Qed.

Lemma zoomViewport_anchor_witness :
  let v := mkViewport 500 0 10 0 40 1000 600 day in
  0 < pixelsPerHour v /\
  xToTime (zoomViewport v (5 # 4) 300) 300 == xToTime v 300.
Proof.
  intros v. assert (0 < pixelsPerHour v) as Hp by (simpl; lra). split; [exact Hp|].
  apply (zoomViewport_anchor v (5 # 4) 300 Hp).
  apply Qle_bool_iff. vm_compute. reflexivity.
Defined.

(** Snap correctness: [snapToGrid] rounds to a multiple of the
    effective interval [max(zoom tier, minResolution)] minutes, no farther
    than half an interval from the timestamp (ties up). *)
Theorem snapToGrid_nearest (v : ViewportState) (timestamp : Q) (minResolution : Z) :
  let I := getSnapIntervalMs (zoomLevel v) minResolution in
  I = (Z.max (ZOOM_SNAP_INTERVALS (zoomLevel v)) minResolution * 60000)%Z /\
  (snapToGrid v timestamp minResolution mod I = 0)%Z /\
  inject_Z (snapToGrid v timestamp minResolution) - inject_Z I * (1 # 2) <= timestamp /\
  timestamp < inject_Z (snapToGrid v timestamp minResolution) + inject_Z I * (1 # 2).
Proof.
  intros I. split; [unfold I, getSnapIntervalMs; lia|].
  pose proof (snapToInterval_nearest timestamp (Z.max (ZOOM_SNAP_INTERVALS (zoomLevel v)) minResolution))
    as Hs.
  unfold snapToInterval in Hs. unfold snapToGrid. fold I. apply Hs.
  destruct (zoomLevel v); simpl; lia.
Qed.

(** The spec's snap scenario: at zoom level [day], [snapToGrid] with
    [minResolution = 30] rounds to the nearest hour (max(60, 30) = 60
    minutes) and with [minResolution = 120] to the nearest two hours. *)
Theorem snapToGrid_day (v : ViewportState) (timestamp : Q) :
  zoomLevel v = day ->
  (snapToGrid v timestamp 30 mod 3600000 = 0)%Z /\
  inject_Z (snapToGrid v timestamp 30) - 1800000 <= timestamp <
    inject_Z (snapToGrid v timestamp 30) + 1800000 /\
  (snapToGrid v timestamp 120 mod 7200000 = 0)%Z /\
  inject_Z (snapToGrid v timestamp 120) - 3600000 <= timestamp <
    inject_Z (snapToGrid v timestamp 120) + 3600000.
Proof.
  intros Hd.
  destruct (snapToGrid_nearest v timestamp 30) as (_ & H1 & H2 & H3).
  destruct (snapToGrid_nearest v timestamp 120) as (_ & H4 & H5 & H6).
  rewrite Hd in H1, H2, H3, H4, H5, H6.
  change (getSnapIntervalMs day 30) with 3600000%Z in *.
  change (getSnapIntervalMs day 120) with 7200000%Z in *.
  repeat split; try assumption; qlra.
Qed.

Lemma snapToGrid_day_witness :
  let v := mkViewport 0 0 10 0 40 1000 600 day in
  zoomLevel v = day /\ snapToGrid v (inject_Z 5400000) 30 = 7200000%Z /\
  snapToGrid v (inject_Z 5400000) 120 = 7200000%Z /\
  ((snapToGrid v (inject_Z 5400000) 30 mod 3600000 = 0)%Z /\
   inject_Z (snapToGrid v (inject_Z 5400000) 30) - 1800000 <= inject_Z 5400000 <
     inject_Z (snapToGrid v (inject_Z 5400000) 30) + 1800000 /\
   (snapToGrid v (inject_Z 5400000) 120 mod 7200000 = 0)%Z /\
   inject_Z (snapToGrid v (inject_Z 5400000) 120) - 3600000 <= inject_Z 5400000 <
     inject_Z (snapToGrid v (inject_Z 5400000) 120) + 3600000).
Proof.
  intros v. split; [reflexivity|]. split; [reflexivity|]. split; [reflexivity|].
  apply snapToGrid_day. reflexivity.
Defined.
