(* ===== verification/Store.v ===== *)
(** * Store: the Schedule Store of src/unnamed/part_001 ([createGanttStore])

    [GanttStoreState] as a Record, each action of [GanttStoreActions] as a
    function from the state (and the action's arguments) to the next
    state, in the order of the source.  An action is one zustand [set]
    call; [commitDrag] makes two (the nested [updateTask], then clearing
    the drag: [CommitSet]), which History.v replays one by one.  JS objects are
    [jsobj] association lists (Prelude), [Set]s are [gset]s.

    The theorems: every action keeps each task's cached fields hydrated
    and each collection a JS object with unique keys, and every action
    whose updates carry no other [id] keeps each task under its own id;
    [updateTask], [deleteTask] and
    [moveTasks] do what they say and nothing else; a fixed task can be
    neither dragged nor moved; the drag lifecycle (start, update, commit
    or cancel) and its error paths. *)

From S2P Require Import Prelude Types TaskUtils Viewport.

Open Scope Z_scope.

(** [GanttStoreState] *)
Record GanttStoreState := mkStore {
  tasks : jsobj Task;
  resources : jsobj Resource;
  dependencies : jsobj TaskDependency;
  orders : jsobj Order;
  groups : jsobj ResourceGroup;
  viewport : ViewportState;
  selection : SelectionState;
  grouping : GroupingState;
  drag : option DragState;
  hoveredTaskId : option string;
  sidebarWidth : Q;
  minResolution : Z;
  isLoading : bool;
  error : option string;
}.

(** ** Field updates (the draft assignments of the immer recipes) *)

Definition with_tasks (s : GanttStoreState) (x : jsobj Task) : GanttStoreState :=
  {| tasks := x; resources := resources s; dependencies := dependencies s;
     orders := orders s; groups := groups s; viewport := viewport s;
     selection := selection s; grouping := grouping s; drag := drag s;
     hoveredTaskId := hoveredTaskId s; sidebarWidth := sidebarWidth s;
     minResolution := minResolution s; isLoading := isLoading s; error := error s |}.

Definition with_resources (s : GanttStoreState) (x : jsobj Resource) : GanttStoreState :=
  {| tasks := tasks s; resources := x; dependencies := dependencies s;
     orders := orders s; groups := groups s; viewport := viewport s;
     selection := selection s; grouping := grouping s; drag := drag s;
     hoveredTaskId := hoveredTaskId s; sidebarWidth := sidebarWidth s;
     minResolution := minResolution s; isLoading := isLoading s; error := error s |}.

Definition with_dependencies (s : GanttStoreState) (x : jsobj TaskDependency) : GanttStoreState :=
  {| tasks := tasks s; resources := resources s; dependencies := x;
     orders := orders s; groups := groups s; viewport := viewport s;
     selection := selection s; grouping := grouping s; drag := drag s;
     hoveredTaskId := hoveredTaskId s; sidebarWidth := sidebarWidth s;
     minResolution := minResolution s; isLoading := isLoading s; error := error s |}.

Definition with_orders (s : GanttStoreState) (x : jsobj Order) : GanttStoreState :=
  {| tasks := tasks s; resources := resources s; dependencies := dependencies s;
     orders := x; groups := groups s; viewport := viewport s;
     selection := selection s; grouping := grouping s; drag := drag s;
     hoveredTaskId := hoveredTaskId s; sidebarWidth := sidebarWidth s;
     minResolution := minResolution s; isLoading := isLoading s; error := error s |}.

Definition with_groups (s : GanttStoreState) (x : jsobj ResourceGroup) : GanttStoreState :=
  {| tasks := tasks s; resources := resources s; dependencies := dependencies s;
     orders := orders s; groups := x; viewport := viewport s;
     selection := selection s; grouping := grouping s; drag := drag s;
     hoveredTaskId := hoveredTaskId s; sidebarWidth := sidebarWidth s;
     minResolution := minResolution s; isLoading := isLoading s; error := error s |}.

Definition with_viewport (s : GanttStoreState) (x : ViewportState) : GanttStoreState :=
  {| tasks := tasks s; resources := resources s; dependencies := dependencies s;
     orders := orders s; groups := groups s; viewport := x;
     selection := selection s; grouping := grouping s; drag := drag s;
     hoveredTaskId := hoveredTaskId s; sidebarWidth := sidebarWidth s;
     minResolution := minResolution s; isLoading := isLoading s; error := error s |}.

Definition with_selection (s : GanttStoreState) (x : SelectionState) : GanttStoreState :=
  {| tasks := tasks s; resources := resources s; dependencies := dependencies s;
     orders := orders s; groups := groups s; viewport := viewport s;
     selection := x; grouping := grouping s; drag := drag s;
     hoveredTaskId := hoveredTaskId s; sidebarWidth := sidebarWidth s;
     minResolution := minResolution s; isLoading := isLoading s; error := error s |}.

Definition with_grouping (s : GanttStoreState) (x : GroupingState) : GanttStoreState :=
  {| tasks := tasks s; resources := resources s; dependencies := dependencies s;
     orders := orders s; groups := groups s; viewport := viewport s;
     selection := selection s; grouping := x; drag := drag s;
     hoveredTaskId := hoveredTaskId s; sidebarWidth := sidebarWidth s;
     minResolution := minResolution s; isLoading := isLoading s; error := error s |}.

Definition with_drag (s : GanttStoreState) (x : option DragState) : GanttStoreState :=
  {| tasks := tasks s; resources := resources s; dependencies := dependencies s;
     orders := orders s; groups := groups s; viewport := viewport s;
     selection := selection s; grouping := grouping s; drag := x;
     hoveredTaskId := hoveredTaskId s; sidebarWidth := sidebarWidth s;
     minResolution := minResolution s; isLoading := isLoading s; error := error s |}.

Definition with_misc (s : GanttStoreState) (hov : option string) (sw : Q)
    (loading : bool) (err : option string) : GanttStoreState :=
  {| tasks := tasks s; resources := resources s; dependencies := dependencies s;
     orders := orders s; groups := groups s; viewport := viewport s;
     selection := selection s; grouping := grouping s; drag := drag s;
     hoveredTaskId := hov; sidebarWidth := sw;
     minResolution := minResolution s; isLoading := loading; error := err |}.

(** ** Task actions *)

(** [Object.assign(task, updates)] followed by the recomputation of the
    cached fields when [startTime] or [phases] was given. *)
Definition applyTaskUpdate (u : TaskUpdate) (t : Task) : Task :=
  let start := default (startTime t) (up_startTime u) in
  let ps := default (phases t) (up_phases u) in
  let recompute := bool_decide (is_Some (up_startTime u)) || bool_decide (is_Some (up_phases u)) in
  let total := if recompute then calculateTotalDuration ps else _totalDuration t in
  let endT := if recompute then start + total * 60 * 1000 else _endTime t in
  {| task_id := default (task_id t) (up_id u); startTime := start; phases := ps;
     _endTime := endT; _totalDuration := total;
     resourceId := default (resourceId t) (up_resourceId u);
     orderId := default (orderId t) (up_orderId u);
     task_name := default (task_name t) (up_name u);
     task_color := default (task_color t) (up_color u);
     task_priority := default (task_priority t) (up_priority u);
     status := default (status t) (up_status u);
     progress := default (progress t) (up_progress u);
     constraints := default (constraints t) (up_constraints u) |}.

(** [setTasks] *)
Definition setTasks (s : GanttStoreState) (ts : list StoredTask) : GanttStoreState :=
  with_tasks s (obj_of_list st_id hydrateTask ts).

(** [addTask] *)
Definition addTask (s : GanttStoreState) (t : StoredTask) : GanttStoreState :=
  with_tasks s (obj_set (st_id t) (hydrateTask t) (tasks s)).

(** [updateTask]: a no-op when the id is unknown. *)
Definition updateTask (s : GanttStoreState) (taskId : string) (u : TaskUpdate) : GanttStoreState :=
  with_tasks s (obj_alter (applyTaskUpdate u) taskId (tasks s)).

(** The loop of [deleteTask] over [Object.keys(state.dependencies)]: each
    dependency incident to [taskId] is deleted. *)
Definition incident (taskId : string) (dep : TaskDependency) : Prop :=
  predecessorId dep = taskId \/ successorId dep = taskId.

#[export] Instance incident_dec taskId dep : Decision (incident taskId dep).
Proof. unfold incident. solve_decision. Defined.

(** One iteration: [if (dep.predecessorId === taskId || dep.successorId === taskId) delete ..]. *)
Definition deleteIfIncident (taskId : string) (ds : jsobj TaskDependency) (depId : string)
    : jsobj TaskDependency :=
  match ds⟦depId⟧%gantt with
  | Some dep => if decide (incident taskId dep) then obj_delete depId ds else ds
  | None => ds
  end.

Definition deleteIncidentDeps (taskId : string) (deps : jsobj TaskDependency)
    : jsobj TaskDependency :=
  fold_left (deleteIfIncident taskId) (obj_keys deps) deps.

(** [deleteTask] *)
Definition deleteTask (s : GanttStoreState) (taskId : string) : GanttStoreState :=
  with_dependencies (with_tasks s (obj_delete taskId (tasks s)))
    (deleteIncidentDeps taskId (dependencies s)).

(** [updateTasks]: the updates one after the other. *)
Definition updateTasks (s : GanttStoreState) (ups : list (string * TaskUpdate)) : GanttStoreState :=
  with_tasks s (fold_left (fun ts up => obj_alter (applyTaskUpdate up.2) up.1 ts)
                          ups (tasks s)).

(** The body of [moveTasks] for one task. *)
Definition moveTask (deltaTime : Z) (newResourceId : option string) (t : Task) : Task :=
  if isFixedTime t then t else
  let start := startTime t + deltaTime in
  {| task_id := task_id t; startTime := start; phases := phases t;
     _endTime := start + _totalDuration t * 60 * 1000; _totalDuration := _totalDuration t;
     resourceId := default (resourceId t) newResourceId; orderId := orderId t;
     task_name := task_name t; task_color := task_color t;
     task_priority := task_priority t; status := status t;
     progress := progress t; constraints := constraints t |}.

(** [moveTasks]: fixed tasks are skipped. *)
Definition moveTasks (s : GanttStoreState) (taskIds : list string) (deltaTime : Z)
    (newResourceId : option string) : GanttStoreState :=
  with_tasks s (fold_left (fun ts taskId => obj_alter (moveTask deltaTime newResourceId) taskId ts)
                          taskIds (tasks s)).

(** ** Resource, dependency, order and group actions *)

(** [setResources] *)
Definition setResources (s : GanttStoreState) (rs : list Resource) : GanttStoreState :=
  with_resources s (obj_of_list resource_id id rs).

(** [addResource] *)
Definition addResource (s : GanttStoreState) (r : Resource) : GanttStoreState :=
  with_resources s (obj_set (resource_id r) r (resources s)).

(** [deleteResource] *)
Definition deleteResource (s : GanttStoreState) (resId : string) : GanttStoreState :=
  with_resources s (obj_delete resId (resources s)).

(** [setDependencies] *)
Definition setDependencies (s : GanttStoreState) (ds : list TaskDependency) : GanttStoreState :=
  with_dependencies s (obj_of_list dep_id id ds).

(** [addDependency] *)
Definition addDependency (s : GanttStoreState) (d : TaskDependency) : GanttStoreState :=
  with_dependencies s (obj_set (dep_id d) d (dependencies s)).

(** [removeDependency] *)
Definition removeDependency (s : GanttStoreState) (depId : string) : GanttStoreState :=
  with_dependencies s (obj_delete depId (dependencies s)).

(** [setOrders] *)
Definition setOrders (s : GanttStoreState) (os : list Order) : GanttStoreState :=
  with_orders s (obj_of_list order_id id os).

(** [setGroups] *)
Definition setGroups (s : GanttStoreState) (gs : list ResourceGroup) : GanttStoreState :=
  with_groups s (obj_of_list group_id id gs).

(** [Partial<Resource>] for [updateResource]; [None] is an absent key,
    and for the optional [groupId] and [color], [Some None] is a key set
    to [undefined] (as in [TaskUpdate]). *)
Record ResourceUpdate := mkResourceUpdate {
  ru_id : option string;
  ru_name : option string;
  ru_type : option ResourceType;
  ru_capacity : option Z;
  ru_groupId : option (option string);
  ru_color : option (option string);
}.

(** [Object.assign(resource, updates)] *)
Definition applyResourceUpdate (u : ResourceUpdate) (r : Resource) : Resource :=
  {| resource_id := default (resource_id r) (ru_id u);
     resource_name := default (resource_name r) (ru_name u);
     resource_type := default (resource_type r) (ru_type u);
     capacity := default (capacity r) (ru_capacity u);
     groupId := default (groupId r) (ru_groupId u);
     resource_color := default (resource_color r) (ru_color u) |}.

(** [updateResource] *)
Definition updateResource (s : GanttStoreState) (resId : string) (u : ResourceUpdate)
    : GanttStoreState :=
  with_resources s (obj_alter (applyResourceUpdate u) resId (resources s)).

(** [initializeData]: bulk replace; an absent optional collection becomes
    empty; loading and error are reset. *)
Definition initializeData (s : GanttStoreState) (ts : list StoredTask) (rs : list Resource)
    (ds : option (list TaskDependency)) (os : option (list Order))
    (gs : option (list ResourceGroup)) : GanttStoreState :=
  let s1 := with_tasks s (obj_of_list st_id hydrateTask ts) in
  let s2 := with_resources s1 (obj_of_list resource_id id rs) in
  let s3 := with_dependencies s2 (obj_of_list dep_id id (default [] ds)) in
  let s4 := with_orders s3 (obj_of_list order_id id (default [] os)) in
  let s5 := with_groups s4 (obj_of_list group_id id (default [] gs)) in
  with_misc s5 (hoveredTaskId s5) (sidebarWidth s5) false None.

(** ** Viewport actions (Viewport.v holds their arithmetic) *)

Definition store_setViewport (s : GanttStoreState) (u : ViewportUpdate) : GanttStoreState :=
  with_viewport s (setViewport (viewport s) u).
Definition store_panViewport (s : GanttStoreState) (dx dy : Q) : GanttStoreState :=
  with_viewport s (panViewport (viewport s) dx dy).
Definition store_zoomViewport (s : GanttStoreState) (factor centerX : Q) : GanttStoreState :=
  with_viewport s (zoomViewport (viewport s) factor centerX).
Definition store_setZoomLevel (s : GanttStoreState) (z : ZoomLevel) : GanttStoreState :=
  with_viewport s (setZoomLevel (viewport s) z).
Definition store_scrollToTime (s : GanttStoreState) (t : Q) : GanttStoreState :=
  with_viewport s (scrollToTime (viewport s) t).
Definition store_scrollToRow (s : GanttStoreState) (i : Q) : GanttStoreState :=
  with_viewport s (scrollToRow (viewport s) i).

(** ** Selection actions *)

Inductive SelectMode := select_replace | select_add | select_toggle.

(** [selectTask] *)
Definition selectTask (s : GanttStoreState) (taskId : string) (m : SelectMode) : GanttStoreState :=
  let sel := selection s in
  let ids := match m with
             | select_replace => {[taskId]}
             | select_add => {[taskId]} ∪ sel_taskIds sel
             | select_toggle => set_toggle taskId (sel_taskIds sel)
             end in
  with_selection s (mkSelection ids (sel_resourceIds sel) (Some taskId)).

(** [selectTasks] ([mode] is ["replace"] or ["add"]) *)
Definition selectTasks (s : GanttStoreState) (taskIds : list string) (replace : bool)
    : GanttStoreState :=
  let sel := selection s in
  let ids := if replace then list_to_set taskIds else list_to_set taskIds ∪ sel_taskIds sel in
  let last_ := match last taskIds with Some l => Some l | None => lastSelectedTaskId sel end in
  with_selection s (mkSelection ids (sel_resourceIds sel) last_).

(** [clearSelection] *)
Definition clearSelection (s : GanttStoreState) : GanttStoreState :=
  with_selection s (mkSelection ∅ ∅ None).

(** [selectAllTasks]: the keys of [state.tasks]. *)
Definition selectAllTasks (s : GanttStoreState) : GanttStoreState :=
  let sel := selection s in
  with_selection s (mkSelection (list_to_set (obj_keys (tasks s))) (sel_resourceIds sel)
                                (lastSelectedTaskId sel)).

(** ** Grouping actions *)

(** [setGroupingMode]: the expanded set is reset. *)
Definition setGroupingMode (s : GanttStoreState) (m : GroupingMode) : GanttStoreState :=
  with_grouping s (mkGrouping m ∅).

(** [toggleGroup] *)
Definition toggleGroup (s : GanttStoreState) (gid : string) : GanttStoreState :=
  let g := grouping s in
  with_grouping s (mkGrouping (mode g) (set_toggle gid (expandedGroups g))).

(** [expandAllGroups]: the keys of [state.groups] (the resource groups). *)
Definition expandAllGroups (s : GanttStoreState) : GanttStoreState :=
  with_grouping s (mkGrouping (mode (grouping s)) (list_to_set (obj_keys (groups s)))).

(** [collapseAllGroups] *)
Definition collapseAllGroups (s : GanttStoreState) : GanttStoreState :=
  with_grouping s (mkGrouping (mode (grouping s)) ∅).

(** ** Hover, sidebar, loading, reset *)

Definition setHoveredTask (s : GanttStoreState) (t : option string) : GanttStoreState :=
  with_misc s t (sidebarWidth s) (isLoading s) (error s).
Definition setSidebarWidth (s : GanttStoreState) (w : Q) : GanttStoreState :=
  with_misc s (hoveredTaskId s) (Qmax 100 (Qmin 400 w)) (isLoading s) (error s).
Definition setLoading (s : GanttStoreState) (b : bool) : GanttStoreState :=
  with_misc s (hoveredTaskId s) (sidebarWidth s) b (error s).
Definition setError (s : GanttStoreState) (e : option string) : GanttStoreState :=
  with_misc s (hoveredTaskId s) (sidebarWidth s) (isLoading s) e.

(** [createInitialState]; [now] is [Date.now()]. *)
Definition createInitialState (now : Z) : GanttStoreState :=
  {| tasks := []; resources := []; dependencies := []; orders := []; groups := [];
     viewport := mkViewport 0 (inject_Z (now - 24 * 60 * 60 * 1000)) 10 0 40 0 0 day;
     selection := mkSelection ∅ ∅ None; grouping := mkGrouping mode_none ∅;
     drag := None; hoveredTaskId := None; sidebarWidth := 200;
     minResolution := 30; isLoading := false; error := None |}.

(** [reset] *)
Definition reset (s : GanttStoreState) (now : Z) : GanttStoreState := createInitialState now.

(** ** Drag actions *)

(** [startDrag]: refused (no drag state) for an unknown or fixed task. *)
Definition startDrag (s : GanttStoreState) (taskId : string) (ty : DragType) (x y : Q)
    : GanttStoreState :=
  match (tasks s)⟦taskId⟧%gantt with
  | None => s
  | Some t =>
      if isFixedTime t then s else
      with_drag s (Some (mkDrag ty taskId t (inject_Z (startTime t)) (inject_Z (_endTime t))
                                (resourceId t) [] [] x y x y))
  end.

(** The preview fields of a drag state after a pointer move. *)
Definition dragWithPreview (d : DragState) (ps pe : Q) (cx cy : Q) : DragState :=
  {| drag_type := drag_type d; drag_taskId := drag_taskId d; originalTask := originalTask d;
     previewStartTime := ps; previewEndTime := pe; previewResourceId := previewResourceId d;
     collisions := collisions d; dependencyViolations := dependencyViolations d;
     startX := startX d; startY := startY d; currentX := cx; currentY := cy |}.

(** [updateDrag]: the time delta is the pointer's x delta at the current
    zoom; a resize never makes the task shorter than [minResolution]
    minutes. *)
Definition updateDrag (s : GanttStoreState) (cx cy : Q) : GanttStoreState :=
  match drag s with
  | None => s
  | Some d =>
      let deltaX := (cx - startX d)%Q in
      let hoursPerPixel := (1 / pixelsPerHour (viewport s))%Q in
      let deltaTimeMs := (deltaX * hoursPerPixel * 60 * 60 * 1000)%Q in
      let minDurationMs := inject_Z (minResolution s * 60 * 1000) in
      let o := originalTask d in
      let d' := match drag_type d with
        | move | reassign =>
            dragWithPreview d (inject_Z (startTime o) + deltaTimeMs)%Q
                              (inject_Z (_endTime o) + deltaTimeMs)%Q cx cy
        | resize_start =>
            dragWithPreview d (Qmin (inject_Z (startTime o) + deltaTimeMs)%Q
                                    (inject_Z (_endTime o) - minDurationMs)%Q)
                              (previewEndTime d) cx cy
        | resize_end =>
            dragWithPreview d (previewStartTime d)
                              (Qmax (inject_Z (_endTime o) + deltaTimeMs)%Q
                                    (inject_Z (startTime o) + minDurationMs)%Q) cx cy
        end in
      with_drag s (Some d')
  end.

(** [{ startTime, resourceId }] and [{ startTime, phases }]. *)
Definition moveUpdate (start : Z) (res : string) : TaskUpdate :=
  mkTaskUpdate None (Some start) None (Some res) None None None None None None None.
Definition resizeUpdate (start : Z) (ps : list TaskPhase) : TaskUpdate :=
  mkTaskUpdate None (Some start) (Some ps) None None None None None None None None.

(** [{ ...phase, duration: Math.round(phase.duration * scaleFactor) }] *)
Definition scalePhase (scaleFactor : Q) (p : TaskPhase) : TaskPhase :=
  {| phaseType := phaseType p; duration := js_round (inject_Z (duration p) * scaleFactor)%Q;
     phaseColor := phaseColor p |}.

(** The new phases of a resize: every duration scaled by the ratio of the
    new length to [_totalDuration].  A task whose phases sum to 0 has no
    ratio: JS divides by 0 and writes [NaN] durations (unless it has no
    phase at all). *)
Definition resizePhases (o : Task) (snappedStart snappedEnd : Z) : js_result (list TaskPhase) :=
  if decide (_totalDuration o = 0) then
    match phases o with [] => JsOk [] | _ => JsFail NotANumber end
  else
    let newDurationMinutes := (inject_Z (snappedEnd - snappedStart) / inject_Z (60 * 1000))%Q in
    let scaleFactor := (newDurationMinutes / inject_Z (_totalDuration o))%Q in
    JsOk (map (scalePhase scaleFactor) (phases o)).

(** [s.drag = null] *)
Definition clearDrag (s : GanttStoreState) : GanttStoreState := with_drag s None.

(** A [set] of [commitDrag]: the store's [updateTask] (itself one [set])
    or [set((s) => { s.drag = null })]. *)
Inductive CommitSet :=
  | SUpdateTask (taskId : string) (u : TaskUpdate)
  | SClearDrag.

Definition runSet (s : GanttStoreState) (c : CommitSet) : GanttStoreState :=
  match c with
  | SUpdateTask taskId u => updateTask s taskId u
  | SClearDrag => clearDrag s
  end.

(** The [set] calls [commitDrag] makes, in order, computed from the state
    [get()] returned: none without a drag; only clearing the drag when a
    dependency violation was recorded; otherwise [updateTask] with the
    snapped values, then clearing the drag.  A resize whose task is no
    longer in the store throws ([originalTask._totalDuration] of
    [undefined]) before any [set]. *)
Definition commitDragSets (s : GanttStoreState) : js_result (list CommitSet) :=
  match drag s with
  | None => JsOk []
  | Some d =>
      match dependencyViolations d with
      | _ :: _ => JsOk [SClearDrag]
      | [] =>
          let snapInterval := getSnapIntervalMs (zoomLevel (viewport s)) (minResolution s) in
          let snappedStartTime := js_round (previewStartTime d / inject_Z snapInterval)%Q * snapInterval in
          let snappedEndTime := js_round (previewEndTime d / inject_Z snapInterval)%Q * snapInterval in
          match drag_type d with
          | move | reassign =>
              JsOk [SUpdateTask (drag_taskId d) (moveUpdate snappedStartTime (previewResourceId d));
                    SClearDrag]
          | resize_start | resize_end =>
              match (tasks s)⟦drag_taskId d⟧%gantt with
              | None => JsFail TypeError_undefined
              | Some o =>
                  match resizePhases o snappedStartTime snappedEndTime with
                  | JsFail f => JsFail f
                  | JsOk ps => JsOk [SUpdateTask (drag_taskId d) (resizeUpdate snappedStartTime ps);
                                     SClearDrag]
                  end
              end
          end
      end
  end.

(** Running the [set]s of [commitDrag] in order. *)
Definition runSets (cs : list CommitSet) (s : GanttStoreState) : GanttStoreState :=
  fold_left runSet cs s.

(** [commitDrag] *)
Definition commitDrag (s : GanttStoreState) : js_result GanttStoreState :=
  match commitDragSets s with
  | JsOk fs => JsOk (runSets fs s)
  | JsFail f => JsFail f
  end.

(** [cancelDrag] *)
Definition cancelDrag (s : GanttStoreState) : GanttStoreState := clearDrag s.

(** ** [createGanttStore]: the initial state and its configuration *)

(** [GanttStoreConfig]; [None] is an absent key. *)
Record GanttStoreConfig := mkConfig {
  initialZoom : option ZoomLevel;
  initialTime : option Z;
  initialGrouping : option GroupingMode;
  cfg_sidebarWidth : option Q;
  cfg_rowHeight : option Q;
  cfg_minResolution : option Z;
}.

(** JS truthiness of an optional number: [undefined] and [0] are false. *)
Definition truthyZ (o : option Z) : option Z :=
  match o with Some z => if decide (z = 0) then None else Some z | None => None end.
Definition truthyQ (o : option Q) : option Q :=
  match o with Some q => if Qeq_bool q 0 then None else Some q | None => None end.

(** The overrides of [createGanttStore] applied to [createInitialState()]. *)
Definition createGanttStore (cfg : GanttStoreConfig) (now : Z) : GanttStoreState :=
  let s := createInitialState now in
  let v := viewport s in
  let v1 := match initialZoom cfg with
            | Some z => setZoomLevel v z
            | None => v end in
  let v2 := match truthyZ (initialTime cfg) with
            | Some t => mkViewport (scrollX v1) (inject_Z (t - 24 * 60 * 60 * 1000))
                          (pixelsPerHour v1) (scrollY v1) (rowHeight v1) (width v1)
                          (height v1) (zoomLevel v1)
            | None => v1 end in
  let v3 := match truthyQ (cfg_rowHeight cfg) with
            | Some h => mkViewport (scrollX v2) (timeOrigin v2) (pixelsPerHour v2) (scrollY v2)
                          h (width v2) (height v2) (zoomLevel v2)
            | None => v2 end in
  {| tasks := []; resources := []; dependencies := []; orders := []; groups := [];
     viewport := v3; selection := selection s;
     grouping := mkGrouping (default mode_none (initialGrouping cfg)) ∅;
     drag := None; hoveredTaskId := None;
     sidebarWidth := default 200%Q (truthyQ (cfg_sidebarWidth cfg));
     minResolution := default 30 (cfg_minResolution cfg);
     isLoading := false; error := None |}.

(** ** The store as a step function over its actions *)

(** One call of an action of [GanttStoreActions]. *)
Inductive StoreAction :=
  | ASetTasks (ts : list StoredTask)
  | AAddTask (t : StoredTask)
  | AUpdateTask (taskId : string) (u : TaskUpdate)
  | ADeleteTask (taskId : string)
  | AUpdateTasks (ups : list (string * TaskUpdate))
  | AMoveTasks (taskIds : list string) (deltaTime : Z) (newResourceId : option string)
  | ASetResources (rs : list Resource)
  | AAddResource (r : Resource)
  | AUpdateResource (resId : string) (u : ResourceUpdate)
  | ADeleteResource (resId : string)
  | ASetDependencies (ds : list TaskDependency)
  | AAddDependency (d : TaskDependency)
  | ARemoveDependency (depId : string)
  | ASetOrders (os : list Order)
  | ASetGroups (gs : list ResourceGroup)
  | AInitializeData (ts : list StoredTask) (rs : list Resource)
      (ds : option (list TaskDependency)) (os : option (list Order)) (gs : option (list ResourceGroup))
  | ASetViewport (u : ViewportUpdate)
  | APanViewport (dx dy : Q)
  | AZoomViewport (factor centerX : Q)
  | ASetZoomLevel (z : ZoomLevel)
  | AScrollToTime (t : Q)
  | AScrollToRow (i : Q)
  | ASelectTask (taskId : string) (m : SelectMode)
  | ASelectTasks (taskIds : list string) (replace : bool)
  | AClearSelection
  | ASelectAllTasks
  | ASetGroupingMode (m : GroupingMode)
  | AToggleGroup (gid : string)
  | AExpandAllGroups
  | ACollapseAllGroups
  | AStartDrag (taskId : string) (ty : DragType) (x y : Q)
  | AUpdateDrag (x y : Q)
  | ACommitDrag
  | ACancelDrag
  | ASetHoveredTask (t : option string)
  | ASetSidebarWidth (w : Q)
  | ASetLoading (b : bool)
  | ASetError (e : option string)
  | AReset (now : Z).

Definition apply_action (s : GanttStoreState) (a : StoreAction) : js_result GanttStoreState :=
  match a with
  | ASetTasks ts => JsOk (setTasks s ts)
  | AAddTask t => JsOk (addTask s t)
  | AUpdateTask k u => JsOk (updateTask s k u)
  | ADeleteTask k => JsOk (deleteTask s k)
  | AUpdateTasks ups => JsOk (updateTasks s ups)
  | AMoveTasks ks d r => JsOk (moveTasks s ks d r)
  | ASetResources rs => JsOk (setResources s rs)
  | AAddResource r => JsOk (addResource s r)
  | AUpdateResource k u => JsOk (updateResource s k u)
  | ADeleteResource k => JsOk (deleteResource s k)
  | ASetDependencies ds => JsOk (setDependencies s ds)
  | AAddDependency d => JsOk (addDependency s d)
  | ARemoveDependency k => JsOk (removeDependency s k)
  | ASetOrders os => JsOk (setOrders s os)
  | ASetGroups gs => JsOk (setGroups s gs)
  | AInitializeData ts rs ds os gs => JsOk (initializeData s ts rs ds os gs)
  | ASetViewport u => JsOk (store_setViewport s u)
  | APanViewport dx dy => JsOk (store_panViewport s dx dy)
  | AZoomViewport f c => JsOk (store_zoomViewport s f c)
  | ASetZoomLevel z => JsOk (store_setZoomLevel s z)
  | AScrollToTime t => JsOk (store_scrollToTime s t)
  | AScrollToRow i => JsOk (store_scrollToRow s i)
  | ASelectTask k m => JsOk (selectTask s k m)
  | ASelectTasks ks b => JsOk (selectTasks s ks b)
  | AClearSelection => JsOk (clearSelection s)
  | ASelectAllTasks => JsOk (selectAllTasks s)
  | ASetGroupingMode m => JsOk (setGroupingMode s m)
  | AToggleGroup g => JsOk (toggleGroup s g)
  | AExpandAllGroups => JsOk (expandAllGroups s)
  | ACollapseAllGroups => JsOk (collapseAllGroups s)
  | AStartDrag k ty x y => JsOk (startDrag s k ty x y)
  | AUpdateDrag x y => JsOk (updateDrag s x y)
  | ACommitDrag => commitDrag s
  | ACancelDrag => JsOk (cancelDrag s)
  | ASetHoveredTask t => JsOk (setHoveredTask s t)
  | ASetSidebarWidth w => JsOk (setSidebarWidth s w)
  | ASetLoading b => JsOk (setLoading s b)
  | ASetError e => JsOk (setError s e)
  | AReset now => JsOk (reset s now)
  end.

(** ** The store invariant *)

(** A task entry: its cached fields are hydrated and it is stored under
    its own id. *)
Definition task_entry_ok (k : string) (t : Task) : Prop :=
  task_hydrated t /\ task_id t = k.

(** The shape of the store's invariants: each collection is a JS object
    with unique keys, and every task entry satisfies [P]. *)
Definition store_wf_by (P : string -> Task -> Prop) (s : GanttStoreState) : Prop :=
  obj_wf (tasks s) /\ obj_Forall P (tasks s) /\
  obj_wf (resources s) /\ obj_wf (dependencies s) /\
  obj_wf (orders s) /\ obj_wf (groups s).

(** The invariant every action keeps: unique keys, and every task's
    cached [_totalDuration] and [_endTime] agree with its [phases] and
    [startTime]. *)
Definition store_inv : GanttStoreState -> Prop := store_wf_by (fun _ t => task_hydrated t).

(** The same, with every task stored under its own id. *)
Definition store_wf : GanttStoreState -> Prop := store_wf_by task_entry_ok.

(** An update that keeps the task's id ([Partial<StoredTask>] may carry
    an [id]; [Object.assign] would then change [task.id] but not its
    key). *)
Definition update_keeps_id (k : string) (u : TaskUpdate) : Prop :=
  up_id u = None \/ up_id u = Some k.

(** The actions whose updates satisfy [upd_ok]. *)
Definition action_ok_by (upd_ok : string -> TaskUpdate -> Prop) (a : StoreAction) : Prop :=
  match a with
  | AUpdateTask k u => upd_ok k u
  | AUpdateTasks ups => Forall (fun up => upd_ok up.1 up.2) ups
  | _ => True
  end.

Definition action_ok : StoreAction -> Prop := action_ok_by update_keeps_id.

(** [store_wf] as a check over the entries, decidable, so that concrete
    stores are checked by evaluation. *)
#[export] Instance task_entry_ok_dec k t : Decision (task_entry_ok k t).
Proof. unfold task_entry_ok, task_hydrated. solve_decision. Defined.

Definition store_wf_check (s : GanttStoreState) : Prop :=
  obj_wf (tasks s) /\ Forall (fun kv => task_entry_ok kv.1 kv.2) (tasks s) /\
  obj_wf (resources s) /\ obj_wf (dependencies s) /\
  obj_wf (orders s) /\ obj_wf (groups s).

#[export] Instance store_wf_check_dec s : Decision (store_wf_check s).
Proof. unfold store_wf_check, obj_wf. solve_decision. Defined.

(** The states a client reaches: a freshly created store, then any
    sequence of actions that return (a throwing [commitDrag] changes
    nothing), with any arguments. *)
Inductive reachable : GanttStoreState -> Prop :=
  | reach_init now : reachable (createInitialState now)
  | reach_create cfg now : reachable (createGanttStore cfg now)
  | reach_step s a s' : reachable s -> apply_action s a = JsOk s' -> reachable s'.

(** A drag state as the store creates it: no collision and no dependency
    violation recorded (no code of the store computes them). *)
Definition drag_clean (s : GanttStoreState) : Prop :=
  forall d, drag s = Some d -> dependencyViolations d = [] /\ collisions d = [].

(** ** Example data *)

(** A task of three phases [[20, 100, 20]] starting at 0, in a store at
    zoom level [hour] with the default [minResolution] of 30. *)
Definition resize_example_store : GanttStoreState :=
  store_setZoomLevel
    (setTasks (createInitialState 0)
       [mkStoredTask "t1" 0 [mkPhase setup 20 None; mkPhase execution 100 None;
                             mkPhase cleanup 20 None] "r1" "o1" "T" None 3 scheduled 0 None])
    hour.

(** Three tasks on two resources ([t3] fixed in time, [t2] starting at
    02:30, off the hourly grid of the [day] zoom level) and two
    dependencies [t1 -> t2 -> t3]. *)
Definition example_t1 : StoredTask :=
  mkStoredTask "t1" 0 [mkPhase setup 20 None; mkPhase execution 100 None;
                       mkPhase cleanup 20 None] "r1" "o1" "T1" None 1 scheduled 0 None.
Definition example_t2 : StoredTask :=
  mkStoredTask "t2" 9000000 [mkPhase execution 60 None] "r1" "o1" "T2" None 2 scheduled 0 None.
Definition example_t3 : StoredTask :=
  mkStoredTask "t3" 0 [mkPhase execution 30 None] "r2" "o2" "T3" None 3 scheduled 0
    (Some (mkConstraints None None (Some true))).
Definition example_tasks : list StoredTask := [example_t1; example_t2; example_t3].

Definition example_dependencies : list TaskDependency :=
  [mkDependency "d1" "t1" "t2" FS 0; mkDependency "d2" "t2" "t3" SS 15].

Definition example_load : StoreAction :=
  AInitializeData example_tasks [] (Some example_dependencies) None None.

Definition example_store : GanttStoreState :=
  initializeData (createInitialState 0) example_tasks [] (Some example_dependencies) None None.

(** The drag state [startDrag] creates for a move of [t1]. *)
Definition example_drag : DragState :=
  mkDrag move "t1" (hydrateTask example_t1) 0 8400000 "r1" [] [] 0 0 0 0.

Lemma applyTaskUpdate_ok k u t :
  update_keeps_id k u -> task_entry_ok k t -> task_entry_ok k (applyTaskUpdate u t).
Proof.
  intros Hu [[Htot Hend] Hid]. unfold applyTaskUpdate.
  destruct (up_startTime u) as [st|] eqn:Es, (up_phases u) as [ps|] eqn:Ep;
    (split; [split|]); simpl; try done;
    destruct Hu as [-> | ->]; simpl; done.
Qed.

Lemma moveTask_ok k d r t : task_entry_ok k t -> task_entry_ok k (moveTask d r t).
Proof.
  intros [[Htot Hend] Hid]. unfold moveTask. destruct (isFixedTime t); [by split|].
  repeat split; simpl; done.
Qed.

Lemma hydrateTask_entry_ok t : task_entry_ok (st_id t) (hydrateTask t).
Proof. split; [apply hydrateTask_hydrated|done]. Qed.

#[export] Hint Resolve applyTaskUpdate_ok moveTask_ok hydrateTask_entry_ok : gantt.

Lemma deleteIfIncident_filter k ds depId :
  obj_wf ds ->
  deleteIfIncident k ds depId = filter (fun kv => ~ (kv.1 = depId /\ incident k kv.2)) ds.
Proof.
  intros Hwf. unfold deleteIfIncident. destruct (ds⟦depId⟧%gantt) as [dep|] eqn:E.
  - apply obj_get_elem_of in E as Hin.
    assert (Hval : forall v, (depId, v) ∈ ds -> v = dep)
      by (intros v Hv; exact (obj_wf_entry_unique _ _ _ _ Hwf Hv Hin)).
    case_decide as Hinc.
    + apply list_filter_iff_in. intros [k' v] Hx; simpl.
      split; [intros Hne [Hk _]; done|].
      intros Hn Hk. subst k'. apply Hn. split; [done|]. by rewrite (Hval v Hx).
    + symmetry. apply list_filter_id_in. intros [k' v] Hx [Hk Hi]; simpl in *. subst k'.
      by rewrite (Hval v Hx) in Hi.
  - symmetry. apply list_filter_id_in. intros [k' v] Hx [Hk _]; simpl in *. subst k'.
    apply obj_get_None_notin in E. exact (E (obj_keys_elem_of _ _ _ Hx)).
Qed.

Lemma deleteIncidentDeps_loop k ks ds :
  obj_wf ds ->
  fold_left (deleteIfIncident k) ks ds = filter (fun kv => ~ (kv.1 ∈ ks /\ incident k kv.2)) ds.
Proof.
  revert ds. induction ks as [|k' ks IH]; intros ds Hwf; simpl.
  - symmetry. apply list_filter_id_in. intros x _ [Hx _]. by apply not_elem_of_nil in Hx.
  - rewrite deleteIfIncident_filter by done. rewrite IH by (by apply obj_wf_filter).
    rewrite list_filter_filter. apply list_filter_iff. intros [k'' v]; simpl.
    rewrite elem_of_cons. naive_solver.
Qed.

Lemma deleteIncidentDeps_wf k deps : obj_wf deps -> obj_wf (deleteIncidentDeps k deps).
Proof.
  intros H. unfold deleteIncidentDeps. rewrite deleteIncidentDeps_loop by done.
  by apply obj_wf_filter.
Qed.

Lemma startDrag_collections s k ty x y : tasks (startDrag s k ty x y) = tasks s /\
  resources (startDrag s k ty x y) = resources s /\ dependencies (startDrag s k ty x y) = dependencies s /\
  orders (startDrag s k ty x y) = orders s /\ groups (startDrag s k ty x y) = groups s.
Proof. unfold startDrag. destruct ((tasks s)⟦k⟧%gantt); [destruct (isFixedTime t)|]; done. Qed.

Lemma updateDrag_collections s x y : tasks (updateDrag s x y) = tasks s /\
  resources (updateDrag s x y) = resources s /\ dependencies (updateDrag s x y) = dependencies s /\
  orders (updateDrag s x y) = orders s /\ groups (updateDrag s x y) = groups s.
Proof. unfold updateDrag. destruct (drag s); done. Qed.

Section StoreInvariant.
(** The entry predicate and the condition on updates of an invariant;
    the updates [commitDrag] makes carry no id. *)
Variable P : string -> Task -> Prop.
Variable upd_ok : string -> TaskUpdate -> Prop.
Hypothesis P_hydrate : forall t, P (st_id t) (hydrateTask t).
Hypothesis P_update : forall k u t, upd_ok k u -> P k t -> P k (applyTaskUpdate u t).
Hypothesis P_move : forall k d r t, P k t -> P k (moveTask d r t).
Hypothesis upd_ok_noid : forall k u, up_id u = None -> upd_ok k u.

Lemma updateTask_wf s k u :
  upd_ok k u -> store_wf_by P s -> store_wf_by P (updateTask s k u).
Proof.
  intros Hu (H1 & H2 & H3). split; [|split]; simpl; auto with gantt.
Qed.

Lemma tasks_fold_alter_wf {A} (f : A -> string) (g : A -> Task -> Task) (xs : list A) ts :
  (forall x t, x ∈ xs -> P (f x) t -> P (f x) (g x t)) ->
  obj_wf ts -> obj_Forall P ts ->
  obj_wf (fold_left (fun ts x => obj_alter (g x) (f x) ts) xs ts) /\
  obj_Forall P (fold_left (fun ts x => obj_alter (g x) (f x) ts) xs ts).
Proof.
  revert ts. induction xs as [|x xs IH]; intros ts Hg Hwf Hall; simpl; [done|].
  apply IH; [intros; apply Hg; [by right|done]| auto with gantt|].
  apply obj_Forall_alter; [done|]. intros; apply Hg; [left|done].
Qed.

Lemma commitDragSets_wf s fs :
  commitDragSets s = JsOk fs -> store_wf_by P s -> store_wf_by P (runSets fs s).
Proof.
  unfold commitDragSets. intros Hc Hwf.
  destruct (drag s) as [d|]; [|injection Hc as <-; done].
  destruct (dependencyViolations d); [|injection Hc as <-; done].
  assert (Hclear : forall st, store_wf_by P st -> store_wf_by P (clearDrag st)) by done.
  destruct (drag_type d).
  1, 4: injection Hc as <-; simpl; apply Hclear, updateTask_wf; [by apply upd_ok_noid|done].
  all: destruct ((tasks s)⟦drag_taskId d⟧%gantt); [|done];
       destruct (resizePhases _ _ _); [|done];
       injection Hc as <-; simpl; apply Hclear, updateTask_wf; [by apply upd_ok_noid|done].
Qed.

Lemma setTasks_entries_ok ts : obj_Forall P (obj_of_list st_id hydrateTask ts).
Proof. apply obj_Forall_of_list. intros; apply P_hydrate. Qed.

(** Actions that leave the five collections alone keep the invariant. *)
Lemma store_wf_frame s s' :
  tasks s' = tasks s -> resources s' = resources s -> dependencies s' = dependencies s ->
  orders s' = orders s -> groups s' = groups s -> store_wf_by P s -> store_wf_by P s'.
Proof. unfold store_wf_by. intros -> -> -> -> ->. done. Qed.

Lemma updateTasks_wf s ups :
  Forall (fun up => upd_ok up.1 up.2) ups -> store_wf_by P s -> store_wf_by P (updateTasks s ups).
Proof.
  intros Hok (H1 & H2 & H3).
  destruct (tasks_fold_alter_wf fst (fun up => applyTaskUpdate up.2) ups (tasks s)) as [A B];
    [|done|done|split; [done|split; [done|exact H3]]].
  intros [k u] t Hin. apply P_update. rewrite Forall_forall in Hok.
  exact (Hok _ Hin).
Qed.

Lemma moveTasks_wf s ks d r : store_wf_by P s -> store_wf_by P (moveTasks s ks d r).
Proof.
  intros (H1 & H2 & H3).
  destruct (tasks_fold_alter_wf id (fun _ => moveTask d r) ks (tasks s)) as [A B];
    [|done|done|split; [done|split; [done|exact H3]]].
  intros; by apply P_move.
Qed.

Lemma commitDrag_wf s s' : commitDrag s = JsOk s' -> store_wf_by P s -> store_wf_by P s'.
Proof.
  unfold commitDrag. destruct (commitDragSets s) eqn:Hs; [|done].
  intros [= <-]. by apply commitDragSets_wf.
Qed.

Lemma store_wf_initial now : store_wf_by P (createInitialState now).
Proof.
  unfold store_wf_by; simpl. split; [constructor|]. split; [apply obj_Forall_nil|].
  repeat split; constructor.
Qed.

Lemma store_wf_create cfg now : store_wf_by P (createGanttStore cfg now).
Proof.
  unfold store_wf_by; simpl. split; [constructor|]. split; [apply obj_Forall_nil|].
  repeat split; constructor.
Qed.

Ltac store_wf_case Hwf :=
  first
    [ apply (store_wf_frame _ _ eq_refl eq_refl eq_refl eq_refl eq_refl Hwf)
    | destruct Hwf as (H1 & H2 & H3 & H4 & H5 & H6); unfold store_wf_by; split_and!; simpl;
      auto using setTasks_entries_ok, deleteIncidentDeps_wf with gantt; fail ].

(** One step keeps the invariant: from a state satisfying it, every
    action whose updates satisfy [upd_ok] and that returns (all but a
    [commitDrag] that throws) yields a state satisfying it. *)
Lemma apply_action_wf (s s' : GanttStoreState) (a : StoreAction) :
  store_wf_by P s -> action_ok_by upd_ok a -> apply_action s a = JsOk s' -> store_wf_by P s'.
Proof.
  intros Hwf Hok Ha. destruct a; simpl in Ha, Hok.
  all: try (eapply commitDrag_wf; eassumption).
  all: injection Ha as <-.
  all: try store_wf_case Hwf.
  all: try (apply updateTask_wf; assumption).
  all: try (apply updateTasks_wf; assumption).
  all: try (apply moveTasks_wf; assumption).
  all: try (destruct (startDrag_collections s taskId ty x y) as (A & B & C & D & E);
            exact (store_wf_frame _ _ A B C D E Hwf)).
  all: try (destruct (updateDrag_collections s x y) as (A & B & C & D & E);
            exact (store_wf_frame _ _ A B C D E Hwf)).
  all: apply store_wf_initial.
Qed.

End StoreInvariant.

(** The cached fields: [updateTask] recomputes them whenever [startTime]
    or [phases] is given, whatever else the update carries. *)
Lemma applyTaskUpdate_hydrated u t : task_hydrated t -> task_hydrated (applyTaskUpdate u t).
Proof.
  intros [Htot Hend]. unfold applyTaskUpdate.
  destruct (up_startTime u), (up_phases u); split; simpl; done.
Qed.

Lemma moveTask_hydrated d r t : task_hydrated t -> task_hydrated (moveTask d r t).
Proof. intros [Htot Hend]. unfold moveTask. destruct (isFixedTime t); [done|]. by split. Qed.

Lemma action_ok_any a : action_ok_by (fun _ _ => True) a.
Proof. destruct a; simpl; try done. apply Forall_true. done. Qed.

(** Every action that returns keeps [store_inv], an update carrying
    another id included. *)
Lemma apply_action_inv s a s' : store_inv s -> apply_action s a = JsOk s' -> store_inv s'.
Proof.
  intros Hs. apply (apply_action_wf (fun _ t => task_hydrated t) (fun _ _ => True)); auto.
  - intros t. apply hydrateTask_hydrated.
  - intros k u t _. apply applyTaskUpdate_hydrated.
  - intros k d r t. apply moveTask_hydrated.
  - apply action_ok_any.
Qed.

(** An action whose updates keep the ids keeps [store_wf]. *)
Lemma apply_action_store_wf s a s' :
  store_wf s -> action_ok a -> apply_action s a = JsOk s' -> store_wf s'.
Proof.
  apply (apply_action_wf task_entry_ok update_keeps_id); auto with gantt.
  intros k u Hu. by left.
Qed.

Lemma store_wf_check_sound s : store_wf_check s -> store_wf s.
Proof.
  intros (H1 & H2 & H3). split; [done|]. split; [by apply obj_Forall_entries|done].
Qed.

(** (C1) The store invariant, by induction on the actions a client
    performs, with any arguments: in every reachable state each
    collection is a JS object with unique keys, and every task's cached
    [_totalDuration] and [_endTime] agree with its [phases] and
    [startTime] (never stale).  That every task is stored under its own
    id is kept only by updates that carry no other [id]
    ([apply_action_store_wf]); [updateTask_other_id] shows one that
    breaks it. *)
Theorem reachable_store_wf (s : GanttStoreState) : reachable s -> store_inv s.
Proof.
  induction 1.
  - apply store_wf_initial.
  - apply store_wf_create.
  - by eapply apply_action_inv.
Qed.

Lemma reachable_store_wf_witness :
  reachable (updateTask example_store "t1" (mkTaskUpdate None None (Some [mkPhase setup 30 None])
                                              None None None None None None None None)) /\
  store_inv (updateTask example_store "t1" (mkTaskUpdate None None (Some [mkPhase setup 30 None])
                                              None None None None None None None None)).
Proof.
  assert (H : reachable (updateTask example_store "t1" (mkTaskUpdate None None
                (Some [mkPhase setup 30 None]) None None None None None None None None))).
  { apply (reach_step example_store (AUpdateTask "t1" (mkTaskUpdate None None
      (Some [mkPhase setup 30 None]) None None None None None None None None))); [|reflexivity].
    apply (reach_step (createInitialState 0) example_load); [apply reach_init|reflexivity]. }
  split; [exact H|]. exact (reachable_store_wf _ H).
Defined.

(** [Partial<StoredTask>] admits an [id]: [updateTask("t1", { id: "x" })]
    leaves the task under the key ["t1"] with [id] ["x"]. *)
Example updateTask_other_id :
  option_map task_id ((tasks (updateTask example_store "t1"
     (mkTaskUpdate (Some "x") None None None None None None None None None None)))⟦"t1"⟧%gantt) =
  Some "x".
Proof. vm_compute. reflexivity. Qed.

(** [updateTask(id, { color })] then [updateTask(id, { color: undefined })]:
    [Object.assign] copies the [undefined], so the colour is gone. *)
Example updateTask_color_undefined :
  let s1 := updateTask example_store "t1"
              (mkTaskUpdate None None None None None None (Some (Some "#fff")) None None None None) in
  option_map task_color ((tasks s1)⟦"t1"⟧%gantt) = Some (Some "#fff") /\
  option_map task_color ((tasks (updateTask s1 "t1"
     (mkTaskUpdate None None None None None None (Some None) None None None None)))⟦"t1"⟧%gantt) = Some None.
Proof. split; vm_compute; reflexivity. Qed.

(** (C2) [deleteTask] removes the task and exactly the dependencies
    incident to it: the loop over [Object.keys(state.dependencies)] equals
    the reference filter that keeps the non-incident dependencies in
    order; every other task is untouched. *)
Theorem deleteTask_spec (s : GanttStoreState) (taskId : string) :
  store_wf s ->
  (tasks (deleteTask s taskId))⟦taskId⟧%gantt = None /\
  (forall k, k <> taskId -> (tasks (deleteTask s taskId))⟦k⟧%gantt = (tasks s)⟦k⟧%gantt) /\
  dependencies (deleteTask s taskId) =
    filter (fun kv => ~ incident taskId kv.2) (dependencies s).
Proof.
  intros (_ & _ & _ & Hdeps & _). split_and!; simpl.
  - apply obj_get_delete_eq.
  - intros k Hk. by apply obj_get_delete_ne.
  - unfold deleteIncidentDeps. rewrite deleteIncidentDeps_loop by done.
    apply list_filter_iff_in. intros [k v] Hin; simpl.
    pose proof (obj_keys_elem_of _ _ _ Hin). naive_solver.
Qed.

Lemma example_store_wf : store_wf example_store.
Proof. apply store_wf_check_sound. apply (bool_decide_unpack _). vm_compute. reflexivity. Qed.

Lemma deleteTask_spec_witness :
  (tasks (deleteTask example_store "t2"))⟦"t2"⟧%gantt = None /\
  (forall k, k <> "t2" -> (tasks (deleteTask example_store "t2"))⟦k⟧%gantt =
                          (tasks example_store)⟦k⟧%gantt) /\
  dependencies (deleteTask example_store "t2") =
    filter (fun kv => ~ incident "t2" kv.2) (dependencies example_store).
Proof. apply deleteTask_spec. apply example_store_wf. Defined.

(** ** The drag lifecycle *)

Lemma getSnapIntervalMs_pos z m : (0 < getSnapIntervalMs z m)%Z.
Proof. unfold getSnapIntervalMs. destruct z; simpl; lia. Qed.

Lemma moveTasks_fold_fixed d r (ks : list string) (ts : jsobj Task) k t :
  ts⟦k⟧%gantt = Some t -> isFixedTime t = true ->
  (fold_left (fun ts taskId => obj_alter (moveTask d r) taskId ts) ks ts)⟦k⟧%gantt = Some t.
Proof.
  intros Hk Hf. revert ts Hk. induction ks as [|k' ks IH]; intros ts Hk; simpl; [done|].
  apply IH. destruct (decide (k' = k)) as [<-|Hne].
  - rewrite obj_get_alter_eq, Hk. simpl. unfold moveTask. by rewrite Hf.
  - by rewrite obj_get_alter_ne.
Qed.

(** (C3) A task with [constraints.fixedTime] is immovable by direct
    manipulation: [startDrag] refuses it (no drag state is created, the
    store is unchanged) and [moveTasks] leaves it as it is. *)
Theorem fixed_task_immovable (s : GanttStoreState) (k : string) (t : Task) :
  (tasks s)⟦k⟧%gantt = Some t -> isFixedTime t = true ->
  (forall ty x y, startDrag s k ty x y = s) /\
  (forall ks d r, (tasks (moveTasks s ks d r))⟦k⟧%gantt = Some t).
Proof.
  intros Hk Hf. split.
  - intros ty x y. unfold startDrag. by rewrite Hk, Hf.
  - intros ks d r. simpl. by apply moveTasks_fold_fixed.
Qed.

Lemma fixed_task_immovable_witness :
  exists t, (tasks example_store)⟦"t3"⟧%gantt = Some t /\
    (forall ty x y, startDrag example_store "t3" ty x y = example_store) /\
    (forall ks d r, (tasks (moveTasks example_store ks d r))⟦"t3"⟧%gantt = Some t).
Proof.
  eexists. split; [reflexivity|].
  apply fixed_task_immovable; reflexivity.
Defined.

(** A drag that recorded a dependency violation commits nothing:
    [commitDrag] only clears the drag, the tasks and dependencies are
    those before the drag. *)
Theorem commitDrag_blocked (s : GanttStoreState) (d : DragState) :
  drag s = Some d -> dependencyViolations d <> [] ->
  commitDrag s = JsOk (clearDrag s) /\ tasks (clearDrag s) = tasks s /\
  dependencies (clearDrag s) = dependencies s /\ drag (clearDrag s) = None.
Proof.
  intros Hd Hv. unfold commitDrag, commitDragSets. rewrite Hd.
  destruct (dependencyViolations d); [done|]. done.
Qed.

Lemma commitDrag_blocked_witness :
  let d := mkDrag move "t1" (hydrateTask example_t1)
             0 8400000 "r1" [] [mkViolation "d1" "t1 ends after t2 starts"] 0 0 500 0 in
  let s := with_drag example_store (Some d) in
  commitDrag s = JsOk (clearDrag s) /\ tasks (clearDrag s) = tasks s /\
  dependencies (clearDrag s) = dependencies s /\ drag (clearDrag s) = None.
Proof. intros d s. apply (commitDrag_blocked s d); [reflexivity | discriminate]. Defined.



(** Drag sessions never outlive a commit or a cancel: after
    [cancelDrag], and after every [commitDrag] that returns, there is no
    drag state. *)
Theorem drag_consumed (s s' : GanttStoreState) :
  drag (cancelDrag s) = None /\
  (drag s <> None -> commitDrag s = JsOk s' -> drag s' = None).
Proof.
  split; [done|]. intros Hd. unfold commitDrag, commitDragSets.
  destruct (drag s) as [d|]; [|done].
  destruct (dependencyViolations d); [|intros [= <-]; done].
  destruct (drag_type d);
    try (destruct ((tasks s)⟦drag_taskId d⟧%gantt); [|done];
         destruct (resizePhases _ _ _); [|done]);
    intros [= <-]; done.
Qed.

Lemma drag_consumed_witness :
  exists s', commitDrag (startDrag example_store "t1" move 0 0) = JsOk s' /\ drag s' = None.
Proof.
  eexists. split; [reflexivity|].
  apply (proj2 (drag_consumed (startDrag example_store "t1" move 0 0) _));
    [vm_compute; discriminate | reflexivity].
Defined.

Lemma commitDrag_drag s s' : commitDrag s = JsOk s' -> drag s' = None \/ drag s' = drag s.
Proof.
  unfold commitDrag, commitDragSets. destruct (drag s) as [d|] eqn:Hd; [|intros [= <-]; by right].
  destruct (dependencyViolations d); [|intros [= <-]; by left].
  destruct (drag_type d);
    try (destruct ((tasks s)⟦drag_taskId d⟧%gantt); [|done];
         destruct (resizePhases _ _ _); [|done]);
    intros [= <-]; by left.
Qed.

Lemma apply_action_drag_clean s a s' :
  drag_clean s -> apply_action s a = JsOk s' -> drag_clean s'.
Proof.
  intros Hc Ha d' Hd'. destruct a; simpl in Ha.
  all: try (destruct (commitDrag_drag _ _ Ha) as [E|E]; rewrite Hd' in E; [done | by apply Hc]).
  all: injection Ha as <-; simpl in Hd'; try discriminate; try by apply Hc.
  - unfold startDrag in Hd'. destruct ((tasks s)⟦taskId⟧%gantt); [|by apply Hc].
    destruct (isFixedTime t); [by apply Hc|]. by injection Hd' as <-.
  - unfold updateDrag in Hd'. destruct (drag s) as [d|] eqn:Hd; [|by apply Hc].
    destruct (Hc d Hd) as [H1 H2].
    cbn [drag with_drag] in Hd'. injection Hd' as <-. destruct (drag_type d); by split.
Qed.

(** (C5) No drag in any reachable state has a recorded collision or
    dependency violation: [startDrag] creates both lists empty and no
    action of the store fills them, so the commit-blocked branch of
    [commitDrag] is dead code in the shipped store. *)
Theorem reachable_drag_clean (s : GanttStoreState) (d : DragState) :
  reachable s -> drag s = Some d -> dependencyViolations d = [] /\ collisions d = [].
Proof.
  intros Hr. revert d. change (drag_clean s). induction Hr.
  - by intros d.
  - by intros d.
  - by eapply apply_action_drag_clean.
Qed.

Lemma reachable_drag_clean_witness :
  dependencyViolations (example_drag) = [] /\ collisions example_drag = [].
Proof.
  apply (reachable_drag_clean (startDrag example_store "t1" move 0 0)).
  - apply (reach_step example_store (AStartDrag "t1" move 0 0)); [|reflexivity].
    apply (reach_step (createInitialState 0) example_load); [constructor | reflexivity].
  - reflexivity.
Defined.

(** (C6) Committing a move with zero pointer movement (the pointer back at
    its start point) keeps the task's phases and resource but snaps its
    start to the grid: [startTime] becomes [Math.round(start / I) * I] for
    the snap interval [I], so it is unchanged exactly when the start was
    already a multiple of [I].  The spec asks for it to be unchanged
    always. *)
Theorem commit_without_movement (s : GanttStoreState) (k : string) (t : Task) (x y y' : Q) :
  (tasks s)⟦k⟧%gantt = Some t -> isFixedTime t = false ->
  let I := getSnapIntervalMs (zoomLevel (viewport s)) (minResolution s) in
  exists s' t', commitDrag (updateDrag (startDrag s k move x y) x y') = JsOk s' /\
    (tasks s')⟦k⟧%gantt = Some t' /\ phases t' = phases t /\ resourceId t' = resourceId t /\
    startTime t' = ((2 * startTime t + I) / (2 * I)) * I /\
    (startTime t' = startTime t <-> startTime t mod I = 0).
Proof.
  intros Hk Hf I. pose proof (getSnapIntervalMs_pos (zoomLevel (viewport s)) (minResolution s)) as HI.
  fold I in HI.
  unfold startDrag. rewrite Hk, Hf.
  set (sn := (js_round ((inject_Z (startTime t) + (x - x) * (1 / pixelsPerHour (viewport s))
                          * 60 * 60 * 1000) / inject_Z I) * I)%Z).
  assert (Hsn : sn = ((2 * startTime t + I) / (2 * I)) * I).
  { unfold sn. rewrite <- js_round_div by exact HI. f_equal. apply js_round_compat.
    assert (E : (x - x) * (1 / pixelsPerHour (viewport s)) * 60 * 60 * 1000 == 0) by ring.
    rewrite E, Qplus_0_r. reflexivity. }
  eexists _, (applyTaskUpdate (moveUpdate sn (resourceId t)) t).
  split; [reflexivity|]. simpl. rewrite obj_get_alter_eq, Hk. simpl.
  split_and!; try reflexivity.
  - exact Hsn.
  - rewrite Hsn. by apply round_div_mul_eq_iff.
Qed.

(** The task [t2] starts at 02:30; a click-drag without movement moves
    it to 03:00 at the [day] zoom level (hourly grid). *)
Lemma commit_without_movement_witness :
  exists s' t', commitDrag (updateDrag (startDrag example_store "t2" move 0 0) 0 5) = JsOk s' /\
    (tasks s')⟦"t2"⟧%gantt = Some t' /\ startTime t' = 10800000.
Proof.
  destruct (commit_without_movement example_store "t2" (hydrateTask example_t2) 0 0 5
              eq_refl eq_refl) as (s' & t' & H1 & H2 & _ & _ & H3 & _).
  exists s', t'. split_and!; [exact H1 | exact H2 | rewrite H3; reflexivity].
Defined.

(** (C4) [updateDrag] on a drag in progress records the pointer and
    recomputes the preview: a move shifts both ends by the pointer's time
    delta (so the previewed duration is the task's); a resize from the
    start never brings the start closer than [minResolution] minutes to
    the task's end and leaves the end alone; a resize from the end
    symmetrically. *)
Theorem updateDrag_preview (s : GanttStoreState) (d : DragState) (cx cy : Q) :
  drag s = Some d ->
  exists d', drag (updateDrag s cx cy) = Some d' /\ currentX d' = cx /\ currentY d' = cy /\
    let o := originalTask d in
    let minDur := inject_Z (minResolution s * 60 * 1000) in
    (match drag_type d with
    | move | reassign =>
        previewStartTime d' == inject_Z (startTime o) + (cx - startX d) / pixelsPerHour (viewport s) * 3600000 /\
        previewEndTime d' - previewStartTime d' == inject_Z (_endTime o) - inject_Z (startTime o)
    | resize_start =>
        previewStartTime d' <= inject_Z (_endTime o) - minDur /\ previewEndTime d' = previewEndTime d
    | resize_end =>
        inject_Z (startTime o) + minDur <= previewEndTime d' /\ previewStartTime d' = previewStartTime d
    end)%Q.
Proof.
  intros Hd. unfold updateDrag. rewrite Hd.
  destruct (drag_type d) eqn:Ht; eexists; (split; [reflexivity|]); simpl;
    repeat split; simpl.
  all: first [reflexivity | unfold Qdiv; ring | apply Q.le_min_r | apply Q.le_max_r].
Qed.

(** Dragging [t1] by 100 pixels at 10 pixels per hour previews it ten
    hours later. *)
Lemma updateDrag_preview_witness :
  exists d', drag (updateDrag (startDrag example_store "t1" move 0 0) 100 0) = Some d' /\
    (previewStartTime d' == 36000000)%Q.
Proof.
  destruct (updateDrag_preview (startDrag example_store "t1" move 0 0) _ 100 0 eq_refl)
    as (d' & H1 & _ & _ & Hp).
  exists d'. split; [exact H1|]. simpl in Hp. destruct Hp as [Hp _].
  rewrite Hp. reflexivity.
Defined.

(** The durations of a task determine its total. *)
Lemma calculateTotalDuration_durations ps :
  calculateTotalDuration ps = sumZ id (map duration ps).
Proof.
  unfold calculateTotalDuration. rewrite calculateTotalDuration_acc, sumZ_map. lia.
Qed.

(** The spec's resize scenario: a task with phases
    [[setup 20, execution 100, cleanup 20]] (140 minutes) resized to a new
    length of 70 minutes has every phase scaled by 0.5 and rounded:
    [[10, 50, 10]], with the phase types kept in order. *)
Theorem resize_scales_phases (o : Task) (start : Z) :
  task_hydrated o -> map duration (phases o) = [20; 100; 20] ->
  exists ps, resizePhases o start (start + 70 * 60 * 1000) = JsOk ps /\
    map duration ps = [10; 50; 10] /\ map phaseType ps = map phaseType (phases o).
Proof.
  intros [Htot _] Hd. unfold resizePhases.
  assert (H140 : _totalDuration o = 140) by
    (rewrite Htot, calculateTotalDuration_durations, Hd; reflexivity).
  rewrite H140. rewrite decide_False by lia.
  replace (start + 70 * 60 * 1000 - start) with 4200000 by lia.
  eexists. split; [reflexivity|]. split.
  - rewrite map_map. destruct (phases o) as [|p1 [|p2 [|p3 [|p4 ps]]]]; try discriminate.
    simpl in Hd. injection Hd as E1 E2 E3. simpl. rewrite E1, E2, E3. reflexivity.
  - rewrite map_map. reflexivity.
Qed.

Lemma resize_scales_phases_witness :
  exists ps, resizePhases (hydrateTask example_t1) 0 (0 + 70 * 60 * 1000) = JsOk ps /\
    map duration ps = [10; 50; 10] /\
    map phaseType ps = map phaseType (phases (hydrateTask example_t1)).
Proof. apply resize_scales_phases; [apply hydrateTask_hydrated | reflexivity]. Defined.

(** Rounding each phase separately makes a committed resize miss the
    snapped end: dragging the end of the 140-minute task above to one
    hour (snapped to the 30-minute grid) commits phases [[9, 43, 9]],
    61 minutes, so the task ends one minute after the grid line the snap
    guide showed. *)
Theorem resize_commit_rounding_drift :
  let s := updateDrag (startDrag resize_example_store "t1" resize_end 100 10) 20 10 in
  (exists d, drag s = Some d /\ (previewEndTime d == 3600000)%Q) /\
  match commitDrag s with
  | JsOk s' => option_map (fun t => (map duration (phases t), _endTime t)) ((tasks s')⟦"t1"⟧%gantt)
               = Some ([9; 43; 9], 3660000)
  | JsFail _ => False
  end.
Proof. split; [eexists; split; [reflexivity|]; vm_compute; reflexivity | vm_compute; reflexivity]. Qed.

(** ** Grouping and selection *)

(** Grouping state: switching the grouping mode collapses every
    group (the expanded set becomes empty), and toggling a group twice
    restores the grouping state exactly, whether the group was expanded
    or collapsed. *)
Theorem grouping_toggle_roundtrip (s : GanttStoreState) (m : GroupingMode) (g : string) :
  grouping (setGroupingMode s m) = mkGrouping m ∅ /\
  grouping (toggleGroup (toggleGroup s g) g) = grouping s.
Proof.
  split; [done|]. unfold toggleGroup; simpl.
  rewrite set_toggle_involutive. by destruct (grouping s).
Qed.

(** Selection: a plain click ([replace]) selects exactly the task,
    a modifier click ([toggle]) twice gives back the selected set, and
    [clearSelection] empties both sets; each records the last task. *)
Theorem selection_modes (s : GanttStoreState) (k : string) :
  sel_taskIds (selection (selectTask s k select_replace)) = {[k]} /\
  sel_taskIds (selection (selectTask (selectTask s k select_toggle) k select_toggle)) =
    sel_taskIds (selection s) /\
  lastSelectedTaskId (selection (selectTask s k select_toggle)) = Some k /\
  selection (clearSelection s) = mkSelection ∅ ∅ None.
Proof.
  split_and!; try reflexivity. simpl. apply set_toggle_involutive.
Qed.
