(* ===== verification/LegacyStore.v ===== *)
(** * LegacyStore: the split stores of the first chart

    [src/src/features/gantt/store/data-store.ts] ([useGanttDataStore]) and
    [src/unnamed/part_004] ([useGanttUIStore]) hold, in two zustand stores,
    what the composable Schedule Store (Store.v) holds in one: Module
    [DataStore] the collections, loading flag and error; Module [UIStore]
    the viewport, selection, grouping, drag and hover state.  The UI store
    reads the data store ([getState()]) in [selectAllTasks],
    [expandAllGroups] and [startDrag], and [commitDrag] calls the data
    store's [updateTask] before clearing its own drag: a [World] holds both.

    The code of each action is the code of the composable store's action
    of the same name, and the pure helpers are shared with Store.v
    ([applyTaskUpdate], [moveTask], [deleteIncidentDeps], ...).  The
    theorems relate the two: projecting the composable store onto the
    split stores commutes with every data action, and with [updateDrag]
    when [minResolution] is the legacy store's fixed 15 minutes.  The
    legacy [commitDrag] differs: it neither snaps nor rounds the preview
    times. *)

From S2P Require Import Prelude Types TaskUtils Viewport Store.

Open Scope Z_scope.

Module DataStore.

(** [GanttDataState] *)
Record GanttDataState := mkData {
  tasks : jsobj Task;
  resources : jsobj Resource;
  dependencies : jsobj TaskDependency;
  orders : jsobj Order;
  groups : jsobj ResourceGroup;
  isLoading : bool;
  error : option string;
}.

(** [initialState] *)
Definition initialState : GanttDataState := mkData [] [] [] [] [] false None.

Definition with_tasks (s : GanttDataState) (x : jsobj Task) : GanttDataState :=
  mkData x (resources s) (dependencies s) (orders s) (groups s) (isLoading s) (error s).
Definition with_resources (s : GanttDataState) (x : jsobj Resource) : GanttDataState :=
  mkData (tasks s) x (dependencies s) (orders s) (groups s) (isLoading s) (error s).
Definition with_dependencies (s : GanttDataState) (x : jsobj TaskDependency) : GanttDataState :=
  mkData (tasks s) (resources s) x (orders s) (groups s) (isLoading s) (error s).
Definition with_orders (s : GanttDataState) (x : jsobj Order) : GanttDataState :=
  mkData (tasks s) (resources s) (dependencies s) x (groups s) (isLoading s) (error s).
Definition with_groups (s : GanttDataState) (x : jsobj ResourceGroup) : GanttDataState :=
  mkData (tasks s) (resources s) (dependencies s) (orders s) x (isLoading s) (error s).

(** [setTasks] *)
Definition setTasks (s : GanttDataState) (ts : list StoredTask) : GanttDataState :=
  with_tasks s (obj_of_list st_id hydrateTask ts).

(** [addTask] *)
Definition addTask (s : GanttDataState) (t : StoredTask) : GanttDataState :=
  with_tasks s (obj_set (st_id t) (hydrateTask t) (tasks s)).

(** [updateTask]: [Object.assign] and the recomputation of the cached
    fields, on a known id only. *)
Definition updateTask (s : GanttDataState) (taskId : string) (u : TaskUpdate) : GanttDataState :=
  with_tasks s (obj_alter (applyTaskUpdate u) taskId (tasks s)).

(** [deleteTask]: the task, then every dependency incident to it. *)
Definition deleteTask (s : GanttDataState) (taskId : string) : GanttDataState :=
  with_dependencies (with_tasks s (obj_delete taskId (tasks s)))
    (deleteIncidentDeps taskId (dependencies s)).

(** [updateTasks] *)
Definition updateTasks (s : GanttDataState) (ups : list (string * TaskUpdate)) : GanttDataState :=
  with_tasks s (fold_left (fun ts up => obj_alter (applyTaskUpdate up.2) up.1 ts)
                          ups (tasks s)).

(** [moveTasks]: fixed tasks are skipped. *)
Definition moveTasks (s : GanttDataState) (taskIds : list string) (deltaTime : Z)
    (newResourceId : option string) : GanttDataState :=
  with_tasks s (fold_left (fun ts taskId => obj_alter (moveTask deltaTime newResourceId) taskId ts)
                          taskIds (tasks s)).

(** [setResources] *)
Definition setResources (s : GanttDataState) (rs : list Resource) : GanttDataState :=
  with_resources s (obj_of_list resource_id id rs).

(** [addResource] *)
Definition addResource (s : GanttDataState) (r : Resource) : GanttDataState :=
  with_resources s (obj_set (resource_id r) r (resources s)).

(** [updateResource] *)
Definition updateResource (s : GanttDataState) (resId : string) (u : ResourceUpdate)
    : GanttDataState :=
  with_resources s (obj_alter (applyResourceUpdate u) resId (resources s)).

(** [deleteResource] *)
Definition deleteResource (s : GanttDataState) (resId : string) : GanttDataState :=
  with_resources s (obj_delete resId (resources s)).

(** [setDependencies] *)
Definition setDependencies (s : GanttDataState) (ds : list TaskDependency) : GanttDataState :=
  with_dependencies s (obj_of_list dep_id id ds).

(** [addDependency] *)
Definition addDependency (s : GanttDataState) (d : TaskDependency) : GanttDataState :=
  with_dependencies s (obj_set (dep_id d) d (dependencies s)).

(** [removeDependency] *)
Definition removeDependency (s : GanttDataState) (depId : string) : GanttDataState :=
  with_dependencies s (obj_delete depId (dependencies s)).

(** [setOrders] *)
Definition setOrders (s : GanttDataState) (os : list Order) : GanttDataState :=
  with_orders s (obj_of_list order_id id os).

(** [setGroups] *)
Definition setGroups (s : GanttDataState) (gs : list ResourceGroup) : GanttDataState :=
  with_groups s (obj_of_list group_id id gs).

(** [setLoading] *)
Definition setLoading (s : GanttDataState) (b : bool) : GanttDataState :=
  mkData (tasks s) (resources s) (dependencies s) (orders s) (groups s) b (error s).

(** [setError] *)
Definition setError (s : GanttDataState) (e : option string) : GanttDataState :=
  mkData (tasks s) (resources s) (dependencies s) (orders s) (groups s) (isLoading s) e.

(** [initializeData]: every collection replaced (an absent optional one
    by [{}]), loading and error reset. *)
Definition initializeData (s : GanttDataState) (ts : list StoredTask) (rs : list Resource)
    (ds : option (list TaskDependency)) (os : option (list Order))
    (gs : option (list ResourceGroup)) : GanttDataState :=
  mkData (obj_of_list st_id hydrateTask ts) (obj_of_list resource_id id rs)
    (obj_of_list dep_id id (default [] ds)) (obj_of_list order_id id (default [] os))
    (obj_of_list group_id id (default [] gs)) false None.

(** One call of an action of [GanttDataActions]. *)
Inductive DataAction :=
  | DSetTasks (ts : list StoredTask)
  | DAddTask (t : StoredTask)
  | DUpdateTask (taskId : string) (u : TaskUpdate)
  | DDeleteTask (taskId : string)
  | DUpdateTasks (ups : list (string * TaskUpdate))
  | DMoveTasks (taskIds : list string) (deltaTime : Z) (newResourceId : option string)
  | DSetResources (rs : list Resource)
  | DAddResource (r : Resource)
  | DUpdateResource (resId : string) (u : ResourceUpdate)
  | DDeleteResource (resId : string)
  | DSetDependencies (ds : list TaskDependency)
  | DAddDependency (d : TaskDependency)
  | DRemoveDependency (depId : string)
  | DSetOrders (os : list Order)
  | DSetGroups (gs : list ResourceGroup)
  | DSetLoading (b : bool)
  | DSetError (e : option string)
  | DInitializeData (ts : list StoredTask) (rs : list Resource)
      (ds : option (list TaskDependency)) (os : option (list Order)) (gs : option (list ResourceGroup)).

Definition apply_data (s : GanttDataState) (a : DataAction) : GanttDataState :=
  match a with
  | DSetTasks ts => setTasks s ts
  | DAddTask t => addTask s t
  | DUpdateTask k u => updateTask s k u
  | DDeleteTask k => deleteTask s k
  | DUpdateTasks ups => updateTasks s ups
  | DMoveTasks ks d r => moveTasks s ks d r
  | DSetResources rs => setResources s rs
  | DAddResource r => addResource s r
  | DUpdateResource k u => updateResource s k u
  | DDeleteResource k => deleteResource s k
  | DSetDependencies ds => setDependencies s ds
  | DAddDependency d => addDependency s d
  | DRemoveDependency k => removeDependency s k
  | DSetOrders os => setOrders s os
  | DSetGroups gs => setGroups s gs
  | DSetLoading b => setLoading s b
  | DSetError e => setError s e
  | DInitializeData ts rs ds os gs => initializeData s ts rs ds os gs
  end.

(** The action of the composable store with the same code. *)
Definition store_action (a : DataAction) : StoreAction :=
  match a with
  | DSetTasks ts => ASetTasks ts
  | DAddTask t => AAddTask t
  | DUpdateTask k u => AUpdateTask k u
  | DDeleteTask k => ADeleteTask k
  | DUpdateTasks ups => AUpdateTasks ups
  | DMoveTasks ks d r => AMoveTasks ks d r
  | DSetResources rs => ASetResources rs
  | DAddResource r => AAddResource r
  | DUpdateResource k u => AUpdateResource k u
  | DDeleteResource k => ADeleteResource k
  | DSetDependencies ds => ASetDependencies ds
  | DAddDependency d => AAddDependency d
  | DRemoveDependency k => ARemoveDependency k
  | DSetOrders os => ASetOrders os
  | DSetGroups gs => ASetGroups gs
  | DSetLoading b => ASetLoading b
  | DSetError e => ASetError e
  | DInitializeData ts rs ds os gs => AInitializeData ts rs ds os gs
  end.

(** The data part of a composable store. *)
Definition data_of (s : GanttStoreState) : GanttDataState :=
  mkData (Store.tasks s) (Store.resources s) (Store.dependencies s) (Store.orders s)
    (Store.groups s) (Store.isLoading s) (Store.error s).

End DataStore.

Module UIStore.

Import DataStore.

(** [GanttUIState] *)
Record GanttUIState := mkUI {
  viewport : ViewportState;
  selection : SelectionState;
  grouping : GroupingState;
  drag : option DragState;
  hoveredTaskId : option string;
  sidebarWidth : Q;
}.

(** [initialState]: built once, when the module is loaded; [loadTime] is
    the [Date.now()] of that moment. *)
Definition initialState (loadTime : Z) : GanttUIState :=
  mkUI (mkViewport 0 (inject_Z (loadTime - 24 * 60 * 60 * 1000)) 10 0 40 0 0 day)
    (mkSelection ∅ ∅ None) (mkGrouping mode_none ∅) None None 200.

Definition with_viewport (s : GanttUIState) (x : ViewportState) : GanttUIState :=
  mkUI x (selection s) (grouping s) (drag s) (hoveredTaskId s) (sidebarWidth s).
Definition with_selection (s : GanttUIState) (x : SelectionState) : GanttUIState :=
  mkUI (viewport s) x (grouping s) (drag s) (hoveredTaskId s) (sidebarWidth s).
Definition with_grouping (s : GanttUIState) (x : GroupingState) : GanttUIState :=
  mkUI (viewport s) (selection s) x (drag s) (hoveredTaskId s) (sidebarWidth s).
Definition with_drag (s : GanttUIState) (x : option DragState) : GanttUIState :=
  mkUI (viewport s) (selection s) (grouping s) x (hoveredTaskId s) (sidebarWidth s).

(** The viewport actions: the recipes of Viewport.v on [state.viewport]. *)
Definition ui_setViewport (s : GanttUIState) (u : ViewportUpdate) : GanttUIState :=
  with_viewport s (setViewport (viewport s) u).
Definition ui_panViewport (s : GanttUIState) (dx dy : Q) : GanttUIState :=
  with_viewport s (panViewport (viewport s) dx dy).
Definition ui_zoomViewport (s : GanttUIState) (factor centerX : Q) : GanttUIState :=
  with_viewport s (zoomViewport (viewport s) factor centerX).
Definition ui_setZoomLevel (s : GanttUIState) (z : ZoomLevel) : GanttUIState :=
  with_viewport s (setZoomLevel (viewport s) z).
Definition ui_scrollToTime (s : GanttUIState) (t : Q) : GanttUIState :=
  with_viewport s (scrollToTime (viewport s) t).
Definition ui_scrollToRow (s : GanttUIState) (i : Q) : GanttUIState :=
  with_viewport s (scrollToRow (viewport s) i).

(** [selectTask] *)
Definition selectTask (s : GanttUIState) (taskId : string) (m : SelectMode) : GanttUIState :=
  let sel := selection s in
  let ids := match m with
             | select_replace => {[taskId]}
             | select_add => {[taskId]} ∪ sel_taskIds sel
             | select_toggle => set_toggle taskId (sel_taskIds sel)
             end in
  with_selection s (mkSelection ids (sel_resourceIds sel) (Some taskId)).

(** [selectTasks] *)
Definition selectTasks (s : GanttUIState) (taskIds : list string) (replace : bool) : GanttUIState :=
  let sel := selection s in
  let ids := if replace then list_to_set taskIds else list_to_set taskIds ∪ sel_taskIds sel in
  let last_ := match last taskIds with Some l => Some l | None => lastSelectedTaskId sel end in
  with_selection s (mkSelection ids (sel_resourceIds sel) last_).

(** [clearSelection] *)
Definition clearSelection (s : GanttUIState) : GanttUIState :=
  with_selection s (mkSelection ∅ ∅ None).

(** [selectAllTasks]: the keys of the data store's tasks. *)
Definition selectAllTasks (ds : GanttDataState) (s : GanttUIState) : GanttUIState :=
  let sel := selection s in
  with_selection s (mkSelection (list_to_set (obj_keys (tasks ds))) (sel_resourceIds sel)
                                (lastSelectedTaskId sel)).

(** [setGroupingMode] *)
Definition setGroupingMode (s : GanttUIState) (m : GroupingMode) : GanttUIState :=
  with_grouping s (mkGrouping m ∅).

(** [toggleGroup] *)
Definition toggleGroup (s : GanttUIState) (gid : string) : GanttUIState :=
  let g := grouping s in
  with_grouping s (mkGrouping (mode g) (set_toggle gid (expandedGroups g))).

(** [expandAllGroups]: the keys of the data store's groups. *)
Definition expandAllGroups (ds : GanttDataState) (s : GanttUIState) : GanttUIState :=
  with_grouping s (mkGrouping (mode (grouping s)) (list_to_set (obj_keys (groups ds)))).

(** [collapseAllGroups] *)
Definition collapseAllGroups (s : GanttUIState) : GanttUIState :=
  with_grouping s (mkGrouping (mode (grouping s)) ∅).

(** [startDrag]: the task is read from the data store; no drag for an
    unknown or fixed task. *)
Definition startDrag (ds : GanttDataState) (s : GanttUIState) (taskId : string) (ty : DragType)
    (x y : Q) : GanttUIState :=
  match (tasks ds)⟦taskId⟧%gantt with
  | None => s
  | Some t =>
      if isFixedTime t then s else
      with_drag s (Some (mkDrag ty taskId t (inject_Z (startTime t)) (inject_Z (_endTime t))
                                (resourceId t) [] [] x y x y))
  end.

(** [updateDrag]: as the composable store's, with a fixed minimum of 15
    minutes for a resize. *)
Definition updateDrag (s : GanttUIState) (cx cy : Q) : GanttUIState :=
  match drag s with
  | None => s
  | Some d =>
      let deltaX := (cx - startX d)%Q in
      let hoursPerPixel := (1 / pixelsPerHour (viewport s))%Q in
      let deltaTimeMs := (deltaX * hoursPerPixel * 60 * 60 * 1000)%Q in
      let o := originalTask d in
      let d' := match drag_type d with
        | move | reassign =>
            dragWithPreview d (inject_Z (startTime o) + deltaTimeMs)%Q
                              (inject_Z (_endTime o) + deltaTimeMs)%Q cx cy
        | resize_start =>
            dragWithPreview d (Qmin (inject_Z (startTime o) + deltaTimeMs)%Q
                                    (inject_Z (_endTime o) - 15 * 60 * 1000)%Q)
                              (previewEndTime d) cx cy
        | resize_end =>
            dragWithPreview d (previewStartTime d)
                              (Qmax (inject_Z (_endTime o) + deltaTimeMs)%Q
                                    (inject_Z (startTime o) + 15 * 60 * 1000)%Q) cx cy
        end in
      with_drag s (Some d')
  end.

(** [cancelDrag] *)
Definition cancelDrag (s : GanttUIState) : GanttUIState := with_drag s None.

(** [setHoveredTask] *)
Definition setHoveredTask (s : GanttUIState) (t : option string) : GanttUIState :=
  mkUI (viewport s) (selection s) (grouping s) (drag s) t (sidebarWidth s).

(** [setSidebarWidth] *)
Definition setSidebarWidth (s : GanttUIState) (w : Q) : GanttUIState :=
  mkUI (viewport s) (selection s) (grouping s) (drag s) (hoveredTaskId s) (Qmax 100 (Qmin 400 w)).

(** [reset]: [set(initialState)], the state built at load time. *)
Definition reset (loadTime : Z) (_ : GanttUIState) : GanttUIState := initialState loadTime.

(** The new phases of a legacy resize, from the unsnapped preview times. *)
Definition resizePhasesQ (o : Task) (previewStart previewEnd : Q) : js_result (list TaskPhase) :=
  if decide (_totalDuration o = 0) then
    match phases o with [] => JsOk [] | _ => JsFail NotANumber end
  else
    let newDurationMinutes := ((previewEnd - previewStart) / inject_Z (60 * 1000))%Q in
    let scaleFactor := (newDurationMinutes / inject_Z (_totalDuration o))%Q in
    JsOk (map (scalePhase scaleFactor) (phases o)).

(** Both stores. *)
Record World := mkWorld { data : GanttDataState; ui : GanttUIState }.

(** [commitDrag]: the call of the data store's [updateTask] it makes, if
    any, and the UI store after it.  Without a drag nothing; with a
    dependency violation the drag is dropped; otherwise the data store's
    [updateTask] with the preview values as they are (neither snapped
    nor rounded), then the drag is cleared.  A resize of a task no longer in the data store
    throws before any [set].  JavaScript stores a fractional preview
    start as it is, and NaN durations for a task whose phases sum to 0;
    the model's start times and durations are [Z], so these two cases
    stop with the faults [FractionalTime] and [NotANumber]. *)
Definition commitDragCall (w : World) : js_result (option (string * TaskUpdate) * GanttUIState) :=
  match drag (ui w) with
  | None => JsOk (None, ui w)
  | Some d =>
      match dependencyViolations d with
      | _ :: _ => JsOk (None, cancelDrag (ui w))
      | [] =>
          match drag_type d with
          | move | reassign =>
              match Q_to_Z_exact (previewStartTime d) with
              | None => JsFail FractionalTime
              | Some st =>
                  JsOk (Some (drag_taskId d, moveUpdate st (previewResourceId d)), cancelDrag (ui w))
              end
          | resize_start | resize_end =>
              match (tasks (data w))⟦drag_taskId d⟧%gantt with
              | None => JsFail TypeError_undefined
              | Some o =>
                  match resizePhasesQ o (previewStartTime d) (previewEndTime d) with
                  | JsFail f => JsFail f
                  | JsOk ps =>
                      match Q_to_Z_exact (previewStartTime d) with
                      | None => JsFail FractionalTime
                      | Some st => JsOk (Some (drag_taskId d, resizeUpdate st ps), cancelDrag (ui w))
                      end
                  end
              end
          end
      end
  end.

(** Both stores after [commitDrag]. *)
Definition commitDrag (w : World) : js_result World :=
  match commitDragCall w with
  | JsOk (call, ui') =>
      JsOk (mkWorld (match call with Some (k, u) => updateTask (data w) k u | None => data w end) ui')
  | JsFail f => JsFail f
  end.

(** One call of an action of [GanttUIActions] other than [commitDrag]
    and [reset]. *)
Inductive UIAction :=
  | USetViewport (u : ViewportUpdate)
  | UPanViewport (dx dy : Q)
  | UZoomViewport (factor centerX : Q)
  | USetZoomLevel (z : ZoomLevel)
  | UScrollToTime (t : Q)
  | UScrollToRow (i : Q)
  | USelectTask (taskId : string) (m : SelectMode)
  | USelectTasks (taskIds : list string) (replace : bool)
  | UClearSelection
  | USelectAllTasks
  | USetGroupingMode (m : GroupingMode)
  | UToggleGroup (gid : string)
  | UExpandAllGroups
  | UCollapseAllGroups
  | UStartDrag (taskId : string) (ty : DragType) (x y : Q)
  | UUpdateDrag (x y : Q)
  | UCancelDrag
  | USetHoveredTask (t : option string)
  | USetSidebarWidth (w : Q).

Definition apply_ui (ds : GanttDataState) (s : GanttUIState) (a : UIAction) : GanttUIState :=
  match a with
  | USetViewport u => ui_setViewport s u
  | UPanViewport dx dy => ui_panViewport s dx dy
  | UZoomViewport f c => ui_zoomViewport s f c
  | USetZoomLevel z => ui_setZoomLevel s z
  | UScrollToTime t => ui_scrollToTime s t
  | UScrollToRow i => ui_scrollToRow s i
  | USelectTask k m => selectTask s k m
  | USelectTasks ks b => selectTasks s ks b
  | UClearSelection => clearSelection s
  | USelectAllTasks => selectAllTasks ds s
  | USetGroupingMode m => setGroupingMode s m
  | UToggleGroup g => toggleGroup s g
  | UExpandAllGroups => expandAllGroups ds s
  | UCollapseAllGroups => collapseAllGroups s
  | UStartDrag k ty x y => startDrag ds s k ty x y
  | UUpdateDrag x y => updateDrag s x y
  | UCancelDrag => cancelDrag s
  | USetHoveredTask t => setHoveredTask s t
  | USetSidebarWidth w => setSidebarWidth s w
  end.

(** A call on either store. *)
Inductive WorldAction :=
  | WData (a : DataAction)
  | WUI (a : UIAction)
  | WCommitDrag
  | WReset.

(** The two stores under a sequence of calls; [loadTime] is when the UI
    store's module was loaded. *)
Definition step (loadTime : Z) (w : World) (a : WorldAction) : js_result World :=
  match a with
  | WData a => JsOk (mkWorld (apply_data (data w) a) (ui w))
  | WUI a => JsOk (mkWorld (data w) (apply_ui (data w) (ui w) a))
  | WCommitDrag => commitDrag w
  | WReset => JsOk (mkWorld (data w) (reset loadTime (ui w)))
  end.

(** The composable action with the same code. *)
Definition store_ui_action (a : UIAction) : StoreAction :=
  match a with
  | USetViewport u => ASetViewport u
  | UPanViewport dx dy => APanViewport dx dy
  | UZoomViewport f c => AZoomViewport f c
  | USetZoomLevel z => ASetZoomLevel z
  | UScrollToTime t => AScrollToTime t
  | UScrollToRow i => AScrollToRow i
  | USelectTask k m => ASelectTask k m
  | USelectTasks ks b => ASelectTasks ks b
  | UClearSelection => AClearSelection
  | USelectAllTasks => ASelectAllTasks
  | USetGroupingMode m => ASetGroupingMode m
  | UToggleGroup g => AToggleGroup g
  | UExpandAllGroups => AExpandAllGroups
  | UCollapseAllGroups => ACollapseAllGroups
  | UStartDrag k ty x y => AStartDrag k ty x y
  | UUpdateDrag x y => AUpdateDrag x y
  | UCancelDrag => ACancelDrag
  | USetHoveredTask t => ASetHoveredTask t
  | USetSidebarWidth w => ASetSidebarWidth w
  end.

(** The UI part of a composable store, and the split stores of one. *)
Definition ui_of (s : GanttStoreState) : GanttUIState :=
  mkUI (Store.viewport s) (Store.selection s) (Store.grouping s) (Store.drag s)
    (Store.hoveredTaskId s) (Store.sidebarWidth s).

Definition world_of (s : GanttStoreState) : World := mkWorld (data_of s) (ui_of s).

End UIStore.

(** ** The split stores and the composable store *)

(** The legacy [commitDrag] writes the preview start time as it is,
    where the composable store writes it snapped to the grid: for a move
    drag without dependency violation whose preview start is a whole
    number [z] of milliseconds, the legacy commit gives the task start
    [z], the composable commit [Math.round(z / I) * I] for the snap
    interval [I]; both keep the resource of the preview and clear the
    drag. *)
Theorem legacy_commit_unsnapped (s : GanttStoreState) (d : DragState) (z : Z) :
  drag s = Some d -> dependencyViolations d = [] -> drag_type d = move ->
  previewStartTime d == inject_Z z ->
  UIStore.commitDrag (UIStore.world_of s) =
    JsOk (UIStore.mkWorld
            (DataStore.updateTask (DataStore.data_of s) (drag_taskId d)
               (moveUpdate z (previewResourceId d)))
            (UIStore.cancelDrag (UIStore.ui_of s))) /\
  exists s', commitDrag s = JsOk s' /\
    DataStore.data_of s' =
      DataStore.updateTask (DataStore.data_of s) (drag_taskId d)
        (moveUpdate (js_round (previewStartTime d /
                       inject_Z (getSnapIntervalMs (zoomLevel (viewport s)) (minResolution s)))
                     * getSnapIntervalMs (zoomLevel (viewport s)) (minResolution s))
                    (previewResourceId d)) /\
    UIStore.ui_of s' = UIStore.cancelDrag (UIStore.ui_of s).
Proof.
  intros Hd Hv Ht Hz. unfold UIStore.commitDrag, UIStore.commitDragCall, commitDrag, commitDragSets. simpl.
  rewrite Hd, Hv, Ht, (Q_to_Z_exact_eq _ _ Hz).
  split; [reflexivity|]. eexists; split_and!; reflexivity.
Qed.

(** A drag ended at a fraction of a millisecond: after a wheel zoom by
    1.1 (11 pixels per hour) a move by one pixel previews [3600000 / 11]
    ms, which the legacy commit would store as the task's start. *)
Lemma legacy_commit_fractional (w : UIStore.World) (d : DragState) :
  UIStore.drag (UIStore.ui w) = Some d -> dependencyViolations d = [] ->
  drag_type d = move -> (forall z : Z, ~ previewStartTime d == inject_Z z) ->
  UIStore.commitDrag w = JsFail FractionalTime.
Proof.
  intros Hd Hv Ht Hz. unfold UIStore.commitDrag, UIStore.commitDragCall.
  rewrite Hd, Hv, Ht, (Q_to_Z_exact_None _ Hz). reflexivity.
Qed.

Definition legacy_example_world : UIStore.World :=
  let ds := DataStore.setTasks DataStore.initialState [example_t1] in
  let ui := UIStore.ui_zoomViewport (UIStore.initialState 0) (11 # 10) 0 in
  let ui := UIStore.startDrag ds ui "t1" move 0 0 in
  UIStore.mkWorld ds (UIStore.updateDrag ui 1 0).

Example legacy_example_fractional :
  UIStore.commitDrag legacy_example_world = JsFail FractionalTime.
Proof. vm_compute. reflexivity. Qed.


(** A move by one pixel at 10 pixels per hour: the legacy commit stores
    the start 360000 (6 minutes), the composable one snaps it to 0 on the
    30-minute grid. *)
Definition legacy_move_store : GanttStoreState :=
  updateDrag (startDrag (setTasks (createInitialState 0) [example_t1]) "t1" move 0 0) 1 0.

Definition legacy_move_drag : DragState :=
  match drag legacy_move_store with Some d => d | None => example_drag end.

Lemma legacy_commit_unsnapped_witness :
  UIStore.commitDrag (UIStore.world_of legacy_move_store) =
    JsOk (UIStore.mkWorld
            (DataStore.updateTask (DataStore.data_of legacy_move_store) "t1" (moveUpdate 360000 "r1"))
            (UIStore.cancelDrag (UIStore.ui_of legacy_move_store))) /\
  exists s', commitDrag legacy_move_store = JsOk s' /\
    DataStore.data_of s' =
      DataStore.updateTask (DataStore.data_of legacy_move_store) "t1" (moveUpdate 0 "r1") /\
    UIStore.ui_of s' = UIStore.cancelDrag (UIStore.ui_of legacy_move_store).
Proof.
  apply (legacy_commit_unsnapped legacy_move_store legacy_move_drag 360000);
    [reflexivity..|vm_compute; reflexivity].
Defined.
