(* ===== verification/History.v ===== *)
(** * History: the undo history of the stores (zundo's [temporal])

    Both the composable store ([src/unnamed/part_001], [createGanttStore])
    and the legacy data store ([data-store.ts]) wrap their recipes in
    zundo's [temporal] middleware with [limit: 50] and an [equality] that
    compares the [tasks] and [dependencies] of the state before and after
    a [set].  zundo is a library, not code of the repository; Section
    [Temporal] models its documented behaviour for a store of any state
    type [S]: every [set] of the store first computes the new state, then
    ([_handleSet]) pushes the state before it on [pastStates] (dropping
    the oldest entry when [limit] entries are already there) and empties
    [futureStates], unless [equality] holds; [undo] and [redo] move one
    state between the two stacks and write it back with the store's own
    [setState], which records nothing.  With no [partialize] option the
    snapshots are whole states.

    The code's [equality] compares object identities ([===]).  The
    model's states are values, so [equality] is computed from the writes
    of the recipe between the two states, with Immer's rules: a
    collection gets a new object exactly when a write changed its draft,
    where assigning the number or string already there, or deleting an
    absent key, changes nothing, and assigning an object or an array
    ([{}], [hydrateTask(task)], an argument, [phases.map(...)]) always
    does.  So [setTasks] with the tasks already there is recorded, and
    so is every resize commit; an update that writes the values already
    there is not.  Arguments are taken to be new objects, not objects
    read from the store.  The lemmas of Section [Temporal] hold for any
    [equality].

    [storeEquality] and [tracked_step] instantiate it for the composable
    store: every action is one [set], [commitDrag] its sequence of
    [set]s ([CommitSet]); [dataEquality] and [dataStep] for the legacy
    data store.  [storeEquality_sound]: a [set] that [equality] calls no
    change changes neither the tasks nor the dependencies, so every
    change of them is recorded. *)

From S2P Require Import Prelude Types TaskUtils Viewport Store LegacyStore.

Section Temporal.

Context {S : Type}.
Variable equality : S -> S -> bool.
Variable limit : nat.

(** zundo's temporal state: both stacks with their newest entry last. *)
Record TemporalState := mkTemporal {
  pastStates : list S;
  futureStates : list S;
}.

(** A store under the middleware: its state and its temporal state. *)
Record Tracked := mkTracked {
  present : S;
  temporal : TemporalState;
}.

Definition emptyTemporal : TemporalState := mkTemporal [] [].

(** [_handleSet]: called after a [set] with the state before it. *)
Definition handleSet (h : TemporalState) (pastState currentState : S) : TemporalState :=
  if equality pastState currentState then h else
  let past := if decide (limit <> 0 /\ limit <= length (pastStates h))%nat
              then tail (pastStates h) else pastStates h in
  mkTemporal (past ++ [pastState]) [].

(** One [set] of the store, through the middleware. *)
Definition tracked_set (t : Tracked) (f : S -> S) : Tracked :=
  let s' := f (present t) in
  mkTracked s' (handleSet (temporal t) (present t) s').

(** Several [set]s in order. *)
Definition tracked_sets (t : Tracked) (fs : list (S -> S)) : Tracked :=
  fold_left tracked_set fs t.

(** [undo()]: the newest past state becomes the state, the state the
    newest future state. *)
Definition undo (t : Tracked) : Tracked :=
  match last (pastStates (temporal t)) with
  | None => t
  | Some next =>
      mkTracked next (mkTemporal (removelast (pastStates (temporal t)))
                                 (futureStates (temporal t) ++ [present t]))
  end.

(** [redo()]: symmetric. *)
Definition redo (t : Tracked) : Tracked :=
  match last (futureStates (temporal t)) with
  | None => t
  | Some next =>
      mkTracked next (mkTemporal (pastStates (temporal t) ++ [present t])
                                 (removelast (futureStates (temporal t))))
  end.

(** The history's size: what zundo's [limit] bounds. *)
Definition history_size (t : Tracked) : nat :=
  length (pastStates (temporal t)) + length (futureStates (temporal t)).

Lemma undo_redo (t : Tracked) : pastStates (temporal t) <> [] -> redo (undo t) = t.
Proof.
  destruct t as [p [past fut]]; simpl. intros Hne.
  destruct (exists_last Hne) as [l [x ->]].
  unfold undo; simpl. rewrite last_snoc, removelast_last.
  unfold redo; simpl. rewrite last_snoc, removelast_last. reflexivity.
Qed.

Lemma redo_undo (t : Tracked) : futureStates (temporal t) <> [] -> undo (redo t) = t.
Proof.
  destruct t as [p [past fut]]; simpl. intros Hne.
  destruct (exists_last Hne) as [l [x ->]].
  unfold redo; simpl. rewrite last_snoc, removelast_last.
  unfold undo; simpl. rewrite last_snoc, removelast_last. reflexivity.
Qed.

Lemma undo_nil (t : Tracked) : pastStates (temporal t) = [] -> undo t = t.
Proof. unfold undo. by intros ->. Qed.

Lemma redo_nil (t : Tracked) : futureStates (temporal t) = [] -> redo t = t.
Proof. unfold redo. by intros ->. Qed.

Lemma history_size_set (t : Tracked) (f : S -> S) :
  (0 < limit)%nat -> (history_size t <= limit)%nat -> (history_size (tracked_set t f) <= limit)%nat.
Proof.
  unfold history_size, tracked_set, handleSet. simpl. intros Hl Hs.
  destruct (equality _ _); [exact Hs|]. simpl.
  rewrite length_app. simpl.
  case_decide as Hd; [destruct (pastStates (temporal t)); simpl in *; lia|lia].
Qed.

Lemma history_size_undo (t : Tracked) : history_size (undo t) = history_size t.
Proof.
  unfold history_size, undo. destruct (last _) eqn:E; [|done]. simpl.
  apply last_Some in E as [l ->]. rewrite removelast_last, !length_app. simpl. lia.
Qed.

Lemma history_size_redo (t : Tracked) : history_size (redo t) = history_size t.
Proof.
  unfold history_size, redo. destruct (last _) eqn:E; [|done]. simpl.
  apply last_Some in E as [l ->]. rewrite removelast_last, !length_app. simpl. lia.
Qed.

(** A [set] whose change [equality] sees, with room left in the history:
    one more past entry and no future. *)
Lemma tracked_set_push (t : Tracked) (f : S -> S) :
  equality (present t) (f (present t)) = false ->
  (length (pastStates (temporal t)) < limit)%nat ->
  tracked_set t f = mkTracked (f (present t))
                      (mkTemporal (pastStates (temporal t) ++ [present t]) []).
Proof.
  intros Heq Hl. unfold tracked_set, handleSet. rewrite Heq.
  rewrite decide_False by lia. reflexivity.
Qed.

Lemma undo_push (p : S) (past : list S) (s : S) :
  undo (mkTracked s (mkTemporal (past ++ [p]) [])) = mkTracked p (mkTemporal past [s]).
Proof. unfold undo. simpl. by rewrite last_snoc, removelast_last. Qed.

End Temporal.

Arguments TemporalState : clear implicits.
Arguments Tracked : clear implicits.
Arguments mkTemporal {S} pastStates futureStates.
Arguments mkTracked {S} present temporal.

(** ** The composable store under its history *)

Section StoreHistory.

(** [limit: 50] *)
Definition HISTORY_LIMIT : nat := 50.

(** zundo's [equality] option (part_001, lines 745-750):
    [pastState.tasks === currentState.tasks &&
     pastState.dependencies === currentState.dependencies].  The model's
    states are values, so the comparison of object identities is computed
    from the writes the recipe makes between the two states, as Immer
    makes them (lines 278-281): a collection keeps its object exactly
    when no write changed its draft.  Assigning a number or a string
    equal to the current one ([Object.is]) or deleting an absent key
    changes nothing; assigning an object or an array ([{}],
    [hydrateTask(task)], an argument, [phases.map(...)]) always does (an
    argument is taken to be a new object, not one read from the store);
    [set(createInitialState())] replaces both collections. *)

(** [Object.assign(task, updates)] and the recomputation of the cached
    fields, for a task present in [ts]: the draft is unmodified when the
    update assigns no [phases] array, no [constraints] object and no
    [color: undefined] (which adds the key to a task without a colour),
    and every value it writes is the one there. *)
Definition updateKeeps (ts : jsobj Task) (k : string) (u : TaskUpdate) : bool :=
  match ts⟦k⟧%gantt with
  | None => true
  | Some _ =>
      bool_decide (up_phases u = None) && bool_decide (up_constraints u = None) &&
      bool_decide (up_color u <> Some None) &&
      bool_decide (obj_alter (applyTaskUpdate u) k ts = ts)
  end.

(** The loop of [updateTasks], one update after the other. *)
Fixpoint updatesKeep (ts : jsobj Task) (ups : list (string * TaskUpdate)) : bool :=
  match ups with
  | [] => true
  | (k, u) :: ups' => updateKeeps ts k u && updatesKeep (obj_alter (applyTaskUpdate u) k ts) ups'
  end.

(** Whether the recipe of an action leaves [state.tasks] its object.
    [moveTasks] writes numbers and strings only, so its draft changes
    exactly when a task's value does. *)
Definition tasksKept (s : GanttStoreState) (a : StoreAction) : bool :=
  match a with
  | ASetTasks _ | AAddTask _ | AInitializeData _ _ _ _ _ | AReset _ => false
  | AUpdateTask k u => updateKeeps (tasks s) k u
  | AUpdateTasks ups => updatesKeep (tasks s) ups
  | ADeleteTask k => bool_decide ((tasks s)⟦k⟧%gantt = None)
  | AMoveTasks ks d r => bool_decide (tasks (moveTasks s ks d r) = tasks s)
  | _ => true
  end.

(** Whether it leaves [state.dependencies] its object: [deleteTask]
    deletes keys that are there, so its draft changes exactly when a
    dependency goes. *)
Definition depsKept (s : GanttStoreState) (a : StoreAction) : bool :=
  match a with
  | ASetDependencies _ | AAddDependency _ | AInitializeData _ _ _ _ _ | AReset _ => false
  | ARemoveDependency k => bool_decide ((dependencies s)⟦k⟧%gantt = None)
  | ADeleteTask k => bool_decide (deleteIncidentDeps k (dependencies s) = dependencies s)
  | _ => true
  end.

(** [equality(pastState, currentState)] for the [set] of an action. *)
Definition storeEquality (pastState : GanttStoreState) (a : StoreAction) : bool :=
  tasksKept pastState a && depsKept pastState a.

(** The same for a [set] of [commitDrag]. *)
Definition commitSetEquality (pastState : GanttStoreState) (c : CommitSet) : bool :=
  match c with
  | SUpdateTask k u => updateKeeps (tasks pastState) k u
  | SClearDrag => true
  end.

(** A [set] of the store: its recipe, and [equality] of the state before
    it and the state after it, as a function of the state before. *)
Definition StoreSet : Type := (GanttStoreState -> GanttStoreState) * (GanttStoreState -> bool).

(** The [set]s an action makes: one for every action but [commitDrag],
    whose [set]s Store.v lists. *)
Definition action_sets (s : GanttStoreState) (a : StoreAction) : js_result (list StoreSet) :=
  match a with
  | ACommitDrag =>
      match commitDragSets s with
      | JsOk cs => JsOk ((fun c => (fun st => runSet st c, fun st => commitSetEquality st c)) <$> cs)
      | JsFail f => JsFail f
      end
  | _ => JsOk [(fun st => match apply_action st a with JsOk st' => st' | JsFail _ => st end,
                fun st => storeEquality st a)]
  end.

(** One [set] through the middleware. *)
Definition store_set (t : Tracked GanttStoreState) (fe : StoreSet) : Tracked GanttStoreState :=
  tracked_set (fun pastState _ => fe.2 pastState) HISTORY_LIMIT t fe.1.

(** A call on the store or on its temporal API. *)
Inductive HistoryAction :=
  | HAct (a : StoreAction)
  | HUndo
  | HRedo.

Definition tracked_step (t : Tracked GanttStoreState) (a : HistoryAction)
    : js_result (Tracked GanttStoreState) :=
  match a with
  | HUndo => JsOk (undo t)
  | HRedo => JsOk (redo t)
  | HAct a =>
      match action_sets (present t) a with
      | JsOk fs => JsOk (fold_left store_set fs t)
      | JsFail f => JsFail f
      end
  end.

Lemma present_store_sets (t : Tracked GanttStoreState) (fs : list StoreSet) :
  present (fold_left store_set fs t) = fold_left (fun st fe => fe.1 st) fs (present t).
Proof.
  revert t. induction fs as [|f fs IH]; intros t; [done|].
  exact (IH _).
Qed.

(** A [set] that [equality] calls a change pushes the state before it,
    with room left in the history; one it calls no change records
    nothing. *)
Lemma store_set_push (t : Tracked GanttStoreState) (fe : StoreSet) :
  fe.2 (present t) = false -> (length (pastStates (temporal t)) < HISTORY_LIMIT)%nat ->
  store_set t fe = mkTracked (fe.1 (present t)) (mkTemporal (pastStates (temporal t) ++ [present t]) []).
Proof. intros He Hl. by apply (tracked_set_push (fun p _ => fe.2 p)). Qed.

Lemma store_set_keep (t : Tracked GanttStoreState) (fe : StoreSet) :
  fe.2 (present t) = true -> store_set t fe = mkTracked (fe.1 (present t)) (temporal t).
Proof. intros He. unfold store_set, tracked_set, handleSet. by rewrite He. Qed.

Lemma updateKeeps_alter ts k u :
  updateKeeps ts k u = true -> obj_alter (applyTaskUpdate u) k ts = ts.
Proof.
  unfold updateKeeps. destruct (ts⟦k⟧%gantt) eqn:E; [|intros _; by apply obj_alter_absent].
  intros H. apply andb_prop in H as [_ H]. by apply bool_decide_eq_true in H.
Qed.

Lemma updatesKeep_fold ts ups :
  updatesKeep ts ups = true ->
  fold_left (fun ts up => obj_alter (applyTaskUpdate up.2) up.1 ts) ups ts = ts.
Proof.
  revert ts. induction ups as [|[k u] ups IH]; intros ts; [done|].
  cbn [updatesKeep fold_left fst snd]. intros (Hk & Hs)%andb_prop.
  rewrite (updateKeeps_alter _ _ _ Hk) in Hs |- *. by apply IH.
Qed.

(** What [equality] calls no change is none: a [set] that keeps the
    objects of the tasks and the dependencies keeps their values. *)
Lemma storeEquality_sound s a s' :
  a <> ACommitDrag -> apply_action s a = JsOk s' -> storeEquality s a = true ->
  tasks s' = tasks s /\ dependencies s' = dependencies s.
Proof.
  intros Hc Ha He. unfold storeEquality in He. apply andb_prop in He as [Ht Hd].
  destruct a; try done; injection Ha as <-; cbn in Ht, Hd.
  all: try (split; reflexivity).
  - split; [by apply updateKeeps_alter|done].
  - apply bool_decide_eq_true in Ht, Hd. split; [by apply obj_delete_absent|done].
  - split; [by apply updatesKeep_fold|done].
  - apply bool_decide_eq_true in Ht. done.
  - apply bool_decide_eq_true in Hd. split; [done|by apply obj_delete_absent].
  - unfold startDrag. repeat case_match; split; reflexivity.
  - unfold updateDrag. repeat case_match; split; reflexivity.
Qed.

Lemma commitSetEquality_sound s c :
  commitSetEquality s c = true -> tasks (runSet s c) = tasks s /\ dependencies (runSet s c) = dependencies s.
Proof.
  destruct c as [k u|]; cbn; [|done]. intros H. split; [by apply updateKeeps_alter|done].
Qed.

Lemma fold_commit_sets (cs : list CommitSet) s :
  fold_left (fun st (fe : StoreSet) => fe.1 st)
    ((fun c => (fun st => runSet st c, fun st => commitSetEquality st c)) <$> cs) s = runSets cs s.
Proof. revert s. induction cs as [|c cs IH]; intros s; [done|]. apply IH. Qed.

(** The [set]s of an action compute its result. *)
Lemma action_sets_run (s : GanttStoreState) a s' :
  apply_action s a = JsOk s' ->
  exists fs, action_sets s a = JsOk fs /\ fold_left (fun st (fe : StoreSet) => fe.1 st) fs s = s'.
Proof.
  intros H. destruct a; simpl in *; try (injection H as <-; by eexists).
  unfold commitDrag in H. destruct (commitDragSets _); [|done].
  injection H as <-. eexists; split; [reflexivity|]. apply fold_commit_sets.
Qed.

(** The history steps keep an action's result. *)
Lemma tracked_step_act (t : Tracked GanttStoreState) a s' :
  apply_action (present t) a = JsOk s' ->
  exists t', tracked_step t (HAct a) = JsOk t' /\ present t' = s'.
Proof.
  intros (fs & Hfs & Hrun)%action_sets_run. simpl. rewrite Hfs.
  eexists; split; [reflexivity|]. by rewrite present_store_sets.
Qed.

(** The [set]s of a commit that changes the tasks: an update, then
    clearing the drag. *)
Lemma commitDragSets_changing (s : GanttStoreState) cs :
  commitDragSets s = JsOk cs -> tasks (runSets cs s) <> tasks s ->
  exists k u d, drag s = Some d /\ cs = [SUpdateTask k u; SClearDrag].
Proof.
  unfold commitDragSets. destruct (drag s) as [d|]; [|by intros [= <-]].
  destruct (dependencyViolations d); [|by intros [= <-]].
  destruct (drag_type d).
  2,3: destruct (_ ⟦ _ ⟧%gantt); [|done]; destruct (resizePhases _ _ _); [|done].
  all: intros [= <-] _; by do 3 eexists.
Qed.

End StoreHistory.

(** (C36) Undoing a committed drag brings the drag back: the history
    snapshots whole states, so when a [commitDrag] changes the tasks (with
    room left in the history), it records the state before its update,
    drag included, and the [undo] that follows restores that state: the
    tasks as they were, and the drag in progress that the commit had
    cleared. *)
Theorem undo_commit_restores_drag (t : Tracked GanttStoreState) (s' : GanttStoreState) :
  commitDrag (present t) = JsOk s' ->
  tasks s' <> tasks (present t) ->
  (length (pastStates (temporal t)) < HISTORY_LIMIT)%nat ->
  exists t', tracked_step t (HAct ACommitDrag) = JsOk t' /\ present t' = s' /\
    drag s' = None /\ present (undo t') = present t /\ drag (present t) <> None.
Proof.
  intros Hc Ht Hl. unfold commitDrag in Hc.
  destruct (commitDragSets _) as [cs|] eqn:Hcs; [|done]. injection Hc as <-.
  destruct (commitDragSets_changing _ _ Hcs Ht) as (k & u & d & Hd & ->).
  simpl. rewrite Hcs. eexists; split; [reflexivity|]. cbn [fmap list_fmap fold_left].
  assert (He : commitSetEquality (present t) (SUpdateTask k u) = false).
  { destruct (commitSetEquality _ _) eqn:E; [|done].
    apply commitSetEquality_sound in E as [E _]. by contradict Ht. }
  rewrite (store_set_push t (_, _) He Hl), store_set_keep by done. cbn. rewrite undo_push. split_and!; [done|done|done|by rewrite Hd].
Qed.

(** The example store with the task [t1] dragged one hour later. *)
Definition history_example : Tracked GanttStoreState :=
  mkTracked (with_drag example_store (Some (dragWithPreview example_drag 3600000 12000000 0 0)))
            emptyTemporal.

Definition history_example_committed : GanttStoreState :=
  clearDrag (updateTask (present history_example) "t1" (moveUpdate 3600000 "r1")).

Lemma undo_commit_restores_drag_witness :
  exists t', tracked_step history_example (HAct ACommitDrag) = JsOk t' /\
    present t' = history_example_committed /\ drag history_example_committed = None /\
    present (undo t') = present history_example /\ drag (present history_example) <> None.
Proof.
  apply undo_commit_restores_drag.
  - vm_compute. reflexivity.
  - vm_compute. discriminate.
  - vm_compute. lia.
Defined.

(** ** The legacy data store under its history *)

(** data-store.ts wraps its recipes (lines 105-295, those of part_001)
    in the same middleware with the same [limit] and [equality] (lines
    296-302); [equality] is computed from the writes as for the
    composable store. *)
Definition dataEquality (pastState : DataStore.GanttDataState) (a : DataStore.DataAction) : bool :=
  match a with
  | DataStore.DSetTasks _ | DataStore.DAddTask _ | DataStore.DSetDependencies _
  | DataStore.DAddDependency _ | DataStore.DInitializeData _ _ _ _ _ => false
  | DataStore.DUpdateTask k u => updateKeeps (DataStore.tasks pastState) k u
  | DataStore.DUpdateTasks ups => updatesKeep (DataStore.tasks pastState) ups
  | DataStore.DDeleteTask k =>
      bool_decide ((DataStore.tasks pastState)⟦k⟧%gantt = None) &&
      bool_decide (deleteIncidentDeps k (DataStore.dependencies pastState) =
                   DataStore.dependencies pastState)
  | DataStore.DMoveTasks ks d r =>
      bool_decide (DataStore.tasks (DataStore.moveTasks pastState ks d r) = DataStore.tasks pastState)
  | DataStore.DRemoveDependency k => bool_decide ((DataStore.dependencies pastState)⟦k⟧%gantt = None)
  | _ => true
  end.

(** A data store action: one [set] through the middleware. *)
Definition dataStep (t : Tracked DataStore.GanttDataState) (a : DataStore.DataAction)
    : Tracked DataStore.GanttDataState :=
  tracked_set (fun pastState _ => dataEquality pastState a) HISTORY_LIMIT t
    (fun s => DataStore.apply_data s a).

(** What [equality] calls no change is none. *)
Lemma dataEquality_sound s a :
  dataEquality s a = true ->
  DataStore.tasks (DataStore.apply_data s a) = DataStore.tasks s /\
  DataStore.dependencies (DataStore.apply_data s a) = DataStore.dependencies s.
Proof.
  destruct a; cbn; try done; try (intros _; split; reflexivity).
  - intros H. split; [by apply updateKeeps_alter|done].
  - intros (Ht & Hd)%andb_prop. apply bool_decide_eq_true in Ht, Hd.
    split; [by apply obj_delete_absent|done].
  - intros H. split; [by apply updatesKeep_fold|done].
  - intros H%bool_decide_eq_true. done.
  - intros H%bool_decide_eq_true. split; [done|by apply obj_delete_absent].
Qed.

(** [setTasks] with the tasks already there is recorded: [state.tasks = {}]
    is a new object. *)
Example setTasks_unchanged_recorded :
  exists t', tracked_step (mkTracked (createInitialState 0) emptyTemporal) (HAct (ASetTasks [])) = JsOk t' /\
    tasks (present t') = tasks (createInitialState 0) /\ pastStates (temporal t') = [createInitialState 0].
Proof. eexists. split_and!; reflexivity. Qed.
