(* ===== verification/RenderScheduler.v ===== *)
(** * RenderScheduler: the Render Scheduler of engine/render-scheduler.ts

    The scheduler's private fields are the Record [RenderScheduler]; the
    browser's animation-frame queue ([requestAnimationFrame] /
    [cancelAnimationFrame]) is the Record [Browser]; a [World] pairs them
    with the trace of what the draw callbacks did.  Every method is a
    function [World -> World]; the browser running the next frame is
    [fireFrame].  A draw callback is an opaque name; whether it throws is
    the Section variable [throws], so every theorem holds for every
    behaviour of the callbacks.  Callbacks are assumed not to call back
    into the scheduler (the renderers of this repository do not).

    The theorems: at most one frame is ever pending and it is the
    scheduler's own ([frameId]); the layers a render draws are exactly
    the dirty registered ones, in the fixed order grid, tasks,
    dependencies, interaction, each once, a throwing callback logged and
    the following layers still drawn; marks made before a frame fires are
    coalesced into that one frame, which draws them all; [forceRender]
    leaves no frame pending; [dispose] is idempotent, cancels the pending
    frame and turns every later mark into a no-op. *)

From S2P Require Import Prelude Types.

(** A draw callback ([RenderCallback = () => void]), by name. *)
Definition RenderCallback := nat.

(** [RenderScheduler]: [frameId], [dirtyLayers] (a JS [Set], in
    insertion order), [renderers] (a JS [Map]) and [isDestroyed]. *)
Record RenderScheduler := mkScheduler {
  frameId : option nat;
  dirtyLayers : list RenderLayer;
  renderers : list (RenderLayer * RenderCallback);
  isDestroyed : bool;
}.

(** [new RenderScheduler()] *)
Definition newRenderScheduler : RenderScheduler := mkScheduler None [] [] false.

(** The animation-frame queue: the ids requested and neither run nor
    cancelled, oldest first, and the next id [requestAnimationFrame]
    returns. *)
Record Browser := mkBrowser {
  raf_pending : list nat;
  raf_next : nat;
}.

(** What a draw callback did: drew its layer, or threw and was logged
    ([console.error]). *)
Inductive RenderEvent :=
  | Drawn (l : RenderLayer) (cb : RenderCallback)
  | Logged (l : RenderLayer) (cb : RenderCallback).

Definition event_layer (e : RenderEvent) : RenderLayer :=
  match e with Drawn l _ | Logged l _ => l end.

Record World := mkWorld {
  sched : RenderScheduler;
  browser : Browser;
  trace : list RenderEvent;
}.

Definition with_sched (w : World) (s : RenderScheduler) : World :=
  mkWorld s (browser w) (trace w).

(** The fixed order of [render]. *)
Definition render_order : list RenderLayer :=
  [layer_grid; layer_tasks; layer_dependencies; layer_interaction].

Section Scheduler.
(** Which callbacks throw. *)
Variable throws : RenderCallback -> bool.

(** [registerRenderer]: [this.renderers.set(layer, callback)]. *)
Definition registerRenderer (w : World) (l : RenderLayer) (cb : RenderCallback) : World :=
  let s := sched w in
  with_sched w (mkScheduler (frameId s) (dirtyLayers s) (obj_set l cb (renderers s)) (isDestroyed s)).

(** [unregisterRenderer]: [this.renderers.delete(layer)]. *)
Definition unregisterRenderer (w : World) (l : RenderLayer) : World :=
  let s := sched w in
  with_sched w (mkScheduler (frameId s) (dirtyLayers s) (obj_delete l (renderers s)) (isDestroyed s)).

(** [scheduleRender]: one [requestAnimationFrame] unless a frame is
    already pending or the scheduler is destroyed. *)
Definition scheduleRender (w : World) : World :=
  let s := sched w in
  if isDestroyed s then w else
  match frameId s with
  | Some _ => w
  | None =>
      let b := browser w in
      mkWorld (mkScheduler (Some (raf_next b)) (dirtyLayers s) (renderers s) (isDestroyed s))
              (mkBrowser (raf_pending b ++ [raf_next b]) (S (raf_next b))) (trace w)
  end.

(** [cancelScheduledRender] *)
Definition cancelScheduledRender (w : World) : World :=
  let s := sched w in
  match frameId s with
  | None => w
  | Some id =>
      let b := browser w in
      mkWorld (mkScheduler None (dirtyLayers s) (renderers s) (isDestroyed s))
              (mkBrowser (filter (fun i => i ≠ id) (raf_pending b)) (raf_next b)) (trace w)
  end.

(** One iteration of the loop of [render]: a dirty layer with a
    registered callback runs it inside [try]/[catch]. *)
Definition render_layer (layers : list RenderLayer) (rs : list (RenderLayer * RenderCallback))
    (l : RenderLayer) : list RenderEvent :=
  if decide (l ∈ layers) then
    match obj_get l rs with
    | Some cb => [if throws cb then Logged l cb else Drawn l cb]
    | None => []
    end
  else [].

(** [render]: snapshot and clear the dirty set, then the loop over
    [render_order]. *)
Definition render (w : World) : World :=
  let s := sched w in
  if isDestroyed s then w else
  let layers := dirtyLayers s in
  mkWorld (mkScheduler (frameId s) [] (renderers s) (isDestroyed s)) (browser w)
          (trace w ++ flat_map (render_layer layers (renderers s)) render_order).

(** [markDirty] *)
Definition markDirty (w : World) (l : RenderLayer) : World :=
  let s := sched w in
  if isDestroyed s then w else
  scheduleRender (with_sched w (mkScheduler (frameId s) (jsset_add l (dirtyLayers s))
                                            (renderers s) (isDestroyed s))).

(** [markDirtyMany] *)
Definition markDirtyMany (w : World) (ls : list RenderLayer) : World :=
  let s := sched w in
  if isDestroyed s then w else
  scheduleRender (with_sched w (mkScheduler (frameId s)
                                  (fold_left (fun d l => jsset_add l d) ls (dirtyLayers s))
                                  (renderers s) (isDestroyed s))).

(** [markAllDirty] *)
Definition markAllDirty (w : World) : World :=
  let s := sched w in
  if isDestroyed s then w else
  scheduleRender (with_sched w (mkScheduler (frameId s)
                                  (fold_left (fun d l => jsset_add l d) render_order (dirtyLayers s))
                                  (renderers s) (isDestroyed s))).

(** [forceRender] *)
Definition forceRender (w : World) : World :=
  if isDestroyed (sched w) then w else render (cancelScheduledRender w).

(** [isDirty] and [hasDirtyLayers] *)
Definition isDirty (w : World) (l : RenderLayer) : bool := bool_decide (l ∈ dirtyLayers (sched w)).
Definition hasDirtyLayers (w : World) : bool := negb (bool_decide (dirtyLayers (sched w) = [])).

(** [dispose] *)
Definition dispose (w : World) : World :=
  let s := sched w in
  let w1 := with_sched w (mkScheduler (frameId s) (dirtyLayers s) (renderers s) true) in
  let w2 := cancelScheduledRender w1 in
  let s2 := sched w2 in
  with_sched w2 (mkScheduler (frameId s2) [] [] (isDestroyed s2)).

(** The browser runs the oldest pending frame: the scheduler's callback
    [() => { this.frameId = null; this.render(); }]. *)
Definition fireFrame (w : World) : World :=
  let b := browser w in
  match raf_pending b with
  | [] => w
  | _ :: rest =>
      let s := sched w in
      render (mkWorld (mkScheduler None (dirtyLayers s) (renderers s) (isDestroyed s))
                      (mkBrowser rest (raf_next b)) (trace w))
  end.

(** The module's singleton: [getRenderScheduler] creates the instance on
    first use, [resetRenderScheduler] disposes of it. *)
Record Registry := mkRegistry {
  schedulerInstance : option RenderScheduler;
  reg_browser : Browser;
  reg_trace : list RenderEvent;
}.

Definition getRenderScheduler (g : Registry) : RenderScheduler * Registry :=
  match schedulerInstance g with
  | Some s => (s, g)
  | None => (newRenderScheduler, mkRegistry (Some newRenderScheduler) (reg_browser g) (reg_trace g))
  end.

Definition resetRenderScheduler (g : Registry) : Registry :=
  match schedulerInstance g with
  | None => g
  | Some s =>
      let w := dispose (mkWorld s (reg_browser g) (reg_trace g)) in
      mkRegistry None (browser w) (trace w)
  end.

(** The public calls and the browser's frame, as one step relation. *)
Inductive Call :=
  | CRegister (l : RenderLayer) (cb : RenderCallback)
  | CUnregister (l : RenderLayer)
  | CMarkDirty (l : RenderLayer)
  | CMarkDirtyMany (ls : list RenderLayer)
  | CMarkAllDirty
  | CForceRender
  | CDispose
  | CFireFrame.

Definition step (w : World) (c : Call) : World :=
  match c with
  | CRegister l cb => registerRenderer w l cb
  | CUnregister l => unregisterRenderer w l
  | CMarkDirty l => markDirty w l
  | CMarkDirtyMany ls => markDirtyMany w ls
  | CMarkAllDirty => markAllDirty w
  | CForceRender => forceRender w
  | CDispose => dispose w
  | CFireFrame => fireFrame w
  end.

Definition run (w : World) (cs : list Call) : World := fold_left step cs w.

End Scheduler.

(** A fresh scheduler in a browser with no pending frame. *)
Definition initialWorld (next : nat) : World :=
  mkWorld newRenderScheduler (mkBrowser [] next) [].

(** ** The scheduler invariant *)

(** The frame the scheduler holds is the only pending one, the dirty set
    has no duplicates, and a destroyed scheduler holds neither a frame
    nor dirty layers. *)
Definition sched_inv (w : World) : Prop :=
  match frameId (sched w) with
  | None => raf_pending (browser w) = []
  | Some id => raf_pending (browser w) = [id]
  end /\ NoDup (dirtyLayers (sched w)) /\
  (isDestroyed (sched w) = true -> frameId (sched w) = None /\ dirtyLayers (sched w) = []).

Lemma NoDup_fold_jsset_add (ls : list RenderLayer) d :
  NoDup d -> NoDup (fold_left (fun d l => jsset_add l d) ls d).
Proof.
  revert d. induction ls as [|l ls IH]; intros d Hd; simpl; [done|].
  apply IH, NoDup_jsset_add, Hd.
Qed.

Ltac sched_destruct w :=
  destruct w as [[[id|] d r [|]] [p n] t]; unfold sched_inv; simpl.

Lemma scheduleRender_inv w : sched_inv w -> sched_inv (scheduleRender w).
Proof.
  sched_destruct w; intros (Hp & Hd & Hx); simpl in *; try done.
  split_and!; [by rewrite Hp | done | done].
Qed.

Lemma cancelScheduledRender_inv w : sched_inv w -> sched_inv (cancelScheduledRender w).
Proof.
  sched_destruct w; intros (Hp & Hd & Hx); simpl in *; try done.
  all: try (destruct (Hx eq_refl) as [[=] _]).
  all: rewrite Hp, filter_cons_False by naive_solver; split_and!; done.
Qed.

Lemma with_dirty_inv w d' :
  isDestroyed (sched w) = false -> NoDup d' -> sched_inv w ->
  sched_inv (with_sched w (mkScheduler (frameId (sched w)) d' (renderers (sched w)) false)).
Proof. sched_destruct w; intros Hx Hd' (Hp & Hd & _); simpl in *; by try split_and!. Qed.

Lemma render_inv throws w : sched_inv w -> sched_inv (render throws w).
Proof.
  sched_destruct w; intros (Hp & Hd & Hx); simpl in *; try done.
  all: split_and!; try done; constructor.
Qed.

Lemma mark_inv w d' :
  NoDup d' -> sched_inv w ->
  sched_inv (if isDestroyed (sched w) then w else
             scheduleRender (with_sched w (mkScheduler (frameId (sched w)) d'
                                             (renderers (sched w)) (isDestroyed (sched w))))).
Proof.
  intros Hd' Hw. destruct (isDestroyed (sched w)) eqn:Hx; [done|].
  apply scheduleRender_inv. by apply with_dirty_inv.
Qed.

Lemma dispose_inv w : sched_inv w -> sched_inv (dispose w).
Proof.
  sched_destruct w; intros (Hp & Hd & Hx); simpl in *.
  all: try (destruct (Hx eq_refl) as [[=] _]).
  all: try rewrite Hp, filter_cons_False by naive_solver.
  all: split_and!; try done; constructor.
Qed.

Lemma fireFrame_inv throws w : sched_inv w -> sched_inv (fireFrame throws w).
Proof.
  intros Hw. unfold fireFrame. destruct (raf_pending (browser w)) as [|i rest] eqn:Hp; [done|].
  apply render_inv. destruct Hw as (Hf & Hd & Hx). rewrite Hp in Hf.
  destruct (frameId (sched w)); [|done]. injection Hf as -> ->.
  unfold sched_inv; simpl. split_and!; [done | done |]. intros Hy. destruct (Hx Hy); done.
Qed.

Lemma step_inv throws w c : sched_inv w -> sched_inv (step throws w c).
Proof.
  intros Hw. destruct c; simpl.
  - destruct w as [[f d r x] b t]. apply Hw.
  - destruct w as [[f d r x] b t]. apply Hw.
  - apply mark_inv; [apply NoDup_jsset_add|]; apply Hw.
  - apply mark_inv; [apply NoDup_fold_jsset_add|]; apply Hw.
  - apply mark_inv; [apply NoDup_fold_jsset_add|]; apply Hw.
  - unfold forceRender. destruct (isDestroyed (sched w)); [done|].
    by apply render_inv, cancelScheduledRender_inv.
  - by apply dispose_inv.
  - by apply fireFrame_inv.
Qed.

Lemma initialWorld_inv next : sched_inv (initialWorld next).
Proof. unfold sched_inv; simpl. split_and!; [done | constructor | done]. Qed.

(** (C9) Coalescing: whatever the calls and whatever the callbacks do,
    at most one animation frame is pending at any time, and it is the one
    the scheduler holds in [frameId]; a destroyed scheduler holds none. *)
Theorem run_at_most_one_frame throws next (cs : list Call) :
  let w := run throws (initialWorld next) cs in
  (length (raf_pending (browser w)) <= 1)%nat /\
  raf_pending (browser w) = option_list (frameId (sched w)) /\
  (isDestroyed (sched w) = true -> raf_pending (browser w) = []).
Proof.
  intros w. assert (Hw : sched_inv w).
  { unfold w, run. generalize (initialWorld_inv next).
    generalize (initialWorld next). induction cs as [|c cs IH]; intros w0 H0; simpl; [done|].
    apply IH, step_inv, H0. }
  destruct Hw as (Hf & _ & Hx). destruct (frameId (sched w)) as [id|] eqn:E; rewrite Hf; simpl.
  - split_and!; [lia | done |]. intros Hy. destruct (Hx Hy) as [[=] _].
  - split_and!; [lia | done | done].
Qed.

(** ** What a render draws *)

Lemma render_layers_map throws layers rs (ord : list RenderLayer) :
  map event_layer (flat_map (render_layer throws layers rs) ord) =
  filter (fun l => l ∈ layers /\ is_Some (obj_get l rs)) ord.
Proof.
  induction ord as [|l ord IH]; simpl; [done|]. rewrite map_app, IH, filter_cons.
  unfold render_layer. destruct (decide (l ∈ layers)) as [Hl|Hl];
    destruct (obj_get l rs) as [cb|] eqn:E; simpl.
  - rewrite decide_True by naive_solver. by destruct (throws cb).
  - rewrite decide_False by (intros [_ [? ?]]; congruence). done.
  - rewrite decide_False by naive_solver. done.
  - rewrite decide_False by naive_solver. done.
Qed.

Lemma render_layers_isolated (throws : RenderCallback -> bool) (layers : list RenderLayer)
    (rs : list (RenderLayer * RenderCallback)) (ord : list RenderLayer) l (cb : RenderCallback) :
  l ∈ ord -> l ∈ layers -> obj_get l rs = Some cb ->
  (if throws cb then Logged l cb else Drawn l cb) ∈ flat_map (render_layer throws layers rs) ord.
Proof.
  intros Ho Hl Hcb. apply list_elem_of_In, in_flat_map. exists l.
  split; [by apply list_elem_of_In|].
  unfold render_layer. rewrite decide_True, Hcb by done. by left.
Qed.

Lemma elem_of_fold_jsset_add (ls : list RenderLayer) d l :
  l ∈ fold_left (fun d l => jsset_add l d) ls d <-> l ∈ d \/ l ∈ ls.
Proof.
  revert d. induction ls as [|l' ls IH]; intros d; simpl.
  - rewrite elem_of_nil. naive_solver.
  - rewrite IH, elem_of_jsset_add, elem_of_cons. naive_solver.
Qed.

Lemma elem_of_render_order l : l ∈ render_order.
Proof. destruct l; unfold render_order; set_solver. Qed.

(** (C10) [render] draws exactly the dirty layers that have a callback,
    in the fixed order grid, tasks, dependencies, interaction, each once;
    a callback that throws is logged and every other dirty layer is still
    drawn; the dirty set is empty afterwards and nothing else changes. *)
Theorem render_spec (throws : RenderCallback -> bool) (w : World) :
  isDestroyed (sched w) = false ->
  let s := sched w in
  exists evs, render throws w =
    mkWorld (mkScheduler (frameId s) [] (renderers s) false) (browser w) (trace w ++ evs) /\
    map event_layer evs =
      filter (fun l => l ∈ dirtyLayers s /\ is_Some (obj_get l (renderers s))) render_order /\
    (forall l cb, l ∈ dirtyLayers s -> obj_get l (renderers s) = Some cb ->
       (if throws cb then Logged l cb else Drawn l cb) ∈ evs).
Proof.
  intros Hx s. subst s. unfold render. rewrite Hx.
  eexists. split; [reflexivity|]. split.
  - apply render_layers_map.
  - intros l cb Hl Hcb. by apply render_layers_isolated; [apply elem_of_render_order | |].
Qed.

(** The grid's callback throws; the tasks layer, marked first, is still
    drawn after it. *)
Lemma render_spec_witness :
  let w := markDirtyMany (registerRenderer (registerRenderer (initialWorld 1) layer_grid 1%nat)
                            layer_tasks 2%nat) [layer_tasks; layer_grid] in
  let s := sched w in
  exists evs, render (fun cb => bool_decide (cb = 1%nat)) w =
    mkWorld (mkScheduler (frameId s) [] (renderers s) false) (browser w) (trace w ++ evs) /\
    map event_layer evs =
      filter (fun l => l ∈ dirtyLayers s /\ is_Some (obj_get l (renderers s))) render_order /\
    (forall l cb, l ∈ dirtyLayers s -> obj_get l (renderers s) = Some cb ->
       (if bool_decide (cb = 1%nat) then Logged l cb else Drawn l cb) ∈ evs).
Proof. apply render_spec. reflexivity. Defined.

(** ** Marks are coalesced into the next frame *)

Lemma markDirty_busy i d r b t l :
  markDirty (mkWorld (mkScheduler (Some i) d r false) b t) l =
  mkWorld (mkScheduler (Some i) (jsset_add l d) r false) b t.
Proof. reflexivity. Qed.

Lemma markDirty_idle d r p n t l :
  markDirty (mkWorld (mkScheduler None d r false) (mkBrowser p n) t) l =
  mkWorld (mkScheduler (Some n) (jsset_add l d) r false) (mkBrowser (p ++ [n]) (S n)) t.
Proof. reflexivity. Qed.

Lemma markDirty_fold_busy i d r b t (ls : list RenderLayer) :
  fold_left markDirty ls (mkWorld (mkScheduler (Some i) d r false) b t) =
  mkWorld (mkScheduler (Some i) (fold_left (fun d l => jsset_add l d) ls d) r false) b t.
Proof.
  revert d. induction ls as [|l ls IH]; intros d; simpl; [done|].
  rewrite markDirty_busy. apply IH.
Qed.

(** (C11) Liveness of a mark: from an idle scheduler, a burst of
    [markDirty] calls requests exactly one animation frame; when the
    browser runs it, that one frame draws every layer marked (or already
    dirty) that has a callback, in the fixed order, and leaves no frame
    pending and no layer dirty. *)
Theorem marks_coalesced_into_one_frame throws (w : World) (ls : list RenderLayer) :
  sched_inv w -> isDestroyed (sched w) = false -> frameId (sched w) = None -> ls <> [] ->
  let w1 := fold_left markDirty ls w in
  raf_pending (browser w1) = [raf_next (browser w)] /\
  let w2 := fireFrame throws w1 in
  raf_pending (browser w2) = [] /\ frameId (sched w2) = None /\ dirtyLayers (sched w2) = [] /\
  exists evs, trace w2 = trace w ++ evs /\
    map event_layer evs =
      filter (fun l => (l ∈ dirtyLayers (sched w) \/ l ∈ ls) /\
                       is_Some (obj_get l (renderers (sched w)))) render_order.
Proof.
  destruct w as [[f d r x] [p n] t]; simpl. intros (Hp & _ & _) -> -> Hls. simpl in Hp; subst p.
  destruct ls as [|l ls]; [done|]. simpl. rewrite markDirty_idle, markDirty_fold_busy.
  split; [done|]. unfold fireFrame; cbn -[render_order flat_map]. split_and!; [done | done | done |].
  eexists. split; [reflexivity|]. rewrite render_layers_map.
  apply list_filter_iff. intros l'. rewrite elem_of_fold_jsset_add, elem_of_jsset_add, elem_of_cons.
  naive_solver.
Qed.

Lemma marks_coalesced_into_one_frame_witness :
  let w := registerRenderer (initialWorld 1) layer_grid 7%nat in
  raf_pending (browser (fold_left markDirty [layer_grid; layer_tasks; layer_grid] w)) = [1%nat] /\
  let w2 := fireFrame (fun _ => false) (fold_left markDirty [layer_grid; layer_tasks; layer_grid] w) in
  raf_pending (browser w2) = [] /\ frameId (sched w2) = None /\ dirtyLayers (sched w2) = [] /\
  exists evs, trace w2 = trace w ++ evs /\
    map event_layer evs =
      filter (fun l => (l ∈ dirtyLayers (sched w) \/ l ∈ [layer_grid; layer_tasks; layer_grid]) /\
                       is_Some (obj_get l (renderers (sched w)))) render_order.
Proof.
  apply marks_coalesced_into_one_frame; [|reflexivity|reflexivity|discriminate].
  unfold sched_inv; simpl. split_and!; [done | constructor | done].
Defined.

(** ** Cancellation: [forceRender] and [dispose] *)

Definition destroyed_quiet (w : World) : Prop :=
  isDestroyed (sched w) = true /\ frameId (sched w) = None /\ raf_pending (browser w) = [].

Lemma step_destroyed throws w c :
  destroyed_quiet w -> destroyed_quiet (step throws w c) /\ trace (step throws w c) = trace w.
Proof.
  destruct w as [[f d r x] [p n] t]; intros (Hx & Hf & Hp); simpl in *; subst.
  destruct c; simpl; unfold destroyed_quiet; simpl; split_and!; done.
Qed.

Lemma run_destroyed throws w cs :
  destroyed_quiet w -> destroyed_quiet (run throws w cs) /\ trace (run throws w cs) = trace w.
Proof.
  unfold run. revert w. induction cs as [|c cs IH]; intros w Hw; simpl; [done|].
  destruct (step_destroyed throws w c Hw) as [H1 H2].
  destruct (IH _ H1) as [H3 H4]. split; [done|]. by rewrite H4, H2.
Qed.

Lemma dispose_quiet w : sched_inv w -> destroyed_quiet (dispose w) /\ trace (dispose w) = trace w.
Proof.
  sched_destruct w; intros (Hp & _ & Hx); simpl in *.
  all: try (destruct (Hx eq_refl) as [[=] _]).
  all: unfold destroyed_quiet; simpl; try rewrite Hp, filter_cons_False by naive_solver.
  all: split_and!; done.
Qed.

(** [dispose] is idempotent and final: disposing twice is disposing
    once; afterwards no frame is pending and, whatever is called next
    (marks, [forceRender], a new registration, [dispose] again, the
    browser's frames), no frame is requested and nothing is drawn. *)
Theorem dispose_final throws (w : World) :
  sched_inv w ->
  dispose (dispose w) = dispose w /\
  forall cs, raf_pending (browser (run throws (dispose w) cs)) = [] /\
             trace (run throws (dispose w) cs) = trace w.
Proof.
  intros Hw. split.
  - by destruct w as [[[id|] d r x] [p n] t].
  - intros cs. destruct (dispose_quiet w Hw) as [Hq Ht].
    destruct (run_destroyed throws _ cs Hq) as [(_ & _ & Hp) Ht']. by rewrite Ht', Ht.
Qed.

Lemma dispose_final_witness :
  let w := markDirty (registerRenderer (initialWorld 1) layer_grid 7%nat) layer_grid in
  dispose (dispose w) = dispose w /\
  forall cs, raf_pending (browser (run (fun _ => false) (dispose w) cs)) = [] /\
             trace (run (fun _ => false) (dispose w) cs) = trace w.
Proof.
  apply dispose_final. unfold sched_inv; simpl. split_and!; [done | repeat constructor; set_solver | done].
Defined.

(** [forceRender] renders synchronously: the pending frame is
    cancelled (none is left), and the dirty layers with a callback are
    drawn at once in the fixed order. *)
Theorem forceRender_sync throws (w : World) :
  sched_inv w -> isDestroyed (sched w) = false ->
  let w' := forceRender throws w in
  raf_pending (browser w') = [] /\ frameId (sched w') = None /\ dirtyLayers (sched w') = [] /\
  exists evs, trace w' = trace w ++ evs /\
    map event_layer evs =
      filter (fun l => l ∈ dirtyLayers (sched w) /\ is_Some (obj_get l (renderers (sched w))))
             render_order.
Proof.
  destruct w as [[[id|] d r x] [p n] t]; intros (Hp & _ & _) Hx; simpl in *; subst x;
    unfold forceRender, cancelScheduledRender, render; cbn -[render_order flat_map filter].
  - rewrite Hp, filter_cons_False by naive_solver. split_and!; try done.
    eexists. split; [reflexivity|]. apply render_layers_map.
  - split_and!; try done. eexists. split; [reflexivity|]. apply render_layers_map.
Qed.

Lemma forceRender_sync_witness :
  let w := markDirty (registerRenderer (initialWorld 1) layer_tasks 3%nat) layer_tasks in
  let w' := forceRender (fun _ => true) w in
  raf_pending (browser w') = [] /\ frameId (sched w') = None /\ dirtyLayers (sched w') = [] /\
  exists evs, trace w' = trace w ++ evs /\
    map event_layer evs =
      filter (fun l => l ∈ dirtyLayers (sched w) /\ is_Some (obj_get l (renderers (sched w))))
             render_order.
Proof.
  apply forceRender_sync; [|reflexivity].
  unfold sched_inv; simpl. split_and!; [done | repeat constructor; set_solver | done].
Defined.
