(* ===== verification/RowLayout.v ===== *)
(** * RowLayout: the Row Layout Engine of hooks/useComposableVirtualRows.ts

    [useComposableVirtualRows] computes the virtual rows from the
    resources, tasks, orders, grouping state and row height of the store;
    its three branches ([none], [resource_type], [order]) are
    [rows_none], [rows_by_type] and [rows_by_order], each a sequence of
    loops ([fold_left]) over an accumulator [(virtualRows, currentY)]
    that [push] extends.  The JS [Map]s of the code ([byType],
    [orderResources]) are insertion-ordered association lists, the
    [Set]s whose order is iterated are duplicate-free lists, and
    [Array.prototype.sort] (stable) is an insertion sort by priority.
    [useComposableVisibleRows] is [visibleRows].

    The theorems: the rows are contiguous from 0 in every mode (each row
    starts where the previous ends); in mode [none] there is one row per
    resource in [Object.values] order; in mode [resource_type] a resource
    has a row exactly when its type's group is expanded; in mode [order]
    a resource whose tasks all belong to unknown orders has no row at all
    (a finding); the visible rows are a contiguous slice of the rows. *)

From S2P Require Import Prelude Types.

Open Scope Q_scope.

(** [GROUP_HEADER_HEIGHT] *)
Definition GROUP_HEADER_HEIGHT : Q := 32.

(** The string values of [ResourceType]. *)
Definition resourceTypeString (t : ResourceType) : string :=
  match t with operator => "operator" | machine => "machine" | generic => "generic" end.

(** [c.toUpperCase()] on an ASCII character. *)
Definition ascii_toUpper (c : Ascii.ascii) : Ascii.ascii :=
  let n := Ascii.nat_of_ascii c in
  if (97 <=? n)%nat && (n <=? 122)%nat then Ascii.ascii_of_nat (n - 32) else c.

(** [`${type.charAt(0).toUpperCase()}${type.slice(1)}s`] *)
Definition typeGroupName (type_ : string) : string :=
  match type_ with
  | EmptyString => "s"
  | String c rest => String (ascii_toUpper c) (rest +:+ "s")
  end.

(** The accumulator of the loops: the rows pushed so far and [currentY]. *)
Definition Layout : Type := list VirtualRow * Q.

(** [virtualRows.push(row at currentY); currentY += h] *)
Definition push (acc : Layout) (h : Q) (row : Q -> VirtualRow) : Layout :=
  (acc.1 ++ [row acc.2], acc.2 + h).

(** A resource row and a group header row. *)
Definition resourceRow (id : string) (resId : string) (groupId : option string) (h y : Q)
    : VirtualRow :=
  mkRow id (Some resId) y h false groupId None None.

Definition headerRow (groupId name : string) (collapsed : bool) (y : Q) : VirtualRow :=
  mkRow groupId None y GROUP_HEADER_HEIGHT true (Some groupId) (Some name) (Some collapsed).

Section Layout.
Variable resources : jsobj Resource.
Variable tasks : jsobj Task.
Variable orders : jsobj Order.
Variable expandedGroups : gset string.
Variable rowHeight : Q.

Definition resourceList : list Resource := obj_values resources.

(** Mode ["none"]: one row per resource. *)
Definition rows_none (acc : Layout) : Layout :=
  fold_left (fun acc r => push acc rowHeight
               (resourceRow ("resource-" +:+ resource_id r) (resource_id r) None rowHeight))
            resourceList acc.

(** [byType]: [if (!byType.has(type)) byType.set(type, []); byType.get(type)?.push(resource)] *)
Definition groupByType (rs : list Resource) : list (ResourceType * list Resource) :=
  fold_left (fun m r =>
               let t := resource_type r in
               let m1 := if obj_has t m then m else obj_set t [] m in
               obj_alter (fun l => l ++ [r]) t m1) rs [].

(** One group of mode ["resource_type"]. *)
Definition typeGroup (acc : Layout) (entry : ResourceType * list Resource) : Layout :=
  let groupId := "type-" +:+ resourceTypeString entry.1 in
  let isExpanded := bool_decide (groupId ∈ expandedGroups) in
  let acc1 := push acc GROUP_HEADER_HEIGHT
                (headerRow groupId (typeGroupName (resourceTypeString entry.1)) (negb isExpanded)) in
  if isExpanded then
    fold_left (fun acc r => push acc rowHeight
                 (resourceRow ("resource-" +:+ resource_id r) (resource_id r) (Some groupId) rowHeight))
              entry.2 acc1
  else acc1.

Definition rows_by_type (acc : Layout) : Layout :=
  fold_left typeGroup (groupByType resourceList) acc.

(** [orderResources]: for each order id (in order of first task), the set
    of resource ids of its tasks (in order of first task). *)
Definition orderResources : list (string * list string) :=
  fold_left (fun m t =>
               let oid := orderId t in
               let m1 := if obj_has oid m then m else obj_set oid [] m in
               obj_alter (jsset_add (resourceId t)) oid m1) (obj_values tasks) [].

(** [assignedResources] *)
Definition assignedResources : list string :=
  fold_left (fun acc ids => fold_left (fun acc id => jsset_add id acc) ids acc)
            (obj_values orderResources) [].

(** [Object.values(orders).sort((a, b) => a.priority - b.priority)]: the
    sort is stable, so it is the insertion sort that places each order
    after those of smaller or equal priority. *)
Fixpoint insertByPriority (o : Order) (os : list Order) : list Order :=
  match os with
  | [] => [o]
  | o' :: os' => if Z.leb (order_priority o') (order_priority o)
                 then o' :: insertByPriority o os' else o :: os
  end.

Definition sortedOrders : list Order :=
  fold_left (fun acc o => insertByPriority o acc) (obj_values orders) [].

(** One order group: skipped when the order has no task; a resource id
    that is not a resource is skipped. *)
Definition orderGroup (acc : Layout) (o : Order) : Layout :=
  match obj_get (order_id o) orderResources with
  | None | Some [] => acc
  | Some ids =>
      let groupId := "order-" +:+ order_id o in
      let isExpanded := bool_decide (groupId ∈ expandedGroups) in
      let acc1 := push acc GROUP_HEADER_HEIGHT (headerRow groupId (order_name o) (negb isExpanded)) in
      if isExpanded then
        fold_left (fun acc rid =>
                     match obj_get rid resources with
                     | None => acc
                     | Some res => push acc rowHeight
                         (resourceRow ("resource-" +:+ resource_id res +:+ "-" +:+ order_id o)
                                      (resource_id res) (Some groupId) rowHeight)
                     end) ids acc1
      else acc1
  end.

(** The unassigned group at the end. *)
Definition unassignedGroup (acc : Layout) : Layout :=
  let unassigned := filter (fun r => resource_id r ∉ assignedResources) resourceList in
  match unassigned with
  | [] => acc
  | _ =>
      let groupId := "unassigned" in
      let isExpanded := bool_decide (groupId ∈ expandedGroups) in
      let acc1 := push acc GROUP_HEADER_HEIGHT (headerRow groupId "Unassigned" (negb isExpanded)) in
      if isExpanded then
        fold_left (fun acc r => push acc rowHeight
                     (resourceRow ("resource-" +:+ resource_id r) (resource_id r) (Some groupId) rowHeight))
                  unassigned acc1
      else acc1
  end.

Definition rows_by_order (acc : Layout) : Layout :=
  unassignedGroup (fold_left orderGroup sortedOrders acc).

End Layout.

(** [useComposableVirtualRows] *)
Definition useComposableVirtualRows (resources : jsobj Resource) (tasks : jsobj Task)
    (orders : jsobj Order) (grouping : GroupingState) (rowHeight : Q) : list VirtualRow :=
  let E := expandedGroups grouping in
  let acc0 : Layout := ([], 0) in
  (match mode grouping with
   | mode_none => rows_none resources rowHeight acc0
   | mode_resource_type => rows_by_type resources E rowHeight acc0
   | mode_order => rows_by_order resources tasks orders E rowHeight acc0
   end).1.

(** [useComposableVisibleRows]: the rows meeting the window extended by
    [BUFFER] rows on each side (bounds included). *)
Definition BUFFER : Q := 3.

Definition rowVisible (scrollY height rowHeight : Q) (row : VirtualRow) : bool :=
  Qle_bool (scrollY - BUFFER * rowHeight) (virtualY row + row_height row) &&
  Qle_bool (virtualY row) (scrollY + height + BUFFER * rowHeight).

Definition useComposableVisibleRows (virtualRows : list VirtualRow) (scrollY height rowHeight : Q)
    : list VirtualRow :=
  if bool_decide (virtualRows = []) || Qeq_bool height 0 then []
  else filter (fun row => rowVisible scrollY height rowHeight row = true) virtualRows.

(** ** Contiguity *)

(** Each row starts where the previous one ends, the first at [y]. *)
Fixpoint contiguous_from (y : Q) (rows : list VirtualRow) : Prop :=
  match rows with
  | [] => True
  | r :: rs => virtualY r = y /\ contiguous_from (y + row_height r) rs
  end.

(** Where rows laid out from [y] end. *)
Definition end_of (y : Q) (rows : list VirtualRow) : Q :=
  fold_left (fun y r => y + row_height r) rows y.

(** The shape of a row: a header of [GROUP_HEADER_HEIGHT] without
    resource, or a resource row of [rowHeight]. *)
Definition row_shape (rowHeight : Q) (r : VirtualRow) : Prop :=
  if isGroupHeader r then row_height r = GROUP_HEADER_HEIGHT /\ row_resourceId r = None
  else row_height r = rowHeight /\ is_Some (row_resourceId r).

Definition layout_ok (rowHeight : Q) (acc : Layout) : Prop :=
  contiguous_from 0 acc.1 /\ acc.2 = end_of 0 acc.1 /\ Forall (row_shape rowHeight) acc.1.

Lemma contiguous_from_snoc y rows r :
  contiguous_from y (rows ++ [r]) <-> contiguous_from y rows /\ virtualY r = end_of y rows.
Proof.
  revert y. induction rows as [|r' rows IH]; intros y; simpl; [naive_solver|].
  rewrite IH. unfold end_of. simpl. naive_solver.
Qed.

Lemma end_of_snoc y rows r : end_of y (rows ++ [r]) = end_of y rows + row_height r.
Proof. unfold end_of. by rewrite fold_left_app. Qed.

Lemma push_ok rowHeight acc h row :
  layout_ok rowHeight acc -> virtualY (row acc.2) = acc.2 -> row_height (row acc.2) = h ->
  row_shape rowHeight (row acc.2) -> layout_ok rowHeight (push acc h row).
Proof.
  intros (Hc & He & Hs) Hy Hh Hr. unfold layout_ok, push; simpl. split_and!.
  - apply contiguous_from_snoc. split; [done|]. by rewrite Hy.
  - by rewrite end_of_snoc, Hh, He.
  - apply Forall_app. split; [done|]. by apply Forall_singleton.
Qed.

Lemma push_resource_ok rowHeight acc id rid g :
  layout_ok rowHeight acc -> layout_ok rowHeight (push acc rowHeight (resourceRow id rid g rowHeight)).
Proof. intros H. apply push_ok; try done; split; try done; by eexists. Qed.

Lemma push_header_ok rowHeight acc gid name c :
  layout_ok rowHeight acc -> layout_ok rowHeight (push acc GROUP_HEADER_HEIGHT (headerRow gid name c)).
Proof. intros H. by apply push_ok. Qed.

#[local] Hint Resolve push_resource_ok push_header_ok : gantt.

(** Every loop of the layout keeps [layout_ok]. *)
Ltac layout_loop :=
  repeat first
    [ match goal with
      | |- layout_ok ?rh (fold_left _ _ _) =>
          apply (fold_left_invariant (layout_ok rh)); [intros ? ? ? ?|]
      end
    | apply push_resource_ok | apply push_header_ok
    | progress case_match | assumption ].

Lemma rows_none_ok rs rh acc : layout_ok rh acc -> layout_ok rh (rows_none rs rh acc).
Proof. intros H. unfold rows_none. layout_loop. Qed.

Lemma rows_by_type_ok rs E rh acc : layout_ok rh acc -> layout_ok rh (rows_by_type rs E rh acc).
Proof. intros H. unfold rows_by_type, typeGroup. layout_loop. Qed.

Lemma rows_by_order_ok rs ts os E rh acc :
  layout_ok rh acc -> layout_ok rh (rows_by_order rs ts os E rh acc).
Proof. intros H. unfold rows_by_order, unassignedGroup, orderGroup. layout_loop. Qed.

(** (C22) The row layout is contiguous in every grouping mode: the first
    row starts at 0, each row starts where the previous one ends, group
    headers are [GROUP_HEADER_HEIGHT] high and carry no resource, and
    resource rows are [rowHeight] high. *)
Theorem virtualRows_contiguous (resources : jsobj Resource) (tasks : jsobj Task)
    (orders : jsobj Order) (grouping : GroupingState) (rowHeight : Q) :
  let rows := useComposableVirtualRows resources tasks orders grouping rowHeight in
  contiguous_from 0 rows /\ Forall (row_shape rowHeight) rows.
Proof.
  assert (H0 : layout_ok rowHeight ([], 0)) by (split_and!; done).
  unfold useComposableVirtualRows. destruct (mode grouping).
  - destruct (rows_by_order_ok resources tasks orders (expandedGroups grouping) _ _ H0) as (? & _ & ?).
    by split.
  - destruct (rows_by_type_ok resources (expandedGroups grouping) _ _ H0) as (? & _ & ?). by split.
  - destruct (rows_none_ok resources _ _ H0) as (? & _ & ?). by split.
Qed.

(** ** Mode [resource_type] *)

(** [Some l] for a non-empty [l]. *)
Definition nonempty {A} (l : list A) : option (list A) :=
  match l with [] => None | _ => Some l end.

Lemma groupByType_spec rs :
  obj_wf (groupByType rs) /\
  forall t, (groupByType rs)⟦t⟧%gantt = nonempty (filter (fun r => resource_type r = t) rs).
Proof.
  unfold groupByType.
  apply (fold_left_invariant_prefix
           (fun p m => obj_wf m /\ forall t, m⟦t⟧%gantt = nonempty (filter (fun r => resource_type r = t) p))).
  - intros p r m (Hwf & Hm). split; [by apply obj_wf_init_alter|]. intros t.
    rewrite filter_app. destruct (decide (resource_type r = t)) as [<-|Hne].
    + rewrite obj_get_init_alter_eq, Hm, filter_cons_True by done. simpl.
      by destruct (filter _ p).
    + rewrite obj_get_init_alter_ne, Hm, filter_cons_False by done. simpl.
      by rewrite app_nil_r.
  - split; [constructor|done].
Qed.

Lemma nonempty_Some {A} (l l' : list A) : nonempty l = Some l' -> l = l'.
Proof. by destruct l; intros [=]. Qed.

(** The resource ids of rows, in order. *)
Definition rowResources (rows : list VirtualRow) : list string := omap row_resourceId rows.

Lemma rowResources_push acc h row :
  rowResources (push acc h row).1 = rowResources acc.1 ++ option_list (row_resourceId (row acc.2)).
Proof.
  unfold rowResources, push; simpl. rewrite omap_app. simpl.
  by destruct (row_resourceId (row acc.2)).
Qed.

(** A loop pushing one resource row per element. *)
Lemma rowResources_resource_loop {A} (name : A -> string) (rid : A -> string) g rh (xs : list A) acc :
  rowResources (fold_left (fun acc x => push acc rh (resourceRow (name x) (rid x) g rh)) xs acc).1 =
  rowResources acc.1 ++ map rid xs.
Proof.
  revert acc. induction xs as [|x xs IH]; intros acc; simpl; [by rewrite app_nil_r|].
  rewrite IH, rowResources_push. simpl. by rewrite <- app_assoc.
Qed.

Lemma rowResources_typeGroup E rh acc (e : ResourceType * list Resource) :
  rowResources (typeGroup E rh acc e).1 =
  rowResources acc.1 ++
  (if bool_decide (("type-" +:+ resourceTypeString e.1) ∈ E) then map resource_id e.2 else []).
Proof.
  unfold typeGroup. case_bool_decide.
  - by rewrite rowResources_resource_loop, rowResources_push, app_nil_r.
  - by rewrite rowResources_push, !app_nil_r.
Qed.

Lemma rowResources_rows_by_type rs E rh acc :
  rowResources (rows_by_type rs E rh acc).1 =
  rowResources acc.1 ++
  mjoin (map (fun e => if bool_decide (("type-" +:+ resourceTypeString e.1) ∈ E)
                       then map resource_id e.2 else [])
             (groupByType (resourceList rs))).
Proof.
  unfold rows_by_type. generalize (groupByType (resourceList rs)) as es. intros es.
  revert acc. induction es as [|e es IH]; intros acc; simpl; [by rewrite app_nil_r|].
  by rewrite IH, rowResources_typeGroup, app_assoc.
Qed.

Lemma NoDup_map_same {A B} (f : A -> B) (l : list A) x y :
  NoDup (map f l) -> x ∈ l -> y ∈ l -> f x = f y -> x = y.
Proof.
  induction l as [|z l IH]; simpl; intros Hnd Hx Hy Hf; [by apply not_elem_of_nil in Hx|].
  apply NoDup_cons in Hnd as [Hz Hnd]. apply elem_of_cons in Hx, Hy.
  destruct Hx as [->|Hx], Hy as [->|Hy]; try done.
  - exfalso. apply Hz. rewrite Hf. by apply list_elem_of_In, in_map, list_elem_of_In.
  - exfalso. apply Hz. rewrite <- Hf. by apply list_elem_of_In, in_map, list_elem_of_In.
  - by apply IH.
Qed.

(** Mode [resource_type]: with resource ids unique, a resource has
    a row exactly when the group of its type, [type-<type>], is expanded
    (a collapsed group shows only its header). *)
Theorem rows_by_type_membership (resources : jsobj Resource) (tasks : jsobj Task)
    (orders : jsobj Order) (E : gset string) (rh : Q) (r : Resource) :
  NoDup (map resource_id (resourceList resources)) -> r ∈ resourceList resources ->
  resource_id r ∈ rowResources (useComposableVirtualRows resources tasks orders
                                  (mkGrouping mode_resource_type E) rh) <->
  ("type-" +:+ resourceTypeString (resource_type r)) ∈ E.
Proof.
  intros Hnd Hr. unfold useComposableVirtualRows; simpl.
  rewrite rowResources_rows_by_type. simpl.
  destruct (groupByType_spec (resourceList resources)) as [Hwf Hg].
  rewrite list_elem_of_join. split.
  - intros (ids & Hin & Hids). apply list_elem_of_fmap in Hids as ([t l] & -> & He).
    simpl in Hin. case_bool_decide as HE; [|by apply not_elem_of_nil in Hin].
    apply list_elem_of_fmap in Hin as (r' & Hid & Hr').
    pose proof (Hg t) as Ht. rewrite (obj_elem_of_get _ _ _ Hwf He) in Ht.
    symmetry in Ht. apply nonempty_Some in Ht. rewrite <- Ht in Hr'.
    apply list_elem_of_filter in Hr' as [Htr Hr'].
    rewrite (NoDup_map_same _ _ r r' Hnd Hr Hr' Hid), Htr. done.
  - intros HE. destruct ((groupByType (resourceList resources))⟦resource_type r⟧%gantt) as [l|] eqn:Hl.
    + exists (map resource_id l). split.
      * apply list_elem_of_fmap. exists r. split; [done|].
        rewrite Hg in Hl. apply nonempty_Some in Hl. rewrite <- Hl. by apply list_elem_of_filter.
      * apply list_elem_of_fmap. exists (resource_type r, l). split.
        -- simpl. by rewrite bool_decide_eq_true_2.
        -- by apply obj_get_elem_of.
    + exfalso. rewrite Hg in Hl. destruct (filter _ _) eqn:Hf; [|done].
      assert (r ∈ filter (fun r' => resource_type r' = resource_type r) (resourceList resources))
        by (by apply list_elem_of_filter). rewrite Hf in H. by apply not_elem_of_nil in H.
Qed.

Lemma rows_by_type_membership_witness :
  let rs : jsobj Resource :=
    [("m1", mkResource "m1" "Press" machine 1 None None);
     ("p1", mkResource "p1" "Ann" operator 1 None None)] in
  resource_id (mkResource "m1" "Press" machine 1 None None) ∈
    rowResources (useComposableVirtualRows rs [] [] (mkGrouping mode_resource_type {["type-machine"]}) 40) <->
  ("type-" +:+ resourceTypeString machine) ∈ ({["type-machine"]} : gset string).
Proof.
  apply rows_by_type_membership.
  - apply (bool_decide_unpack _). vm_compute. reflexivity.
  - apply (bool_decide_unpack _). vm_compute. reflexivity.
Defined.

(** ** Mode [order] *)

Lemma orderResources_spec ts :
  obj_wf (orderResources ts) /\
  (forall oid ids rid, (orderResources ts)⟦oid⟧%gantt = Some ids -> rid ∈ ids ->
     exists t, t ∈ obj_values ts /\ orderId t = oid /\ resourceId t = rid) /\
  (forall t, t ∈ obj_values ts ->
     exists ids, (orderResources ts)⟦orderId t⟧%gantt = Some ids /\ resourceId t ∈ ids).
Proof.
  unfold orderResources.
  apply (fold_left_invariant_prefix (fun p m => obj_wf m /\
     (forall oid ids rid, m⟦oid⟧%gantt = Some ids -> rid ∈ ids ->
        exists t, t ∈ p /\ orderId t = oid /\ resourceId t = rid) /\
     (forall t, t ∈ p -> exists ids, m⟦orderId t⟧%gantt = Some ids /\ resourceId t ∈ ids))).
  - intros p t m (Hwf & Hsound & Hcomp). split_and!; [by apply obj_wf_init_alter| |].
    + intros oid ids rid Hget Hrid. destruct (decide (orderId t = oid)) as [<-|Hne].
      * rewrite obj_get_init_alter_eq in Hget. injection Hget as <-.
        apply elem_of_jsset_add in Hrid as [->|Hrid].
        -- exists t. rewrite elem_of_app, list_elem_of_singleton. naive_solver.
        -- destruct (m⟦orderId t⟧%gantt) as [ids0|] eqn:E0; simpl in Hrid;
             [|by apply not_elem_of_nil in Hrid].
           destruct (Hsound _ _ _ E0 Hrid) as (t' & ? & ? & ?).
           exists t'. rewrite elem_of_app. naive_solver.
      * rewrite obj_get_init_alter_ne in Hget by done.
        destruct (Hsound _ _ _ Hget Hrid) as (t' & ? & ? & ?). exists t'. rewrite elem_of_app. naive_solver.
    + intros t' Ht'. apply elem_of_app in Ht' as [Ht'|Ht'%list_elem_of_singleton]; [|subst t'].
      * destruct (Hcomp t' Ht') as (ids & Hids & Hin).
        destruct (decide (orderId t = orderId t')) as [E|Hne].
        -- rewrite <- E, obj_get_init_alter_eq, E, Hids. simpl. eexists. split; [done|].
           apply elem_of_jsset_add. by right.
        -- rewrite obj_get_init_alter_ne by done. eauto.
      * rewrite obj_get_init_alter_eq. eexists. split; [done|]. apply elem_of_jsset_add. by left.
  - split_and!; [constructor | done | intros t Ht; by apply not_elem_of_nil in Ht].
Qed.

Lemma elem_of_fold_jsset_add_str (ls : list string) acc x :
  x ∈ fold_left (fun acc id => jsset_add id acc) ls acc <-> x ∈ acc \/ x ∈ ls.
Proof.
  revert acc. induction ls as [|y ls IH]; intros acc; simpl.
  - rewrite elem_of_nil. naive_solver.
  - rewrite IH, elem_of_jsset_add, elem_of_cons. naive_solver.
Qed.

Lemma assignedResources_spec ts rid :
  rid ∈ assignedResources ts <-> exists ids, ids ∈ obj_values (orderResources ts) /\ rid ∈ ids.
Proof.
  unfold assignedResources. generalize (obj_values (orderResources ts)) as vs. intros vs.
  cut (forall acc, rid ∈ fold_left (fun acc ids => fold_left (fun acc id => jsset_add id acc) ids acc) vs acc
                   <-> rid ∈ acc \/ exists ids, ids ∈ vs /\ rid ∈ ids).
  { intros H. rewrite H, elem_of_nil. naive_solver. }
  induction vs as [|ids vs IH]; intros acc; simpl.
  - split; [naive_solver|]. intros [H|(ids & H & _)]; [done|by apply not_elem_of_nil in H].
  - rewrite IH, elem_of_fold_jsset_add_str. setoid_rewrite elem_of_cons. naive_solver.
Qed.

(** A task's resource is assigned. *)
Lemma assignedResources_task ts t :
  t ∈ obj_values ts -> resourceId t ∈ assignedResources ts.
Proof.
  intros Ht. destruct (orderResources_spec ts) as (_ & _ & Hcomp).
  destruct (Hcomp t Ht) as (ids & Hids & Hin). apply assignedResources_spec.
  exists ids. split; [|done]. apply obj_values_elem_of. exists (orderId t). by apply obj_get_elem_of.
Qed.

Lemma insertByPriority_elem_of o os x : x ∈ insertByPriority o os <-> x = o \/ x ∈ os.
Proof.
  induction os as [|o' os IH]; simpl.
  - rewrite list_elem_of_singleton, elem_of_nil. naive_solver.
  - case_match; rewrite !elem_of_cons; [rewrite IH|]; naive_solver.
Qed.

Lemma sortedOrders_elem_of os o : o ∈ sortedOrders os -> o ∈ obj_values os.
Proof.
  unfold sortedOrders. intros H.
  cut (forall acc, o ∈ fold_left (fun acc o => insertByPriority o acc) (obj_values os) acc ->
                   o ∈ acc \/ o ∈ obj_values os).
  { intros Hc. destruct (Hc [] H) as [Hn|]; [by apply not_elem_of_nil in Hn|done]. }
  generalize (obj_values os) as vs. intros vs.
  induction vs as [|v vs IH]; intros acc Hin; simpl in *; [by left|].
  destruct (IH _ Hin) as [Hi|Hi]; rewrite ?elem_of_cons.
  - apply insertByPriority_elem_of in Hi. naive_solver.
  - naive_solver.
Qed.

Lemma rowResources_lookup_loop (rs : jsobj Resource) (name : Resource -> string) g rh
    (ids : list string) acc :
  rowResources (fold_left (fun acc rid =>
     match rs⟦rid⟧%gantt with
     | None => acc
     | Some res => push acc rh (resourceRow (name res) (resource_id res) g rh)
     end) ids acc).1 =
  rowResources acc.1 ++ omap (fun rid => resource_id <$> rs⟦rid⟧%gantt) ids.
Proof.
  revert acc. induction ids as [|rid ids IH]; intros acc; simpl; [by rewrite app_nil_r|].
  rewrite IH. destruct (rs⟦rid⟧%gantt); simpl; [|reflexivity].
  unfold rowResources. rewrite omap_app. simpl. by rewrite <- app_assoc.
Qed.

(** Where a resource row of mode [order] comes from. *)
Definition order_row_source (rs : jsobj Resource) (ts : jsobj Task) (os : jsobj Order) (x : string) : Prop :=
  (exists o ids rid res, o ∈ sortedOrders os /\ (orderResources ts)⟦order_id o⟧%gantt = Some ids /\
     rid ∈ ids /\ rs⟦rid⟧%gantt = Some res /\ resource_id res = x) \/
  (exists r, r ∈ resourceList rs /\ (resource_id r ∉ assignedResources ts) /\ resource_id r = x).

Lemma rowResources_rows_by_order rs ts os E rh x :
  x ∈ rowResources (rows_by_order rs ts os E rh ([], 0)).1 -> order_row_source rs ts os x.
Proof.
  unfold rows_by_order, unassignedGroup.
  assert (Hloop : forall y, y ∈ rowResources (fold_left (orderGroup rs ts E rh) (sortedOrders os) ([], 0)).1 ->
                            order_row_source rs ts os y).
  { apply (fold_left_invariant (fun acc : Layout => forall y, y ∈ rowResources acc.1 -> order_row_source rs ts os y));
      [|intros y Hy; by apply not_elem_of_nil in Hy].
    intros acc o Ho IH y. unfold orderGroup.
    destruct ((orderResources ts)⟦order_id o⟧%gantt) as [[|id0 ids0]|] eqn:Hget; [by apply IH| |by apply IH].
    case_bool_decide.
    - rewrite rowResources_lookup_loop, rowResources_push, app_nil_r, elem_of_app.
      intros [Hy|Hy]; [by apply IH|]. apply list_elem_of_omap in Hy as (rid & Hrid & Hres).
      destruct (rs⟦rid⟧%gantt) as [res|] eqn:Hr; [|done]. injection Hres as Hres.
      left. exists o, (id0 :: ids0), rid, res. naive_solver.
    - rewrite rowResources_push, app_nil_r. apply IH. }
  intros Hx. destruct (filter _ (resourceList rs)) as [|r0 rs0] eqn:Hf; [by apply Hloop|].
  revert Hx. case_bool_decide.
  - rewrite rowResources_resource_loop, rowResources_push, app_nil_r, elem_of_app.
    intros [Hy|Hy]; [by apply Hloop|]. apply list_elem_of_fmap in Hy as (r & -> & Hr).
    rewrite <- Hf in Hr. apply list_elem_of_filter in Hr as [Hna Hr]. right. by exists r.
  - rewrite rowResources_push, app_nil_r. apply Hloop.
Qed.

(** (C23) Mode [order] hides a resource whose tasks all belong to orders
    that are not in [orders]: its resource id is in [assignedResources]
    (so it is not in the unassigned group), but no displayed order group
    lists it, so whatever groups are expanded it has no row and its tasks
    are not drawn. *)
Theorem order_grouping_hides_resource (rs : jsobj Resource) (ts : jsobj Task) (os : jsobj Order)
    (E : gset string) (rh : Q) (rid : string) :
  obj_Forall (fun k res => resource_id res = k) rs ->
  (exists t, t ∈ obj_values ts /\ resourceId t = rid) ->
  (forall t, t ∈ obj_values ts -> resourceId t = rid ->
     forall o, o ∈ obj_values os -> order_id o <> orderId t) ->
  rid ∉ rowResources (useComposableVirtualRows rs ts os (mkGrouping mode_order E) rh).
Proof.
  intros Hkeys (t0 & Ht0 & Hr0) Hunknown Hin.
  apply rowResources_rows_by_order in Hin as
    [(o & ids & rid' & res & Ho & Hget & Hrid' & Hres & Hid) | (r & Hr & Hna & Hid)].
  - rewrite (Hkeys _ _ Hres) in Hid. subst rid'.
    destruct (orderResources_spec ts) as (_ & Hsound & _).
    destruct (Hsound _ _ _ Hget Hrid') as (t & Ht & Ho' & Hrt).
    by apply (Hunknown t Ht Hrt o (sortedOrders_elem_of _ _ Ho)).
  - apply Hna. rewrite Hid, <- Hr0. by apply assignedResources_task.
Qed.

(** The resource [r2] has one task, of order [o9], which is not an
    order: with every group expanded it still has no row. *)
Lemma order_grouping_hides_resource_witness :
  let rs : jsobj Resource :=
    [("r1", mkResource "r1" "A" machine 1 None None); ("r2", mkResource "r2" "B" operator 1 None None)] in
  let ts : jsobj Task :=
    [("t1", mkTask "t1" 0 [] 0 0 "r2" "o9" "T1" None 1 scheduled 0 None);
     ("t2", mkTask "t2" 0 [] 0 0 "r1" "o1" "T2" None 1 scheduled 0 None)] in
  let os : jsobj Order := [("o1", mkOrder "o1" "Order 1" 2 None)] in
  "r2" ∉ rowResources (useComposableVirtualRows rs ts os
                          (mkGrouping mode_order {["order-o1"; "order-o9"; "unassigned"]}) 40).
Proof.
  intros rs ts os. apply order_grouping_hides_resource.
  - apply obj_Forall_entries. apply (bool_decide_unpack _). vm_compute. reflexivity.
  - exists (mkTask "t1" 0 [] 0 0 "r2" "o9" "T1" None 1 scheduled 0 None). split; [|reflexivity].
    apply (bool_decide_unpack _). vm_compute. reflexivity.
  - intros t Ht Hr o Ho. apply obj_values_elem_of in Ho as (k & Ho).
    apply list_elem_of_singleton in Ho. injection Ho as -> ->. simpl.
    apply obj_values_elem_of in Ht as (k & Ht). unfold ts in Ht.
    rewrite elem_of_cons, list_elem_of_singleton in Ht.
    destruct Ht as [Ht|Ht]; injection Ht as -> ->; simpl in *; [discriminate | congruence].
Defined.

(** ** The visible rows *)

(** Along contiguous rows of non-negative height, both the top and the
    bottom of the rows never decrease. *)
Definition row_before (r1 r2 : VirtualRow) : Prop :=
  virtualY r1 + row_height r1 <= virtualY r2 + row_height r2 /\ virtualY r1 <= virtualY r2.

Lemma contiguous_sorted y rows :
  contiguous_from y rows -> Forall (fun r => 0 <= row_height r) rows ->
  Forall (fun r => y <= virtualY r) rows /\ StronglySorted row_before rows.
Proof.
  revert y. induction rows as [|r rows IH]; intros y Hc Hh; [split; constructor|].
  destruct Hc as [Hy Hc]. apply Forall_cons in Hh as [Hr Hh].
  destruct (IH _ Hc Hh) as [Hge Hs]. split.
  - constructor; [rewrite Hy; lra|]. eapply Forall_impl; [exact Hge|]. simpl. intros r' H. lra.
  - constructor; [done|]. apply Forall_forall. intros r' Hr'.
    pose proof (proj1 (Forall_forall _ _) Hge r' Hr') as H1.
    pose proof (proj1 (Forall_forall _ _) Hh r' Hr') as H2. simpl in *.
    unfold row_before. rewrite Hy in *. split; lra.
Qed.

(** The visible rows are a contiguous slice: for a non-negative row
    height, the rows [useComposableVisibleRows] keeps from the layout of
    any grouping mode are consecutive rows of the layout (the layout is
    the slice with rows before and after it), as the spec's binary search
    over rows sorted by [virtualY] requires. *)
Theorem visibleRows_slice (resources : jsobj Resource) (tasks : jsobj Task) (orders : jsobj Order)
    (grouping : GroupingState) (rowHeight scrollY height : Q) :
  0 <= rowHeight ->
  let rows := useComposableVirtualRows resources tasks orders grouping rowHeight in
  exists pre post, rows = pre ++ useComposableVisibleRows rows scrollY height rowHeight ++ post.
Proof.
  intros Hrh rows. destruct (virtualRows_contiguous resources tasks orders grouping rowHeight) as [Hc Hs].
  fold rows in Hc, Hs. unfold useComposableVisibleRows.
  destruct (bool_decide (rows = []) || Qeq_bool height 0); [by exists rows, []; rewrite app_nil_r|].
  assert (Hh : Forall (fun r => 0 <= row_height r) rows).
  { eapply Forall_impl; [exact Hs|]. intros r. unfold row_shape.
    destruct (isGroupHeader r); intros [-> _]; [unfold GROUP_HEADER_HEIGHT; lra | done]. }
  destruct (contiguous_sorted 0 rows Hc Hh) as [_ Hsorted].
  rewrite (list_filter_iff _ (fun row => Qle_bool (scrollY - BUFFER * rowHeight) (virtualY row + row_height row) = true /\
                                        Qle_bool (virtualY row) (scrollY + height + BUFFER * rowHeight) = true))
    by (intros row; unfold rowVisible; by rewrite andb_true_iff).
  apply (filter_convex_infix row_before); [| |exact Hsorted].
  - intros r1 r2 [Hb _]. rewrite !Qle_bool_iff. lra.
  - intros r1 r2 [_ Ht]. rewrite !Qle_bool_iff. lra.
Qed.

Lemma visibleRows_slice_witness :
  let rows := useComposableVirtualRows
                [("r1", mkResource "r1" "A" machine 1 None None); ("r2", mkResource "r2" "B" operator 1 None None);
                 ("r3", mkResource "r3" "C" generic 1 None None)] [] [] (mkGrouping mode_none ∅) 40 in
  exists pre post, rows = pre ++ useComposableVisibleRows rows 200 40 40 ++ post.
Proof. apply visibleRows_slice. lra. Defined.
