(* ===== verification/LegacyRows.v ===== *)
(** * LegacyRows: the row layout of the split stores (src/unnamed/part_008)

    [useVirtualRows] and [useVisibleRows] are the algorithms of
    [useComposableVirtualRows] and [useComposableVisibleRows] (RowLayout.v)
    line for line, reading the legacy stores (LegacyStore.v) instead of the
    composable context; the only difference is the visibility buffer,
    three rows of the constant [ROW_HEIGHT] (40) instead of the viewport's
    [rowHeight].  The lemmas carry the layout's guarantees over. *)

From S2P Require Import Prelude Types Viewport Store LegacyStore RowLayout.

Import DataStore UIStore.

Open Scope Q_scope.

(** [ROW_HEIGHT] *)
Definition ROW_HEIGHT : Q := 40.

(** [useVirtualRows]: the stores' resources, tasks, orders, grouping and
    row height. *)
Definition useVirtualRows (ds : GanttDataState) (ui : GanttUIState) : list VirtualRow :=
  useComposableVirtualRows (resources ds) (tasks ds) (orders ds) (grouping ui)
    (rowHeight (viewport ui)).

(** [useVisibleRows]: the buffer is [3 * ROW_HEIGHT]. *)
Definition useVisibleRows (ui : GanttUIState) (virtualRows : list VirtualRow) : list VirtualRow :=
  useComposableVisibleRows virtualRows (scrollY (viewport ui)) (height (viewport ui)) ROW_HEIGHT.

(** The legacy layout of the split stores of a composable store is the
    composable layout of that store. *)
Lemma useVirtualRows_store (s : GanttStoreState) :
  useVirtualRows (data_of s) (ui_of s) =
  useComposableVirtualRows (Store.resources s) (Store.tasks s) (Store.orders s)
    (Store.grouping s) (rowHeight (Store.viewport s)).
Proof. reflexivity. Qed.

(** The legacy layout is contiguous from 0 and its rows have their shape. *)
Lemma useVirtualRows_contiguous (ds : GanttDataState) (ui : GanttUIState) :
  contiguous_from 0 (useVirtualRows ds ui) /\
  Forall (row_shape (rowHeight (viewport ui))) (useVirtualRows ds ui).
Proof.
  assert (H0 : layout_ok (rowHeight (viewport ui)) ([], 0)) by (split_and!; done).
  unfold useVirtualRows, useComposableVirtualRows. destruct (mode (grouping ui)).
  - destruct (rows_by_order_ok (resources ds) (tasks ds) (orders ds)
                (expandedGroups (grouping ui)) _ _ H0) as (? & _ & ?). by split.
  - destruct (rows_by_type_ok (resources ds) (expandedGroups (grouping ui)) _ _ H0) as (? & _ & ?).
    by split.
  - destruct (rows_none_ok (resources ds) _ _ H0) as (? & _ & ?). by split.
Qed.

(** The two visibility filters agree when the rows are 40 pixels high. *)
Lemma useVisibleRows_store (ui : GanttUIState) rows :
  rowHeight (viewport ui) = ROW_HEIGHT ->
  useVisibleRows ui rows =
  useComposableVisibleRows rows (scrollY (viewport ui)) (height (viewport ui)) (rowHeight (viewport ui)).
Proof. intros ->. reflexivity. Qed.
