(* ===== verification/SpatialIndex.v ===== *)
(** * SpatialIndex: the Spatial Index of src/unnamed/part_003

    [SpatialIndex] keeps an R-tree ([RBush], a library) of one box per
    task, time along x and virtual y along y, and the map [taskBoundsMap].
    The R-tree is not code of this repository: it is the interface
    [RBushOps] (the calls the index makes) with the contract [RBushSpec]
    (what RBush documents: a tree loaded after [clear] holds exactly the
    loaded items, and [search] returns the items whose closed box meets
    the query box, in some order).  The index's operations are proved
    against the interface; the instance [list_rbush] implements it with a
    list, so the contract is satisfiable and the examples evaluate.

    The theorems: after [rebuild], a point query returns exactly the tasks
    whose time span and row contain the point, and [getTaskBounds] is the
    task's box; a task is placed in the last row of its resource, so in
    order grouping, where a resource has one row per order, tasks are hit
    and drawn in the row of another order (a finding). *)

From S2P Require Import Prelude Types.

Open Scope Q_scope.

(** [RBushItem] *)
Record RBushItem := mkItem {
  it_minX : Q;
  it_minY : Q;
  it_maxX : Q;
  it_maxY : Q;
  it_taskId : string;
}.

(** A bound of a search box: [-Infinity], a number or [Infinity]. *)
Inductive ExtQ := ninf | fin (q : Q) | pinf.

Definition ext_le_q (b : ExtQ) (q : Q) : bool :=
  match b with ninf => true | fin b => Qle_bool b q | pinf => false end.
Definition q_le_ext (q : Q) (b : ExtQ) : bool :=
  match b with ninf => false | fin b => Qle_bool q b | pinf => true end.

(** The box passed to [tree.search]. *)
Record SearchBox := mkBox {
  q_minX : Q;
  q_minY : ExtQ;
  q_maxX : Q;
  q_maxY : ExtQ;
}.

(** RBush's [intersects]: the closed boxes meet. *)
Definition intersects (q : SearchBox) (it : RBushItem) : bool :=
  Qle_bool (q_minX q) (it_maxX it) && ext_le_q (q_minY q) (it_maxY it) &&
  Qle_bool (it_minX it) (q_maxX q) && q_le_ext (it_minY it) (q_maxY q).

(** The calls the index makes on its R-tree. *)
Class RBushOps (T : Type) := {
  rb_new : T;
  rb_clear : T -> T;
  rb_load : T -> list RBushItem -> T;
  rb_search : T -> SearchBox -> list RBushItem;
}.

(** RBush's contract, as the index uses it. *)
Class RBushSpec (T : Type) `{!RBushOps T} := {
  rb_search_loaded t items q :
    rb_search (rb_load (rb_clear t) items) q ≡ₚ filter (fun it => intersects q it = true) items;
  rb_search_cleared t q : rb_search (rb_clear t) q = [];
}.

(** A list is an R-tree without the tree. *)
#[export] Instance list_rbush_ops : RBushOps (list RBushItem) := {
  rb_new := [];
  rb_clear _ := [];
  rb_load t items := t ++ items;
  rb_search t q := filter (fun it => intersects q it = true) t;
}.

#[export] Instance list_rbush : RBushSpec (list RBushItem).
Proof. split; intros; reflexivity. Qed.

Section Index.
Context {T : Type} `{!RBushOps T}.

(** [SpatialIndex]: the tree and [taskBoundsMap]. *)
Record SpatialIndex := mkSpatialIndex {
  tree : T;
  taskBoundsMap : list (string * TaskBounds);
}.

(** [new SpatialIndex()] *)
Definition newSpatialIndex : SpatialIndex := mkSpatialIndex rb_new [].

(** [if (row.resourceId)]: a resource id that is neither [null] nor [""]. *)
Definition truthyResource (row : VirtualRow) : option string :=
  match row_resourceId row with
  | Some rid => if String.eqb rid "" then None else Some rid
  | None => None
  end.

(** [rowByResource]: the last row of each resource. *)
Definition rowByResource (virtualRows : list VirtualRow) : list (string * VirtualRow) :=
  fold_left (fun m row => match truthyResource row with
                          | Some rid => obj_set rid row m
                          | None => m
                          end) virtualRows [].

(** The bounds of a task in its row. *)
Definition taskBounds (t : Task) (row : VirtualRow) : TaskBounds :=
  mkBounds (startTime t) (virtualY row) (_endTime t) (virtualY row + row_height row) (task_id t).

Definition boundsItem (b : TaskBounds) : RBushItem :=
  mkItem (inject_Z (minX b)) (minY b) (inject_Z (maxX b)) (maxY b) (bounds_taskId b).

(** The loop of [rebuild]: the bounds of the tasks that have a row. *)
Definition rebuildLoop (rows : list (string * VirtualRow)) (tasks : list Task)
    : list (string * TaskBounds) * list RBushItem :=
  fold_left (fun acc t =>
               match obj_get (resourceId t) rows with
               | None => acc
               | Some row =>
                   let b := taskBounds t row in
                   (obj_set (task_id t) b acc.1, acc.2 ++ [boundsItem b])
               end) tasks ([], []).

(** [rebuild] *)
Definition rebuild (s : SpatialIndex) (tasks : list Task) (virtualRows : list VirtualRow)
    : SpatialIndex :=
  let res := rebuildLoop (rowByResource virtualRows) tasks in
  mkSpatialIndex (rb_load (rb_clear (tree s)) res.2) res.1.

(** [queryPoint], [queryRect], [queryTimeRange] *)
Definition queryPoint (s : SpatialIndex) (timestamp vy : Q) : list string :=
  it_taskId <$> rb_search (tree s) (mkBox timestamp (fin vy) timestamp (fin vy)).

Definition queryRect (s : SpatialIndex) (minX' minY' maxX' maxY' : Q) : list string :=
  it_taskId <$> rb_search (tree s) (mkBox minX' (fin minY') maxX' (fin maxY')).

Definition queryTimeRange (s : SpatialIndex) (startTime' endTime' : Q) : list string :=
  it_taskId <$> rb_search (tree s) (mkBox startTime' ninf endTime' pinf).

(** [getTaskBounds], [isEmpty], [size], [clear] *)
Definition getTaskBounds (s : SpatialIndex) (taskId : string) : option TaskBounds :=
  obj_get taskId (taskBoundsMap s).

Definition isEmpty (s : SpatialIndex) : bool := bool_decide (taskBoundsMap s = []).
Definition size (s : SpatialIndex) : nat := length (taskBoundsMap s).

Definition clear (s : SpatialIndex) : SpatialIndex := mkSpatialIndex (rb_clear (tree s)) [].

End Index.

Arguments SpatialIndex T : clear implicits.

(** The module singleton [getSpatialIndex] / [resetSpatialIndex]. *)
Definition getSpatialIndex {T} `{!RBushOps T} (inst : option (SpatialIndex T))
    : SpatialIndex T * option (SpatialIndex T) :=
  match inst with
  | Some s => (s, inst)
  | None => (newSpatialIndex, Some newSpatialIndex)
  end.

Definition resetSpatialIndex {T} (inst : option (SpatialIndex T)) : option (SpatialIndex T) := None.

(** ** What [rebuild] builds *)

(** [rowByResource] holds, for each resource, its last row. *)
Lemma rowByResource_last (rows : list VirtualRow) rid :
  (rowByResource rows)⟦rid⟧%gantt = last (filter (fun r => truthyResource r = Some rid) rows).
Proof.
  unfold rowByResource. revert rid.
  apply (fold_left_invariant_prefix
           (fun p m => forall rid, m⟦rid⟧%gantt = last (filter (fun r => truthyResource r = Some rid) p))).
  - intros p row m Hm rid. rewrite filter_app.
    destruct (truthyResource row) as [rid0|] eqn:Ht.
    + destruct (decide (rid0 = rid)) as [<-|Hne].
      * rewrite obj_get_set_eq, filter_cons_True, filter_nil by done. by rewrite last_snoc.
      * rewrite obj_get_set_ne, filter_cons_False, filter_nil by congruence. by rewrite app_nil_r.
    + rewrite filter_cons_False, filter_nil by congruence. by rewrite app_nil_r.
  - done.
Qed.

(** The item of a task, when its resource has a row. *)
Definition taskItem (rows : list (string * VirtualRow)) (t : Task) : option RBushItem :=
  (fun row => boundsItem (taskBounds t row)) <$> obj_get (resourceId t) rows.

Lemma rebuildLoop_spec rows (tasks : list Task) :
  (rebuildLoop rows tasks).2 = omap (taskItem rows) tasks /\
  forall k, ((rebuildLoop rows tasks).1)⟦k⟧%gantt =
    last (omap (fun t => if decide (task_id t = k)
                         then (fun row => taskBounds t row) <$> obj_get (resourceId t) rows
                         else None) tasks).
Proof.
  unfold rebuildLoop.
  apply (fold_left_invariant_prefix (fun p acc =>
           acc.2 = omap (taskItem rows) p /\
           forall k, (acc.1)⟦k⟧%gantt =
             last (omap (fun t => if decide (task_id t = k)
                                  then (fun row => taskBounds t row) <$> obj_get (resourceId t) rows
                                  else None) p))).
  - intros p t [m items] [Hitems Hm]. cbn [fst snd] in *.
    rewrite !omap_snoc. unfold taskItem at 2. cbv beta.
    destruct (obj_get (resourceId t) rows) as [row|] eqn:Hr; cbn [fst snd fmap option_fmap option_map option_list].
    + split; [by rewrite Hitems|]. intros k. destruct (decide (task_id t = k)) as [<-|Hne].
      * rewrite obj_get_set_eq, omap_snoc. cbv beta.
        rewrite decide_True, Hr by done. simpl. by rewrite last_snoc.
      * rewrite obj_get_set_ne, omap_snoc by done. cbv beta.
        rewrite decide_False by done. simpl. by rewrite app_nil_r, Hm.
    + split; [by rewrite Hitems, app_nil_r|]. intros k. rewrite Hm, omap_snoc. cbv beta.
      destruct (decide (task_id t = k)); [rewrite Hr|]; simpl; by rewrite app_nil_r.
  - split; [done|]. intros k. done.
Qed.

Lemma intersects_point t y it :
  intersects (mkBox t (fin y) t (fin y)) it = true <->
  it_minX it <= t <= it_maxX it /\ it_minY it <= y <= it_maxY it.
Proof. unfold intersects; simpl. rewrite !andb_true_iff, !Qle_bool_iff. naive_solver. Qed.

(** (C24) Hit detection is exact: after [rebuild], a point query returns
    a task id exactly when a task with that id has a row (the row the
    index keeps for its resource) and the point lies in its closed box,
    between its start and end in time and within the row's extent; this
    holds for every R-tree meeting RBush's contract. *)
Theorem queryPoint_spec `{RBushSpec T} (s : SpatialIndex T) (tasks : list Task)
    (rows : list VirtualRow) (t y : Q) (k : string) :
  k ∈ queryPoint (rebuild s tasks rows) t y <->
  exists task row, task ∈ tasks /\ task_id task = k /\
    (rowByResource rows)⟦resourceId task⟧%gantt = Some row /\
    inject_Z (startTime task) <= t <= inject_Z (_endTime task) /\
    virtualY row <= y <= virtualY row + row_height row.
Proof.
  unfold queryPoint, rebuild; simpl. rewrite rb_search_loaded.
  destruct (rebuildLoop_spec (rowByResource rows) tasks) as [-> _].
  rewrite list_elem_of_fmap. setoid_rewrite list_elem_of_filter.
  setoid_rewrite list_elem_of_omap. setoid_rewrite intersects_point. split.
  - intros (it & -> & Hin & task & Htask & Hit). unfold taskItem in Hit.
    destruct ((rowByResource rows)⟦resourceId task⟧%gantt) as [row|] eqn:Hr; [|done].
    injection Hit as <-. exists task, row. simpl in *. naive_solver.
  - intros (task & row & Htask & <- & Hr & Ht & Hy). exists (boundsItem (taskBounds task row)).
    split; [done|]. split; [simpl; naive_solver|]. exists task. unfold taskItem. by rewrite Hr.
Qed.

(** [rebuild] places a task (ids being unique) in the last row of
    its resource: [getTaskBounds] gives the task's time span and that
    row's extent.  In order grouping a resource has one row per order,
    so every task of the resource is placed in the row of the last order
    group, whatever its own order (a finding). *)
Theorem getTaskBounds_last_row `{RBushSpec T} (s : SpatialIndex T) (tasks : list Task)
    (rows : list VirtualRow) (task : Task) (row : VirtualRow) :
  NoDup (task_id <$> tasks) -> task ∈ tasks ->
  last (filter (fun r => truthyResource r = Some (resourceId task)) rows) = Some row ->
  getTaskBounds (rebuild s tasks rows) (task_id task) =
    Some (mkBounds (startTime task) (virtualY row) (_endTime task)
                   (virtualY row + row_height row) (task_id task)).
Proof.
  intros Hnd Hin Hlast. unfold getTaskBounds, rebuild; simpl.
  destruct (rebuildLoop_spec (rowByResource rows) tasks) as [_ ->].
  rewrite <- rowByResource_last in Hlast.
  apply list_elem_of_split in Hin as (l1 & l2 & ->).
  rewrite fmap_app in Hnd. simpl in Hnd. apply NoDup_app in Hnd as (_ & _ & Hnd2).
  apply NoDup_cons in Hnd2 as [Hnot2 _].
  rewrite omap_app. simpl. rewrite decide_True, Hlast by done. simpl.
  rewrite (omap_all_None _ l2).
  - by rewrite last_snoc.
  - intros x Hx. rewrite decide_False; [done|]. intros Heq. apply Hnot2.
    rewrite <- Heq. by apply list_elem_of_fmap_2.
Qed.

(** Example data: a resource [r1] with a row in two order groups, and a
    task of order [o1] on it. *)
Definition example_rows : list VirtualRow :=
  [mkRow "order-o1" None 0 32 true (Some "order-o1") (Some "O1") (Some false);
   mkRow "resource-r1-o1" (Some "r1") 32 40 false (Some "order-o1") None None;
   mkRow "order-o2" None 72 32 true (Some "order-o2") (Some "O2") (Some false);
   mkRow "resource-r1-o2" (Some "r1") 104 40 false (Some "order-o2") None None].

Definition example_task : Task :=
  mkTask "t1" 0 [mkPhase execution 60 None] 3600000 60 "r1" "o1" "T1" None 1 scheduled 0 None.

Lemma queryPoint_spec_witness :
  "t1" ∈ queryPoint (rebuild (newSpatialIndex (T := list RBushItem)) [example_task] example_rows) 1000 120 <->
  exists task row, task ∈ [example_task] /\ task_id task = "t1" /\
    (rowByResource example_rows)⟦resourceId task⟧%gantt = Some row /\
    inject_Z (startTime task) <= 1000 <= inject_Z (_endTime task) /\
    virtualY row <= 120 <= virtualY row + row_height row.
Proof. apply queryPoint_spec. Defined.

(** The task of order [o1] is placed in the row of order [o2]: its box
    starts at y = 104, not at the row [resource-r1-o1] (y = 32). *)
Lemma getTaskBounds_last_row_witness :
  getTaskBounds (rebuild (newSpatialIndex (T := list RBushItem)) [example_task] example_rows) "t1" =
    Some (mkBounds 0 104 3600000 (104 + 40) "t1").
Proof.
  apply (getTaskBounds_last_row _ [example_task] example_rows example_task
           (mkRow "resource-r1-o2" (Some "r1") 104 40 false (Some "order-o2") None None)).
  - apply (bool_decide_unpack _). vm_compute. reflexivity.
  - by left.
  - vm_compute. reflexivity.
Defined.
