(* ===== verification/IndexManager.v ===== *)
(** * IndexManager: the Index Manager of src/unnamed/part_002

    [IndexManager] holds the spatial index (SpatialIndex.v, over any
    R-tree meeting [RBushSpec]) and the relational maps [buildIndexes]
    fills: resource to tasks, order to tasks, the dependency graph in both
    directions ([predecessorIndex]: successor to predecessors,
    [successorIndex]: predecessor to successors), the dependencies by id
    and by task, and the row layout with its resource-to-row map.  JS
    [Map]s are association lists, the [Set]s in them duplicate-free lists
    in insertion order.

    [getDependencyChain] is a breadth-first search whose [while] loop is
    [bfs] with a fuel argument; [chainFuel] is a bound computed from the
    graph, and the theorems show that it always suffices (the loop
    terminates, even on cycles) and that the result is exactly the set of
    tasks reachable from the origin in the requested direction, without
    the origin and without repetition.  [getVisibleRows] is the two scans
    of the code; it never misses a row meeting the window, but when the
    window is below the last row it returns every row (a finding). *)

From S2P Require Import Prelude Types RowLayout SpatialIndex.

Open Scope Q_scope.

(** The idiom [if (!m.has(k)) m.set(k, new Set()); m.get(k)?.add(v)]. *)
Definition addToIndex (k v : string) (m : list (string * list string)) : list (string * list string) :=
  obj_alter (jsset_add v) k (if obj_has k m then m else obj_set k [] m).

(** [Array.from(m.get(k) ?? [])] *)
Definition indexGet (m : list (string * list string)) (k : string) : list string :=
  default [] (obj_get k m).

Section Manager.
Context {T : Type} `{!RBushOps T}.

(** The fields of [IndexManager]. *)
Record IndexManager := mkIndexManager {
  spatialIndex : SpatialIndex T;
  resourceTasksIndex : list (string * list string);
  orderTasksIndex : list (string * list string);
  predecessorIndex : list (string * list string);
  successorIndex : list (string * list string);
  dependencyMap : list (string * TaskDependency);
  taskDependenciesIndex : list (string * list string);
  im_virtualRows : list VirtualRow;
  rowByResourceId : list (string * VirtualRow);
}.

(** [new IndexManager()] *)
Definition newIndexManager : IndexManager :=
  mkIndexManager newSpatialIndex [] [] [] [] [] [] [] [].

(** The task loop of [buildIndexes]. *)
Definition taskIndexes (tasks : list Task) : list (string * list string) * list (string * list string) :=
  fold_left (fun acc t => (addToIndex (resourceId t) (task_id t) acc.1,
                           addToIndex (orderId t) (task_id t) acc.2)) tasks ([], []).

(** The dependency loop of [buildIndexes]: [dependencyMap],
    [predecessorIndex], [successorIndex], [taskDependenciesIndex]. *)
Record DepIndexes := mkDepIndexes {
  di_map : list (string * TaskDependency);
  di_pred : list (string * list string);
  di_succ : list (string * list string);
  di_task : list (string * list string);
}.

(** The body of [buildIndexes]'s loop over the dependencies. *)
Definition indexDependency (acc : DepIndexes) (dep : TaskDependency) : DepIndexes :=
  mkDepIndexes (obj_set (dep_id dep) dep (di_map acc))
               (addToIndex (successorId dep) (predecessorId dep) (di_pred acc))
               (addToIndex (predecessorId dep) (successorId dep) (di_succ acc))
               (fold_left (fun m taskId => addToIndex taskId (dep_id dep) m)
                          [predecessorId dep; successorId dep] (di_task acc)).

Definition dependencyIndexes (dependencies : list TaskDependency) : DepIndexes :=
  fold_left indexDependency dependencies (mkDepIndexes [] [] [] []).

(** [buildIndexes] *)
Definition buildIndexes (im : IndexManager) (tasks : list Task) (dependencies : list TaskDependency)
    (virtualRows : list VirtualRow) : IndexManager :=
  let ti := taskIndexes tasks in
  let di := dependencyIndexes dependencies in
  mkIndexManager (rebuild (spatialIndex im) tasks virtualRows) ti.1 ti.2
                 (di_pred di) (di_succ di) (di_map di) (di_task di)
                 virtualRows (rowByResource virtualRows).

(** [updateVirtualRows] *)
Definition updateVirtualRows (im : IndexManager) (tasks : list Task) (virtualRows : list VirtualRow)
    : IndexManager :=
  mkIndexManager (rebuild (spatialIndex im) tasks virtualRows) (resourceTasksIndex im)
                 (orderTasksIndex im) (predecessorIndex im) (successorIndex im)
                 (dependencyMap im) (taskDependenciesIndex im) virtualRows (rowByResource virtualRows).

(** The spatial queries delegate to the spatial index. *)
Definition im_queryPoint (im : IndexManager) (t y : Q) : list string := queryPoint (spatialIndex im) t y.
Definition im_queryRect (im : IndexManager) (x0 y0 x1 y1 : Q) : list string :=
  queryRect (spatialIndex im) x0 y0 x1 y1.
Definition im_queryTimeRange (im : IndexManager) (s e : Q) : list string :=
  queryTimeRange (spatialIndex im) s e.

(** Resource, order and dependency queries *)
Definition getTasksByResource (im : IndexManager) (rid : string) : list string :=
  indexGet (resourceTasksIndex im) rid.
Definition getRowForResource (im : IndexManager) (rid : string) : option VirtualRow :=
  obj_get rid (rowByResourceId im).
Definition getTasksByOrder (im : IndexManager) (oid : string) : list string :=
  indexGet (orderTasksIndex im) oid.
Definition getPredecessors (im : IndexManager) (taskId : string) : list string :=
  indexGet (predecessorIndex im) taskId.
Definition getSuccessors (im : IndexManager) (taskId : string) : list string :=
  indexGet (successorIndex im) taskId.
Definition getTaskDependencies (im : IndexManager) (taskId : string) : list TaskDependency :=
  match obj_get taskId (taskDependenciesIndex im) with
  | None => []
  | Some depIds => omap (fun id => obj_get id (dependencyMap im)) depIds
  end.
Definition getDependency (im : IndexManager) (depId : string) : option TaskDependency :=
  obj_get depId (dependencyMap im).
Definition getAllDependencies (im : IndexManager) : list TaskDependency := obj_values (dependencyMap im).
Definition getVirtualRows (im : IndexManager) : list VirtualRow := im_virtualRows im.

(** [getResourceAtY]: the first resource row containing [virtualY]. *)
Definition getResourceAtY (im : IndexManager) (vy : Q) : option string :=
  head (omap (fun row =>
    if negb (isGroupHeader row) then
      match truthyResource row with
      | Some rid => if Qle_bool (virtualY row) vy && Qlt_bool vy (virtualY row + row_height row)
                    then Some rid else None
      | None => None
      end
    else None) (im_virtualRows im)).

(** [direction] of [getDependencyChain] *)
Inductive ChainDirection := dir_predecessors | dir_successors | dir_both.

(** The tasks pushed after visiting [current]: the predecessors, then
    the successors, not yet visited. *)
Definition chainNeighbours (im : IndexManager) (dir : ChainDirection) (visited : list string)
    (current : string) : list string :=
  (if dir is dir_successors then [] else filter (fun p => p ∉ visited) (getPredecessors im current)) ++
  (if dir is dir_predecessors then [] else filter (fun s => s ∉ visited) (getSuccessors im current)).

(** The [while (queue.length > 0)] loop, with fuel. *)
Fixpoint bfs (im : IndexManager) (dir : ChainDirection) (fuel : nat)
    (visited queue : list string) : option (list string) :=
  match fuel with
  | O => None
  | S fuel' =>
      match queue with
      | [] => Some visited
      | current :: rest =>
          if decide (current ∈ visited) then bfs im dir fuel' visited rest
          else let visited' := visited ++ [current] in
               bfs im dir fuel' visited' (rest ++ chainNeighbours im dir visited' current)
      end
  end.

(** Every task the search can meet: the origin and the tasks of the
    dependency graph. *)
Definition chainUniverse (im : IndexManager) (taskId : string) : list string :=
  remove_dups (taskId :: mjoin (obj_values (predecessorIndex im)) ++ mjoin (obj_values (successorIndex im))).

Definition chainDegree (im : IndexManager) (v : string) : nat :=
  length (getPredecessors im v) + length (getSuccessors im v).

(** Enough iterations: one per initial queue element, one per push (a
    task pushes at most its degree, once), and the last test. *)
Definition chainFuel (im : IndexManager) (taskId : string) : nat :=
  2 + sum_list_with (chainDegree im) (chainUniverse im taskId).

(** [getDependencyChain]: the visited set without the origin. *)
Definition getDependencyChain (im : IndexManager) (taskId : string) (dir : ChainDirection) : list string :=
  filter (fun v => v ≠ taskId) (default [] (bfs im dir (chainFuel im taskId) [] [taskId])).

(** [getVisibleRows]: the first row ending below [scrollY], the first
    row after it starting below the window, three rows of buffer on both
    sides. *)
Definition BUFFER_ROWS : nat := 3.

Definition getVisibleRows (im : IndexManager) (scrollY viewportHeight : Q)
    : list VirtualRow * nat * nat :=
  let rows := im_virtualRows im in
  match rows with
  | [] => ([], 0%nat, 0%nat)
  | _ =>
      let startIndex := default 0%nat
        (fst <$> list_find (fun row => Qlt_bool scrollY (virtualY row + row_height row) = true) rows) in
      let endIndex := default (length rows)
        ((fun p => startIndex + p.1)%nat <$>
           list_find (fun row => Qlt_bool (scrollY + viewportHeight) (virtualY row) = true)
                     (drop startIndex rows)) in
      let startIndex' := (startIndex - BUFFER_ROWS)%nat in
      let endIndex' := Nat.min (length rows) (endIndex + BUFFER_ROWS) in
      (drop startIndex' (take endIndex' rows), startIndex', endIndex')
  end.

(** [getTotalHeight] *)
Definition getTotalHeight (im : IndexManager) : Q :=
  match last (im_virtualRows im) with
  | None => 0
  | Some lastRow => virtualY lastRow + row_height lastRow
  end.

End Manager.

Arguments IndexManager T : clear implicits.

(** The module singleton [getIndexManager] / [resetIndexManager]. *)
Definition getIndexManager {T} `{!RBushOps T} (inst : option (IndexManager T))
    : IndexManager T * option (IndexManager T) :=
  match inst with
  | Some im => (im, inst)
  | None => (newIndexManager, Some newIndexManager)
  end.

Definition resetIndexManager {T} (inst : option (IndexManager T)) : option (IndexManager T) := None.

(** ** [getDependencyChain]: the search terminates *)

Section Chain.
Context {T : Type} `{!RBushOps T} (im : IndexManager T) (dir : ChainDirection).
Local Open Scope nat_scope.

(** The tasks one step away in the requested direction. *)
Definition chainAdj (v : string) : list string :=
  (if dir is dir_successors then [] else getPredecessors im v) ++
  (if dir is dir_predecessors then [] else getSuccessors im v).

Lemma chainNeighbours_adj visited v w :
  w ∈ chainNeighbours im dir visited v <-> w ∈ chainAdj v /\ w ∉ visited.
Proof.
  unfold chainNeighbours, chainAdj. rewrite !elem_of_app.
  destruct dir; rewrite ?list_elem_of_filter, ?elem_of_nil; naive_solver.
Qed.

Lemma chainNeighbours_length visited v :
  (length (chainNeighbours im dir visited v) <= chainDegree im v)%nat.
Proof.
  unfold chainNeighbours, chainDegree. rewrite length_app.
  pose proof (length_filter (fun p => p ∉ visited) (getPredecessors im v)).
  pose proof (length_filter (fun s => s ∉ visited) (getSuccessors im v)).
  destruct dir; simpl; lia.
Qed.

Lemma indexGet_universe m k v : v ∈ indexGet m k -> v ∈ mjoin (obj_values m).
Proof.
  unfold indexGet. destruct (obj_get k m) as [l|] eqn:E; simpl; [|by intros ?%not_elem_of_nil].
  intros Hv. apply list_elem_of_join. exists l. split; [done|].
  apply obj_values_elem_of. exists k. by apply obj_get_elem_of.
Qed.

Lemma chainAdj_universe o v w : w ∈ chainAdj v -> w ∈ chainUniverse im o.
Proof.
  unfold chainAdj, chainUniverse. rewrite elem_of_remove_dups, elem_of_cons, !elem_of_app.
  intros Hw. right. destruct dir; rewrite ?elem_of_app, ?elem_of_nil in Hw;
    destruct Hw as [Hw|Hw]; try done; unfold getPredecessors, getSuccessors in Hw;
    apply indexGet_universe in Hw; auto.
Qed.

(** What is left to do: the queue, and the degrees of the tasks of the
    universe not yet visited. *)
Definition chainBudget (U visited queue : list string) : nat :=
  length queue + sum_list_with (chainDegree im) (filter (fun v => v ∉ visited) U).

Lemma sum_list_with_remove (f : string -> nat) (l : list string) c :
  NoDup l -> c ∈ l -> sum_list_with f l = f c + sum_list_with f (filter (fun v => v ≠ c) l).
Proof.
  induction 1 as [|x l Hx Hnd IH]; intros Hc; [by apply not_elem_of_nil in Hc|].
  apply elem_of_cons in Hc as [->|Hc].
  - rewrite filter_cons_False by naive_solver. simpl. f_equal.
    rewrite list_filter_id_in; [done|]. intros y Hy ->. done.
  - rewrite filter_cons_True by (intros ->; done). simpl. rewrite (IH Hc). lia.
Qed.

Lemma chainBudget_visit U visited c rest :
  NoDup U -> c ∈ U -> c ∉ visited ->
  chainBudget U (visited ++ [c]) (rest ++ chainNeighbours im dir (visited ++ [c]) c) <
  chainBudget U visited (c :: rest).
Proof.
  intros Hnd Hc Hv. unfold chainBudget. rewrite length_app. simpl.
  pose proof (chainNeighbours_length (visited ++ [c]) c).
  rewrite (sum_list_with_remove (chainDegree im) (filter (fun v => v ∉ visited) U) c).
  - rewrite list_filter_filter.
    rewrite (list_filter_iff (fun v => v ∉ visited ++ [c]) (fun x => x ≠ c /\ x ∉ visited))
      by (intros x; rewrite elem_of_app, list_elem_of_singleton; naive_solver). lia.
  - by apply NoDup_filter.
  - by apply list_elem_of_filter.
Qed.
End Chain.

Section ChainProofs.
Context {T : Type} `{!RBushOps T} (im : IndexManager T) (dir : ChainDirection) (o : string).
Local Open Scope nat_scope.

Lemma bfs_enough_fuel fuel visited queue :
  queue ⊆ chainUniverse im o ->
  chainBudget im (chainUniverse im o) visited queue < fuel ->
  is_Some (bfs im dir fuel visited queue).
Proof.
  revert visited queue. induction fuel as [|fuel IH]; intros visited queue Hq Hf; [lia|].
  destruct queue as [|c rest]; simpl; [by eexists|].
  assert (Hc : c ∈ chainUniverse im o) by (apply Hq; by left).
  assert (Hrest : rest ⊆ chainUniverse im o) by (intros x Hx; apply Hq; by right).
  case_decide as Hv.
  - apply IH; [done|]. unfold chainBudget in *. simpl in Hf. lia.
  - apply IH.
    + intros x Hx%elem_of_app. destruct Hx as [Hx|Hx]; [by apply Hrest|].
      apply chainNeighbours_adj in Hx as [Hx _]. by eapply chainAdj_universe.
    + pose proof (chainBudget_visit im dir (chainUniverse im o) visited c rest
                    (NoDup_remove_dups _) Hc Hv). lia.
Qed.

Lemma bfs_fuel_mono fuel fuel' visited queue res :
  fuel <= fuel' -> bfs im dir fuel visited queue = Some res -> bfs im dir fuel' visited queue = Some res.
Proof.
  revert fuel' visited queue. induction fuel as [|fuel IH]; intros fuel' visited queue Hle H; [done|].
  destruct fuel' as [|fuel']; [lia|]. simpl in *.
  destruct queue as [|c rest]; [done|]. case_decide; apply IH; auto with lia.
Qed.

(** The reachability relation of the search. *)
Inductive chain_reaches : string -> Prop :=
  | chain_origin : chain_reaches o
  | chain_step v w : chain_reaches v -> w ∈ chainAdj im dir v -> chain_reaches w.

Lemma bfs_invariant fuel visited queue res :
  bfs im dir fuel visited queue = Some res -> NoDup visited ->
  (forall v, v ∈ visited \/ v ∈ queue -> chain_reaches v) ->
  (forall v w, v ∈ visited -> w ∈ chainAdj im dir v -> w ∈ visited \/ w ∈ queue) ->
  NoDup res /\ (forall v, v ∈ res -> chain_reaches v) /\
  (forall v w, v ∈ res -> w ∈ chainAdj im dir v -> w ∈ res) /\
  (forall v, v ∈ visited \/ v ∈ queue -> v ∈ res).
Proof.
  revert visited queue. induction fuel as [|fuel IH]; intros visited queue Hb Hnd Hr Hcl; [done|].
  simpl in Hb. destruct queue as [|c rest].
  - injection Hb as <-. split_and!; [done| intros v Hv; apply Hr; by left | |].
    + intros v w Hv Hw. destruct (Hcl v w Hv Hw) as [?|Hn]; [done|by apply not_elem_of_nil in Hn].
    + intros v [Hv|Hv]; [done|by apply not_elem_of_nil in Hv].
  - case_decide as Hc.
    + destruct (IH _ _ Hb Hnd) as (H1 & H2 & H3 & H4).
      * intros v Hv. apply Hr. rewrite elem_of_cons. naive_solver.
      * intros v w Hv Hw. specialize (Hcl v w Hv Hw). rewrite elem_of_cons in Hcl.
        destruct Hcl as [?|[->|?]]; auto.
      * split_and!; [done|done|done|]. intros v Hv. apply H4.
        rewrite elem_of_cons in Hv. destruct Hv as [?|[->|?]]; auto.
    + assert (Hin : forall x, x ∈ visited ++ [c] <-> x ∈ visited \/ x = c)
        by (intros x; by rewrite elem_of_app, list_elem_of_singleton).
      destruct (IH _ _ Hb) as (H1 & H2 & H3 & H4).
      * apply NoDup_app. split_and!; [done| |apply NoDup_singleton].
        intros x Hx Hx'%list_elem_of_singleton. by subst.
      * intros v Hv. rewrite Hin, elem_of_app in Hv.
        destruct Hv as [[Hv| ->]|[Hv|Hv]].
        -- apply Hr. by left.
        -- apply Hr. right. by left.
        -- apply Hr. right. by right.
        -- apply chainNeighbours_adj in Hv as [Hv _].
           apply (chain_step c); [apply Hr; right; by left|done].
      * intros v w Hv Hw. rewrite Hin in Hv. rewrite Hin, elem_of_app.
        destruct Hv as [Hv| ->].
        -- specialize (Hcl v w Hv Hw). rewrite elem_of_cons in Hcl. naive_solver.
        -- destruct (decide (w ∈ visited ++ [c])) as [Hw'|Hw'].
           ++ rewrite Hin in Hw'. naive_solver.
           ++ right. right. by apply chainNeighbours_adj.
      * split_and!; [done|done|done|]. intros v Hv. apply H4.
        rewrite Hin, elem_of_app. rewrite elem_of_cons in Hv. naive_solver.
Qed.
End ChainProofs.

Lemma chain_origin_universe {T} `{!RBushOps T} (im : IndexManager T) o : o ∈ chainUniverse im o.
Proof. unfold chainUniverse. rewrite elem_of_remove_dups. by left. Qed.

Lemma bfs_chain_some {T} `{!RBushOps T} (im : IndexManager T) dir o :
  is_Some (bfs im dir (chainFuel im o) [] [o]).
Proof.
  apply (bfs_enough_fuel im dir o).
  - intros x ->%list_elem_of_singleton. apply chain_origin_universe.
  - unfold chainBudget, chainFuel. simpl. rewrite list_filter_id_in by (intros x _; apply not_elem_of_nil).
    lia.
Qed.

(** (C25) Termination of [getDependencyChain], even on cyclic graphs:
    the breadth-first loop finishes within [chainFuel] iterations (one
    per initial queue element and per push, and the final test), and
    more iterations change nothing. *)
Theorem getDependencyChain_terminates {T} `{!RBushOps T} (im : IndexManager T)
    (o : string) (dir : ChainDirection) :
  exists res, bfs im dir (chainFuel im o) [] [o] = Some res /\
    forall fuel, (chainFuel im o <= fuel)%nat -> bfs im dir fuel [] [o] = Some res.
Proof.
  destruct (bfs_chain_some im dir o) as [res Hres]. exists res. split; [done|].
  intros fuel Hle. by apply (bfs_fuel_mono im dir (chainFuel im o)).
Qed.

(** (C26) [getDependencyChain] returns, without repetition, exactly the
    tasks reachable from the origin along the requested edges
    (predecessors, successors or both), the origin excluded even when a
    cycle leads back to it. *)
Theorem getDependencyChain_spec {T} `{!RBushOps T} (im : IndexManager T)
    (o : string) (dir : ChainDirection) :
  NoDup (getDependencyChain im o dir) /\
  forall k, k ∈ getDependencyChain im o dir <-> k ≠ o /\ chain_reaches im dir o k.
Proof.
  unfold getDependencyChain. destruct (bfs_chain_some im dir o) as [res Hres]. rewrite Hres. simpl.
  destruct (bfs_invariant im dir o _ [] [o] res Hres) as (Hnd & Hsound & Hclosed & Hincl).
  - constructor.
  - intros v [Hv|Hv]; [by apply not_elem_of_nil in Hv|]. apply list_elem_of_singleton in Hv as ->.
    constructor.
  - intros v w Hv. by apply not_elem_of_nil in Hv.
  - split; [by apply NoDup_filter|]. intros k. rewrite list_elem_of_filter. split.
    + intros [Hk Hin]. split; [done|]. by apply Hsound.
    + intros [Hk Hr]. split; [done|]. induction Hr as [|v w Hv IHv Hw].
      * apply Hincl. right. by left.
      * eapply Hclosed; [|exact Hw]. destruct (decide (v = o)) as [->|Hvo].
        -- apply Hincl. right. by left.
        -- by apply IHv.
Qed.

(** A cycle [a -> b -> c -> a] and a branch [b -> d]: the successors of
    [a] are [b], [c] and [d], found in breadth-first order. *)
Example dependency_chain_cycle :
  let deps := [mkDependency "d1" "a" "b" FS 0; mkDependency "d2" "b" "c" FS 0;
               mkDependency "d3" "c" "a" FS 0; mkDependency "d4" "b" "d" SS 0] in
  let im := buildIndexes (newIndexManager (T := list RBushItem)) [] deps [] in
  getDependencyChain im "a" dir_successors = ["b"; "c"; "d"] /\
  getDependencyChain im "a" dir_predecessors = ["c"; "b"].
Proof. split; vm_compute; reflexivity. Qed.

(** ** [getVisibleRows] *)

Section VisibleRows.
Context (scrollY viewportHeight : Q).

Lemma visible_start_le rows i r j rj :
  rows !! i = Some r -> scrollY < virtualY r + row_height r ->
  list_find (fun row => Qlt_bool scrollY (virtualY row + row_height row) = true) rows = Some (j, rj) ->
  (j <= i)%nat.
Proof.
  intros Hi Hr Hf. apply list_find_Some in Hf as (_ & _ & Hbefore).
  destruct (decide (i < j)%nat) as [Hlt|]; [|lia]. exfalso.
  apply (Hbefore i r Hi Hlt). by apply Qlt_bool_iff.
Qed.

Lemma visible_end_gt rows s i r p y :
  StronglySorted row_before rows -> rows !! i = Some r -> virtualY r <= scrollY + viewportHeight ->
  list_find (fun row => Qlt_bool (scrollY + viewportHeight) (virtualY row) = true) (drop s rows) = Some (p, y) ->
  (i < s + p)%nat.
Proof.
  intros Hs Hi Hr Hf. apply list_find_Some in Hf as (Hy & HQ & _).
  rewrite lookup_drop in Hy. apply Qlt_bool_iff in HQ.
  destruct (decide (i < s + p)%nat) as [|Hge]; [done|]. exfalso.
  destruct (decide (i = s + p)%nat) as [->|Hne].
  - rewrite Hi in Hy. injection Hy as ->. lra.
  - destruct (StronglySorted_lookup _ _ (s + p) i y r Hs Hy Hi ltac:(lia)) as [_ Hle]. lra.
Qed.
End VisibleRows.

(** [getVisibleRows] never misses a visible row: on a contiguous
    layout with non-negative heights (as RowLayout builds it), every row
    meeting the window [scrollY, scrollY + viewportHeight] (ending after
    [scrollY] and starting at or before the window's end) is among the
    returned rows. *)
Theorem getVisibleRows_complete {T} `{!RBushOps T} (im : IndexManager T) (scrollY viewportHeight y0 : Q)
    (r : VirtualRow) :
  contiguous_from y0 (im_virtualRows im) -> Forall (fun row => 0 <= row_height row) (im_virtualRows im) ->
  r ∈ im_virtualRows im -> scrollY < virtualY r + row_height r -> virtualY r <= scrollY + viewportHeight ->
  r ∈ (getVisibleRows im scrollY viewportHeight).1.1.
Proof.
  intros Hc Hh Hin Hb Ht. destruct (contiguous_sorted _ _ Hc Hh) as [_ Hs].
  apply list_elem_of_lookup in Hin as [i Hi].
  unfold getVisibleRows. destruct (im_virtualRows im) as [|r0 rs] eqn:Hrows; [done|].
  rewrite <- Hrows in *. cbn zeta.
  set (s := default 0%nat _).
  assert (Hs_le : (s <= i)%nat).
  { unfold s. destruct (list_find _ (im_virtualRows im)) as [[j rj]|] eqn:Hf; simpl; [|lia].
    by apply (visible_start_le scrollY (im_virtualRows im) i r j rj). }
  set (e := default (length (im_virtualRows im)) _).
  assert (He : (i < e)%nat).
  { unfold e. destruct (list_find _ (drop s _)) as [[p y]|] eqn:Hf; simpl.
    - by apply (visible_end_gt scrollY viewportHeight (im_virtualRows im) s i r p y).
    - by apply lookup_lt_Some in Hi. }
  simpl. apply list_elem_of_lookup. exists (i - (s - BUFFER_ROWS))%nat.
  rewrite lookup_drop. replace (s - BUFFER_ROWS + (i - (s - BUFFER_ROWS)))%nat with i by lia.
  pose proof (lookup_lt_Some _ _ _ Hi). by rewrite lookup_take_lt by lia.
Qed.

(** The window below the last row: when every row ends at or above
    [scrollY], [startIndex] keeps its initial 0 and getVisibleRows returns
    every row instead of none. *)
Theorem getVisibleRows_past_end {T} `{!RBushOps T} (im : IndexManager T) (scrollY viewportHeight : Q) :
  im_virtualRows im <> [] -> 0 <= viewportHeight ->
  Forall (fun row => 0 <= row_height row /\ virtualY row + row_height row <= scrollY) (im_virtualRows im) ->
  getVisibleRows im scrollY viewportHeight = (im_virtualRows im, 0%nat, length (im_virtualRows im)).
Proof.
  intros Hne Hvh Hall. unfold getVisibleRows.
  destruct (im_virtualRows im) as [|r0 rs] eqn:Hrows; [done|]. rewrite <- Hrows in *.
  rewrite (proj2 (list_find_None _ _)).
  2:{ eapply Forall_impl; [exact Hall|]. intros row [_ H]. rewrite Qlt_bool_iff. lra. }
  simpl. rewrite (proj2 (list_find_None _ _)).
  2:{ eapply Forall_impl; [exact Hall|]. intros row [H1 H2]. rewrite Qlt_bool_iff. lra. }
  simpl. rewrite Nat.min_l by lia. by rewrite firstn_all.
Qed.

Definition example_layout : list VirtualRow :=
  useComposableVirtualRows
    [("r1", mkResource "r1" "A" machine 1 None None); ("r2", mkResource "r2" "B" operator 1 None None);
     ("r3", mkResource "r3" "C" generic 1 None None)] [] [] (mkGrouping mode_none ∅) 40.

Lemma getVisibleRows_complete_witness :
  let im := buildIndexes (newIndexManager (T := list RBushItem)) [] [] example_layout in
  mkRow "resource-r2" (Some "r2") 40 40 false None None None ∈ (getVisibleRows im 50 10).1.1.
Proof.
  intros im. apply (getVisibleRows_complete im 50 10 0).
  - vm_compute. repeat split.
  - vm_compute. repeat constructor; discriminate.
  - vm_compute. right. left.
  - vm_compute. reflexivity.
  - vm_compute. discriminate.
Defined.

Lemma getVisibleRows_past_end_witness :
  let im := buildIndexes (newIndexManager (T := list RBushItem)) [] [] example_layout in
  getVisibleRows im 500 10 = (example_layout, 0%nat, 3%nat).
Proof.
  intros im. apply (getVisibleRows_past_end im 500 10).
  - vm_compute. discriminate.
  - vm_compute. discriminate.
  - vm_compute. repeat constructor; discriminate.
Defined.
