(* ===== verification/Canvas.v ===== *)
(** * Canvas: the drawing helpers of src/src/features/gantt/utils/canvas-utils.ts

    A [CanvasRenderingContext2D] is written to, never read back (but for
    [measureText]), so a drawing is the sequence of calls it receives: a
    list of [CanvasOp]s.  Each helper of canvas-utils is the list of calls
    it makes, in order; the renderers (Renderers.v) concatenate them.
    [measureText(s).width] is a function [measure] of the environment (the
    font metrics).  Strings are ASCII strings: [text.length] and
    [slice(0, -1)] count characters, which for the ASCII names the
    renderers draw are UTF-16 units too.

    The theorems: the radius [drawRoundRect] uses fits the rectangle;
    [truncateText] terminates within [text.length] iterations, and what it
    returns is [text] itself when it fits, otherwise a prefix of it with
    the ellipsis whose measure fits, or [""]. *)

From Stdlib Require Import String Ascii.
From S2P Require Import Prelude.

Open Scope Q_scope.

(** The calls of [CanvasRenderingContext2D] the code makes; a property
    assignment ([ctx.fillStyle = c]) is a call as well. *)
Inductive CanvasOp :=
  | OpClearRect (x y w h : Q)
  | OpFillRect (x y w h : Q)
  | OpBeginPath
  | OpMoveTo (x y : Q)
  | OpLineTo (x y : Q)
  | OpArcTo (x1 y1 x2 y2 r : Q)
  | OpClosePath
  | OpFill
  | OpStroke
  | OpFillText (text : string) (x y : Q)
  | OpSetFillStyle (c : string)
  | OpSetStrokeStyle (c : string)
  | OpSetLineWidth (w : Q)
  | OpSetLineCap (s : string)
  | OpSetLineJoin (s : string)
  | OpSetFont (s : string)
  | OpSetTextBaseline (s : string)
  | OpSetLineDash (pattern : list Q)
  | OpStrokeRect (x y w h : Q)
  | OpSetGlobalAlpha (a : Q).

(** [clearCanvas] *)
Definition clearCanvas (width height : Q) : list CanvasOp := [OpClearRect 0 0 width height].

(** The radius [drawRoundRect] uses: halved to fit the width, then the
    height. *)
Definition roundRectRadius (width height radius : Q) : Q :=
  let r1 := if Qlt_bool width (2 * radius) then width / 2 else radius in
  if Qlt_bool height (2 * r1) then height / 2 else r1.

(** [drawRoundRect] *)
Definition drawRoundRect (x y width height radius : Q) : list CanvasOp :=
  let r := roundRectRadius width height radius in
  [OpBeginPath; OpMoveTo (x + r) y;
   OpArcTo (x + width) y (x + width) (y + height) r;
   OpArcTo (x + width) (y + height) x (y + height) r;
   OpArcTo x (y + height) x y r;
   OpArcTo x y (x + width) y r;
   OpClosePath].

(** [fillRoundRect] *)
Definition fillRoundRect (x y width height radius : Q) (color : string) : list CanvasOp :=
  OpSetFillStyle color :: drawRoundRect x y width height radius ++ [OpFill].

(** [strokeRoundRect] *)
Definition strokeRoundRect (x y width height radius : Q) (color : string) (lineWidth : Q)
    : list CanvasOp :=
  OpSetStrokeStyle color :: OpSetLineWidth lineWidth :: drawRoundRect x y width height radius
    ++ [OpStroke].

Section Text.
Variable measure : string -> Q.

(** [text.slice(0, -1)]: all characters but the last. *)
Definition dropLast (s : string) : string :=
  string_of_list_ascii (removelast (list_ascii_of_string s)).

(** The [while] loop of [truncateText], with a bound on its iterations:
    each one removes a character, so [String.length truncated] of them
    reach the empty string (lemma [truncateLoop_enough]). *)
Fixpoint truncateLoop (fuel : nat) (truncated ellipsis : string) (ellipsisWidth maxWidth : Q)
    : string :=
  match fuel with
  | O => ""
  | S fuel' =>
      if bool_decide (String.length truncated = 0)%nat then "" else
      let truncated' := dropLast truncated in
      let w := measure truncated' + ellipsisWidth in
      if Qle_bool w maxWidth then String.append truncated' ellipsis
      else truncateLoop fuel' truncated' ellipsis ellipsisWidth maxWidth
  end.

(** [truncateText] *)
Definition truncateText (text : string) (maxWidth : Q) (ellipsis : string) : string :=
  if Qle_bool (measure text) maxWidth then text else
  let ellipsisWidth := measure ellipsis in
  if Qle_bool maxWidth ellipsisWidth then "" else
  truncateLoop (String.length text) text ellipsis ellipsisWidth maxWidth.

(** [drawTruncatedText] (with the default ellipsis ["..."]). *)
Definition drawTruncatedText (text : string) (x y maxWidth : Q) (color font : string)
    : list CanvasOp :=
  [OpSetFillStyle color; OpSetFont font; OpSetTextBaseline "middle";
   OpFillText (truncateText text maxWidth "...") x y].

End Text.

(** [drawOrthogonalArrow]: right by 20 pixels, vertically to the target
    row, horizontally to the target, and an arrowhead pointing left. *)
Definition drawOrthogonalArrow (fromX fromY toX toY : Q) (color : string) (lineWidth arrowSize : Q)
    : list CanvasOp :=
  let midX := fromX + 20 in
  [OpSetStrokeStyle color; OpSetFillStyle color; OpSetLineWidth lineWidth;
   OpSetLineCap "round"; OpSetLineJoin "round";
   OpBeginPath; OpMoveTo fromX fromY; OpLineTo midX fromY; OpLineTo midX toY;
   OpLineTo toX toY; OpStroke;
   OpBeginPath; OpMoveTo toX toY; OpLineTo (toX + arrowSize) (toY - arrowSize / 2);
   OpLineTo (toX + arrowSize) (toY + arrowSize / 2); OpClosePath; OpFill].

(** [drawDashedLine] *)
Definition drawDashedLine (fromX fromY toX toY : Q) (color : string) (lineWidth : Q)
    (dashPattern : list Q) : list CanvasOp :=
  [OpSetStrokeStyle color; OpSetLineWidth lineWidth; OpSetLineDash dashPattern;
   OpBeginPath; OpMoveTo fromX fromY; OpLineTo toX toY; OpStroke; OpSetLineDash []].

(** ** Lemmas *)

(** The radius fits a rectangle of non-negative size: at most half its
    width and half its height (for a non-negative radius). *)
Lemma roundRectRadius_fits (width height radius : Q) :
  0 <= width -> 0 <= height -> 0 <= radius ->
  0 <= roundRectRadius width height radius /\
  2 * roundRectRadius width height radius <= width /\
  2 * roundRectRadius width height radius <= height.
Proof.
  intros Hw Hh Hr. unfold roundRectRadius, Qdiv. change (Qinv 2) with (1 # 2). cbv beta iota zeta.
  destruct (Qlt_bool width (2 * radius)) eqn:E1;
    [apply Qlt_bool_iff in E1|apply Qlt_bool_false in E1]; qbool_case; split_and!; lra.
Qed.

Lemma string_length_list s : String.length s = length (list_ascii_of_string s).
Proof. induction s; simpl; auto. Qed.

Lemma list_dropLast s : list_ascii_of_string (dropLast s) = removelast (list_ascii_of_string s).
Proof. unfold dropLast. apply list_ascii_of_string_of_list_ascii. Qed.

Lemma length_dropLast s : String.length (dropLast s) = (String.length s - 1)%nat.
Proof.
  rewrite !string_length_list, list_dropLast.
  destruct (list_ascii_of_string s) as [|c l] using rev_ind; [done|].
  rewrite removelast_last, length_app. simpl. lia.
Qed.

Lemma dropLast_prefix s : prefix (list_ascii_of_string (dropLast s)) (list_ascii_of_string s).
Proof.
  rewrite list_dropLast.
  destruct (list_ascii_of_string s) as [|c l] using rev_ind; [done|].
  rewrite removelast_last. by exists [c].
Qed.

Section TextProofs.
Variable measure : string -> Q.

(** The loop's result: [""], or a prefix of its argument with the
    ellipsis, whose measure and the ellipsis's fit. *)
Lemma truncateLoop_spec fuel t e ew mw :
  let r := truncateLoop measure fuel t e ew mw in
  r = "" \/ exists p, r = String.append p e /\
    prefix (list_ascii_of_string p) (list_ascii_of_string t) /\ measure p + ew <= mw.
Proof.
  revert t. induction fuel as [|fuel IH]; intros t; simpl; [by left|].
  case_decide; [by left|].
  destruct (Qle_bool _ _) eqn:E.
  - right. exists (dropLast t). split_and!; [done|apply dropLast_prefix|by apply Qle_bool_iff].
  - destruct (IH (dropLast t)) as [->|(p & -> & Hp & Hw)]; [by left|right].
    exists p. split_and!; [done| |done]. by etrans; [|apply dropLast_prefix].
Qed.

(** [String.length t] iterations reach the empty string: any more fuel
    gives the same result. *)
Lemma truncateLoop_enough fuel t e ew mw :
  (String.length t <= fuel)%nat ->
  truncateLoop measure fuel t e ew mw = truncateLoop measure (S fuel) t e ew mw.
Proof.
  revert t. induction fuel as [|fuel IH]; intros t Hl.
  - simpl. rewrite bool_decide_eq_true_2 by lia. reflexivity.
  - cbn [truncateLoop]. case_decide; [done|].
    destruct (Qle_bool _ _); [done|]. apply IH. rewrite length_dropLast. lia.
Qed.

(** [truncateText] returns [text] when it fits, otherwise [""] or a
    prefix of [text] followed by the ellipsis, whose measure with the
    ellipsis's fits. *)
Lemma truncateText_spec text maxWidth ellipsis :
  let r := truncateText measure text maxWidth ellipsis in
  (r = text /\ measure text <= maxWidth) \/ r = "" \/
  exists p, r = String.append p ellipsis /\
    prefix (list_ascii_of_string p) (list_ascii_of_string text) /\
    measure p + measure ellipsis <= maxWidth.
Proof.
  unfold truncateText. destruct (Qle_bool _ maxWidth) eqn:E.
  - left. split; [done|by apply Qle_bool_iff].
  - right. destruct (Qle_bool maxWidth _); [by left|]. apply truncateLoop_spec.
Qed.

End TextProofs.
