(* ===== verification/ColorUtils.v ===== *)
(** * ColorUtils: the colour helpers of src/src/features/gantt/utils/canvas-utils.ts

    Lines 271-299 of canvas-utils.ts: [lightenColor] and [darkenColor]
    read a hex colour with [parseInt(hex.replace("#", ""), 16)], take its
    channels with the 32-bit operators [>>] and [&], move each by
    [Math.round(2.55 * percent)] and clamp it, and print
    [((1 << 24) | (R << 16) | (G << 8) | B).toString(16).slice(1)];
    [hexToRgba] matches [/^#?([a-f\d]{2})([a-f\d]{2})([a-f\d]{2})$/i] and
    prints the [rgba(...)] string.

    JavaScript's numbers are modelled where the code uses them:
    [parseInt] returns an integer or [NaN] ([option Z], exact: inputs of
    more than 13 hex digits, beyond 2^53, are not modelled); the bitwise
    operators convert their operands with ToInt32 ([i32], wrap-around to
    the signed 32-bit range, [NaN] to 0) and compute on [Z] with
    [Z.shiftr] (sign-propagating), [Z.shiftl], [Z.land] and [Z.lor];
    [2.55 * percent] is the product of the double nearest to 2.55 (a
    little below it) and [percent], rounded to the nearest double
    ([roundDouble], ties to even), so that [Math.round(2.55 * 50)] is
    127 as in JavaScript, not 128; [toString(16)] is [toString16], lowercase digits after a
    [-] for a negative number.  The [alpha] of [hexToRgba] is printed by
    [numberToString], a parameter (JS's number formatting); its channels
    are integers, printed in decimal.

    The theorems: for a colour of six hex digits and a percentage at
    least 0, [lightenColor] and [darkenColor] print the six lowercase
    digits of the channels moved and clamped to [0, 255]; [hexToRgba]
    reads back the channels of such a colour.  A negative percentage is
    not guarded: the channels leave [0, 255] and the bit operations mix
    them ([darkenColor("#ffffff", -10)] is ["#191918"]). *)

From Stdlib Require Import Ascii.
From stdpp Require Import pretty.
From S2P Require Import Prelude.

Open Scope Z_scope.

(** ** Characters and JS numbers *)

(** A hex digit's value, either case. *)
Definition hexDigitValue (c : ascii) : option Z :=
  let n := Z.of_nat (nat_of_ascii c) in
  if (48 <=? n) && (n <=? 57) then Some (n - 48)
  else if (97 <=? n) && (n <=? 102) then Some (n - 87)
  else if (65 <=? n) && (n <=? 70) then Some (n - 55)
  else None.

(** The lowercase digit of [0 <= d < 16]. *)
Definition hexDigit (d : Z) : ascii :=
  ascii_of_nat (Z.to_nat (if d <? 10 then 48 + d else 87 + d)).

(** The white space [parseInt] skips (StrWhiteSpaceChar in 8 bits). *)
Definition isJsWhiteSpace (c : ascii) : bool :=
  let n := nat_of_ascii c in
  bool_decide (n ∈ [9; 10; 11; 12; 13; 32; 160]%nat).

Fixpoint trimStart (s : string) : string :=
  match s with
  | String c s' => if isJsWhiteSpace c then trimStart s' else s
  | EmptyString => EmptyString
  end.

(** The longest prefix of hex digits: its value after [acc], its length. *)
Fixpoint hexPrefix (acc : Z) (s : string) : Z * nat :=
  match s with
  | String c s' =>
      match hexDigitValue c with
      | Some d => let '(v, n) := hexPrefix (acc * 16 + d) s' in (v, S n)
      | None => (acc, 0%nat)
      end
  | EmptyString => (acc, 0%nat)
  end.

(** [parseInt(s, 16)]: leading white space, a sign, an optional [0x] or
    [0X], then the longest prefix of hex digits; [NaN] ([None]) when
    there is none. *)
Definition parseInt16 (s : string) : option Z :=
  let s1 := trimStart s in
  let '(sign, s2) :=
    match s1 with
    | String c r => if Ascii.eqb c "-" then (-1, r) else if Ascii.eqb c "+" then (1, r) else (1, s1)
    | EmptyString => (1, s1)
    end in
  let s3 :=
    match s2 with
    | String z (String x r) => if Ascii.eqb z "0" && (Ascii.eqb x "x" || Ascii.eqb x "X") then r else s2
    | _ => s2
    end in
  let '(v, n) := hexPrefix 0 s3 in
  if (n =? 0)%nat then None else Some (sign * v).

(** [s.replace("#", "")]: the first ["#"] removed. *)
Fixpoint removeFirst (c : ascii) (s : string) : string :=
  match s with
  | String a s' => if Ascii.eqb a c then s' else String a (removeFirst c s')
  | EmptyString => EmptyString
  end.

(** ToInt32. *)
Definition i32 (z : Z) : Z :=
  let m := z mod 2 ^ 32 in if m <? 2 ^ 31 then m else m - 2 ^ 32.

(** ToInt32 of a number that may be [NaN]. *)
Definition numI32 (n : option Z) : Z := match n with Some z => i32 z | None => 0 end.

(** [a >> b], [a << b], [a & b], [a | b] on numbers that are integers. *)
Definition js_sar (a b : Z) : Z := Z.shiftr (i32 a) (b mod 32).
Definition js_shl (a b : Z) : Z := i32 (Z.shiftl (i32 a) (b mod 32)).
Definition js_and (a b : Z) : Z := Z.land (i32 a) (i32 b).
Definition js_or (a b : Z) : Z := Z.lor (i32 a) (i32 b).

(** The digits of [n > 0], least significant first. *)
Fixpoint hexDigitsRev (fuel : nat) (n : Z) : list ascii :=
  match fuel with
  | O => []
  | S f => if n <=? 0 then [] else hexDigit (n mod 16) :: hexDigitsRev f (n / 16)
  end.

(** [n.toString(16)] of an integer: at most one digit per bit. *)
Definition toString16 (z : Z) : string :=
  if z =? 0 then "0"
  else String.string_of_list_ascii
         ((if z <? 0 then ["-"%char] else []) ++
          rev (hexDigitsRev (S (Z.to_nat (Z.log2 (Z.abs z)))) (Z.abs z))).

(** [s.slice(1)] *)
Definition slice1 (s : string) : string :=
  match s with String _ s' => s' | EmptyString => EmptyString end.

(** ** Double-precision products *)

(** [floor(log2 q)] for [q > 0]: with [a = log2 n] and [b = log2 d],
    [n / d] lies strictly between [2^(a-b-1)] and [2^(a-b+1)]. *)
Definition Qlog2_floor (q : Q) : Z :=
  let n := Qnum q in
  let d := Zpos (Qden q) in
  let k := Z.log2 n - Z.log2 d in
  if 0 <=? k then (if d * 2 ^ k <=? n then k else k - 1)
  else (if d <=? n * 2 ^ (- k) then k else k - 1).

(** [N / D] rounded to the nearest integer, ties to even. *)
Definition Zdiv_round_even (N D : Z) : Z :=
  let q := N / D in
  match Z.compare (2 * (N mod D)) D with
  | Lt => q
  | Gt => q + 1
  | Eq => if Z.even q then q else q + 1
  end.

(** A non-negative rational rounded to the nearest double, ties to even:
    53 significant bits, the exponent at least -1074 (subnormals). *)
Definition roundDoublePos (q : Q) : Q :=
  let e := Z.max (Qlog2_floor q - 52) (-1074) in
  let n := Qnum q in
  let d := Zpos (Qden q) in
  if 0 <=? e then inject_Z (Zdiv_round_even n (d * 2 ^ e) * 2 ^ e)
  else Zdiv_round_even (n * 2 ^ (- e)) d # Z.to_pos (2 ^ (- e)).

(** IEEE-754 rounding of an exact result to a double (overflow to
    [Infinity], beyond [2^1024], is not modelled). *)
Definition roundDouble (q : Q) : Q :=
  if Qle_bool 0 q then roundDoublePos q else - roundDoublePos (- q).

(** The double the literal [2.55] denotes: [0x4004666666666666], a
    little below [2.55]. *)
Definition double_2_55 : Q := 2871044762448691 # 1125899906842624.

(** ** The helpers *)

(** [Math.round(2.55 * percent)] for a double [percent]: the product of
    the two doubles rounded to a double, then [Math.round] (exact on
    doubles). *)
Definition colorAmount (percent : Q) : Z := js_round (roundDouble (double_2_55 * percent)).

(** The printing both helpers share. *)
Definition packColor (R G B : Z) : string :=
  "#" +:+ slice1 (toString16 (js_or (js_or (js_or (js_shl 1 24) (js_shl R 16)) (js_shl G 8)) B)).

(** [lightenColor(hex, percent)] *)
Definition lightenColor (hex : string) (percent : Q) : string :=
  let num := numI32 (parseInt16 (removeFirst "#" hex)) in
  let amt := colorAmount percent in
  let R := Z.min 255 (js_sar num 16 + amt) in
  let G := Z.min 255 (js_and (js_sar num 8) 255 + amt) in
  let B := Z.min 255 (js_and num 255 + amt) in
  packColor R G B.

(** [darkenColor(hex, percent)] *)
Definition darkenColor (hex : string) (percent : Q) : string :=
  let num := numI32 (parseInt16 (removeFirst "#" hex)) in
  let amt := colorAmount percent in
  let R := Z.max 0 (js_sar num 16 - amt) in
  let G := Z.max 0 (js_and (js_sar num 8) 255 - amt) in
  let B := Z.max 0 (js_and num 255 - amt) in
  packColor R G B.

(** Two hex digits. *)
Definition hexPair (a b : ascii) : option Z :=
  match hexDigitValue a, hexDigitValue b with
  | Some x, Some y => Some (16 * x + y)
  | _, _ => None
  end.

(** Three pairs of hex digits and the end of the string. *)
Definition matchHexDigits6 (s : string) : option (Z * Z * Z) :=
  match s with
  | String a1 (String a2 (String b1 (String b2 (String c1 (String c2 EmptyString))))) =>
      match hexPair a1 a2, hexPair b1 b2, hexPair c1 c2 with
      | Some r, Some g, Some b => Some (r, g, b)
      | _, _, _ => None
      end
  | _ => None
  end.

(** The regular expression's match: an optional ["#"], then the three
    pairs (a ["#"] the digits cannot match, so taking it is the only
    way to match). *)
Definition matchHex6 (s : string) : option (Z * Z * Z) :=
  matchHexDigits6 (match s with String c r => if Ascii.eqb c "#" then r else s | EmptyString => s end).

Section Rgba.
Variable numberToString : Q -> string.

(** [hexToRgba(hex, alpha)] *)
Definition hexToRgba (hex : string) (alpha : Q) : string :=
  match matchHex6 hex with
  | Some (r, g, b) =>
      "rgba(" +:+ pretty r +:+ "," +:+ pretty g +:+ "," +:+ pretty b +:+ "," +:+
        numberToString alpha +:+ ")"
  | None => "rgba(0,0,0," +:+ numberToString alpha +:+ ")"
  end.

End Rgba.

(** ** The reference printing *)

(** [k] lowercase digits of [n mod 16^k], least significant first. *)
Fixpoint hexPadRev (k : nat) (n : Z) : list ascii :=
  match k with
  | O => []
  | S k' => hexDigit (n mod 16) :: hexPadRev k' (n / 16)
  end.

Definition hexPad (k : nat) (n : Z) : string := String.string_of_list_ascii (rev (hexPadRev k n)).

(** ["#rrggbb"] *)
Definition rgbHex (r g b : Z) : string := "#" +:+ hexPad 2 r +:+ hexPad 2 g +:+ hexPad 2 b.

Example lightenColor_example : lightenColor "#3b82f6" 10 = "#559cff".
Proof. vm_compute. reflexivity. Qed.

(** ** Digits *)

Lemma hexDigitValue_range c d : hexDigitValue c = Some d -> 0 <= d < 16.
Proof.
  unfold hexDigitValue. pose proof (nat_ascii_bounded c).
  repeat case_match; intros [= <-]; rewrite ?andb_true_iff, ?Z.leb_le in *; lia.
Qed.

(** A digit is not one of the characters [parseInt], [replace] and the
    regular expression treat apart. *)
Lemma hexDigitValue_plain c d :
  hexDigitValue c = Some d ->
  isJsWhiteSpace c = false /\ Ascii.eqb c "#" = false /\ Ascii.eqb c "-" = false /\
  Ascii.eqb c "+" = false /\ Ascii.eqb c "x" = false /\ Ascii.eqb c "X" = false.
Proof.
  destruct c as [[] [] [] [] [] [] [] []]; vm_compute; first [discriminate | intros _; repeat split].
Qed.

Lemma hexDigit_value d : 0 <= d < 16 -> hexDigitValue (hexDigit d) = Some d.
Proof.
  intros Hd.
  assert (d = 0 \/ d = 1 \/ d = 2 \/ d = 3 \/ d = 4 \/ d = 5 \/ d = 6 \/ d = 7 \/ d = 8 \/
          d = 9 \/ d = 10 \/ d = 11 \/ d = 12 \/ d = 13 \/ d = 14 \/ d = 15) as H by lia.
  repeat destruct H as [->|H]; [reflexivity ..|subst; reflexivity].
Qed.

(** ** Reading a colour *)

Lemma hexPrefix_digit acc c s d :
  hexDigitValue c = Some d ->
  hexPrefix acc (String c s) = let '(v, n) := hexPrefix (acc * 16 + d) s in (v, S n).
Proof. intros H. cbn. by rewrite H. Qed.

Lemma removeFirst_digit c s d :
  hexDigitValue c = Some d -> removeFirst "#" (String c s) = String c (removeFirst "#" s).
Proof. intros H. destruct (hexDigitValue_plain c d H) as (_ & E & _). cbn. by rewrite E. Qed.

(** [parseInt] of six hex digits. *)
Lemma parseInt16_hex6 c1 c2 c3 c4 c5 c6 d1 d2 d3 d4 d5 d6 :
  hexDigitValue c1 = Some d1 -> hexDigitValue c2 = Some d2 -> hexDigitValue c3 = Some d3 ->
  hexDigitValue c4 = Some d4 -> hexDigitValue c5 = Some d5 -> hexDigitValue c6 = Some d6 ->
  parseInt16 (String c1 (String c2 (String c3 (String c4 (String c5 (String c6 EmptyString)))))) =
  Some (((((d1 * 16 + d2) * 16 + d3) * 16 + d4) * 16 + d5) * 16 + d6).
Proof.
  intros H1 H2 H3 H4 H5 H6.
  destruct (hexDigitValue_plain _ _ H1) as (W1 & _ & M1 & P1 & _).
  destruct (hexDigitValue_plain _ _ H2) as (_ & _ & _ & _ & X2 & X2').
  unfold parseInt16. cbn [trimStart]. rewrite W1, M1, P1, X2, X2'. cbn [orb]. rewrite andb_false_r.
  cbn -[hexDigitValue]. rewrite H1, H2, H3, H4, H5, H6. cbn. f_equal. ring.
Qed.

Lemma hexPair_spec a b v :
  hexPair a b = Some v ->
  exists x y, hexDigitValue a = Some x /\ hexDigitValue b = Some y /\ v = 16 * x + y /\ 0 <= v < 256.
Proof.
  unfold hexPair. destruct (hexDigitValue a) as [x|] eqn:Ea, (hexDigitValue b) as [y|] eqn:Eb;
    intros; simplify_eq.
  exists x, y. pose proof (hexDigitValue_range _ _ Ea). pose proof (hexDigitValue_range _ _ Eb).
  split; [done|split; [done|split; [done|lia]]].
Qed.

(** Six digits: [replace] leaves them, [parseInt] reads the colour. *)
Lemma matchHexDigits6_parse w r g b :
  matchHexDigits6 w = Some (r, g, b) ->
  removeFirst "#" w = w /\ parseInt16 w = Some (r * 65536 + g * 256 + b) /\
  0 <= r < 256 /\ 0 <= g < 256 /\ 0 <= b < 256.
Proof.
  unfold matchHexDigits6.
  destruct w as [|a1 [|a2 [|b1 [|b2 [|c1 [|c2 [|]]]]]]]; try discriminate.
  destruct (hexPair a1 a2) as [r'|] eqn:Er, (hexPair b1 b2) as [g'|] eqn:Eg,
    (hexPair c1 c2) as [b'|] eqn:Eb; intros; simplify_eq.
  apply hexPair_spec in Er as (x1 & y1 & X1 & Y1 & -> & ?), Eg as (x2 & y2 & X2 & Y2 & -> & ?),
    Eb as (x3 & y3 & X3 & Y3 & -> & ?).
  split; [|split; [|lia]].
  2: rewrite (parseInt16_hex6 _ _ _ _ _ _ _ _ _ _ _ _ X1 Y1 X2 Y2 X3 Y3); f_equal; ring.
  rewrite (removeFirst_digit _ _ _ X1), (removeFirst_digit _ _ _ Y1), (removeFirst_digit _ _ _ X2),
    (removeFirst_digit _ _ _ Y2), (removeFirst_digit _ _ _ X3), (removeFirst_digit _ _ _ Y3).
  reflexivity.
Qed.

(** A colour the regular expression matches, with or without its ["#"]. *)
Lemma matchHex6_parse s r g b :
  matchHex6 s = Some (r, g, b) ->
  parseInt16 (removeFirst "#" s) = Some (r * 65536 + g * 256 + b) /\
  0 <= r < 256 /\ 0 <= g < 256 /\ 0 <= b < 256.
Proof.
  unfold matchHex6. destruct s as [|c s]; [discriminate|].
  destruct (Ascii.eqb c "#") eqn:E; intros H; apply matchHexDigits6_parse in H as (Hr & Hp & ?).
  - cbn. rewrite E. by split.
  - cbn. rewrite E. cbn in Hr. rewrite E in Hr. injection Hr as Hr. rewrite Hr. by split.
Qed.

(** ** The 32-bit operators on small numbers *)

(** [lia] with the powers of two of the goal computed. *)
Ltac pow_lia :=
  repeat match goal with
  | |- context [2 ^ ?n] => let v := eval vm_compute in (2 ^ n) in change (2 ^ n) with v
  end; lia.

Lemma i32_small z : 0 <= z < 2 ^ 31 -> i32 z = z.
Proof.
  intros Hz. unfold i32. rewrite Z.mod_small by lia.
  by rewrite (proj2 (Z.ltb_lt _ _)) by lia.
Qed.

(** A [lor] of bit ranges that do not overlap is a sum. *)
Lemma lor_shifted a b n : 0 <= n -> 0 <= b < 2 ^ n -> Z.lor (a * 2 ^ n) b = a * 2 ^ n + b.
Proof.
  intros Hn Hb.
  assert (Hd : Z.land (a * 2 ^ n) b = 0).
  { apply Z.bits_inj'. intros i Hi. rewrite Z.land_spec, Z.bits_0.
    destruct (Z.lt_ge_cases i n).
    - by rewrite Z.mul_pow2_bits_low by lia.
    - rewrite <- (Z.mod_small b (2 ^ n)) by lia. rewrite Z.mod_pow2_bits_high by lia.
      apply andb_false_r. }
  rewrite <- (Z.lxor_lor _ _ Hd). symmetry. by apply Z.add_nocarry_lxor.
Qed.

(** The channels of a 24-bit colour. *)
Lemma channels_of_color r g b :
  0 <= r < 256 -> 0 <= g < 256 -> 0 <= b < 256 ->
  let num := numI32 (Some (r * 65536 + g * 256 + b)) in
  js_sar num 16 = r /\ js_and (js_sar num 8) 255 = g /\ js_and num 255 = b.
Proof.
  intros Hr Hg Hb num. unfold num, numI32.
  rewrite i32_small by lia. unfold js_sar, js_and.
  rewrite (i32_small (r * 65536 + g * 256 + b)), (i32_small 255) by lia.
  change (16 mod 32) with 16. change (8 mod 32) with 8. change 255 with (Z.ones 8).
  rewrite !Z.shiftr_div_pow2 by lia. rewrite i32_small.
  2: { split; [apply Z.div_pos; lia|]. apply Z.div_lt_upper_bound; lia. }
  rewrite !Z.land_ones by lia. change (2 ^ 16) with 65536. change (2 ^ 8) with 256.
  split; [|split].
  - replace (r * 65536 + g * 256 + b) with (g * 256 + b + r * 65536) by ring.
    rewrite Z.div_add by lia. rewrite Z.div_small by lia. lia.
  - replace (r * 65536 + g * 256 + b) with (b + (r * 256 + g) * 256) by ring.
    rewrite Z.div_add by lia. rewrite Z.div_small by lia.
    rewrite Z.add_0_l, Z.add_comm, Z.mod_add by lia. by apply Z.mod_small.
  - replace (r * 65536 + g * 256 + b) with (b + (r * 256 + g) * 256) by ring.
    rewrite Z.mod_add by lia. by apply Z.mod_small.
Qed.

(** The number [packColor] prints. *)
Lemma pack_value R G B :
  0 <= R < 256 -> 0 <= G < 256 -> 0 <= B < 256 ->
  js_or (js_or (js_or (js_shl 1 24) (js_shl R 16)) (js_shl G 8)) B =
  2 ^ 24 + (R * 65536 + G * 256 + B).
Proof.
  intros HR HG HB. unfold js_or, js_shl.
  change (24 mod 32) with 24. change (16 mod 32) with 16. change (8 mod 32) with 8.
  rewrite (i32_small 1), (i32_small R), (i32_small G), (i32_small B) by pow_lia.
  rewrite !Z.shiftl_mul_pow2 by pow_lia.
  rewrite !(i32_small (1 * 2 ^ 24)), !(i32_small (R * 2 ^ 16)), !(i32_small (G * 2 ^ 8)) by pow_lia.
  rewrite lor_shifted with (n := 24) by pow_lia.
  replace (1 * 2 ^ 24 + R * 2 ^ 16) with ((256 + R) * 2 ^ 16) by ring.
  rewrite (i32_small ((256 + R) * 2 ^ 16)) by pow_lia.
  rewrite lor_shifted with (n := 16) by pow_lia.
  replace ((256 + R) * 2 ^ 16 + G * 2 ^ 8) with (((256 + R) * 256 + G) * 2 ^ 8) by ring.
  rewrite (i32_small (((256 + R) * 256 + G) * 2 ^ 8)) by pow_lia.
  rewrite lor_shifted with (n := 8) by pow_lia. ring.
Qed.

(** ** Printing *)

Lemma string_of_list_ascii_app l1 l2 :
  String.string_of_list_ascii (l1 ++ l2) =
  String.string_of_list_ascii l1 +:+ String.string_of_list_ascii l2.
Proof. induction l1 as [|c l1 IH]; [done|]. cbn. by rewrite IH. Qed.

Lemma string_app_assoc (s1 s2 s3 : string) : (s1 +:+ s2) +:+ s3 = s1 +:+ s2 +:+ s3.
Proof. induction s1 as [|c s1 IH]; [done|]. exact (f_equal (String c) IH). Qed.

(** The digits of [q * 16^k + m] are the [k] of [m], then those of [q]. *)
Lemma hexDigitsRev_split k : forall f q m,
  0 <= m < 16 ^ Z.of_nat k -> 0 < q -> (k <= f)%nat ->
  hexDigitsRev f (q * 16 ^ Z.of_nat k + m) = hexPadRev k m ++ hexDigitsRev (f - k) q.
Proof.
  induction k as [|k IH]; intros f q m Hm Hq Hf.
  - cbn in Hm. assert (m = 0) as -> by lia. rewrite Nat.sub_0_r, Z.mul_1_r, Z.add_0_r. done.
  - destruct f as [|f]; [lia|]. rewrite Nat2Z.inj_succ, Z.pow_succ_r in * by lia.
    assert (0 < 16 ^ Z.of_nat k) by (apply Z.pow_pos_nonneg; lia).
    cbn [hexDigitsRev hexPadRev]. rewrite (proj2 (Z.leb_gt _ 0)) by nia.
    replace (q * (16 * 16 ^ Z.of_nat k) + m) with (m + (q * 16 ^ Z.of_nat k) * 16) by ring.
    rewrite Z.mod_add, Z.div_add by lia. rewrite Z.add_comm, IH.
    + by rewrite Nat.sub_succ.
    + split; [apply Z.div_pos; lia|]. apply Z.div_lt_upper_bound; lia.
    + done.
    + lia.
Qed.

(** [(2^24 + m).toString(16).slice(1)] for a 24-bit [m]: its six digits. *)
Lemma toString16_color m : 0 <= m < 2 ^ 24 -> slice1 (toString16 (2 ^ 24 + m)) = hexPad 6 m.
Proof.
  intros Hm. unfold toString16.
  rewrite (proj2 (Z.eqb_neq _ 0)), (proj2 (Z.ltb_ge _ 0)) by pow_lia.
  rewrite Z.abs_eq by pow_lia.
  rewrite (Z.log2_unique (2 ^ 24 + m) 24) by pow_lia. cbn [Z.to_nat Pos.to_nat].
  replace (2 ^ 24 + m) with (1 * 16 ^ Z.of_nat 6 + m) by reflexivity.
  rewrite hexDigitsRev_split by (cbn; lia). cbn [app].
  rewrite rev_app_distr. reflexivity.
Qed.

Lemma hexPadRev_add k1 : forall k2 n,
  hexPadRev (k1 + k2) n = hexPadRev k1 n ++ hexPadRev k2 (n / 16 ^ Z.of_nat k1).
Proof.
  induction k1 as [|k1 IH]; intros k2 n.
  - by rewrite Z.div_1_r.
  - cbn [Nat.add hexPadRev app]. rewrite IH. do 2 f_equal.
    rewrite Nat2Z.inj_succ, Z.pow_succ_r, Z.div_div by (try apply Z.pow_pos_nonneg; lia).
    done.
Qed.

(** Two digits only see the low byte. *)
Lemma hexPadRev2_add b q : hexPadRev 2 (b + q * 256) = hexPadRev 2 b.
Proof.
  cbn [hexPadRev].
  replace (b + q * 256) with (b + (q * 16) * 16) by ring.
  rewrite Z.mod_add, Z.div_add by lia.
  replace (b / 16 + q * 16) with (b / 16 + q * 16) by ring.
  by rewrite Z.mod_add by lia.
Qed.

(** The six digits of a colour are its channels' two each. *)
Lemma hexPad6_channels r g b :
  0 <= g < 256 -> 0 <= b < 256 ->
  hexPad 6 (r * 65536 + g * 256 + b) = hexPad 2 r +:+ hexPad 2 g +:+ hexPad 2 b.
Proof.
  intros Hg Hb. unfold hexPad.
  change 6%nat with (2 + (2 + 2))%nat. rewrite !hexPadRev_add. change (16 ^ Z.of_nat 2) with 256.
  replace (r * 65536 + g * 256 + b) with (b + (g + r * 256) * 256) by ring.
  rewrite Z.div_add by lia. rewrite (Z.div_small b) by lia. rewrite Z.add_0_l.
  rewrite Z.div_add by lia. rewrite (Z.div_small g) by lia. rewrite Z.add_0_l.
  rewrite !hexPadRev2_add.
  rewrite !rev_app_distr, !string_of_list_ascii_app, string_app_assoc. done.
Qed.

(** [packColor] of three channels in range prints them. *)
Lemma packColor_rgbHex R G B :
  0 <= R < 256 -> 0 <= G < 256 -> 0 <= B < 256 -> packColor R G B = rgbHex R G B.
Proof.
  intros HR HG HB. unfold packColor, rgbHex.
  rewrite pack_value, toString16_color, hexPad6_channels by pow_lia. done.
Qed.

Lemma Zdiv_round_even_nonneg N D : 0 <= N -> 0 < D -> 0 <= Zdiv_round_even N D.
Proof.
  intros HN HD. unfold Zdiv_round_even. pose proof (Z.div_pos N D HN HD).
  destruct (Z.compare _ _); [destruct (Z.even _)|..]; lia.
Qed.

Lemma roundDouble_nonneg q : (0 <= q)%Q -> (0 <= roundDouble q)%Q.
Proof.
  intros Hq. unfold roundDouble. rewrite (proj2 (Qle_bool_iff _ _) Hq). unfold roundDoublePos.
  assert (Hn : 0 <= Qnum q) by (destruct q as [n d]; unfold Qle in Hq; cbn in *; lia).
  set (e := Z.max _ _). destruct (0 <=? e) eqn:He.
  - apply Z.leb_le in He. change 0%Q with (inject_Z 0). rewrite <- Zle_Qle.
    apply Z.mul_nonneg_nonneg; [|apply Z.pow_nonneg; lia].
    apply Zdiv_round_even_nonneg; [lia|]. apply Z.mul_pos_pos; [lia|apply Z.pow_pos_nonneg; lia].
  - unfold Qle. cbn. rewrite Z.mul_1_r. apply Zdiv_round_even_nonneg; [|lia].
    apply Z.mul_nonneg_nonneg; [lia|]. apply Z.pow_nonneg; lia.
Qed.

Lemma colorAmount_nonneg p : (0 <= p)%Q -> 0 <= colorAmount p.
Proof.
  intros Hp. unfold colorAmount.
  assert (0 <= double_2_55 * p)%Q by (apply Qmult_le_0_compat; [unfold Qle; cbn; lia|exact Hp]).
  pose proof (roundDouble_nonneg _ H).
  pose proof (js_round_spec (roundDouble (double_2_55 * p))) as [_ Hr].
  assert (Hl : (- 1 < inject_Z (js_round (roundDouble (double_2_55 * p))))%Q) by lra.
  change (-1)%Q with (inject_Z (-1)) in Hl. rewrite <- Zlt_Qlt in Hl. lia.
Qed.

(** The double product [2.55 * 50] is [127.49999999999999], which
    [Math.round] takes to 127 (an exact product would give 128), while
    [2.55 * 10] is [25.5] and rounds to 26. *)
Example colorAmount_double_product :
  colorAmount 50 = 127 /\ colorAmount 10 = 26 /\ js_round ((255 # 100) * 50) = 128.
Proof. vm_compute. split_and!; reflexivity. Qed.

(** The two hex digits of a byte. *)
Lemma hexPad2_digits r :
  0 <= r < 256 ->
  hexPad 2 r = String (hexDigit (r / 16 mod 16)) (String (hexDigit (r mod 16)) EmptyString) /\
  hexPair (hexDigit (r / 16 mod 16)) (hexDigit (r mod 16)) = Some r.
Proof.
  intros Hr. split; [reflexivity|]. unfold hexPair.
  rewrite !hexDigit_value by (apply Z.mod_pos_bound; lia).
  rewrite (Z.mod_small (r / 16)) by (split; [apply Z.div_pos|apply Z.div_lt_upper_bound]; lia).
  f_equal. pose proof (Z.div_mod r 16). lia.
Qed.

(** ** Theorems *)

(** (C21) For a colour of six hex digits (either case, with or without
    its ["#"]) and a percentage at least 0, [lightenColor] prints ["#"]
    and the six lowercase digits of the channels raised by
    [Math.round(2.55 * percent)] and capped at 255, and [darkenColor]
    those lowered by it and floored at 0: the 32-bit shifts and masks
    take the channels apart and [(1 << 24) | ...] puts them back with
    their leading zeros. *)
Theorem lighten_darken_spec s p r g b :
  matchHex6 s = Some (r, g, b) -> (0 <= p)%Q ->
  let amt := colorAmount p in
  lightenColor s p = rgbHex (Z.min 255 (r + amt)) (Z.min 255 (g + amt)) (Z.min 255 (b + amt)) /\
  darkenColor s p = rgbHex (Z.max 0 (r - amt)) (Z.max 0 (g - amt)) (Z.max 0 (b - amt)).
Proof.
  intros Hm Hp amt. apply matchHex6_parse in Hm as (Hparse & Hr & Hg & Hb).
  pose proof (colorAmount_nonneg p Hp) as Ha.
  unfold lightenColor, darkenColor. rewrite Hparse. fold amt.
  destruct (channels_of_color r g b Hr Hg Hb) as (-> & -> & ->).
  split; apply packColor_rgbHex; lia.
Qed.

Lemma lighten_darken_spec_witness :
  matchHex6 "#3B82F6" = Some (59, 130, 246) /\ (0 <= 10)%Q /\
  lightenColor "#3B82F6" 10 = "#559cff" /\ darkenColor "#3B82F6" 10 = "#2168dc".
Proof.
  assert (Hm : matchHex6 "#3B82F6" = Some (59, 130, 246)) by reflexivity.
  assert (Hp : (0 <= 10)%Q) by (unfold Qle; cbn; lia).
  destruct (lighten_darken_spec _ _ _ _ _ Hm Hp) as [Hl Hd].
  split_and!; [exact Hm|exact Hp|rewrite Hl; reflexivity|rewrite Hd; reflexivity].
Defined.

(** [hexToRgba] reads back the channels of a colour printed as
    ["#rrggbb"]: for channels in [0, 255], the regular expression
    matches and [parseInt] of each pair gives the channel, printed in
    decimal. *)
Theorem hexToRgba_rgbHex numberToString r g b alpha :
  0 <= r < 256 -> 0 <= g < 256 -> 0 <= b < 256 ->
  hexToRgba numberToString (rgbHex r g b) alpha =
  "rgba(" +:+ pretty r +:+ "," +:+ pretty g +:+ "," +:+ pretty b +:+ "," +:+
    numberToString alpha +:+ ")".
Proof.
  intros Hr Hg Hb. unfold hexToRgba, rgbHex, matchHex6.
  destruct (hexPad2_digits r Hr) as [-> Pr], (hexPad2_digits g Hg) as [-> Pg],
    (hexPad2_digits b Hb) as [-> Pb].
  revert Pr Pg Pb.
  generalize (hexDigit (r / 16 mod 16)), (hexDigit (r mod 16)), (hexDigit (g / 16 mod 16)),
    (hexDigit (g mod 16)), (hexDigit (b / 16 mod 16)), (hexDigit (b mod 16)).
  intros a1 a2 b1 b2 c1 c2 Pr Pg Pb.
  change ("#" +:+ _) with
    (String "#" (String a1 (String a2 (String b1 (String b2 (String c1 (String c2 ""))))))).
  cbn. rewrite Pr, Pg, Pb. reflexivity.
Qed.

Lemma hexToRgba_rgbHex_witness :
  (0 <= 255 < 256 /\ 0 <= 0 < 256 /\ 0 <= 128 < 256) /\
  hexToRgba (fun _ => "0.5") (rgbHex 255 0 128) (1 # 2) = "rgba(255,0,128,0.5)".
Proof.
  split; [lia|]. rewrite hexToRgba_rgbHex by lia. reflexivity.
Defined.

(** A negative percentage is not guarded: [darkenColor] by -10 of white
    pushes each channel to 280, whose ninth bit lands in the next
    channel, and [lightenColor] by -10 of black prints a negative
    number, whose ["-"] [slice(1)] drops. *)
Example darkenColor_negative :
  darkenColor "#ffffff" (-10) = "#191918" /\ lightenColor "#000000" (-10) = "#19".
Proof. split; vm_compute; reflexivity. Qed.

(** Other colour forms are read as numbers: the shorthand ["#FFF"] is
    the blue [0x000fff], a colour name is [NaN], read as 0 by the bit
    operators, and a colour with an alpha byte leaves the 32-bit
    range. *)
Example lightenColor_other_forms :
  lightenColor "#FFF" 0 = "#000fff" /\ lightenColor "red" 20 = "#333333" /\
  lightenColor "#ff000080" 0 = "#ffff80".
Proof. split_and!; vm_compute; reflexivity. Qed.
