(* ===== verification/ThemeColors.v ===== *)
(** * ThemeColors: the colour cache of src/src/features/gantt/utils/theme-colors.ts

    Lines 1-136 of theme-colors.ts read the chart's colours from CSS
    custom properties and cache them in two module variables,
    [colorCache] and [lastTheme]: a state [ThemeCache] threaded through
    the state monad [St] of the Prelude.  The document is the environment:
    [None] when there is none (a server render), otherwise whether the
    root element has the class ["dark"], the trimmed value of each custom
    property (["" when unset]) and the colour the browser computes for a
    CSS colour value.

    The theorems: a cached colour is returned without reading the
    document again while the theme stays the same; the cache is keyed by
    the property name only, so the second of two reads of one property
    with different fallbacks returns the first one's colour: the major
    grid lines always have the colour of the minor ones. *)

From S2P Require Import Prelude.

Record ThemeCache := mkThemeCache {
  colorCache : jsobj string;
  lastTheme : option string;
}.

(** [let colorCache = {}; let lastTheme = null;] and [clearColorCache()]. *)
Definition initialThemeCache : ThemeCache := mkThemeCache [] None.
Definition clearColorCache : St ThemeCache unit := st_put initialThemeCache.

Record Document := mkDocument {
  darkClass : bool;
  cssVariable : string -> string;
  computedColor : string -> string;
}.

Section Theme.
Variable doc : option Document.

(** [getCSSColor] *)
Definition getCSSColor (varName fallback : string) : string :=
  match doc with
  | None => fallback
  | Some d => let value := cssVariable d varName in if String.eqb value "" then fallback else value
  end.

(** [resolveColor]: a hex, rgb or hsl value as it is, anything else
    through a temporary element's computed colour. *)
Definition resolveColor (cssValue : string) : string :=
  match doc with
  | None => cssValue
  | Some d =>
      if String.prefix "#" cssValue || String.prefix "rgb" cssValue || String.prefix "hsl" cssValue
      then cssValue
      else let computed := computedColor d cssValue in
           if String.eqb computed "" then cssValue else computed
  end.

(** The theme the document shows. *)
Definition currentTheme (d : Document) : string := if darkClass d then "dark" else "light".

(** [checkThemeChange]: a new theme empties the cache. *)
Definition checkThemeChange : St ThemeCache unit :=
  match doc with
  | None => mret tt
  | Some d =>
      c ← st_get;
      if bool_decide (lastTheme c = Some (currentTheme d)) then mret tt
      else st_put (mkThemeCache [] (Some (currentTheme d)))
  end.

(** The miss path of [getThemeColor]: read, resolve, cache. *)
Definition fetchThemeColor (varName fallback : string) (c : ThemeCache) : St ThemeCache string :=
  let resolved := resolveColor (getCSSColor varName fallback) in
  st_put (mkThemeCache (obj_set varName resolved (colorCache c)) (lastTheme c)) ;;
  mret resolved.

(** [getThemeColor]: the cached colour when it is truthy, otherwise the
    property's value resolved, cached under the property's name. *)
Definition getThemeColor (varName fallback : string) : St ThemeCache string :=
  checkThemeChange ;;
  c ← st_get;
  match (colorCache c)⟦varName⟧%gantt with
  | Some v => if String.eqb v "" then fetchThemeColor varName fallback c else mret v
  | None => fetchThemeColor varName fallback c
  end.

(** The object [getGridColors] returns. *)
Record GridColors := mkGridColors {
  gc_background : string; rowOdd : string; rowEven : string; rowHover : string;
  gridLine : string; gridLineMajor : string; todayLine : string;
  todayBackground : string; weekendBackground : string; headerText : string;
  groupHeader : string;
}.

(** [getGridColors]: the properties in the order of the literal. *)
Definition getGridColors : St ThemeCache GridColors :=
  background ← getThemeColor "--background" "#f8fafc";
  rowOdd_ ← getThemeColor "--card" "#ffffff";
  rowEven_ ← getThemeColor "--background" "#f8fafc";
  rowHover_ ← getThemeColor "--accent" "#f1f5f9";
  gridLine_ ← getThemeColor "--border" "#e2e8f0";
  gridLineMajor_ ← getThemeColor "--border" "#cbd5e1";
  todayLine_ ← getThemeColor "--destructive" "#ef4444";
  headerText_ ← getThemeColor "--muted-foreground" "#64748b";
  groupHeader_ ← getThemeColor "--secondary" "#f1f5f9";
  mret (mkGridColors background rowOdd_ rowEven_ rowHover_ gridLine_ gridLineMajor_ todayLine_
          "rgba(239, 68, 68, 0.1)" "rgba(100, 116, 139, 0.08)" headerText_ groupHeader_).

(** The object [getTaskColors] returns. *)
Record TaskColors := mkTaskColors {
  tc_taskDefault : string; tc_taskText : string; tc_taskTextDark : string;
  tc_selectedBorder : string; tc_hoveredBorder : string;
  tc_progressBackground : string; tc_progressForeground : string;
}.

Definition getTaskColors : St ThemeCache TaskColors :=
  taskDefault_ ← getThemeColor "--primary" "#3b82f6";
  taskTextDark_ ← getThemeColor "--foreground" "#1e293b";
  hoveredBorder_ ← getThemeColor "--primary" "#3b82f6";
  mret (mkTaskColors taskDefault_ "#ffffff" taskTextDark_ "#fbbf24" hoveredBorder_
          "rgba(255, 255, 255, 0.3)" "rgba(255, 255, 255, 0.5)").

(** The object [getInteractionColors] returns. *)
Record InteractionColors := mkInteractionColors {
  ic_dragPreview : string; ic_dragPreviewBorder : string; ic_dropZoneValid : string;
  ic_dropZoneInvalid : string; ic_selectionBox : string; ic_selectionBoxBorder : string;
  ic_snapLine : string; ic_conflictHighlight : string; ic_tooltipBackground : string;
  ic_tooltipText : string;
}.

Definition getInteractionColors : St ThemeCache InteractionColors :=
  dragPreviewBorder_ ← getThemeColor "--primary" "#3b82f6";
  selectionBoxBorder_ ← getThemeColor "--primary" "#3b82f6";
  tooltipBackground_ ← getThemeColor "--popover" "#1e293b";
  tooltipText_ ← getThemeColor "--popover-foreground" "#f8fafc";
  mret (mkInteractionColors "rgba(59, 130, 246, 0.5)" dragPreviewBorder_ "rgba(34, 197, 94, 0.2)"
          "rgba(239, 68, 68, 0.2)" "rgba(59, 130, 246, 0.2)" selectionBoxBorder_ "#fbbf24"
          "rgba(239, 68, 68, 0.3)" tooltipBackground_ tooltipText_).

End Theme.

(** ** Lemmas *)

Section ThemeProofs.
Variable doc : option Document.

(** The cache holds the document's theme. *)
Definition theme_current (c : ThemeCache) : Prop :=
  match doc with None => True | Some d => lastTheme c = Some (currentTheme d) end.

Lemma checkThemeChange_current c : theme_current c -> st_run (checkThemeChange doc) c = (tt, c).
Proof.
  unfold theme_current, checkThemeChange. destruct doc as [d|]; [|done].
  intros H. st_unfold. by rewrite bool_decide_eq_true_2.
Qed.

Lemma checkThemeChange_sets c :
  theme_current (st_run (checkThemeChange doc) c).2 /\
  colorCache (st_run (checkThemeChange doc) c).2 ⊆ colorCache c.
Proof.
  unfold theme_current, checkThemeChange. destruct doc as [d|]; [|done].
  st_unfold. case_bool_decide; cbn; split; [done|done|done|]. apply list_subseteq_nil.
Qed.

Lemma resolve_nonempty v : v <> "" -> resolveColor doc v <> "".
Proof.
  unfold resolveColor. destruct doc as [d|]; [|done]. intros Hv.
  destruct (_ || _); [done|]. destruct (String.eqb_spec (computedColor d v) ""); done.
Qed.

Lemma getCSSColor_nonempty v f : f <> "" -> getCSSColor doc v f <> "".
Proof.
  unfold getCSSColor. destruct doc as [d|]; [|done]. intros Hf.
  destruct (String.eqb_spec (cssVariable d v) ""); done.
Qed.

(** A truthy cached colour is returned as it is, and nothing changes. *)
Lemma getThemeColor_cached v f c x :
  theme_current c -> (colorCache c)⟦v⟧%gantt = Some x -> x <> "" ->
  st_run (getThemeColor doc v f) c = (x, c).
Proof.
  intros Ht Hx Hne. unfold getThemeColor.
  rewrite st_run_bind, checkThemeChange_current by done. st_unfold. rewrite Hx.
  by destruct (String.eqb_spec x "").
Qed.

(** After a read the cache holds what the read returned (truthy, for a
    truthy fallback) under the property's name, for the document's theme. *)
Lemma getThemeColor_caches v f c :
  f <> "" ->
  let '(x, c') := st_run (getThemeColor doc v f) c in
  theme_current c' /\ (colorCache c')⟦v⟧%gantt = Some x /\ x <> "".
Proof.
  intros Hf. unfold getThemeColor. rewrite st_run_bind.
  destruct (checkThemeChange_sets c) as [Ht _].
  destruct (st_run (checkThemeChange doc) c) as [[] c1]. unfold fetchThemeColor. st_unfold.
  assert (Hr : resolveColor doc (getCSSColor doc v f) <> "")
    by (apply resolve_nonempty, getCSSColor_nonempty, Hf).
  destruct ((colorCache c1)⟦v⟧%gantt) as [x|] eqn:Hx;
    [destruct (String.eqb_spec x "")|]; cbn; split_and!; try done;
    by rewrite obj_get_set_eq.
Qed.

(** Two reads of one property in a row: the second returns the first's
    colour, whatever its own fallback. *)
Lemma getThemeColor_twice v f1 f2 c :
  f1 <> "" ->
  let '(x, c1) := st_run (getThemeColor doc v f1) c in st_run (getThemeColor doc v f2) c1 = (x, c1).
Proof.
  intros Hf. pose proof (getThemeColor_caches v f1 c Hf) as H.
  destruct (st_run _ c) as [x c1]. destruct H as (Ht & Hx & Hne).
  by apply getThemeColor_cached.
Qed.

End ThemeProofs.

(** The major grid lines have the colour of the minor ones: [gridLine]
    caches ["--border"], and [gridLineMajor] reads it back, its own
    fallback ["#cbd5e1"] never used. *)
Lemma gridLineMajor_is_gridLine (doc : option Document) (c : ThemeCache) :
  let g := (st_run (getGridColors doc) c).1 in gridLineMajor g = gridLine g.
Proof.
  cbv zeta. unfold getGridColors, st_run, mbind, St_bind.
  do 4 (destruct (getThemeColor _ _ _ _) as [? ?]; cbv beta iota).
  match goal with |- context [getThemeColor doc "--border" "#e2e8f0" ?c4] =>
    pose proof (getThemeColor_twice doc "--border" "#e2e8f0" "#cbd5e1" c4 ltac:(done)) as Htw;
    unfold st_run in Htw;
    destruct (getThemeColor doc "--border" "#e2e8f0" c4) as [x c5]; cbv beta iota
  end.
  rewrite Htw. clear Htw. cbv beta iota.
  do 3 (destruct (getThemeColor _ _ _ _) as [? ?]; cbv beta iota).
  reflexivity.
Qed.
