(* ===== verification/ThemeProvider.v ===== *)
(** * ThemeProvider: the light and dark theme of src/unnamed/part_016

    [ThemeProvider] (lines 22-62) keeps the theme in React state, read at
    mount from [localStorage] under ["gantt-theme"]; an effect on the
    theme adds or removes the root element's ["dark"] class, writes the
    theme back to [localStorage] and calls [clearColorCache] of
    theme-colors.ts (ThemeColors.v).  [useTheme] (lines 64-70) reads the
    context and throws outside a provider.

    A [ThemeWorld] is the provider's state, the browser (the window's
    presence, [localStorage], the root's class) and the colour cache.  A
    step is a [setTheme] or [toggleTheme] call and the render it
    schedules: React skips the render, and so the effect, when the new
    theme is the current one.  The style sheet is a parameter: [sheet dark
    v] is the value of the custom property [v] under the class ["dark"]
    or without it.

    The theorems: from a mount in the browser, every reachable state
    keeps [localStorage], the root's class and the provider's theme in
    agreement, so a reload reads back the theme; after a change of theme
    the first colour a renderer reads is the new theme's. *)

From S2P Require Import Prelude ThemeColors.

Inductive Theme := theme_light | theme_dark.

#[export] Instance Theme_eq_dec : EqDecision Theme.
Proof. solve_decision. Defined.

Definition themeName (t : Theme) : string :=
  match t with theme_light => "light" | theme_dark => "dark" end.

Definition STORAGE_KEY : string := "gantt-theme".

(** What the provider reads and writes of the browser. *)
Record Browser := mkBrowser {
  hasWindow : bool;
  localStorage : jsobj string;
  rootDark : bool;
}.

(** [getInitialTheme]: ["light"] on the server, the stored theme when it
    is one of the two names, ["light"] otherwise. *)
Definition getInitialTheme (b : Browser) : Theme :=
  if negb (hasWindow b) then theme_light
  else match (localStorage b)⟦STORAGE_KEY⟧%gantt with
       | Some stored =>
           if String.eqb stored "light" then theme_light
           else if String.eqb stored "dark" then theme_dark
           else theme_light
       | None => theme_light
       end.

Record ThemeWorld := mkThemeWorld {
  tw_theme : Theme;
  tw_browser : Browser;
  tw_cache : ThemeCache;
}.

(** The effect on [theme]: the class, [localStorage.setItem], then
    [clearColorCache()]. *)
Definition themeEffect (w : ThemeWorld) : ThemeWorld :=
  let b := tw_browser w in
  let dark := bool_decide (tw_theme w = theme_dark) in
  let b' := mkBrowser (hasWindow b) (obj_set STORAGE_KEY (themeName (tw_theme w)) (localStorage b)) dark in
  mkThemeWorld (tw_theme w) b' (st_run clearColorCache (tw_cache w)).2.

(** The mount: [useState(getInitialTheme)], then the effect. *)
Definition themeMount (b : Browser) (c : ThemeCache) : ThemeWorld :=
  themeEffect (mkThemeWorld (getInitialTheme b) b c).

Inductive ThemeEvent := SetTheme (t : Theme) | ToggleTheme.

(** [setTheme(t)] sets [t]; [toggleTheme()] flips the previous theme. *)
Definition nextTheme (prev : Theme) (e : ThemeEvent) : Theme :=
  match e with
  | SetTheme t => t
  | ToggleTheme => match prev with theme_light => theme_dark | theme_dark => theme_light end
  end.

(** The state update and, when the theme changed, the render's effect. *)
Definition themeStep (w : ThemeWorld) (e : ThemeEvent) : ThemeWorld :=
  let t := nextTheme (tw_theme w) e in
  if decide (t = tw_theme w) then w
  else themeEffect (mkThemeWorld t (tw_browser w) (tw_cache w)).

(** [useTheme]: the context's value, or the [Error] it throws. *)
Definition useTheme {A} (context : option A) : js_result A :=
  match context with
  | Some v => JsOk v
  | None => JsFail (ThrownError "useTheme must be used within a ThemeProvider")
  end.

(** The document the colour reads of ThemeColors.v see. *)
Definition themeDocument (sheet : bool -> string -> string) (computed : string -> string)
    (w : ThemeWorld) : option Document :=
  let dark := rootDark (tw_browser w) in Some (mkDocument dark (sheet dark) computed).

(** The states a mount in the browser and the provider's calls reach. *)
Inductive theme_reach : ThemeWorld -> Prop :=
  | theme_reach_mount b c : hasWindow b = true -> theme_reach (themeMount b c)
  | theme_reach_step w e : theme_reach w -> theme_reach (themeStep w e).

(** ** Lemmas *)

(** The browser agrees with the provider. *)
Definition theme_synced (w : ThemeWorld) : Prop :=
  hasWindow (tw_browser w) = true /\
  (localStorage (tw_browser w))⟦STORAGE_KEY⟧%gantt = Some (themeName (tw_theme w)) /\
  rootDark (tw_browser w) = bool_decide (tw_theme w = theme_dark).

Lemma themeEffect_synced w : hasWindow (tw_browser w) = true -> theme_synced (themeEffect w).
Proof. intros H. unfold theme_synced, themeEffect. cbn. by rewrite obj_get_set_eq. Qed.

Lemma themeStep_synced w e : theme_synced w -> theme_synced (themeStep w e).
Proof.
  intros Hs. unfold themeStep. case_decide; [done|].
  apply themeEffect_synced. apply Hs.
Qed.

Lemma theme_reach_synced w : theme_reach w -> theme_synced w.
Proof.
  induction 1; [by apply themeEffect_synced|by apply themeStep_synced].
Qed.

Lemma getInitialTheme_synced w : theme_synced w -> getInitialTheme (tw_browser w) = tw_theme w.
Proof.
  intros (Hw & Hk & _). unfold getInitialTheme. rewrite Hw, Hk. by destruct (tw_theme w).
Qed.

(** ** Theorems *)

(** (C20) A reload restores the theme: in every state a mount in the
    browser and the provider's [setTheme] and [toggleTheme] calls reach,
    [getInitialTheme] reads from [localStorage] the theme the provider
    holds. *)
Theorem theme_reload_restores w : theme_reach w -> getInitialTheme (tw_browser w) = tw_theme w.
Proof. intros H. by apply getInitialTheme_synced, theme_reach_synced. Qed.

Definition theme_example_browser : Browser := mkBrowser true [] false.

Lemma theme_reload_restores_witness :
  let w := themeStep (themeMount theme_example_browser initialThemeCache) ToggleTheme in
  theme_reach w /\ getInitialTheme (tw_browser w) = theme_dark.
Proof.
  split.
  - apply theme_reach_step, theme_reach_mount. reflexivity.
  - apply (theme_reload_restores (themeStep (themeMount theme_example_browser initialThemeCache) ToggleTheme)).
    apply theme_reach_step, theme_reach_mount. reflexivity.
Defined.

(** After a call that changes the theme, the first colour a
    renderer reads is the one a page freshly loaded in the new theme
    reads: the root's class follows the theme and the cache holds no
    colour of the old one. *)
Theorem theme_change_colors_fresh sheet computed w e v f :
  nextTheme (tw_theme w) e <> tw_theme w ->
  let w' := themeStep w e in
  let dark := bool_decide (nextTheme (tw_theme w) e = theme_dark) in
  (st_run (getThemeColor (themeDocument sheet computed w') v f) (tw_cache w')).1 =
  (st_run (getThemeColor (Some (mkDocument dark (sheet dark) computed)) v f) initialThemeCache).1.
Proof. intros Hne w' dark. subst w'. unfold themeStep. by rewrite decide_False. Qed.

Definition theme_example_sheet (dark : bool) (v : string) : string :=
  if String.eqb v "--background" then (if dark then "#0f172a" else "#ffffff") else "".

Lemma theme_change_colors_fresh_witness :
  let w := themeMount theme_example_browser initialThemeCache in
  nextTheme (tw_theme w) ToggleTheme <> tw_theme w /\
  (st_run (getThemeColor (themeDocument theme_example_sheet id (themeStep w ToggleTheme))
     "--background" "#fff") (tw_cache (themeStep w ToggleTheme))).1 = "#0f172a".
Proof.
  split; [discriminate|].
  rewrite (theme_change_colors_fresh theme_example_sheet id
    (themeMount theme_example_browser initialThemeCache) ToggleTheme "--background" "#fff");
    [reflexivity|discriminate].
Defined.
