(* ===== verification/Renderers.v ===== *)
(** * Renderers: the task and dependency layers

    [TaskRenderer] (the second module of
    src/src/features/gantt/utils/theme-colors.ts, lines 137-504, the
    task renderer) and [DependencyRenderer] (src/unnamed/part_006) draw
    one canvas layer each: their [render] is the list of canvas calls
    (Canvas.v) it makes, computed from the viewport, the tasks, the
    visible rows and the index manager ([getIndexManager()], a Section
    variable here).  A renderer without a context draws nothing.  The
    private [timeToX] and [durationToWidth] of both renderers are the
    formulas of the viewport manager (Viewport.v).

    The theorems: the phase segments of a task tile its bar (their widths
    add up to the bar's width); a task is drawn only when its resource has
    a visible row and it is in the visible time range; the dependency
    layer's comparator sort is the stable partition that draws the arrows
    of unselected tasks first and those of selected tasks on top. *)

From S2P Require Import Prelude Types TaskUtils Viewport Canvas RowLayout SpatialIndex IndexManager.

Open Scope Q_scope.

(** ** The task layer *)

(** The constants of the task renderer. *)
Definition TASK_HEIGHT_RATIO : Q := 7 # 10.
Definition TASK_BORDER_RADIUS : Q := 4.
Definition TASK_FONT : string := "12px Inter, system-ui, sans-serif".
Definition MIN_TASK_WIDTH_FOR_TEXT : Q := 40.
Definition MIN_TASK_WIDTH_FOR_PHASES : Q := 60.

(** [COLORS] of the task renderer. *)
Definition taskDefault : string := "#3b82f6".
Definition taskText : string := "#ffffff".
Definition selectedBorder : string := "#fbbf24".
Definition hoveredBorder : string := "#60a5fa".
Definition progressBackground : string := "rgba(255, 255, 255, 0.3)".
Definition progressForeground : string := "rgba(255, 255, 255, 0.5)".

(** A renderer's fields: whether [setContext] gave it a context, and the
    canvas size. *)
Record Renderer := mkRenderer {
  hasContext : bool;
  rd_width : Q;
  rd_height : Q;
}.

(** [new TaskRenderer()] / [new DependencyRenderer()] and [setContext]. *)
Definition newRenderer : Renderer := mkRenderer false 0 0.
Definition setContext (_ : Renderer) (width height : Q) : Renderer := mkRenderer true width height.

(** [renderSimpleTask] *)
Definition renderSimpleTask (t : Task) (x y width height : Q) : list CanvasOp :=
  fillRoundRect x y width height TASK_BORDER_RADIUS (default taskDefault (task_color t)).

(** One phase segment of [renderTaskWithPhases]: rounded on the left for
    the first, on the right for the last, on both for a single one. *)
Definition phaseSegment (isFirst isLast : bool) (currentX y phaseWidth height : Q) (color : string)
    : list CanvasOp :=
  let R := TASK_BORDER_RADIUS in
  if isFirst && isLast then fillRoundRect currentX y phaseWidth height R color
  else if isFirst then
    [OpSetFillStyle color; OpBeginPath; OpMoveTo (currentX + R) y;
     OpLineTo (currentX + phaseWidth) y; OpLineTo (currentX + phaseWidth) (y + height);
     OpLineTo (currentX + R) (y + height); OpArcTo currentX (y + height) currentX y R;
     OpLineTo currentX (y + R); OpArcTo currentX y (currentX + R) y R; OpFill]
  else if isLast then
    [OpSetFillStyle color; OpBeginPath; OpMoveTo currentX y;
     OpLineTo (currentX + phaseWidth - R) y;
     OpArcTo (currentX + phaseWidth) y (currentX + phaseWidth) (y + R) R;
     OpLineTo (currentX + phaseWidth) (y + height - R);
     OpArcTo (currentX + phaseWidth) (y + height) (currentX + phaseWidth - R) (y + height) R;
     OpLineTo currentX (y + height); OpClosePath; OpFill]
  else [OpSetFillStyle color; OpFillRect currentX y phaseWidth height].

(** The width of a phase: its share of the task's duration. *)
Definition phaseWidth (taskDuration totalWidth : Q) (r : PhaseRange) : Q :=
  inject_Z (range_end r - range_start r) / taskDuration * totalWidth.

(** The loop of [renderTaskWithPhases] from index [i] of [n]. *)
Fixpoint phaseSegments (i n : nat) (rs : list PhaseRange) (taskDuration currentX y totalWidth height : Q)
    : list CanvasOp :=
  match rs with
  | [] => []
  | r :: rs' =>
      let w := phaseWidth taskDuration totalWidth r in
      let color := default (PHASE_COLORS (range_type r)) (range_color r) in
      phaseSegment (bool_decide (i = 0)%nat) (bool_decide (i = n - 1)%nat) currentX y w height color
      ++ phaseSegments (S i) n rs' taskDuration (currentX + w) y totalWidth height
  end.

(** [renderTaskWithPhases] *)
Definition renderTaskWithPhases (t : Task) (startX y totalWidth height : Q) : list CanvasOp :=
  let rs := getPhaseRanges t in
  phaseSegments 0 (length rs) rs (inject_Z (_endTime t - startTime t)) startX y totalWidth height.

(** [renderProgress] *)
Definition renderProgress (x y width height progress_ : Q) : list CanvasOp :=
  let progressHeight := 3 in
  let progressY := y + height - progressHeight - 2 in
  let progressWidth := (width - 4) * (progress_ / 100) in
  OpSetFillStyle progressBackground ::
    fillRoundRect (x + 2) progressY (width - 4) progressHeight 1 progressBackground ++
  OpSetFillStyle progressForeground ::
    fillRoundRect (x + 2) progressY progressWidth progressHeight 1 progressForeground.

(** [renderTaskLabel] *)
Definition renderTaskLabel (measure : string -> Q) (name : string) (x y width height : Q)
    : list CanvasOp :=
  let padding := 6 in
  let maxWidth := width - padding * 2 in
  if Qle_bool maxWidth 0 then []
  else drawTruncatedText measure name (x + padding) (y + height / 2) maxWidth taskText TASK_FONT.

(** [renderResizeHandles] *)
Definition renderResizeHandles (x y width height : Q) : list CanvasOp :=
  let handleWidth := 4 in
  let handleHeight := height * (6 # 10) in
  let handleY := y + (height - handleHeight) / 2 in
  let c := "rgba(255, 255, 255, 0.5)" in
  OpSetFillStyle c :: fillRoundRect (x + 2) handleY handleWidth handleHeight 2 c
    ++ fillRoundRect (x + width - handleWidth - 2) handleY handleWidth handleHeight 2 c.

(** [renderTask] *)
Definition renderTask (measure : string -> Q) (t : Task) (v : ViewportState) (row : VirtualRow)
    (isSelected isHovered : bool) : list CanvasOp :=
  let x := timeToX v (inject_Z (startTime t)) in
  let width := durationToWidth v (inject_Z (_endTime t - startTime t)) in
  let y := virtualY row - scrollY v in
  let taskHeight := row_height row * TASK_HEIGHT_RATIO in
  let taskY := y + (row_height row - taskHeight) / 2 in
  if Qlt_bool width 2 then [] else
  let showPhases := Qle_bool MIN_TASK_WIDTH_FOR_PHASES width && bool_decide (1 < length (phases t))%nat in
  (if showPhases then renderTaskWithPhases t x taskY width taskHeight
   else renderSimpleTask t x taskY width taskHeight) ++
  (if isSelected then strokeRoundRect x taskY width taskHeight TASK_BORDER_RADIUS selectedBorder 2
   else if isHovered then strokeRoundRect x taskY width taskHeight TASK_BORDER_RADIUS hoveredBorder 2
   else []) ++
  (if bool_decide (0 < progress t < 100)%Z
   then renderProgress x taskY width taskHeight (inject_Z (progress t)) else []) ++
  (if Qle_bool MIN_TASK_WIDTH_FOR_TEXT width
   then renderTaskLabel measure (task_name t) x taskY width taskHeight else []) ++
  (if isHovered then renderResizeHandles x taskY width taskHeight else []).

(** The resources with a row among [visibleRows] (a [Set], read by [has]). *)
Definition visibleResourceIds (visibleRows : list VirtualRow) : gset string :=
  list_to_set (omap truthyResource visibleRows).

Section Layers.
Context {T : Type} `{!RBushOps T}.
Variable im : IndexManager T.
Variable measure : string -> Q.

(** The body of the loop of [TaskRenderer.render] for one id. *)
Definition renderTaskId (r : Renderer) (v : ViewportState) (tasks : jsobj Task)
    (visible : gset string) (selectedTaskIds : gset string) (hoveredTaskId : option string)
    (taskId : string) : list CanvasOp :=
  match tasks⟦taskId⟧%gantt with
  | None => []
  | Some t =>
      if bool_decide (resourceId t ∉ visible) then [] else
      match getRowForResource im (resourceId t) with
      | None => []
      | Some row =>
          let taskY := virtualY row - scrollY v in
          if Qlt_bool (taskY + row_height row) 0 || Qlt_bool (rd_height r) taskY then [] else
          renderTask measure t v row (bool_decide (task_id t ∈ selectedTaskIds))
            (bool_decide (hoveredTaskId = Some (task_id t)))
      end
  end.

(** [TaskRenderer.render] *)
Definition renderTasks (r : Renderer) (v : ViewportState) (tasks : jsobj Task)
    (visibleRows : list VirtualRow) (selectedTaskIds : gset string) (hoveredTaskId : option string)
    : list CanvasOp :=
  if negb (hasContext r) then [] else
  let visibleStartTime := timeOrigin v + (scrollX v / pixelsPerHour v) * 3600000 in
  let visibleEndTime := visibleStartTime + (rd_width r / pixelsPerHour v) * 3600000 in
  let visible := visibleResourceIds visibleRows in
  clearCanvas (rd_width r) (rd_height r) ++
  flat_map (renderTaskId r v tasks visible selectedTaskIds hoveredTaskId)
    (im_queryTimeRange im visibleStartTime visibleEndTime).

End Layers.

(** ** The dependency layer *)

Definition ARROW_COLOR : string := "#94a3b8".
Definition ARROW_COLOR_SELECTED : string := "#fbbf24".
Definition ARROW_COLOR_HIGHLIGHTED : string := "#60a5fa".
Definition ARROW_LINE_WIDTH : Q := 3 # 2.
Definition ARROW_SIZE : Q := 6.

(** [calculateArrowPositions]: [(fromX, fromY, toX, toY)], the ends by
    the dependency's type, the heights at the rows' middles. *)
Definition calculateArrowPositions (dep : TaskDependency) (predecessor successor : Task)
    (predRow succRow : VirtualRow) (v : ViewportState) : Q * Q * Q * Q :=
  let predY := virtualY predRow - scrollY v + row_height predRow / 2 in
  let succY := virtualY succRow - scrollY v + row_height succRow / 2 in
  let x z := timeToX v (inject_Z z) in
  let '(fromX, toX) := match dep_type dep with
    | FS => (x (_endTime predecessor), x (startTime successor))
    | FF => (x (_endTime predecessor), x (_endTime successor))
    | SS => (x (startTime predecessor), x (startTime successor))
    | SF => (x (startTime predecessor), x (_endTime successor))
    end in
  (fromX, predY, toX, succY).

(** A dependency touches the selection. *)
Definition depSelected (selectedTaskIds : gset string) (dep : TaskDependency) : bool :=
  bool_decide (predecessorId dep ∈ selectedTaskIds) || bool_decide (successorId dep ∈ selectedTaskIds).

(** The comparator of the sort: [aSelected === bSelected ? 0 : aSelected ? 1 : -1]. *)
Definition depCompare (sel : gset string) (a b : TaskDependency) : Z :=
  if Bool.eqb (depSelected sel a) (depSelected sel b) then 0
  else if depSelected sel a then 1 else (-1)%Z.

(** [Array.prototype.sort] with a comparator is a stable sort: insertion
    into the sorted rest puts an element before the first one it does not
    compare greater than. *)
Fixpoint insertByCompare {A} (cmp : A -> A -> Z) (x : A) (l : list A) : list A :=
  match l with
  | [] => [x]
  | y :: l' => if bool_decide (cmp x y <= 0)%Z then x :: l else y :: insertByCompare cmp x l'
  end.

Fixpoint sortByCompare {A} (cmp : A -> A -> Z) (l : list A) : list A :=
  match l with
  | [] => []
  | x :: l' => insertByCompare cmp x (sortByCompare cmp l')
  end.

Section DependencyLayer.
Context {T : Type} `{!RBushOps T}.
Variable im : IndexManager T.

(** The filter of [render]: both tasks exist, one of them is in the
    visible time range widened by two hours on each side, and the
    resource of one of them has a visible row. *)
Definition dependencyVisible (tasks : jsobj Task) (visible : gset string)
    (visibleStartTime visibleEndTime : Q) (dep : TaskDependency) : bool :=
  match tasks⟦predecessorId dep⟧%gantt, tasks⟦successorId dep⟧%gantt with
  | Some predecessor, Some successor =>
      let inRange t := Qle_bool visibleStartTime (inject_Z (_endTime t)) &&
                       Qle_bool (inject_Z (startTime t)) visibleEndTime in
      (inRange predecessor || inRange successor) &&
      (bool_decide (resourceId predecessor ∈ visible) || bool_decide (resourceId successor ∈ visible))
  | _, _ => false
  end.

(** [renderDependency]: nothing when a task's resource has no row. *)
Definition renderDependency (dep : TaskDependency) (predecessor successor : Task)
    (v : ViewportState) (isSelected isHighlighted : bool) : list CanvasOp :=
  match getRowForResource im (resourceId predecessor), getRowForResource im (resourceId successor) with
  | Some predRow, Some succRow =>
      let '(fromX, fromY, toX, toY) :=
        calculateArrowPositions dep predecessor successor predRow succRow v in
      let color := if isHighlighted then ARROW_COLOR_HIGHLIGHTED
                   else if isSelected then ARROW_COLOR_SELECTED else ARROW_COLOR in
      drawOrthogonalArrow fromX fromY toX toY color
        (if isSelected || isHighlighted then 2 else ARROW_LINE_WIDTH) ARROW_SIZE
  | _, _ => []
  end.

(** [DependencyRenderer.render] *)
Definition renderDependencies (r : Renderer) (v : ViewportState) (tasks : jsobj Task)
    (dependencies : list TaskDependency) (visibleRows : list VirtualRow)
    (selectedTaskIds highlightedDependencyIds : gset string) : list CanvasOp :=
  if negb (hasContext r) then [] else
  let visible := visibleResourceIds visibleRows in
  let bufferHours := 2 in
  let visibleStartTime := timeOrigin v + (scrollX v / pixelsPerHour v - bufferHours) * 3600000 in
  let visibleEndTime := visibleStartTime + (rd_width r / pixelsPerHour v + bufferHours * 2) * 3600000 in
  let visibleDependencies :=
    filter (fun dep => dependencyVisible tasks visible visibleStartTime visibleEndTime dep = true)
      dependencies in
  clearCanvas (rd_width r) (rd_height r) ++
  flat_map (fun dep =>
    match tasks⟦predecessorId dep⟧%gantt, tasks⟦successorId dep⟧%gantt with
    | Some predecessor, Some successor =>
        renderDependency dep predecessor successor v (depSelected selectedTaskIds dep)
          (bool_decide (dep_id dep ∈ highlightedDependencyIds))
    | _, _ => []
    end) (sortByCompare (depCompare selectedTaskIds) visibleDependencies).

End DependencyLayer.

(** ** Lemmas *)

(** Inserting into the partitioned list keeps it partitioned: an element
    of an unselected dependency goes first, one of a selected dependency
    between the two parts. *)
Lemma insertByCompare_partition (sel : gset string) (x : TaskDependency) (A B : list TaskDependency) :
  Forall (fun y => depSelected sel y = false) A -> Forall (fun y => depSelected sel y = true) B ->
  insertByCompare (depCompare sel) x (A ++ B) =
    if depSelected sel x then A ++ x :: B else x :: A ++ B.
Proof.
  unfold depCompare. intros HA HB. induction HA as [|y A Hy HA IH]; simpl.
  - destruct HB as [|y B Hy HB]; simpl; [by destruct (depSelected sel x)|].
    rewrite Hy. by destruct (depSelected sel x).
  - rewrite Hy, IH. by destruct (depSelected sel x).
Qed.

(** The comparator sort is the stable partition: the dependencies that do
    not touch the selection, then those that do, each in their order. *)
Lemma sortByCompare_partition (sel : gset string) (l : list TaskDependency) :
  sortByCompare (depCompare sel) l =
    filter (fun d => depSelected sel d = false) l ++ filter (fun d => depSelected sel d = true) l.
Proof.
  induction l as [|x l IH]; [done|]. simpl. rewrite IH.
  rewrite insertByCompare_partition.
  2,3: apply Forall_forall; intros y Hy%list_elem_of_filter; apply Hy.
  rewrite !filter_cons. by destruct (depSelected sel x).
Qed.

(** The phase ranges of a task cover [duration * 60000] ms per phase. *)
Lemma phaseRangesFrom_widths (s : Z) (ps : list TaskPhase) :
  sumZ (fun r => range_end r - range_start r)%Z (phaseRangesFrom s ps) =
  (calculateTotalDuration ps * 60 * 1000)%Z.
Proof.
  revert s. induction ps as [|p ps IH]; intros s; [done|].
  simpl. rewrite IH, calculateTotalDuration_cons. lia.
Qed.

Lemma sumQ_phaseWidth (d W : Q) (rs : list PhaseRange) :
  sumQ (phaseWidth d W) rs == inject_Z (sumZ (fun r => range_end r - range_start r)%Z rs) / d * W.
Proof.
  unfold phaseWidth. induction rs as [|r rs IH]; simpl; [unfold Qdiv; ring|].
  rewrite IH, inject_Z_plus. unfold Qdiv. ring.
Qed.

(** The phase segments of a hydrated task of positive duration tile its
    bar: their widths add up to the bar's width. *)
Lemma phase_widths_tile (t : Task) (totalWidth : Q) :
  task_hydrated t -> (startTime t < _endTime t)%Z ->
  sumQ (phaseWidth (inject_Z (_endTime t - startTime t)) totalWidth) (getPhaseRanges t) == totalWidth.
Proof.
  intros [Htot Hend] Hlt. rewrite sumQ_phaseWidth. unfold getPhaseRanges.
  rewrite phaseRangesFrom_widths, <- Htot.
  replace (_totalDuration t * 60 * 1000)%Z with (_endTime t - startTime t)%Z by lia.
  assert (~ inject_Z (_endTime t - startTime t) == 0) as Hnz.
  { change 0 with (inject_Z 0). rewrite inject_Z_injective. lia. }
  field. exact Hnz.
Qed.

(** A task is drawn only when it is in the tasks, its resource has a
    visible row and the index manager has a row for it. *)
Lemma renderTaskId_visible {T} `{!RBushOps T} (im : IndexManager T) measure r v tasks rows sel hov taskId :
  renderTaskId im measure r v tasks (visibleResourceIds rows) sel hov taskId <> [] ->
  exists t row, tasks⟦taskId⟧%gantt = Some t /\ resourceId t ∈ visibleResourceIds rows /\
    getRowForResource im (resourceId t) = Some row.
Proof.
  unfold renderTaskId. destruct (_ ⟦ _ ⟧%gantt) as [t|] eqn:Ht; [|done].
  case_bool_decide as Hv; [done|]. destruct (getRowForResource _ _) as [row|] eqn:Hr; [|done].
  intros _. exists t, row. split_and!; [done| |done].
  destruct (decide (resourceId t ∈ visibleResourceIds rows)); tauto.
Qed.
