(* ===== verification/InteractionLayer.v ===== *)
(** * InteractionLayer: the interaction renderer
    (src/src/features/gantt/renderers/interaction-renderer.ts)

    [InteractionRenderer.render] draws, on the top canvas layer, the
    rubber-band selection box and the preview of a drag: the drop zone of
    the target row, the tasks it collides with, the snap lines, the ghost
    of the task at its preview position with its border, the outline of
    the original position, and a tooltip with the preview time.  As in
    Renderers.v it is the list of canvas calls it makes; the index manager,
    the width of a text in the tooltip's font ([measure]) and the local
    time format of [Date] ([formatTime]) are parameters.

    The snap lines are drawn on a grid of their own ([getSnapInterval]:
    15 minutes, 1 hour, 6 hours or 1 day by zoom level) that ignores the
    store's [minResolution]; at the hour zoom with the default resolution
    of 30 minutes a line is drawn where the commit does not snap
    ([snap_line_not_commit]). *)

From S2P Require Import Prelude Types TaskUtils Viewport Store Canvas RowLayout SpatialIndex.
From S2P Require Import IndexManager Renderers.
From Stdlib Require Import Qabs.

Open Scope Q_scope.

Module InteractionRenderer.

(** [COLORS] *)
Definition dragPreview : string := "rgba(59, 130, 246, 0.5)".
Definition dragPreviewBorder : string := "#3b82f6".
Definition dropZoneValid : string := "rgba(34, 197, 94, 0.2)".
Definition dropZoneInvalid : string := "rgba(239, 68, 68, 0.2)".
Definition selectionBoxColor : string := "rgba(59, 130, 246, 0.2)".
Definition selectionBoxBorder : string := "#3b82f6".
Definition snapLine : string := "#fbbf24".
Definition conflictHighlight : string := "rgba(239, 68, 68, 0.3)".

Definition TASK_HEIGHT_RATIO : Q := 7 # 10.
Definition TASK_BORDER_RADIUS : Q := 4.

(** The rubber band: two corners. *)
Record SelectionBox := mkSelectionBox {
  sb_startX : Q; sb_startY : Q; sb_endX : Q; sb_endY : Q;
}.

(** [renderSelectionBox] *)
Definition renderSelectionBox (box : SelectionBox) : list CanvasOp :=
  let x := Qmin (sb_startX box) (sb_endX box) in
  let y := Qmin (sb_startY box) (sb_endY box) in
  let width := Qabs (sb_endX box - sb_startX box) in
  let height := Qabs (sb_endY box - sb_startY box) in
  [OpSetFillStyle selectionBoxColor; OpFillRect x y width height;
   OpSetStrokeStyle selectionBoxBorder; OpSetLineWidth 1; OpSetLineDash [4; 4];
   OpStrokeRect x y width height; OpSetLineDash []].

(** [getSnapInterval], in ms. *)
Definition getSnapInterval (zoomLevel_ : ZoomLevel) : Z :=
  match zoomLevel_ with
  | hour => 15 * 60 * 1000
  | day => 60 * 60 * 1000
  | week => 6 * 60 * 60 * 1000
  | month => 24 * 60 * 60 * 1000
  end.

(** The snapped start and end [renderSnapLines] computes. *)
Definition snapLineTimes (d : DragState) (v : ViewportState) : Z * Z :=
  let snapInterval := getSnapInterval (zoomLevel v) in
  (js_round (previewStartTime d / inject_Z snapInterval) * snapInterval,
   js_round (previewEndTime d / inject_Z snapInterval) * snapInterval)%Z.

(** [renderSnapLines]: at the start for a move or a resize of the start,
    at the end for a move or a resize of the end. *)
Definition renderSnapLines (r : Renderer) (d : DragState) (v : ViewportState) : list CanvasOp :=
  let '(snappedStart, snappedEnd) := snapLineTimes d v in
  let line t := let snapX := timeToX v (inject_Z t) in
                drawDashedLine snapX 0 snapX (rd_height r) snapLine 1 [4; 4] in
  (match drag_type d with move | resize_start => line snappedStart | _ => [] end) ++
  (match drag_type d with move | resize_end => line snappedEnd | _ => [] end).

Section Layer.
Context {T : Type} `{!RBushOps T}.
Variable im : IndexManager T.
Variable measure : string -> Q.
Variable formatTime : Q -> string.

(** [renderTimeTooltip]: kept four pixels inside the canvas. *)
Definition renderTimeTooltip (r : Renderer) (d : DragState) (taskX taskY taskWidth : Q)
    : list CanvasOp :=
  let isEnd := match drag_type d with resize_end => true | _ => false end in
  let text := formatTime (if isEnd then previewEndTime d else previewStartTime d) in
  let tooltipX := if isEnd then taskX + taskWidth else taskX in
  let tooltipY := taskY - 24 in
  let padding := 6 in
  let tooltipWidth := measure text + padding * 2 in
  let tooltipHeight := 20 in
  let finalX := Qmax 4 (Qmin (rd_width r - tooltipWidth - 4) (tooltipX - tooltipWidth / 2)) in
  OpSetFont "11px Inter, system-ui, sans-serif" :: OpSetFillStyle "#1e293b" ::
  fillRoundRect finalX tooltipY tooltipWidth tooltipHeight 4 "#1e293b" ++
  [OpSetFillStyle "#f8fafc"; OpSetTextBaseline "middle";
   OpFillText text (finalX + padding) (tooltipY + tooltipHeight / 2)].

(** One colliding task's highlight. *)
Definition renderCollision (v : ViewportState) (tasks : jsobj Task) (taskHeight : Q)
    (collisionId : string) : list CanvasOp :=
  match tasks⟦collisionId⟧%gantt with
  | None => []
  | Some collidingTask =>
      match getRowForResource im (resourceId collidingTask) with
      | None => []
      | Some colRow =>
          let colX := timeToX v (inject_Z (startTime collidingTask)) in
          let colWidth := durationToWidth v (inject_Z (_endTime collidingTask - startTime collidingTask)) in
          let colY := virtualY colRow - scrollY v in
          let colTaskY := colY + (row_height colRow - taskHeight) / 2 in
          OpSetFillStyle conflictHighlight ::
            fillRoundRect colX colTaskY colWidth taskHeight TASK_BORDER_RADIUS conflictHighlight
      end
  end.

(** The dashed outline of the original position, when the preview moved. *)
Definition renderOriginalOutline (v : ViewportState) (d : DragState) (taskHeight : Q) : list CanvasOp :=
  let task := originalTask d in
  if negb (Qeq_bool (previewStartTime d) (inject_Z (startTime task))) ||
     negb (String.eqb (previewResourceId d) (resourceId task)) then
    match getRowForResource im (resourceId task) with
    | None => []
    | Some originalRow =>
        let originalX := timeToX v (inject_Z (startTime task)) in
        let originalWidth := durationToWidth v (inject_Z (_endTime task - startTime task)) in
        let originalY := virtualY originalRow - scrollY v in
        let originalTaskY := originalY + (row_height originalRow - taskHeight) / 2 in
        OpSetLineDash [4; 4] ::
          strokeRoundRect originalX originalTaskY originalWidth taskHeight TASK_BORDER_RADIUS "#64748b" 1
          ++ [OpSetLineDash []]
    end
  else [].

(** [renderDragPreview]: nothing when the preview's resource has no row. *)
Definition renderDragPreview (r : Renderer) (d : DragState) (v : ViewportState) (tasks : jsobj Task)
    : list CanvasOp :=
  let task := originalTask d in
  let previewX := timeToX v (previewStartTime d) in
  let previewWidth := durationToWidth v (previewEndTime d - previewStartTime d) in
  match getRowForResource im (previewResourceId d) with
  | None => []
  | Some row =>
      let previewY := virtualY row - scrollY v in
      let taskHeight := row_height row * TASK_HEIGHT_RATIO in
      let taskY := previewY + (row_height row - taskHeight) / 2 in
      (match drag_type d with
       | reassign | move =>
           [OpSetFillStyle (match collisions d with [] => dropZoneValid | _ => dropZoneInvalid end);
            OpFillRect 0 previewY (rd_width r) (row_height row)]
       | _ => []
       end) ++
      flat_map (renderCollision v tasks taskHeight) (collisions d) ++
      (match drag_type d with
       | move | resize_start | resize_end => renderSnapLines r d v
       | reassign => []
       end) ++
      OpSetGlobalAlpha (7 # 10) ::
        fillRoundRect previewX taskY previewWidth taskHeight TASK_BORDER_RADIUS
          (default "#3b82f6" (task_color task)) ++
      OpSetGlobalAlpha 1 ::
        strokeRoundRect previewX taskY previewWidth taskHeight TASK_BORDER_RADIUS dragPreviewBorder 2 ++
      renderOriginalOutline v d taskHeight ++
      renderTimeTooltip r d previewX taskY previewWidth
  end.

(** [InteractionRenderer.render] *)
Definition render (r : Renderer) (v : ViewportState) (dragState : option DragState)
    (selectionBox : option SelectionBox) (tasks : jsobj Task) : list CanvasOp :=
  if negb (hasContext r) then [] else
  clearCanvas (rd_width r) (rd_height r) ++
  (match selectionBox with Some b => renderSelectionBox b | None => [] end) ++
  (match dragState with Some d => renderDragPreview r d v tasks | None => [] end).

End Layer.

End InteractionRenderer.

Import InteractionRenderer.

(** ** Lemmas *)

(** The snap lines' grid and the commit's grid: the commit snaps to
    [max(zoom tier, minResolution)] minutes (Viewport.v), the lines to the
    zoom tier alone; the two agree when [minResolution] is at most the
    tier. *)
Lemma snap_intervals_agree (z : ZoomLevel) (minResolution : Z) :
  (minResolution <= ZOOM_SNAP_INTERVALS z)%Z ->
  getSnapInterval z = getSnapIntervalMs z minResolution.
Proof.
  intros H. unfold getSnapIntervalMs. rewrite Z.max_l by lia.
  destruct z; reflexivity.
Qed.

(** At the hour zoom with the default [minResolution] of 30 minutes, a
    move previewed 15 minutes after 0 shows its snap line at 15 minutes,
    and the commit puts the task at 30 minutes. *)
Lemma snap_line_not_commit :
  let s := store_setZoomLevel (createInitialState 0) hour in
  let d := mkDrag move "t1" (hydrateTask example_t1) (15 * 60 * 1000) (155 * 60 * 1000) "r1"
             [] [] 0 0 0 0 in
  (snapLineTimes d (viewport s)).1 = (15 * 60 * 1000)%Z /\
  (js_round (previewStartTime d / inject_Z (getSnapIntervalMs (zoomLevel (viewport s)) (minResolution s)))
     * getSnapIntervalMs (zoomLevel (viewport s)) (minResolution s))%Z = (30 * 60 * 1000)%Z.
Proof. vm_compute. split; reflexivity. Qed.
