(* ===== verification/Controls.v ===== *)
(** * Controls: the actions of the composable context and the toolbar controls

    [useGanttActions] (src/unnamed/part_000) gives components the store's
    actions and the history's [undo] and [redo]; [useGanttCanUndo] and
    [useGanttCanRedo] read the history's stacks.  The controls under
    src/src/features/gantt/components/composable/controls call them:
    [ZoomButtons] and [ZoomControls] zoom by 1.25 and 0.8 about the middle
    of the viewport, [ZoomSelect] sets a zoom level, [TodayButton] scrolls
    to [Date.now()] and then calls its [onClick] prop, [GroupingSelect]
    (stored in TodayButton.tsx) sets the grouping mode, [ZoomControls]
    shows its select between the two zoom buttons unless [showSelect] is
    false, [UndoRedo], [UndoButton] and [RedoButton] undo and
    redo, disabled when there is nothing to undo or redo.  A click is a
    step of the store under its history (History.v); a disabled button
    ignores it.

    The theorems: zooming in then out, when neither zoom is clamped and
    the scroll stays positive, gives back the zoom and the scroll; a click
    on a disabled undo or redo button and the action itself both leave
    the store as it is. *)

From S2P Require Import Prelude Types Viewport Store History.

Open Scope Q_scope.

(** A call of one of the functions [useGanttActions] returns. *)
Inductive GanttAction :=
  | GStore (a : StoreAction)
  | GUndo
  | GRedo.

(** [useGanttActions]: the store's action on [store.getState()], or the
    temporal store's [undo] and [redo]. *)
Definition ganttAction (t : Tracked GanttStoreState) (a : GanttAction)
    : js_result (Tracked GanttStoreState) :=
  match a with
  | GStore a => tracked_step t (HAct a)
  | GUndo => tracked_step t HUndo
  | GRedo => tracked_step t HRedo
  end.

(** [useGanttCanUndo] and [useGanttCanRedo] *)
Definition canUndo (t : Tracked GanttStoreState) : bool :=
  bool_decide (0 < length (pastStates (temporal t)))%nat.
Definition canRedo (t : Tracked GanttStoreState) : bool :=
  bool_decide (0 < length (futureStates (temporal t)))%nat.

(** [handleZoomIn] and [handleZoomOut] of [ZoomButtons] and [ZoomControls]. *)
Definition handleZoomIn (t : Tracked GanttStoreState) : js_result (Tracked GanttStoreState) :=
  ganttAction t (GStore (AZoomViewport (5 # 4) (width (viewport (present t)) / 2))).
Definition handleZoomOut (t : Tracked GanttStoreState) : js_result (Tracked GanttStoreState) :=
  ganttAction t (GStore (AZoomViewport (4 # 5) (width (viewport (present t)) / 2))).

(** [ZoomSelect]: its options and its [onChange]. *)
Definition zoomLevels : list (ZoomLevel * string) :=
  [(hour, "Hour"); (day, "Day"); (week, "Week"); (month, "Month")].
Definition zoomSelectChange (t : Tracked GanttStoreState) (level : ZoomLevel)
    : js_result (Tracked GanttStoreState) :=
  ganttAction t (GStore (ASetZoomLevel level)).

(** [TodayButton]'s [handleClick]; [now] is [Date.now()]. *)
Definition todayClick (t : Tracked GanttStoreState) (now : Z) : js_result (Tracked GanttStoreState) :=
  ganttAction t (GStore (AScrollToTime (inject_Z now))).

(** A click on the undo or redo button: nothing when it is disabled. *)
Definition undoClick (t : Tracked GanttStoreState) : js_result (Tracked GanttStoreState) :=
  if canUndo t then ganttAction t GUndo else JsOk t.
Definition redoClick (t : Tracked GanttStoreState) : js_result (Tracked GanttStoreState) :=
  if canRedo t then ganttAction t GRedo else JsOk t.

(** [TodayButton]'s [handleClick] with its [onClick] prop: the scroll,
    then whether the callback is called (when it is given). *)
Definition todayButtonClick (t : Tracked GanttStoreState) (now : Z) (hasOnClick : bool)
    : js_result (Tracked GanttStoreState * bool) :=
  match todayClick t now with
  | JsOk t' => JsOk (t', hasOnClick)
  | JsFail f => JsFail f
  end.

(** [ZoomControls]: the zoom out button, the [ZoomSelect] when
    [showSelect] (default [true]), the zoom in button; a control's action. *)
Inductive ZoomControl := zc_zoomOut | zc_select (level : ZoomLevel) | zc_zoomIn.

Definition zoomControlsShown (showSelect : option bool) : list string :=
  ["Zoom out"] ++ (if default true showSelect then ["ZoomSelect"] else []) ++ ["Zoom in"].

Definition zoomControlsAct (t : Tracked GanttStoreState) (c : ZoomControl)
    : js_result (Tracked GanttStoreState) :=
  match c with
  | zc_zoomOut => handleZoomOut t
  | zc_select level => zoomSelectChange t level
  | zc_zoomIn => handleZoomIn t
  end.

(** [GroupingSelect] (in TodayButton.tsx): its options and [onChange]. *)
Definition groupingModes : list (GroupingMode * string) :=
  [(mode_none, "No Grouping"); (mode_resource_type, "By Type"); (mode_order, "By Order")].

Definition groupingSelectChange (t : Tracked GanttStoreState) (m : GroupingMode)
    : js_result (Tracked GanttStoreState) :=
  ganttAction t (GStore (ASetGroupingMode m)).

(** The standalone [UndoButton] and [RedoButton]: disabled without
    history, otherwise [undo] or [redo]. *)
Inductive HistoryButton := btn_undo | btn_redo.

Definition historyButtonDisabled (t : Tracked GanttStoreState) (b : HistoryButton) : bool :=
  match b with btn_undo => negb (canUndo t) | btn_redo => negb (canRedo t) end.

Definition historyButtonClick (t : Tracked GanttStoreState) (b : HistoryButton)
    : js_result (Tracked GanttStoreState) :=
  if historyButtonDisabled t b then JsOk t
  else ganttAction t (match b with btn_undo => GUndo | btn_redo => GRedo end).

(** ** Lemmas *)

(** A button that calls a store action returns its result. *)
Lemma ganttAction_store t a s' :
  apply_action (present t) a = JsOk s' ->
  exists t', ganttAction t (GStore a) = JsOk t' /\ present t' = s'.
Proof. apply tracked_step_act. Qed.


(** A disabled undo button and the undo action agree: both leave the
    store as it is. *)
Lemma undo_disabled_noop (t : Tracked GanttStoreState) :
  canUndo t = false -> undoClick t = JsOk t /\ ganttAction t GUndo = JsOk t.
Proof.
  unfold undoClick, canUndo. intros H. rewrite H. split; [done|].
  apply bool_decide_eq_false in H. simpl. rewrite undo_nil; [done|].
  destruct (pastStates _); simpl in *; [done|lia].
Qed.

Lemma redo_disabled_noop (t : Tracked GanttStoreState) :
  canRedo t = false -> redoClick t = JsOk t /\ ganttAction t GRedo = JsOk t.
Proof.
  unfold redoClick, canRedo. intros H. rewrite H. split; [done|].
  apply bool_decide_eq_false in H. simpl. rewrite redo_nil; [done|].
  destruct (futureStates _); simpl in *; [done|lia].
Qed.

(** Zooming in by 1.25 then out by 0.8 about the same point gives back
    the zoom and the scroll, when neither zoom is clamped and the first
    scroll is not clamped at 0. *)
Lemma zoom_in_out (v : ViewportState) (c : Q) :
  1 # 4 <= pixelsPerHour v -> pixelsPerHour v * (5 # 4) <= 120 -> 0 <= scrollX v ->
  c <= (c + scrollX v) * (5 # 4) ->
  let v2 := zoomViewport (zoomViewport v (5 # 4) c) (4 # 5) c in
  pixelsPerHour v2 == pixelsPerHour v /\ scrollX v2 == scrollX v.
Proof.
  intros Hp1 Hp2 Hs Hc. unfold zoomViewport, clampZoom. cbn.
  set (p := pixelsPerHour v) in *. set (s := scrollX v) in *.
  assert (Hnz : ~ p == 0) by (intros E; lra).
  assert (E1 : Qmax (1 # 4) (Qmin 120 (p * (5 # 4))) == p * (5 # 4)).
  { rewrite Q.min_r by lra. apply Q.max_r. lra. }
  assert (E2 : Qmax (1 # 4) (Qmin 120 (p * (5 # 4) * (4 # 5))) == p).
  { setoid_replace (p * (5 # 4) * (4 # 5)) with p using relation Qeq by ring.
    rewrite Q.min_r by lra. apply Q.max_r. lra. }
  assert (E3 : Qmax 0 ((c + s) / p * (p * (5 # 4)) - c) == (c + s) * (5 # 4) - c).
  { setoid_replace ((c + s) / p * (p * (5 # 4))) with ((c + s) * (5 # 4)) using relation Qeq by (field; exact Hnz).
    apply Q.max_r. lra. }
  rewrite E1, E2, E3. split; [reflexivity|].
  setoid_replace ((c + ((c + s) * (5 # 4) - c)) / (p * (5 # 4)) * p - c) with s
    using relation Qeq by (field; exact Hnz).
  apply Q.max_r. exact Hs.
Qed.
