(* ===== verification/ToolbarLayout.v ===== *)
(** * ToolbarLayout: the composable [GanttToolbar] of src/unnamed/part_012

    part_012 holds two versions of the composable toolbar (lines 1-66
    with slate colours, lines 67-135 with the theme's [bg-card] and
    [border-border] classes); both place the controls of Controls.v the
    same way.  A toolbar is its class name and the sequence of elements it
    renders: the zoom controls, the today button and the grouping select,
    each when its item is listed, a divider between two of them where
    both are shown, a spacer, then the undo and redo buttons.

    The theorem: the element sequence is the reference layout, the shown
    controls of the left group separated by dividers, then the spacer and
    the undo buttons, for every list of items. *)

From S2P Require Import Prelude.

Inductive ToolbarItem := item_zoom | item_today | item_grouping | item_undo.

#[export] Instance ToolbarItem_eq_dec : EqDecision ToolbarItem.
Proof. solve_decision. Defined.

Inductive ToolbarPosition := position_top | position_bottom.
Inductive ToolbarVariant := variant_default | variant_floating | variant_minimal.

(** [GanttToolbarProps]: [None] is an absent prop. *)
Record ToolbarProps := mkToolbarProps {
  tp_position : option ToolbarPosition;
  tp_variant : option ToolbarVariant;
  tp_items : option (list ToolbarItem);
  tp_className : option string;
}.

Inductive ToolbarElem :=
  | ElZoomControls | ElTodayButton | ElGroupingSelect | ElUndoRedo | ElDivider | ElSpacer.

#[export] Instance ToolbarElem_eq_dec : EqDecision ToolbarElem.
Proof. solve_decision. Defined.

Definition defaultItems : list ToolbarItem := [item_zoom; item_today; item_grouping; item_undo].

(** [items.includes(item)] *)
Definition includes (items : list ToolbarItem) (i : ToolbarItem) : bool := bool_decide (i ∈ items).

(** The JSX's children, conditions as written. *)
Definition toolbarElements (items : list ToolbarItem) : list ToolbarElem :=
  let showZoom := includes items item_zoom in
  let showToday := includes items item_today in
  let showGrouping := includes items item_grouping in
  let showUndo := includes items item_undo in
  (if showZoom then [ElZoomControls] else []) ++
  (if showZoom && (showToday || showGrouping) then [ElDivider] else []) ++
  (if showToday then [ElTodayButton] else []) ++
  (if showToday && showGrouping then [ElDivider] else []) ++
  (if showGrouping then [ElGroupingSelect] else []) ++
  [ElSpacer] ++
  (if showUndo then [ElUndoRedo] else []).

Definition borderClass (p : ToolbarPosition) : string :=
  match p with position_top => "border-b" | position_bottom => "border-t" end.

(** [variantClasses] of lines 29-33. *)
Definition variantClassesSlate (border : string) (v : ToolbarVariant) : string :=
  match v with
  | variant_default => "bg-slate-800 " +:+ border +:+ " border-slate-700"
  | variant_floating => "bg-slate-800/95 backdrop-blur-sm rounded-lg shadow-xl border border-slate-700"
  | variant_minimal => "bg-transparent"
  end.

(** [variantClasses] of lines 95-100. *)
Definition variantClassesCard (border : string) (v : ToolbarVariant) : string :=
  match v with
  | variant_default => "bg-card " +:+ border +:+ " border-border"
  | variant_floating => "bg-card/95 backdrop-blur-sm rounded-lg shadow-xl border border-border"
  | variant_minimal => "bg-transparent"
  end.

(** The toolbar of either version: its class name and its elements,
    with the defaults [position = "top"], [variant = "default"], all four
    items and an empty class name. *)
Definition ganttToolbar (variantClasses : string -> ToolbarVariant -> string) (p : ToolbarProps)
    : string * list ToolbarElem :=
  let border := borderClass (default position_top (tp_position p)) in
  let cls := variantClasses border (default variant_default (tp_variant p)) in
  ("flex items-center gap-2 px-4 py-2 " +:+ cls +:+ " " +:+ default "" (tp_className p),
   toolbarElements (default defaultItems (tp_items p))).

(** The first version (lines 21-66) and the second (lines 87-135). *)
Definition ganttToolbarSlate : ToolbarProps -> string * list ToolbarElem := ganttToolbar variantClassesSlate.
Definition ganttToolbarCard : ToolbarProps -> string * list ToolbarElem := ganttToolbar variantClassesCard.

(** ** The reference layout *)

(** [l] with [sep] between two neighbours. *)
Fixpoint sepBy {A} (sep : A) (l : list A) : list A :=
  match l with
  | [] => []
  | [x] => [x]
  | x :: l' => x :: sep :: sepBy sep l'
  end.

(** The shown controls of the left group, separated by dividers, the
    spacer, and the undo buttons when shown. *)
Definition referenceLayout (items : list ToolbarItem) : list ToolbarElem :=
  sepBy ElDivider (omap (fun '(i, el) => if includes items i then Some el else None)
                     [(item_zoom, ElZoomControls); (item_today, ElTodayButton); (item_grouping, ElGroupingSelect)]) ++
  [ElSpacer] ++ (if includes items item_undo then [ElUndoRedo] else []).

(** ** Theorems *)

(** For every list of items the toolbar renders the reference
    layout: each control exactly when its item is listed, in the order
    zoom, today, grouping, a divider between two neighbouring controls of
    that group and nowhere else, then the spacer and the undo buttons. *)
Theorem toolbarElements_reference items : toolbarElements items = referenceLayout items.
Proof.
  unfold toolbarElements, referenceLayout. simpl.
  destruct (includes items item_zoom), (includes items item_today),
    (includes items item_grouping), (includes items item_undo); reflexivity.
Qed.

Example ganttToolbar_default :
  ganttToolbarCard (mkToolbarProps (Some position_bottom) None None (Some "px-6")) =
  ("flex items-center gap-2 px-4 py-2 bg-card border-t border-border px-6",
   [ElZoomControls; ElDivider; ElTodayButton; ElDivider; ElGroupingSelect; ElSpacer; ElUndoRedo]).
Proof. reflexivity. Qed.
