(* ===== verification/Interaction.v ===== *)
(** * Interaction: the pointer and keyboard state machine of src/unnamed/part_009

    [useGanttInteractions] keeps an [InteractionState] in a React ref and
    installs five listeners ([mousedown], [mousemove], [mouseup], [wheel],
    [keydown]) that call the legacy stores (LegacyStore.v) and the data
    store's undo history (History.v).  [App] is everything the listeners
    read or write: the data store under its history, the UI store, the
    ref, and the canvas's cursor.  [Env] is what the component renders
    with: the canvas's bounding rectangle ([None] before it is mounted),
    the [ViewportManager]'s viewport ([None] while it is [null]) and the
    index manager the listeners query.

    The listeners are closures of the last render: [drag], [selection] and
    [tasks] are the values of the stores when the event starts (the
    stores' subscribers re-render between two events), not after the
    calls the listener itself makes.  [Math.sqrt(d) > 5] is [d > 25].  A
    listener that throws (only [commitDrag] can) stops where it throws:
    what it did before stays, nothing after runs.

    The data store's calls go through its history ([dataStep],
    History.v, whose [equality] compares the objects of [tasks] and
    [dependencies]); [commitDrag] calls the data store's [updateTask]
    only when it commits a drag ([commitDragCall]). *)

From S2P Require Import Prelude Types TaskUtils Viewport Store LegacyStore History.
From S2P Require Import RowLayout SpatialIndex IndexManager.

Import DataStore UIStore.

Open Scope Q_scope.

(** [DRAG_THRESHOLD] and [RESIZE_HANDLE_WIDTH], in pixels. *)
Definition DRAG_THRESHOLD : Q := 5.
Definition RESIZE_HANDLE_WIDTH : Q := 8.

(** [InteractionState]; [hitZone] [null] is [None]. *)
Record InteractionState := mkInteraction {
  isMouseDown : bool;
  mouseDownX : Q;
  mouseDownY : Q;
  mouseDownTime : Z;
  hitTaskId : option string;
  hitZone : option HitZone;
  isDragging : bool;
}.

(** The ref's initial value, and the value [handleMouseUp] resets it to. *)
Definition idleInteraction : InteractionState :=
  mkInteraction false 0 0 0 None None false.

(** JS truthiness of a task id: [null] and [""] are false. *)
Definition truthyId (o : option string) : bool :=
  match o with Some k => negb (String.eqb k "") | None => false end.

Record App := mkApp {
  appData : Tracked GanttDataState;
  appUI : GanttUIState;
  appIst : InteractionState;
  cursor : string;
}.

Definition with_ui (a : App) (u : GanttUIState) : App := mkApp (appData a) u (appIst a) (cursor a).
Definition with_data (a : App) (d : Tracked GanttDataState) : App := mkApp d (appUI a) (appIst a) (cursor a).
Definition with_ist (a : App) (i : InteractionState) : App := mkApp (appData a) (appUI a) i (cursor a).

Section Listeners.
Context {T : Type} `{!RBushOps T}.

Record Env := mkEnv {
  canvasRect : option (Q * Q);
  vmViewport : option ViewportState;
  envIndex : IndexManager T;
}.

Variable env : Env.

(** [hitTest]: the first task the spatial index finds at the pointer,
    and the zone of the task under it: within [RESIZE_HANDLE_WIDTH] of the
    task's left edge, of its right edge, or the body. *)
Definition hitTest (tasks0 : jsobj Task) (clientX clientY : Q) : option string * option HitZone :=
  match canvasRect env, vmViewport env with
  | Some (rectLeft, rectTop), Some v =>
      let x := clientX - rectLeft in
      let y := clientY - rectTop in
      let (timestamp, virtualY) := viewportToData v x y in
      match im_queryPoint (envIndex env) timestamp virtualY with
      | [] => (None, None)
      | taskId :: _ =>
          match tasks0⟦taskId⟧%gantt with
          | None => (None, None)
          | Some task =>
              let taskX := timeToX v (inject_Z (startTime task)) in
              let taskWidth := durationToWidth v (inject_Z (_endTime task - startTime task)) in
              if Qlt_bool x (taskX + RESIZE_HANDLE_WIDTH) then (Some taskId, Some zone_resize_start)
              else if Qlt_bool (taskX + taskWidth - RESIZE_HANDLE_WIDTH) x then
                (Some taskId, Some zone_resize_end)
              else (Some taskId, Some zone_body)
          end
      end
  | _, _ => (None, None)
  end.

(** The cursor [updateCursor] sets. *)
Definition cursorFor (zone : option HitZone) (dragging : bool) : string :=
  if dragging then "grabbing" else
  match zone with
  | Some zone_resize_start | Some zone_resize_end => "ew-resize"
  | Some zone_body => "grab"
  | None => "default"
  end.

(** [updateCursor]: nothing without a canvas. *)
Definition updateCursor (a : App) (zone : option HitZone) (dragging : bool) : App :=
  match canvasRect env with
  | None => a
  | Some _ => mkApp (appData a) (appUI a) (appIst a) (cursorFor zone dragging)
  end.

(** [handleMouseDown]; [now] is [Date.now()]. *)
Definition handleMouseDown (a : App) (button : Z) (clientX clientY : Q) (now : Z) : App :=
  if decide (button <> 0%Z) then a else
  let (taskId, zone) := hitTest (tasks (present (appData a))) clientX clientY in
  with_ist a (mkInteraction true clientX clientY now taskId zone false).

(** The drag type of a hit zone. *)
Definition dragTypeOf (zone : option HitZone) : DragType :=
  match zone with
  | Some zone_resize_start => resize_start
  | Some zone_resize_end => resize_end
  | _ => move
  end.

(** [handleMouseMove].  With the button down: crossing the threshold
    starts dragging (and a task drag when a task was hit); then the drag
    of the last render is updated, or, when no task was hit, the viewport
    is panned and the origin moved.  With the button up: hover. *)
Definition handleMouseMove (a : App) (clientX clientY : Q) : App :=
  let drag0 := drag (appUI a) in
  let st := appIst a in
  if isMouseDown st then
    let deltaX := clientX - mouseDownX st in
    let deltaY := clientY - mouseDownY st in
    let a1 :=
      if negb (isDragging st) && Qlt_bool (DRAG_THRESHOLD * DRAG_THRESHOLD)
                                           (deltaX * deltaX + deltaY * deltaY) then
        let st1 := mkInteraction (isMouseDown st) (mouseDownX st) (mouseDownY st)
                     (mouseDownTime st) (hitTaskId st) (hitZone st) true in
        let u1 := match hitTaskId st with
                  | Some k => if truthyId (Some k) && bool_decide (is_Some (hitZone st))
                              then startDrag (present (appData a)) (appUI a) k
                                     (dragTypeOf (hitZone st)) (mouseDownX st) (mouseDownY st)
                              else appUI a
                  | None => appUI a
                  end in
        mkApp (appData a) u1 st1 (cursor a)
      else a in
    let st1 := appIst a1 in
    let a2 :=
      if isDragging st1 && bool_decide (is_Some drag0) then
        with_ui a1 (updateDrag (appUI a1) clientX clientY)
      else if isDragging st1 && negb (truthyId (hitTaskId st1)) then
        mkApp (appData a1) (ui_panViewport (appUI a1) (- deltaX) (- deltaY))
          (mkInteraction (isMouseDown st1) clientX clientY (mouseDownTime st1)
             (hitTaskId st1) (hitZone st1) (isDragging st1)) (cursor a1)
      else a1 in
    updateCursor a2 (hitZone (appIst a2)) true
  else
    let (taskId, zone) := hitTest (tasks (present (appData a))) clientX clientY in
    updateCursor (with_ui a (setHoveredTask (appUI a) taskId)) zone false.

(** The selection mode of a click: ctrl or meta toggles, shift adds. *)
Definition clickMode (ctrlKey metaKey shiftKey : bool) : SelectMode :=
  if ctrlKey || metaKey then select_toggle
  else if shiftKey then select_add
  else select_replace.

(** [handleMouseUp]: the state after it and the exception it throws, if
    any.  A drag of the last render is committed (the data store's
    [updateTask] is one [set]); a click on a task selects it; a click
    elsewhere clears the selection; then the ref and the cursor are
    reset.  When [commitDrag] throws, nothing after it runs. *)
Definition handleMouseUp (a : App) (clientX clientY : Q) (ctrlKey metaKey shiftKey : bool)
    : App * option JsFault :=
  let drag0 := drag (appUI a) in
  let tasks0 := tasks (present (appData a)) in
  let st := appIst a in
  let r :=
    if isDragging st then
      if bool_decide (is_Some drag0) then
        match commitDragCall (mkWorld (present (appData a)) (appUI a)) with
        | JsOk (call, ui') =>
            let d := match call with
                     | Some (k, u) => dataStep (appData a) (DUpdateTask k u)
                     | None => appData a
                     end in
            JsOk (mkApp d ui' st (cursor a))
        | JsFail f => JsFail f
        end
      else JsOk a
    else match hitTaskId st with
         | Some k => if truthyId (Some k)
                     then JsOk (with_ui a (selectTask (appUI a) k (clickMode ctrlKey metaKey shiftKey)))
                     else JsOk (with_ui a (clearSelection (appUI a)))
         | None => JsOk (with_ui a (clearSelection (appUI a)))
         end in
  match r with
  | JsFail f => (a, Some f)
  | JsOk a1 =>
      let a2 := with_ist a1 idleInteraction in
      let (_, zone) := hitTest tasks0 clientX clientY in
      (updateCursor a2 zone false, None)
  end.

(** [handleWheel]: ctrl or meta zooms about the pointer (0.9 for a wheel
    moved down, 1.1 otherwise), anything else pans. *)
Definition handleWheel (a : App) (clientX deltaX deltaY : Q) (ctrlKey metaKey : bool) : App :=
  match canvasRect env with
  | None => a
  | Some (rectLeft, _) =>
      let x := clientX - rectLeft in
      if ctrlKey || metaKey then
        with_ui a (ui_zoomViewport (appUI a) (if Qlt_bool 0 deltaY then 9 # 10 else 11 # 10) x)
      else with_ui a (ui_panViewport (appUI a) deltaX deltaY)
  end.

End Listeners.

(** [handleKeyDown]: its five [if]s in order, each on the state the one
    before left.  Delete and Backspace delete the tasks of the last
    render's selection one [deleteTask] (one [set]) at a time, in the
    iteration order of the set. *)
Definition handleKeyDown (a : App) (key : string) (ctrlKey metaKey shiftKey : bool) : App :=
  let drag0 := drag (appUI a) in
  let sel0 := selection (appUI a) in
  let mod_ := ctrlKey || metaKey in
  let a1 := if String.eqb key "Escape" then
              if bool_decide (is_Some drag0) then with_ui a (cancelDrag (appUI a))
              else with_ui a (clearSelection (appUI a))
            else a in
  let a2 := if String.eqb key "Delete" || String.eqb key "Backspace" then
              let d := fold_left (fun t taskId => dataStep t (DDeleteTask taskId))
                         (elements (sel_taskIds sel0)) (appData a1) in
              mkApp d (clearSelection (appUI a1)) (appIst a1) (cursor a1)
            else a1 in
  let a3 := if mod_ && String.eqb key "a" then
              with_ui a2 (selectAllTasks (present (appData a2)) (appUI a2))
            else a2 in
  let a4 := if mod_ && String.eqb key "z" && negb shiftKey then with_data a3 (undo (appData a3))
            else a3 in
  if (mod_ && shiftKey && String.eqb key "z") || (mod_ && String.eqb key "y")
  then with_data a4 (redo (appData a4)) else a4.

(** The events the listeners receive. *)
Inductive Event :=
  | MouseDown (button : Z) (clientX clientY : Q) (now : Z)
  | MouseMove (clientX clientY : Q)
  | MouseUp (clientX clientY : Q) (ctrlKey metaKey shiftKey : bool)
  | Wheel (clientX deltaX deltaY : Q) (ctrlKey metaKey : bool)
  | KeyDown (key : string) (ctrlKey metaKey shiftKey : bool).

(** One event: the state after its listener (an exception is reported
    by the browser and the state stays as the listener left it). *)
Definition dispatch {T} `{!RBushOps T} (env : Env (T := T)) (a : App) (e : Event) : App :=
  match e with
  | MouseDown b x y now => handleMouseDown env a b x y now
  | MouseMove x y => handleMouseMove env a x y
  | MouseUp x y c m s => fst (handleMouseUp env a x y c m s)
  | Wheel x dx dy c m => handleWheel env a x dx dy c m
  | KeyDown k c m s => handleKeyDown a k c m s
  end.

Definition run_events {T} `{!RBushOps T} (env : Env (T := T)) (a : App) (es : list Event) : App :=
  fold_left (dispatch env) es a.

(** ** Lemmas *)

Lemma appUI_updateCursor {T} `{!RBushOps T} (env : Env (T := T)) a zone b :
  appUI (updateCursor env a zone b) = appUI a.
Proof. unfold updateCursor. by destruct (canvasRect env). Qed.

Lemma appIst_updateCursor {T} `{!RBushOps T} (env : Env (T := T)) a zone b :
  appIst (updateCursor env a zone b) = appIst a.
Proof. unfold updateCursor. by destruct (canvasRect env). Qed.

(** A [commitDrag] of a resize whose task is gone throws. *)
Lemma commitDrag_resize_missing (w : World) d :
  drag (ui w) = Some d -> dependencyViolations d = [] ->
  drag_type d = resize_start \/ drag_type d = resize_end ->
  (tasks (data w))⟦drag_taskId d⟧%gantt = None ->
  commitDragCall w = JsFail TypeError_undefined.
Proof.
  intros Hd Hv Ht Hn. unfold commitDragCall. rewrite Hd, Hv.
  destruct Ht as [-> | ->]; by rewrite Hn.
Qed.

(** While dragging, a move updates the drag of the last render. *)
Lemma handleMouseMove_dragging {T} `{!RBushOps T} (env : Env (T := T)) a x y :
  isMouseDown (appIst a) = true -> isDragging (appIst a) = true -> is_Some (drag (appUI a)) ->
  appUI (handleMouseMove env a x y) = updateDrag (appUI a) x y.
Proof.
  intros Hm Hg Hd. unfold handleMouseMove. rewrite Hm, Hg. simpl.
  rewrite Hg. rewrite bool_decide_eq_true_2 by exact Hd. simpl.
  apply appUI_updateCursor.
Qed.

(** (C37) An exception in [commitDrag] leaves the pointer state machine
    stuck in a drag: when the mouse is released over a resize whose task
    was deleted meanwhile (by the Delete key), [handleMouseUp] throws
    before resetting the interaction ref and before clearing the drag, so
    the state is unchanged, and every later mouse move, with the button
    up, keeps moving the resize preview. *)
Theorem mouseup_throw_keeps_drag {T} `{!RBushOps T} (env : Env (T := T)) (a : App) (d : DragState)
    (cx cy x y : Q) (ctrlKey metaKey shiftKey : bool) :
  isMouseDown (appIst a) = true -> isDragging (appIst a) = true ->
  drag (appUI a) = Some d -> dependencyViolations d = [] ->
  drag_type d = resize_start \/ drag_type d = resize_end ->
  (tasks (present (appData a)))⟦drag_taskId d⟧%gantt = None ->
  handleMouseUp env a cx cy ctrlKey metaKey shiftKey = (a, Some TypeError_undefined) /\
  appUI (handleMouseMove env a x y) = updateDrag (appUI a) x y.
Proof.
  intros Hm Hg Hd Hv Ht Hn. split.
  - unfold handleMouseUp. rewrite Hg, Hd. simpl.
    by rewrite (commitDrag_resize_missing (mkWorld _ _) d Hd Hv Ht Hn).
  - apply handleMouseMove_dragging; [done|done|by rewrite Hd].
Qed.

(** ** A session *)

(** One resource row [r1] (with [r2], [r3] below it) at 40 pixels, the
    task [t1] of Store.v (0 to 140 minutes) on it, 10 pixels per hour
    from time 0, the canvas at the page's origin. *)
Definition session_viewport : ViewportState := mkViewport 0 0 10 0 40 800 400 day.

Definition session_env : Env (T := list RBushItem) :=
  mkEnv (Some (0, 0)) (Some session_viewport)
    (buildIndexes newIndexManager [hydrateTask example_t1] [] example_layout).

Definition session_start : App :=
  mkApp (mkTracked (setTasks DataStore.initialState [example_t1]) emptyTemporal)
    (UIStore.initialState (24 * 60 * 60 * 1000)) idleInteraction "default".

(** A click on the body of [t1] (selecting it), a press on its left
    edge, a move of 17 pixels (starting a [resize-start] drag), then
    Delete (deleting the selected [t1]). *)
Definition session_stuck : App :=
  run_events session_env session_start
    [MouseDown 0 10 20 0; MouseUp 10 20 false false false;
     MouseDown 0 3 20 1; MouseMove 20 20; KeyDown "Delete" false false false].

Definition session_drag : DragState :=
  match drag (appUI session_stuck) with Some d => d | None => example_drag end.

Lemma mouseup_throw_keeps_drag_witness :
  handleMouseUp session_env session_stuck 20 20 false false false =
    (session_stuck, Some TypeError_undefined) /\
  appUI (handleMouseMove session_env session_stuck 40 20) = updateDrag (appUI session_stuck) 40 20.
Proof.
  apply (mouseup_throw_keeps_drag session_env session_stuck session_drag);
    try (vm_compute; reflexivity).
  left. vm_compute. reflexivity.
Defined.

(** With Shift held, the browser reports the key of Ctrl+Shift+Z as
    ["Z"]: the listener compares with ["z"] and does nothing. *)
Lemma redo_shortcut_unreachable (a : App) (metaKey : bool) :
  handleKeyDown a "Z" true metaKey true = a.
Proof. reflexivity. Qed.

(** Ctrl+Y redoes. *)
Lemma redo_shortcut_y (a : App) :
  handleKeyDown a "y" true false false = with_data a (redo (appData a)).
Proof. reflexivity. Qed.
