(* ===== verification/GanttCanvas.v ===== *)
(** * GanttCanvas: the wiring of the composable canvas
    (src/src/features/gantt/components/composable/GanttCanvas.tsx)

    [GanttCanvas] owns four stacked canvases and wires the engine to
    them through six effects.  A render reads the store through the
    selectors and the row hooks; React then commits it, running, in the
    order they are written, the cleanup and the body of every effect whose
    dependencies changed since the last commit (all of them at mount).
    The state the effects touch is the Record [CanvasWorld]: the store
    ([setViewport]), the render scheduler's singleton and the browser's
    frame queue (RenderScheduler.v's [Registry]), the index manager's
    singleton, [viewportManagerRef.current], the contexts of the four
    layer renderers, and the draw callbacks registered so far with the
    values they close over ([Closure]).  A callback is a fresh name
    ([RenderCallback]) given at registration.

    React compares dependencies with [Object.is].  Numbers are compared
    as numbers; store data by value, which for Zustand's immutable
    updates differs only when an update builds an equal new object; the
    [layers] prop by value when it is passed, while its default is an
    array literal, a new one at every render, so it always differs.

    The theorems: the draw callbacks registered with the scheduler always
    close over the values of the last render, so a frame never draws
    stale data; a commit that changes the tasks rebuilds the index from
    them before the next frame and marks the task and dependency layers
    dirty; with the default [layers], every commit marks all four layers
    dirty; the viewport manager the interactions receive is the one of
    the previous render; unmounting leaves no scheduler and no pending
    frame. *)

From S2P Require Import Prelude Types Viewport Store RowLayout SpatialIndex IndexManager.
From S2P Require Import RenderScheduler Renderers Interaction.

Open Scope Q_scope.

#[local] Instance Q_eq_dec : EqDecision Q.
Proof. intros [n1 d1] [n2 d2]. solve_decision. Defined.
#[export] Instance ViewportState_eq_dec : EqDecision ViewportState.
Proof. solve_decision. Defined.
#[export] Instance SelectionState_eq_dec : EqDecision SelectionState.
Proof. solve_decision. Defined.
#[export] Instance DependencyViolation_eq_dec : EqDecision DependencyViolation.
Proof. solve_decision. Defined.
#[export] Instance DragState_eq_dec : EqDecision DragState.
Proof. solve_decision. Defined.

(** [GanttCanvasProps]; [None] is a prop left out. *)
Record GanttCanvasProps := mkCanvasProps {
  cp_width : Q;
  cp_height : Q;
  cp_layers : option (list RenderLayer);
  cp_virtualRows : option (list VirtualRow);
  cp_visibleRows : option (list VirtualRow);
}.

(** The default of [layers]. *)
Definition defaultLayers : list RenderLayer :=
  [layer_grid; layer_tasks; layer_dependencies; layer_interaction].

(** The values one render reads, which are the effects' dependencies. *)
Record Deps := mkDeps {
  d_width : Q;
  d_height : Q;
  d_layers : option (list RenderLayer);
  d_viewport : ViewportState;
  d_selection : SelectionState;
  d_drag : option DragState;
  d_hovered : option string;
  d_tasks : jsobj Task;
  d_dependencies : jsobj TaskDependency;
  d_minResolution : Z;
  d_virtualRows : list VirtualRow;
  d_visibleRows : list VirtualRow;
}.

Definition layersOf (d : Deps) : list RenderLayer := default defaultLayers (d_layers d).

(** A render: the selectors, then the external rows or the hooks'. *)
Definition renderDeps (p : GanttCanvasProps) (s : GanttStoreState) : Deps :=
  let v := viewport s in
  let virtualRows := default (useComposableVirtualRows (resources s) (tasks s) (orders s)
                                (grouping s) (rowHeight v)) (cp_virtualRows p) in
  let visibleRows := default (useComposableVisibleRows virtualRows (scrollY v) (height v)
                                (rowHeight v)) (cp_visibleRows p) in
  mkDeps (cp_width p) (cp_height p) (cp_layers p) v (selection s) (drag s) (hoveredTaskId s)
         (tasks s) (dependencies s) (minResolution s) virtualRows visibleRows.

(** The JSX: a layer's canvas is rendered, and its ref set, when
    [layers] includes the layer. *)
Definition layerCanvasMounted (d : Deps) (l : RenderLayer) : bool := bool_decide (l ∈ layersOf d).

(** What a draw callback closes over. *)
Record Closure := mkClosure {
  cl_viewport : ViewportState;
  cl_visibleRows : list VirtualRow;
  cl_tasks : jsobj Task;
  cl_dependencies : jsobj TaskDependency;
  cl_selectedTaskIds : gset string;
  cl_hovered : option string;
  cl_drag : option DragState;
  cl_minResolution : Z;
}.

Definition closureOf (d : Deps) : Closure :=
  mkClosure (d_viewport d) (d_visibleRows d) (d_tasks d) (d_dependencies d)
            (sel_taskIds (d_selection d)) (d_hovered d) (d_drag d) (d_minResolution d).

(** The four layer renderers' singletons. *)
Record LayerRenderers := mkLayerRenderers {
  gridRenderer : Renderer;
  taskRenderer : Renderer;
  dependencyRenderer : Renderer;
  interactionRenderer : Renderer;
}.

Definition setLayerContext (rs : LayerRenderers) (l : RenderLayer) (w h : Q) : LayerRenderers :=
  match l with
  | layer_grid => mkLayerRenderers (setContext (gridRenderer rs) w h) (taskRenderer rs)
                    (dependencyRenderer rs) (interactionRenderer rs)
  | layer_tasks => mkLayerRenderers (gridRenderer rs) (setContext (taskRenderer rs) w h)
                     (dependencyRenderer rs) (interactionRenderer rs)
  | layer_dependencies => mkLayerRenderers (gridRenderer rs) (taskRenderer rs)
                            (setContext (dependencyRenderer rs) w h) (interactionRenderer rs)
  | layer_interaction => mkLayerRenderers (gridRenderer rs) (taskRenderer rs)
                           (dependencyRenderer rs) (setContext (interactionRenderer rs) w h)
  end.

(** A scheduler call on the singleton: [getRenderScheduler()] creates
    it when there is none. *)
Definition sched_call (g : Registry) (f : RenderScheduler.World -> RenderScheduler.World) : Registry :=
  let '(s, g1) := getRenderScheduler g in
  let w := f (mkWorld s (reg_browser g1) (reg_trace g1)) in
  mkRegistry (Some (sched w)) (browser w) (trace w).

Section Canvas.
Context {T : Type} `{!RBushOps T}.

(** [window.devicePixelRatio], and the [left] and [top] of the
    interaction canvas's bounding rectangle. *)
Variable dpr : Q.
Variable canvasRect : Q * Q.

Record CanvasWorld := mkCanvasWorld {
  cw_store : GanttStoreState;
  cw_registry : Registry;
  cw_index : IndexManager T;
  cw_vm : option ViewportManager;
  cw_renderers : LayerRenderers;
  cw_closures : list (RenderCallback * (RenderLayer * Closure));
  cw_nextCb : RenderCallback;
  cw_committed : option Deps;
}.

Definition with_registry (w : CanvasWorld) (g : Registry) : CanvasWorld :=
  mkCanvasWorld (cw_store w) g (cw_index w) (cw_vm w) (cw_renderers w) (cw_closures w)
                (cw_nextCb w) (cw_committed w).

(** Effect 1: [viewportManagerRef.current = new ViewportManager(viewport)]. *)
Definition effectViewportManager (d : Deps) (w : CanvasWorld) : CanvasWorld :=
  mkCanvasWorld (cw_store w) (cw_registry w) (cw_index w)
                (Some (createViewportManager (d_viewport d) dpr)) (cw_renderers w)
                (cw_closures w) (cw_nextCb w) (cw_committed w).

(** [updateCanvasRect]: both refs must be set; the interaction canvas is
    mounted when its layer is. *)
Definition updateCanvasRect (d : Deps) (w : CanvasWorld) : CanvasWorld :=
  match cw_vm w with
  | Some m =>
      if layerCanvasMounted d layer_interaction then
        mkCanvasWorld (cw_store w) (cw_registry w) (cw_index w)
                      (Some (vm_setCanvasRect m canvasRect.1 canvasRect.2)) (cw_renderers w)
                      (cw_closures w) (cw_nextCb w) (cw_committed w)
      else w
  | None => w
  end.

(** Effect 2: the store's [setViewport({ width, height })], then
    [updateCanvasRect()], for positive dimensions. *)
Definition effectDimensions (d : Deps) (w : CanvasWorld) : CanvasWorld :=
  if Qlt_bool 0 (d_width d) && Qlt_bool 0 (d_height d) then
    let u := mkViewportUpdate None None None None None (Some (d_width d)) (Some (d_height d)) None in
    updateCanvasRect d
      (mkCanvasWorld (store_setViewport (cw_store w) u) (cw_registry w) (cw_index w) (cw_vm w)
                     (cw_renderers w) (cw_closures w) (cw_nextCb w) (cw_committed w))
  else w.

(** Effect 3: each mounted layer's renderer gets its context and size,
    then [markAllDirty()]. *)
Definition effectSetupCanvases (d : Deps) (w : CanvasWorld) : CanvasWorld :=
  if Qle_bool (d_width d) 0 || Qle_bool (d_height d) 0 then w else
  let rs := fold_left (fun rs l => if bool_decide (l ∈ layersOf d) && layerCanvasMounted d l
                                   then setLayerContext rs l (d_width d) (d_height d) else rs)
                      defaultLayers (cw_renderers w) in
  mkCanvasWorld (cw_store w) (sched_call (cw_registry w) markAllDirty) (cw_index w) (cw_vm w)
                rs (cw_closures w) (cw_nextCb w) (cw_committed w).

(** Effect 4: [buildIndexes(Object.values(tasks), Object.values(dependencies),
    virtualRows)], then the task and dependency layers are dirty. *)
Definition effectBuildIndexes (d : Deps) (w : CanvasWorld) : CanvasWorld :=
  let im := buildIndexes (cw_index w) (obj_values (d_tasks d)) (obj_values (d_dependencies d))
                         (d_virtualRows d) in
  mkCanvasWorld (cw_store w) (sched_call (cw_registry w) (fun sw => markDirtyMany sw [layer_tasks; layer_dependencies]))
                im (cw_vm w) (cw_renderers w) (cw_closures w) (cw_nextCb w) (cw_committed w).

(** One [registerRenderer] of effect 5: a fresh callback closing over
    the render's values. *)
Definition registerLayer (d : Deps) (w : CanvasWorld) (l : RenderLayer) : CanvasWorld :=
  let cb := cw_nextCb w in
  mkCanvasWorld (cw_store w) (sched_call (cw_registry w) (fun sw => registerRenderer sw l cb))
                (cw_index w) (cw_vm w) (cw_renderers w)
                ((cb, (l, closureOf d)) :: cw_closures w) (S cb) (cw_committed w).

(** Effect 5: a callback for each mounted layer, then [markAllDirty()]. *)
Definition effectRegister (d : Deps) (w : CanvasWorld) : CanvasWorld :=
  let w1 := fold_left (fun w l => if decide (l ∈ layersOf d) then registerLayer d w l else w)
                      defaultLayers w in
  with_registry w1 (sched_call (cw_registry w1) markAllDirty).

(** The cleanup of effect 5, with the layers of the render it belongs to. *)
Definition cleanupRegister (d : Deps) (w : CanvasWorld) : CanvasWorld :=
  with_registry w (sched_call (cw_registry w) (fun sw =>
    fold_left (fun sw l => if decide (l ∈ layersOf d) then unregisterRenderer sw l else sw)
              defaultLayers sw)).

(** [Object.is] on each effect's dependencies. *)
Definition numChanged (a b : Q) : bool := negb (Qeq_bool a b).
Definition layersChanged (d0 d : Deps) : bool :=
  match d_layers d with None => true | Some l => bool_decide (d_layers d0 <> Some l) end.
Definition dimsChanged (d0 d : Deps) : bool :=
  numChanged (d_width d0) (d_width d) || numChanged (d_height d0) (d_height d).
Definition indexDepsChanged (d0 d : Deps) : bool :=
  bool_decide (d_tasks d0 <> d_tasks d) || bool_decide (d_dependencies d0 <> d_dependencies d) ||
  bool_decide (d_virtualRows d0 <> d_virtualRows d).
Definition registerDepsChanged (d0 d : Deps) : bool :=
  bool_decide (d_viewport d0 <> d_viewport d) || bool_decide (d_visibleRows d0 <> d_visibleRows d) ||
  bool_decide (d_tasks d0 <> d_tasks d) || bool_decide (d_dependencies d0 <> d_dependencies d) ||
  bool_decide (d_selection d0 <> d_selection d) || bool_decide (d_hovered d0 <> d_hovered d) ||
  bool_decide (d_drag d0 <> d_drag d) || layersChanged d0 d ||
  bool_decide (d_minResolution d0 <> d_minResolution d).

(** Whether an effect runs: always at mount, then when a dependency changed. *)
Definition runs (prev : option Deps) (changed : Deps -> bool) : bool :=
  match prev with None => true | Some d0 => changed d0 end.

Definition when (b : bool) (f : CanvasWorld -> CanvasWorld) (w : CanvasWorld) : CanvasWorld :=
  if b then f w else w.

(** A commit of the render [d]: the cleanups of the effects that run
    again, then their bodies, in the order they are written. *)
Definition commit (d : Deps) (w : CanvasWorld) : CanvasWorld :=
  let prev := cw_committed w in
  let r5 := runs prev (fun d0 => registerDepsChanged d0 d) in
  let w0 := match prev with Some d0 => when r5 (cleanupRegister d0) w | None => w end in
  let w1 := when (runs prev (fun d0 => bool_decide (d_viewport d0 <> d_viewport d)))
                 (effectViewportManager d) w0 in
  let w2 := when (runs prev (fun d0 => dimsChanged d0 d)) (effectDimensions d) w1 in
  let w3 := when (runs prev (fun d0 => dimsChanged d0 d || layersChanged d0 d))
                 (effectSetupCanvases d) w2 in
  let w4 := when (runs prev (fun d0 => indexDepsChanged d0 d)) (effectBuildIndexes d) w3 in
  let w5 := when r5 (effectRegister d) w4 in
  mkCanvasWorld (cw_store w5) (cw_registry w5) (cw_index w5) (cw_vm w5) (cw_renderers w5)
                (cw_closures w5) (cw_nextCb w5) (Some d).

(** A render of [GanttCanvas] with the store as it is, then its commit. *)
Definition renderCommit (p : GanttCanvasProps) (w : CanvasWorld) : CanvasWorld :=
  commit (renderDeps p (cw_store w)) w.

(** What [useComposableGanttInteractions(interactionCanvasRef,
    viewportManagerRef.current)] receives during a render: the ref as
    the previous commit left it. *)
Definition interactionEnv (w : CanvasWorld) : Env (T := T) :=
  mkEnv (Some canvasRect) (vm_viewport <$> cw_vm w) (cw_index w).

(** Unmount: the cleanup of effect 5, then [resetRenderScheduler()]. *)
Definition unmount (w : CanvasWorld) : CanvasWorld :=
  let w1 := match cw_committed w with Some d => cleanupRegister d w | None => w end in
  with_registry w1 (resetRenderScheduler (cw_registry w1)).

End Canvas.

(** A store action between two renders. *)
Definition canvasStoreStep {T} (w : CanvasWorld (T := T)) (a : StoreAction) : CanvasWorld (T := T) :=
  match apply_action (cw_store w) a with
  | JsOk s => mkCanvasWorld s (cw_registry w) (cw_index w) (cw_vm w) (cw_renderers w)
                            (cw_closures w) (cw_nextCb w) (cw_committed w)
  | JsFail _ => w
  end.

(** The browser runs the pending frame of the scheduler's singleton. *)
Definition canvasFrame {T} (throws : RenderCallback -> bool) (w : CanvasWorld (T := T))
    : CanvasWorld (T := T) :=
  match schedulerInstance (cw_registry w) with
  | Some s =>
      let sw := fireFrame throws (mkWorld s (reg_browser (cw_registry w)) (reg_trace (cw_registry w))) in
      with_registry w (mkRegistry (Some (sched sw)) (browser sw) (trace sw))
  | None => w
  end.

(** A session of the mounted component: its renders (each committed at
    once), the store's actions between them and the browser's frames. *)
Inductive CanvasEvent :=
  | CanvasRender (p : GanttCanvasProps)
  | CanvasStore (a : StoreAction)
  | CanvasFrame.

Definition canvasStep {T} `{!RBushOps T} (dpr : Q) (rect : Q * Q) (throws : RenderCallback -> bool)
    (w : CanvasWorld (T := T)) (e : CanvasEvent) : CanvasWorld (T := T) :=
  match e with
  | CanvasRender p => renderCommit dpr rect p w
  | CanvasStore a => canvasStoreStep w a
  | CanvasFrame => canvasFrame throws w
  end.

Definition canvasRun {T} `{!RBushOps T} (dpr : Q) (rect : Q * Q) (throws : RenderCallback -> bool)
    (w : CanvasWorld (T := T)) (es : list CanvasEvent) : CanvasWorld (T := T) :=
  fold_left (canvasStep dpr rect throws) es w.

(** Before the first render: no scheduler yet, no frame pending, no
    viewport manager, renderers without a context. *)
Definition initialCanvasWorld {T} (s : GanttStoreState) (im : IndexManager T) (next : nat)
    : CanvasWorld (T := T) :=
  mkCanvasWorld s (mkRegistry None (mkBrowser [] next) []) im None
                (mkLayerRenderers newRenderer newRenderer newRenderer newRenderer) [] 0%nat None.

(** The callback a frame ran. *)
Definition event_callback (e : RenderEvent) : RenderCallback :=
  match e with Drawn _ cb | Logged _ cb => cb end.

(** ** Lemmas *)

(** *** The scheduler calls the canvas makes *)

(** What they keep: the scheduler invariant, [isDestroyed], the dirty
    layers (they only add to them) and the trace. *)
Definition keeps (f : RenderScheduler.World -> RenderScheduler.World) : Prop :=
  forall w, (sched_inv w -> sched_inv (f w)) /\ isDestroyed (sched (f w)) = isDestroyed (sched w) /\
            dirtyLayers (sched w) ⊆ dirtyLayers (sched (f w)) /\ trace (f w) = trace w /\
            (is_Some (frameId (sched w)) -> is_Some (frameId (sched (f w)))).

Ltac sched_cases w :=
  destruct w as [[[?|] ? ? [|]] [? ?] ?];
  unfold markAllDirty, markDirtyMany, markDirty, scheduleRender, with_sched, registerRenderer,
    unregisterRenderer; simpl.

Lemma keeps_markAllDirty : keeps markAllDirty.
Proof.
  intros w. split; [apply (step_inv (fun _ => false) w CMarkAllDirty)|].
  sched_cases w; split_and!; try done;
    first [intros x ?; rewrite ?elem_of_fold_jsset_add, ?elem_of_jsset_add; auto | by intros [? ?]].
Qed.

Lemma keeps_markDirtyMany ls : keeps (fun w => markDirtyMany w ls).
Proof.
  intros w. split; [apply (step_inv (fun _ => false) w (CMarkDirtyMany ls))|].
  sched_cases w; split_and!; try done;
    first [intros x ?; rewrite ?elem_of_fold_jsset_add, ?elem_of_jsset_add; auto | by intros [? ?]].
Qed.

Lemma keeps_register l cb : keeps (fun w => registerRenderer w l cb).
Proof.
  intros w. split; [apply (step_inv (fun _ => false) w (CRegister l cb))|]. by sched_cases w.
Qed.

Lemma keeps_unregister l : keeps (fun w => unregisterRenderer w l).
Proof.
  intros w. split; [apply (step_inv (fun _ => false) w (CUnregister l))|]. by sched_cases w.
Qed.

Lemma keeps_fold {B} (g : RenderScheduler.World -> B -> RenderScheduler.World) (l : list B) :
  (forall x, keeps (fun w => g w x)) -> keeps (fun w => fold_left g l w).
Proof.
  intros Hg w. revert w. induction l as [|x l IH]; intros w; simpl; [split_and!; done|].
  destruct (Hg x w) as (Hi & Hx & Hd & Ht & Hf). destruct (IH (g w x)) as (Hi' & Hx' & Hd' & Ht' & Hf').
  split_and!; [auto | congruence | set_solver | congruence | auto].
Qed.

Lemma keeps_if (P : Prop) `{!Decision P} f : keeps f -> keeps (fun w => if decide P then f w else w).
Proof. intros Hf w. destruct (decide P); [apply Hf|split_and!; done]. Qed.

#[local] Hint Resolve keeps_markAllDirty keeps_markDirtyMany keeps_register keeps_unregister
  keeps_fold keeps_if : gantt.

(** The calls other than (un)registration keep the callbacks. *)
Lemma markAllDirty_renderers w : renderers (sched (markAllDirty w)) = renderers (sched w).
Proof. by sched_cases w. Qed.
Lemma markDirtyMany_renderers w ls : renderers (sched (markDirtyMany w ls)) = renderers (sched w).
Proof. by sched_cases w. Qed.

Lemma markAllDirty_all w l :
  isDestroyed (sched w) = false -> l ∈ dirtyLayers (sched (markAllDirty w)).
Proof.
  intros Hx. pose proof (elem_of_render_order l).
  sched_cases w; try discriminate; rewrite ?elem_of_fold_jsset_add, ?elem_of_jsset_add;
    destruct l; auto.
Qed.

Lemma markDirtyMany_marks w ls l :
  isDestroyed (sched w) = false -> l ∈ ls -> l ∈ dirtyLayers (sched (markDirtyMany w ls)).
Proof. intros Hx Hl. sched_cases w; try discriminate; rewrite elem_of_fold_jsset_add; auto. Qed.

(** *** The singleton *)

(** The scheduler [getRenderScheduler()] returns, with the browser. *)
Definition reg_world (g : Registry) : RenderScheduler.World :=
  mkWorld (default newRenderScheduler (schedulerInstance g)) (reg_browser g) (reg_trace g).
Definition of_world (w : RenderScheduler.World) : Registry :=
  mkRegistry (Some (sched w)) (browser w) (trace w).
Definition reg_dirty (g : Registry) : list RenderLayer := dirtyLayers (sched (reg_world g)).
Definition reg_renderers (g : Registry) : list (RenderLayer * RenderCallback) :=
  renderers (sched (reg_world g)).

Lemma sched_call_eq g f : sched_call g f = of_world (f (reg_world g)).
Proof. unfold sched_call, getRenderScheduler, reg_world. by destruct (schedulerInstance g). Qed.

Lemma reg_world_of w : reg_world (of_world w) = w.
Proof. by destruct w. Qed.

(** The singleton, when there is one, satisfies the scheduler invariant
    and is not disposed; without one no frame is pending. *)
Definition reg_inv (g : Registry) : Prop :=
  match schedulerInstance g with
  | Some s => sched_inv (reg_world g) /\ isDestroyed s = false
  | None => raf_pending (reg_browser g) = []
  end.

Lemma reg_inv_world g :
  reg_inv g -> sched_inv (reg_world g) /\ isDestroyed (sched (reg_world g)) = false.
Proof.
  unfold reg_inv, reg_world. destruct (schedulerInstance g); [done|].
  intros Hp. unfold sched_inv; simpl. rewrite Hp. split_and!; try done. constructor.
Qed.

Lemma reg_inv_of_world sw : sched_inv sw -> isDestroyed (sched sw) = false -> reg_inv (of_world sw).
Proof. destruct sw. done. Qed.

Lemma reg_inv_call g f : keeps f -> reg_inv g -> reg_inv (sched_call g f).
Proof.
  intros Hf Hg. rewrite sched_call_eq. destruct (reg_inv_world g Hg) as [Hi Hx].
  destruct (Hf (reg_world g)) as (Hi' & Hx' & _). unfold reg_inv; simpl.
  rewrite reg_world_of. split; [auto | congruence].
Qed.

(** How an effect may change the scheduler: keeping its invariant, only
    adding dirty layers, drawing nothing, and leaving the committed
    render as it is. *)
Definition sched_rel {T} (w w' : CanvasWorld (T := T)) : Prop :=
  (reg_inv (cw_registry w) -> reg_inv (cw_registry w')) /\
  reg_dirty (cw_registry w) ⊆ reg_dirty (cw_registry w') /\
  reg_trace (cw_registry w') = reg_trace (cw_registry w) /\
  (is_Some (frameId (sched (reg_world (cw_registry w)))) ->
   is_Some (frameId (sched (reg_world (cw_registry w'))))).

#[export] Instance sched_rel_preorder {T} : PreOrder (@sched_rel T).
Proof.
  split; [intros w; split_and!; done|].
  intros w1 w2 w3 (H1 & H2 & H3 & H4) (H1' & H2' & H3' & H4'). split_and!; [auto|set_solver|congruence|auto].
Qed.

Lemma sched_rel_call {T} (w w' : CanvasWorld (T := T)) f :
  keeps f -> cw_registry w' = sched_call (cw_registry w) f -> sched_rel w w'.
Proof.
  intros Hf Hg. unfold sched_rel. rewrite Hg.
  destruct (Hf (reg_world (cw_registry w))) as (_ & _ & Hd & Ht & Hs).
  split_and!; [by apply reg_inv_call| | |];
    unfold reg_dirty; rewrite sched_call_eq, ?reg_world_of; simpl; done.
Qed.

Lemma fold_left_rel {A B} (R : relation A) `{!PreOrder R} (g : A -> B -> A) (l : list B) (a : A) :
  (forall a x, R a (g a x)) -> R a (fold_left g l a).
Proof. intros Hg. revert a. induction l as [|x l IH]; intros a; simpl; [done|]. by etrans; [apply Hg|]. Qed.

Lemma when_rel {A} (R : relation A) `{!Reflexive R} (b : bool) (f : A -> A) (a : A) :
  (forall a, R a (f a)) -> R a (if b then f a else a).
Proof. intros Hf. destruct b; [apply Hf|done]. Qed.

(** What an effect leaves to the others: the index and the viewport of
    the manager. *)
Definition untouched {T} (w w' : CanvasWorld (T := T)) : Prop :=
  cw_index w' = cw_index w /\ vm_viewport <$> cw_vm w' = vm_viewport <$> cw_vm w.

#[export] Instance untouched_preorder {T} : PreOrder (@untouched T).
Proof. split; [by intros w|]. intros w1 w2 w3 [H1 H2] [H1' H2']. split; congruence. Qed.

Definition eff_rel {T} (w w' : CanvasWorld (T := T)) : Prop := sched_rel w w' /\ untouched w w'.

#[export] Instance eff_rel_preorder {T} : PreOrder (@eff_rel T).
Proof.
  split; [intros w; split; reflexivity|].
  intros w1 w2 w3 [H1 H2] [H1' H2']. split; etrans; eauto.
Qed.

(** *** The effects *)

Section Effects.
Context {T : Type} `{!RBushOps T}.
Variable dpr : Q.
Variable rect : Q * Q.
Implicit Types (w : CanvasWorld (T := T)) (d : Deps).

Ltac rel_same := unfold sched_rel, untouched; simpl; split_and!; try done; by intros.

Lemma rel_cleanup d w : sched_rel w (cleanupRegister d w) /\ untouched w (cleanupRegister d w).
Proof.
  split; [|done]. eapply sched_rel_call; [|reflexivity].
  apply keeps_fold. intros l. by apply keeps_if.
Qed.

Lemma rel_viewportManager d w : sched_rel w (effectViewportManager dpr d w).
Proof. rel_same. Qed.

Lemma rel_dimensions d w :
  sched_rel w (effectDimensions rect d w) /\ untouched w (effectDimensions rect d w).
Proof.
  unfold effectDimensions. destruct (_ && _); [|split; [rel_same|done]].
  unfold updateCanvasRect, untouched; simpl.
  destruct (cw_vm w) as [m|]; [destruct (layerCanvasMounted d _)|]; split; rel_same.
Qed.

Lemma rel_setup d w :
  sched_rel w (effectSetupCanvases d w) /\ untouched w (effectSetupCanvases d w).
Proof.
  unfold effectSetupCanvases. destruct (_ || _); [split; [rel_same|done]|].
  split; [|done]. eapply sched_rel_call; [apply keeps_markAllDirty|reflexivity].
Qed.

Lemma rel_build d w : sched_rel w (effectBuildIndexes d w).
Proof. eapply sched_rel_call; [apply keeps_markDirtyMany|reflexivity]. Qed.

Lemma rel_registerLayer d w l :
  sched_rel w (registerLayer d w l) /\ untouched w (registerLayer d w l).
Proof. split; [|done]. eapply sched_rel_call; [apply keeps_register|reflexivity]. Qed.

(** The registrations of effect 5, before its [markAllDirty()]. *)
Lemma rel_registerLayers d w :
  eff_rel w (fold_left (fun w l => if decide (l ∈ layersOf d) then registerLayer d w l else w)
                       defaultLayers w).
Proof.
  apply (fold_left_rel eff_rel). intros a l. case_decide; [apply rel_registerLayer|split; reflexivity].
Qed.

Lemma rel_register d w : sched_rel w (effectRegister d w) /\ untouched w (effectRegister d w).
Proof.
  destruct (rel_registerLayers d w) as [H1 H1']. split; [|done]. etrans; [exact H1|].
  eapply sched_rel_call; [apply keeps_markAllDirty|reflexivity].
Qed.

(** Effect 5 leaves every layer dirty. *)
Lemma register_marks_all d w l :
  reg_inv (cw_registry w) -> l ∈ reg_dirty (cw_registry (effectRegister d w)).
Proof.
  intros Hi. destruct (rel_registerLayers d w) as [[Hi' _] _].
  unfold effectRegister, reg_dirty. cbn [cw_registry with_registry].
  rewrite sched_call_eq, reg_world_of. apply markAllDirty_all, reg_inv_world, Hi', Hi.
Qed.

(** The commit's last step records the render. *)
Definition set_committed (w : CanvasWorld (T := T)) (d : Deps) : CanvasWorld (T := T) :=
  mkCanvasWorld (cw_store w) (cw_registry w) (cw_index w) (cw_vm w) (cw_renderers w)
                (cw_closures w) (cw_nextCb w) (Some d).

Lemma sched_rel_committed w w' d : sched_rel w w' -> sched_rel w (set_committed w' d).
Proof. done. Qed.

Ltac eff_step :=
  first [apply rel_viewportManager | eapply proj1, rel_cleanup | eapply proj1, rel_dimensions
        | eapply proj1, rel_setup | apply rel_build | eapply proj1, rel_register].

(** A commit keeps the scheduler invariant and only adds dirty layers. *)
Lemma commit_sched d w : sched_rel w (commit dpr rect d w).
Proof.
  unfold commit, when. cbv zeta. apply (sched_rel_committed _ _ d).
  do 5 (etrans; [|apply (when_rel sched_rel); intros; eff_step]).
  destruct (cw_committed w); [apply (when_rel sched_rel); intros; eff_step|reflexivity].
Qed.

(** The viewport manager holds the viewport of the committed render. *)
Definition vm_inv (w : CanvasWorld (T := T)) : Prop :=
  forall d0, cw_committed w = Some d0 -> vm_viewport <$> cw_vm w = Some (d_viewport d0).

Lemma proj_when {A} (P : CanvasWorld (T := T) -> A) (b : bool) f a :
  (forall a, P (f a) = P a) -> P (if b then f a else a) = P a.
Proof. destruct b; auto. Qed.

Ltac eff_untouched :=
  first [eapply proj2, rel_cleanup | eapply proj2, rel_dimensions | eapply proj2, rel_setup
        | eapply proj2, rel_register].
Lemma eff_untouched_proj w w' :
  untouched w w' -> cw_index w' = cw_index w /\ vm_viewport <$> cw_vm w' = vm_viewport <$> cw_vm w.
Proof. done. Qed.

(** After a commit the manager holds the render's viewport. *)
Lemma commit_vm d w : vm_inv w -> vm_viewport <$> cw_vm (commit dpr rect d w) = Some (d_viewport d).
Proof.
  intros Hv. unfold commit, when. cbv zeta. cbn [cw_vm].
  do 4 (rewrite (proj_when (fun a => vm_viewport <$> cw_vm a));
        [|intros; first [reflexivity | eapply proj2, eff_untouched_proj; eff_untouched]]).
  destruct (runs _ _) eqn:E; [done|].
  destruct (cw_committed w) as [d0|] eqn:Hc; [|discriminate]. simpl in E.
  apply bool_decide_eq_false in E. apply dec_stable in E.
  rewrite (proj_when (fun a => vm_viewport <$> cw_vm a));
    [|intros; eapply proj2, eff_untouched_proj; eff_untouched].
  rewrite <- E. by apply Hv.
Qed.

Lemma commit_vm_inv d w : vm_inv w -> vm_inv (commit dpr rect d w).
Proof. intros Hv d0 [= <-]. by apply commit_vm. Qed.

(** A commit that runs effect 4 builds the index from the render's tasks,
    dependencies and rows. *)
Lemma commit_index d w :
  runs (cw_committed w) (fun d0 => indexDepsChanged d0 d) = true ->
  cw_index (commit dpr rect d w) =
    buildIndexes (cw_index w) (obj_values (d_tasks d)) (obj_values (d_dependencies d)) (d_virtualRows d).
Proof.
  intros Hr. unfold commit, when. cbv zeta. cbn [cw_index].
  rewrite (proj_when cw_index); [|intros; eapply proj1, eff_untouched_proj; eff_untouched].
  rewrite Hr. cbn [cw_index effectBuildIndexes].
  do 3 (rewrite (proj_when cw_index);
        [|intros; first [reflexivity | eapply proj1, eff_untouched_proj; eff_untouched]]).
  destruct (cw_committed w); [|done].
  rewrite (proj_when cw_index); [done|intros; eapply proj1, eff_untouched_proj; eff_untouched].
Qed.

(** Layers marked dirty with a frame pending. *)
Definition marked (ls : list RenderLayer) (g : Registry) : Prop :=
  (forall l, l ∈ ls -> l ∈ reg_dirty g) /\ is_Some (frameId (sched (reg_world g))).

Lemma marked_rel ls w w' : sched_rel w w' -> marked ls (cw_registry w) -> marked ls (cw_registry w').
Proof. intros (_ & Hd & _ & Hf) [Hl Hs]. split; [set_solver|auto]. Qed.

Lemma marked_build d w :
  reg_inv (cw_registry w) -> marked [layer_tasks; layer_dependencies] (cw_registry (effectBuildIndexes d w)).
Proof.
  intros Hi. destruct (reg_inv_world _ Hi) as [_ Hx]. unfold marked, reg_dirty. cbn [cw_registry effectBuildIndexes].
  rewrite sched_call_eq, reg_world_of. split; [intros l Hl; by apply markDirtyMany_marks|].
  revert Hx. generalize (reg_world (cw_registry w)). intros sw Hx. by sched_cases sw.
Qed.

Ltac sched_chain :=
  repeat (etrans; [|apply (when_rel sched_rel); intros; eff_step]);
  try (destruct (cw_committed _);
       [first [apply (when_rel sched_rel); intros; eff_step | eff_step] | reflexivity]).

(** A commit that runs effect 4 leaves the task and dependency layers
    dirty with a frame pending. *)
Lemma commit_marks_index d w :
  reg_inv (cw_registry w) -> runs (cw_committed w) (fun d0 => indexDepsChanged d0 d) = true ->
  marked [layer_tasks; layer_dependencies] (cw_registry (commit dpr rect d w)).
Proof.
  intros Hi Hr. unfold commit, when. cbv zeta. cbn [cw_registry].
  eapply marked_rel; [apply (when_rel sched_rel); intros; eff_step|].
  rewrite Hr. apply marked_build.
  match goal with |- reg_inv (cw_registry ?Y) => assert (HY : sched_rel w Y) by sched_chain end.
  by apply HY.
Qed.

(** A commit that runs effect 5 leaves every layer dirty. *)
Lemma commit_marks_all d w l :
  reg_inv (cw_registry w) -> runs (cw_committed w) (fun d0 => registerDepsChanged d0 d) = true ->
  l ∈ reg_dirty (cw_registry (commit dpr rect d w)).
Proof.
  intros Hi Hr. unfold commit, when. cbv zeta. cbn [cw_registry].
  rewrite Hr. apply register_marks_all.
  match goal with |- reg_inv (cw_registry ?Y) => assert (HY : sched_rel w Y) by sched_chain end.
  by apply HY.
Qed.

(** *** The draw callbacks *)

(** Every registered callback is a name already given, for a layer of
    the committed render, and closes over that render's values. *)
Definition closures_current (w : CanvasWorld (T := T)) : Prop :=
  forall l cb, obj_get l (reg_renderers (cw_registry w)) = Some cb ->
    (cb < cw_nextCb w)%nat /\
    exists d, cw_committed w = Some d /\ l ∈ layersOf d /\
              obj_get cb (cw_closures w) = Some (l, closureOf d).

(** Effects 1 to 4 leave the callbacks alone. *)
Definition cb_same (w w' : CanvasWorld (T := T)) : Prop :=
  reg_renderers (cw_registry w') = reg_renderers (cw_registry w) /\
  cw_closures w' = cw_closures w /\ cw_nextCb w' = cw_nextCb w.

#[local] Instance cb_same_preorder : PreOrder cb_same.
Proof. split; [by intros w|]. intros w1 w2 w3 (H1 & H2 & H3) (H1' & H2' & H3'). split_and!; congruence. Qed.

Lemma cb_same_effects d w :
  cb_same w (effectViewportManager dpr d w) /\ cb_same w (effectDimensions rect d w) /\
  cb_same w (effectSetupCanvases d w) /\ cb_same w (effectBuildIndexes d w).
Proof.
  split_and!; unfold cb_same, reg_renderers; [done| | |].
  - unfold effectDimensions, updateCanvasRect.
    destruct (Qlt_bool 0 (d_width d) && Qlt_bool 0 (d_height d)); [|done].
    simpl. destruct (cw_vm w); [destruct (layerCanvasMounted d _)|]; done.
  - unfold effectSetupCanvases. destruct (Qle_bool (d_width d) 0 || Qle_bool (d_height d) 0); [done|].
    cbn [cw_registry cw_closures cw_nextCb]. rewrite sched_call_eq, reg_world_of.
    split_and!; [|done..]. apply markAllDirty_renderers.
  - cbn [cw_registry cw_closures cw_nextCb effectBuildIndexes]. rewrite sched_call_eq, reg_world_of.
    split_and!; [|done..]. apply markDirtyMany_renderers.
Qed.

(** The cleanup of effect 5 unregisters the layers of its render. *)
Lemma unregister_fold_get (L ls : list RenderLayer) sw l :
  obj_get l (renderers (sched (fold_left (fun sw l => if decide (l ∈ L) then unregisterRenderer sw l else sw)
                                          ls sw))) =
  if decide (l ∈ ls /\ l ∈ L) then None else obj_get l (renderers (sched sw)).
Proof.
  revert sw. induction ls as [|l' ls IH]; intros sw; cbn [fold_left]; [case_decide; [set_solver|done]|].
  rewrite IH. case_decide as Hl; [rewrite decide_True by set_solver; done|].
  case_decide as Hl'; simpl.
  - destruct (decide (l = l')) as [->|Hne]; [rewrite obj_get_delete_eq, decide_True by set_solver; done|].
    rewrite obj_get_delete_ne by done. rewrite decide_False by set_solver. done.
  - rewrite decide_False; [done|]. intros [[->|?]%elem_of_cons ?]; set_solver.
Qed.

Lemma cleanup_clears d0 w l :
  (forall l cb, obj_get l (reg_renderers (cw_registry w)) = Some cb -> l ∈ layersOf d0) ->
  obj_get l (reg_renderers (cw_registry (cleanupRegister d0 w))) = None.
Proof.
  intros Hw. unfold cleanupRegister, reg_renderers. cbn [cw_registry with_registry].
  rewrite sched_call_eq, reg_world_of, unregister_fold_get.
  pose proof (elem_of_render_order l).
  case_decide as Hl; [done|]. destruct (obj_get l _) as [cb|] eqn:E; [|done].
  exfalso. apply Hl. split; [done|]. by eapply Hw.
Qed.

(** The registrations of effect 5 from no callback: fresh names closing
    over the render. *)
Definition registered_by (d : Deps) (w : CanvasWorld (T := T)) : Prop :=
  forall l cb, obj_get l (reg_renderers (cw_registry w)) = Some cb ->
    (cb < cw_nextCb w)%nat /\ l ∈ layersOf d /\ obj_get cb (cw_closures w) = Some (l, closureOf d).

Lemma registerLayer_by d w l :
  l ∈ layersOf d -> registered_by d w -> registered_by d (registerLayer d w l).
Proof.
  intros Hl Hw l' cb. unfold registerLayer, reg_renderers. cbn [cw_registry cw_nextCb cw_closures].
  rewrite sched_call_eq, reg_world_of. simpl. destruct (decide (l' = l)) as [->|Hne].
  - rewrite obj_get_set_eq. intros [= <-]. split_and!; [lia|done|]. by rewrite obj_get_cons, decide_True.
  - rewrite obj_get_set_ne by done. intros E. destruct (Hw l' cb E) as (Hlt & Hin & Hc).
    split_and!; [lia|done|]. rewrite obj_get_cons, decide_False by lia. done.
Qed.

Lemma register_by d w :
  (forall l, obj_get l (reg_renderers (cw_registry w)) = None) -> registered_by d (effectRegister d w).
Proof.
  intros Hw. unfold effectRegister.
  assert (H : registered_by d (fold_left (fun w l => if decide (l ∈ layersOf d) then registerLayer d w l else w)
                                         defaultLayers w)).
  { apply fold_left_invariant; [|intros l cb; by rewrite Hw].
    intros a l _ Ha. case_decide; [by apply registerLayer_by|done]. }
  intros l cb. unfold reg_renderers. cbn [with_registry cw_registry cw_nextCb cw_closures].
  rewrite sched_call_eq, reg_world_of, markAllDirty_renderers. apply H.
Qed.

(** A render that changes none of effect 5's dependencies has the
    values and the layers of the previous one. *)
Lemma registerDeps_same d0 d :
  registerDepsChanged d0 d = false -> closureOf d0 = closureOf d /\ layersOf d0 = layersOf d.
Proof.
  unfold registerDepsChanged, layersChanged, layersOf, closureOf. rewrite !orb_false_iff.
  intros ((((((((H1 & H2) & H3) & H4) & H5) & H6) & H7) & H8) & H9).
  apply bool_decide_eq_false, dec_stable in H1, H2, H3, H4, H5, H6, H7, H9.
  destruct (d_layers d) as [ls|]; [|discriminate]. apply bool_decide_eq_false, dec_stable in H8.
  rewrite H8, H1, H2, H3, H4, H5, H6, H7, H9. done.
Qed.

Ltac cb_step :=
  first [apply (proj1 (cb_same_effects _ _)) | apply (proj1 (proj2 (cb_same_effects _ _)))
        | apply (proj1 (proj2 (proj2 (cb_same_effects _ _)))) | apply (proj2 (proj2 (proj2 (cb_same_effects _ _))))].
Ltac cb_chain := repeat (etrans; [|apply (when_rel cb_same); intros; cb_step]); try reflexivity.

(** A commit keeps the callbacks current. *)
Lemma commit_closures d w : closures_current w -> closures_current (commit dpr rect d w).
Proof.
  intros Hc. unfold commit, when. cbv zeta.
  destruct (runs (cw_committed w) (fun d0 => registerDepsChanged d0 d)) eqn:Hr.
  - match goal with |- context [effectRegister d ?Y] =>
      assert (HY : cb_same (match cw_committed w with Some d0 => cleanupRegister d0 w | None => w end) Y)
        by cb_chain;
      assert (HR : registered_by d (effectRegister d Y)) end.
    { apply register_by. intros l'. destruct HY as [-> _]. destruct (cw_committed w) as [d0|] eqn:Hw.
      + apply cleanup_clears. intros l0 cb0 E0.
        destruct (Hc l0 cb0 E0) as (_ & d1 & Hd1 & Hl1 & _). congruence.
      + destruct (obj_get l' _) as [cb'|] eqn:E'; [|done].
        destruct (Hc _ _ E') as (_ & ? & Hd & _). congruence. }
    intros l cb E. cbn [cw_nextCb cw_committed cw_closures cw_registry] in *.
    destruct (HR l cb E) as (Hlt & Hin & Hcl). eauto.
  - destruct (cw_committed w) as [d0|] eqn:Hw; [|discriminate]. simpl in Hr.
    destruct (registerDeps_same d0 d Hr) as [Hcl Hl].
    match goal with |- closures_current (mkCanvasWorld _ (cw_registry ?Y) _ _ _ _ _ _) =>
      assert (HY : cb_same w Y) by cb_chain end.
    destruct HY as (HYr & HYc & HYn). intros l cb. cbn [cw_registry cw_nextCb cw_closures cw_committed].
    rewrite HYr, HYc, HYn. intros E. destruct (Hc l cb E) as (Hlt & d1 & Hd1 & Hin & Hcl1).
    rewrite Hw in Hd1. injection Hd1 as <-. split; [done|]. exists d. by rewrite <- Hcl, <- Hl.
Qed.

End Effects.

(** *** Sessions *)

Lemma fireFrame_keeps throws sw :
  renderers (sched (fireFrame throws sw)) = renderers (sched sw) /\
  isDestroyed (sched (fireFrame throws sw)) = isDestroyed (sched sw).
Proof.
  unfold fireFrame. destruct (raf_pending (browser sw)); [done|].
  unfold render; simpl. by destruct (isDestroyed (sched sw)).
Qed.

Lemma render_layer_get throws layers rs l e :
  e ∈ render_layer throws layers rs l -> event_layer e = l /\ obj_get l rs = Some (event_callback e).
Proof.
  unfold render_layer. case_decide; [|set_solver].
  destruct (obj_get l rs) as [cb|] eqn:E; [|set_solver].
  intros ->%list_elem_of_singleton. by destruct (throws cb).
Qed.

Lemma render_events throws sw :
  exists evs, trace (render throws sw) = trace sw ++ evs /\
    forall e, e ∈ evs -> obj_get (event_layer e) (renderers (sched sw)) = Some (event_callback e).
Proof.
  unfold render. destruct (isDestroyed (sched sw)); [exists []; rewrite app_nil_r; set_solver|].
  eexists; split; [reflexivity|].
  intros e (l0 & _ & He)%list_elem_of_In%in_flat_map. apply list_elem_of_In in He.
  by destruct (render_layer_get _ _ _ _ _ He) as [-> ?].
Qed.

(** What a frame draws: callbacks registered for their layers. *)
Lemma canvasFrame_events {T} throws (w : CanvasWorld (T := T)) :
  exists evs, reg_trace (cw_registry (canvasFrame throws w)) = reg_trace (cw_registry w) ++ evs /\
    forall e, e ∈ evs -> obj_get (event_layer e) (reg_renderers (cw_registry w)) = Some (event_callback e).
Proof.
  unfold canvasFrame, reg_renderers, reg_world.
  destruct (schedulerInstance (cw_registry w)) as [s|] eqn:Hs;
    [|exists []; rewrite app_nil_r; set_solver].
  unfold fireFrame. cbn [browser raf_pending]. destruct (raf_pending _);
    [exists []; rewrite app_nil_r; set_solver|].
  match goal with |- context [render throws ?sw] => destruct (render_events throws sw) as (evs & Ht & He) end.
  exists evs. cbn [with_registry cw_registry reg_trace]. rewrite Ht. split; [done|]. apply He.
Qed.

Section Sessions.
Context {T : Type} `{!RBushOps T}.
Variable dpr : Q.
Variable rect : Q * Q.
Variable throws : RenderCallback -> bool.
Implicit Types (w : CanvasWorld (T := T)).

(** The invariant of a session. *)
Definition canvas_inv w : Prop := reg_inv (cw_registry w) /\ closures_current w /\ vm_inv w.

Lemma canvas_inv_initial s im next : canvas_inv (initialCanvasWorld s im next).
Proof. split_and!; [done| |by intros ? ?]. intros l cb. unfold reg_renderers; simpl. done. Qed.

Lemma canvas_inv_step w e : canvas_inv w -> canvas_inv (canvasStep dpr rect throws w e).
Proof.
  intros (Hi & Hc & Hv). destruct e as [p|a|]; simpl.
  - split_and!; [by apply commit_sched|by apply commit_closures|by apply commit_vm_inv].
  - unfold canvasStoreStep. by destruct (apply_action _ a).
  - unfold canvasFrame. destruct (schedulerInstance (cw_registry w)) as [s|] eqn:Hs; [|done].
    assert (Hw : reg_world (cw_registry w) = mkWorld s (reg_browser (cw_registry w)) (reg_trace (cw_registry w)))
      by (unfold reg_world; by rewrite Hs).
    unfold reg_inv in Hi. rewrite Hs, Hw in Hi. destruct Hi as [Hi Hx].
    set (sw0 := mkWorld s (reg_browser (cw_registry w)) (reg_trace (cw_registry w))) in *.
    destruct (fireFrame_keeps throws sw0) as [Hr Hd].
    change (mkRegistry (Some (sched (fireFrame throws sw0))) (browser (fireFrame throws sw0))
              (trace (fireFrame throws sw0))) with (of_world (fireFrame throws sw0)).
    split_and!; [| |done].
    + apply reg_inv_of_world; [by apply fireFrame_inv|]. rewrite Hd. done.
    + intros l cb. unfold reg_renderers; cbn [with_registry cw_registry]. rewrite reg_world_of, Hr.
      intros E. apply (Hc l cb). unfold reg_renderers. by rewrite Hw.
Qed.

Lemma canvas_inv_run s im next es : canvas_inv (canvasRun dpr rect throws (initialCanvasWorld s im next) es).
Proof.
  unfold canvasRun. apply fold_left_invariant; [|apply canvas_inv_initial].
  intros w e _. apply canvas_inv_step.
Qed.

(** The cleanup at unmount disposes of the scheduler. *)
Lemma unmount_clean w :
  reg_inv (cw_registry w) ->
  schedulerInstance (cw_registry (unmount w)) = None /\ raf_pending (reg_browser (cw_registry (unmount w))) = [].
Proof.
  intros Hi. unfold unmount.
  set (w1 := match cw_committed w with Some d => cleanupRegister d w | None => w end).
  assert (H1 : reg_inv (cw_registry w1))
    by (subst w1; destruct (cw_committed w); [by apply (rel_cleanup _ w)|done]).
  unfold reg_inv in H1. cbn [cw_registry with_registry]. unfold resetRenderScheduler.
  destruct (schedulerInstance (cw_registry w1)) as [s|] eqn:Hs; [|done].
  destruct H1 as [H1 _]. unfold reg_world in H1. rewrite Hs in H1.
  destruct (dispose_quiet _ H1) as [(_ & _ & Hp) _]. done.
Qed.

End Sessions.

(** ** Properties of the canvas wiring *)

Section Properties.
Context {T : Type} `{!RBushOps T}.
Variable dpr : Q.
Variable rect : Q * Q.
Variable throws : RenderCallback -> bool.

(** (C12) In every session of the canvas, whatever its renders, store
    actions and frames, and whichever draw callbacks throw, a frame runs
    only callbacks that the last committed render registered for their
    layer, closing over that render's viewport, visible rows, tasks,
    dependencies, selected tasks, hovered task, drag and minResolution:
    a frame never draws the values of an older render. *)
Theorem session_frames_draw_last_render (s : GanttStoreState) (im : IndexManager T) next es :
  let w := canvasRun dpr rect throws (initialCanvasWorld s im next) es in
  exists evs, reg_trace (cw_registry (canvasFrame throws w)) = reg_trace (cw_registry w) ++ evs /\
    forall e, e ∈ evs -> exists d, cw_committed w = Some d /\
      obj_get (event_callback e) (cw_closures w) = Some (event_layer e, closureOf d).
Proof.
  intros w. destruct (canvas_inv_run dpr rect throws s im next es) as (_ & Hc & _).
  destruct (canvasFrame_events throws w) as (evs & Ht & He). exists evs. split; [done|].
  intros e Hin. destruct (Hc _ _ (He e Hin)) as (_ & d & Hd & _ & Hcl). eauto.
Qed.

(** The index is rebuilt before the frame that draws it: at any
    point of a session, a render whose tasks, dependencies or rows differ
    from the committed render's (or the first render) is committed with
    the index built from its own tasks, dependencies and rows, with the
    task and dependency layers dirty and a frame pending. *)
Theorem session_commit_rebuilds_index (s : GanttStoreState) (im : IndexManager T) next es p :
  let w := canvasRun dpr rect throws (initialCanvasWorld s im next) es in
  let d := renderDeps p (cw_store w) in
  runs (cw_committed w) (fun d0 => indexDepsChanged d0 d) = true ->
  let w1 := renderCommit dpr rect p w in
  cw_index w1 = buildIndexes (cw_index w) (obj_values (tasks (cw_store w)))
                             (obj_values (dependencies (cw_store w))) (d_virtualRows d) /\
  layer_tasks ∈ reg_dirty (cw_registry w1) /\ layer_dependencies ∈ reg_dirty (cw_registry w1) /\
  is_Some (frameId (sched (reg_world (cw_registry w1)))).
Proof.
  intros w d Hr w1. destruct (canvas_inv_run dpr rect throws s im next es) as (Hi & _ & _).
  destruct (commit_marks_index dpr rect d w Hi Hr) as [Hd Hf].
  split_and!; [by apply commit_index|apply Hd; set_solver..|done].
Qed.

(** (C13) With the default [layers], every render is committed with all
    four layers dirty, even a render that changes nothing: the default
    array is a new object at each render, so effect 5 (and effect 3) run
    again and call [markAllDirty()]. *)
Theorem default_layers_repaint_all (s : GanttStoreState) (im : IndexManager T) next es p l :
  cp_layers p = None ->
  l ∈ reg_dirty (cw_registry (renderCommit dpr rect p
                               (canvasRun dpr rect throws (initialCanvasWorld s im next) es))).
Proof.
  intros Hp. destruct (canvas_inv_run dpr rect throws s im next es) as (Hi & _ & _).
  apply commit_marks_all; [done|]. destruct (cw_committed _) as [d0|]; [|done]. simpl.
  unfold registerDepsChanged, layersChanged. cbn [d_layers renderDeps]. rewrite Hp, orb_true_r. done.
Qed.

(** The interaction handlers get the viewport one render late:
    after a render is committed and the store's viewport changes (a pan,
    a zoom, a scroll, or effect 2's own [setViewport]), the next render
    hands [useComposableGanttInteractions] a manager holding the viewport
    of the committed render, since [viewportManagerRef.current] is read
    during the render and replaced by effect 1 only after it. *)
Theorem session_interactions_previous_viewport (s : GanttStoreState) (im : IndexManager T) next es p a :
  let w := canvasRun dpr rect throws (initialCanvasWorld s im next) es in
  let w1 := canvasStoreStep (renderCommit dpr rect p w) a in
  vmViewport (interactionEnv rect w1) = Some (viewport (cw_store w)).
Proof.
  intros w w1. destruct (canvas_inv_run dpr rect throws s im next es) as (_ & _ & Hv).
  assert (H := commit_vm dpr rect (renderDeps p (cw_store w)) w Hv).
  unfold w1, canvasStoreStep. by destruct (apply_action _ a).
Qed.

(** Unmounting the canvas at any point of a session leaves no
    render scheduler and no pending animation frame: effect 5's cleanup
    unregisters the callbacks, effect 6's disposes of the scheduler and
    cancels its frame. *)
Theorem session_unmount_clean (s : GanttStoreState) (im : IndexManager T) next es :
  let w := unmount (canvasRun dpr rect throws (initialCanvasWorld s im next) es) in
  schedulerInstance (cw_registry w) = None /\ raf_pending (reg_browser (cw_registry w)) = [].
Proof. apply unmount_clean, (canvas_inv_run dpr rect throws s im next es). Qed.

End Properties.

(** ** Examples *)

(** Task [t1] (00:00 to 02:20) on machine [r1], the canvas 800 by 400
    pixels with the default layers, its rectangle at the page's origin. *)
Definition canvas_example_store : GanttStoreState :=
  initializeData (createInitialState 0) [example_t1] [mkResource "r1" "A" machine 1 None None]
                 None None None.
Definition canvas_example_props : GanttCanvasProps := mkCanvasProps 800 400 None None None.
Definition canvas_example_world : CanvasWorld (T := list RBushItem) :=
  initialCanvasWorld canvas_example_store newIndexManager 1.

(** The first render committed, then a pan of 200 pixels. *)
Definition canvas_example_panned : CanvasWorld (T := list RBushItem) :=
  canvasStoreStep (renderCommit 1 (0, 0) canvas_example_props canvas_example_world) (APanViewport 200 0).

Lemma session_commit_rebuilds_index_witness :
  runs (cw_committed canvas_example_world)
    (fun d0 => indexDepsChanged d0 (renderDeps canvas_example_props (cw_store canvas_example_world))) = true /\
  let w1 := renderCommit 1 (0, 0) canvas_example_props canvas_example_world in
  cw_index w1 = buildIndexes (cw_index canvas_example_world) (obj_values (tasks canvas_example_store))
                  (obj_values (dependencies canvas_example_store))
                  (d_virtualRows (renderDeps canvas_example_props canvas_example_store)) /\
  layer_tasks ∈ reg_dirty (cw_registry w1) /\ layer_dependencies ∈ reg_dirty (cw_registry w1) /\
  is_Some (frameId (sched (reg_world (cw_registry w1)))).
Proof.
  split; [reflexivity|].
  exact (session_commit_rebuilds_index 1 (0, 0) (fun _ => false) canvas_example_store newIndexManager 1 []
           canvas_example_props eq_refl).
Defined.

Lemma default_layers_repaint_all_witness :
  cp_layers canvas_example_props = None /\
  layer_grid ∈ reg_dirty (cw_registry (renderCommit 1 (0, 0) canvas_example_props
                                        (canvasRun 1 (0, 0) (fun _ => false) canvas_example_world
                                           [CanvasRender canvas_example_props; CanvasFrame]))).
Proof.
  split; [reflexivity|].
  exact (default_layers_repaint_all 1 (0, 0) (fun _ => false) canvas_example_store newIndexManager 1
           [CanvasRender canvas_example_props; CanvasFrame] canvas_example_props layer_grid eq_refl).
Defined.

(** After the pan, the next render's hit test still finds [t1] at
    (250, 20), where it was drawn before the pan; with the store's
    viewport it is 200 pixels to the left and nothing is there. *)
Example stale_hit_test :
  hitTest (interactionEnv (0, 0) canvas_example_panned) (tasks (cw_store canvas_example_panned)) 250 20
    = (Some "t1", Some zone_body) /\
  hitTest (mkEnv (Some (0, 0)) (Some (viewport (cw_store canvas_example_panned)))
                 (cw_index canvas_example_panned))
          (tasks (cw_store canvas_example_panned)) 250 20 = (None, None).
Proof. vm_compute. split; reflexivity. Qed.

(** With the layers passed explicitly, a hover alone repaints the grid:
    the hovered task is a dependency of effect 5. *)
Example hover_repaints_grid :
  let p := mkCanvasProps 800 400 (Some defaultLayers) None None in
  let w := canvasRun 1 (0, 0) (fun _ => false) canvas_example_world
             [CanvasRender p; CanvasFrame; CanvasRender p; CanvasFrame; CanvasRender p] in
  reg_dirty (cw_registry w) = [] /\
  reg_dirty (cw_registry (canvasRun 1 (0, 0) (fun _ => false) w
                            [CanvasStore (ASetHoveredTask (Some "t1")); CanvasRender p])) =
    [layer_grid; layer_tasks; layer_dependencies; layer_interaction].
Proof. vm_compute. split; reflexivity. Qed.
