(* ===== verification/Timeline.v ===== *)
(** * Timeline: the time axis of the chart
    (src/src/features/gantt/components/composable/GanttTimeline.tsx and
    src/src/features/gantt/components/TimelineHeader.tsx)

    Both components compute, from the viewport, the markers of the time
    axis (one per interval of the zoom level, from the first multiple of
    the interval at or before the visible start to the visible end,
    those within 100 pixels of the axis kept), and for the hour and day
    zoom levels the headers of the local days in view.  [GanttTimeline]
    reads the composable store, [TimelineHeader] the legacy UI store
    (LegacyStore.v); the algorithm is the same text in both files.

    [Date]'s local time is a fixed offset [tzOffset] from UTC (daylight
    saving changes are not modelled), so [getHours] and date-fns's
    [startOfDay] and [addDays] are arithmetic on the timestamp; date-fns's
    [format] is a parameter.  Timestamps the code keeps integral are [Z],
    the visible range and the pixel positions [Q].  Both loops run on
    fuel: the number of intervals, or days, in the visible range, plus
    one, is enough ([markerLoop_enough], [dayLoop_enough]).

    The theorems: the markers are exactly the multiples of the interval
    in the visible range within 100 pixels, at their [timeToX] position;
    the multiples are counted from the epoch, in UTC, so in a time zone
    whose offset is 1 to 5 hours modulo 6 the day zoom puts no marker at
    local midnight (no date label, major markers at local 01:00 for
    UTC+1), and the week zoom's major markers are the epoch's weekday,
    Thursday.  A day header starts at the visible start of its day and
    ends at [min(width - min(0, x), x + dayWidth)], past the right edge
    of the axis when the day starts before the view and ends after it. *)

From S2P Require Import Prelude Types TaskUtils Viewport Store LegacyStore.

Open Scope Q_scope.

(** [TimeMarker] *)
Record TimeMarker := mkTimeMarker {
  marker_time : Z;
  marker_label : string;
  isMajor : bool;
  marker_x : Q;
}.

(** The [switch (zoomLevel)]: the interval and the major interval in
    hours, and the label format.  Its [default] branch is unreachable: a
    [ZoomLevel] is one of the four. *)
Definition markerConfig (z : ZoomLevel) : Z * Z * string :=
  match z with
  | hour => (1, 6, "HH:mm")
  | day => (6, 24, "HH:mm")
  | week => (24, 24 * 7, "EEE d")
  | month => (24 * 7, 24 * 30, "MMM d")
  end%Z.

(** [visibleStartTime] and [visibleEndTime] *)
Definition visibleStartTime (v : ViewportState) : Q :=
  timeOrigin v + (scrollX v / pixelsPerHour v) * 3600000.
Definition visibleEndTime (v : ViewportState) (width_ : Q) : Q :=
  visibleStartTime v + (width_ / pixelsPerHour v) * 3600000.

(** The x of a time on the axis. *)
Definition axisX (v : ViewportState) (time : Z) : Q :=
  ((inject_Z time - timeOrigin v) / 3600000) * pixelsPerHour v - scrollX v.

(** The truncation of [new Date(t)] to whole milliseconds. *)
Definition js_trunc (q : Q) : Z := if Qle_bool 0 q then Qfloor q else (- Qfloor (- q))%Z.

Section Timeline.
Variable tzOffset : Z.
Variable format : Z -> string -> string.

(** [date.getHours()] in the local time zone. *)
Definition getHours (t : Z) : Z := (((t + tzOffset) mod 86400000) / 3600000)%Z.

(** date-fns's [startOfDay] and [addDays(d, 1)]. *)
Definition startOfDay (t : Z) : Z := (t - (t + tzOffset) mod 86400000)%Z.
Definition addDay (t : Z) : Z := (t + 86400000)%Z.

(** One iteration's marker, or none for a time [continue] skips. *)
Definition markerAt (v : ViewportState) (width_ : Q) (majorMs : Z) (labelFormat : string) (time : Z)
    : option TimeMarker :=
  let x := axisX v time in
  if Qlt_bool x (-100) || Qlt_bool (width_ + 100) x then None else
  let z := zoomLevel v in
  let isMajor_ := bool_decide (Z.rem time majorMs = 0%Z) ||
                  (bool_decide (z = day) && bool_decide (getHours time = 0%Z)) in
  let label := if bool_decide (z = hour) || bool_decide (z = day) then
                 (if bool_decide (getHours time = 0%Z) then format time "MMM d" else format time labelFormat)
               else format time labelFormat in
  Some (mkTimeMarker time label isMajor_ x).

(** [for (let time = startTime; time <= visibleEndTime; time += intervalMs)] *)
Fixpoint markerLoop (v : ViewportState) (width_ : Q) (intervalMs majorMs : Z) (labelFormat : string)
    (visibleEnd : Q) (fuel : nat) (time : Z) : list TimeMarker :=
  match fuel with
  | O => []
  | S fuel' =>
      if Qle_bool (inject_Z time) visibleEnd then
        option_list (markerAt v width_ majorMs labelFormat time) ++
        markerLoop v width_ intervalMs majorMs labelFormat visibleEnd fuel' (time + intervalMs)
      else []
  end.

(** Enough iterations: the intervals from [startTime] to the visible end. *)
Definition markerFuel (startTime intervalMs : Z) (visibleEnd : Q) : nat :=
  S (Z.to_nat (Qfloor ((visibleEnd - inject_Z startTime) / inject_Z intervalMs))).

(** The [markers] memo. *)
Definition markers (v : ViewportState) (width_ : Q) : list TimeMarker :=
  let '(intervalHours, majorIntervalHours, labelFormat) := markerConfig (zoomLevel v) in
  let intervalMs := (intervalHours * 3600000)%Z in
  let startTime := (Qfloor (visibleStartTime v / inject_Z intervalMs) * intervalMs)%Z in
  let visibleEnd := visibleEndTime v width_ in
  markerLoop v width_ intervalMs (majorIntervalHours * 3600000) labelFormat visibleEnd
             (markerFuel startTime intervalMs visibleEnd) startTime.

(** A day header: the day, its x and its width. *)
Record DayHeader := mkDayHeader {
  header_date : Z;
  header_x : Q;
  header_width : Q;
}.

(** [while (currentDay < endDay)] *)
Fixpoint dayLoop (v : ViewportState) (width_ : Q) (endDay : Z) (fuel : nat) (currentDay : Z)
    : list DayHeader :=
  match fuel with
  | O => []
  | S fuel' =>
      if (currentDay <? endDay)%Z then
        let x := axisX v currentDay in
        let dayWidth := 24 * pixelsPerHour v in
        (if Qlt_bool 0 (x + dayWidth) && Qlt_bool x width_ then
           [mkDayHeader currentDay (Qmax 0 x)
              (Qmin (Qmin dayWidth (width_ - x)) (if Qlt_bool x 0 then dayWidth + x else dayWidth))]
         else []) ++
        dayLoop v width_ endDay fuel' (addDay currentDay)
      else []
  end.

(** The [dayHeaders] memo: none but at the hour and day zoom levels. *)
Definition dayHeaders (v : ViewportState) (width_ : Q) : list DayHeader :=
  if negb (bool_decide (zoomLevel v = hour) || bool_decide (zoomLevel v = day)) then [] else
  let startDay := startOfDay (js_trunc (visibleStartTime v)) in
  let endDay := startOfDay (js_trunc (visibleEndTime v width_ + 24 * 3600000)) in
  dayLoop v width_ endDay (S (Z.to_nat ((endDay - startDay) / 86400000))) startDay.

(** [currentTimeX]; [now] is [Date.now()]. *)
Definition currentTimeX (v : ViewportState) (width_ : Q) (showCurrentTime : bool) (now : Z) : option Q :=
  if negb showCurrentTime then None else
  let x := axisX v now in
  if Qlt_bool x 0 || Qlt_bool width_ x then None else Some x.

(** [GanttTimeline]: the markers, the day headers and the current time
    of the composable store's viewport. *)
Definition GanttTimeline (s : GanttStoreState) (width_ : Q) (showCurrentTime : bool) (now : Z)
    : list TimeMarker * list DayHeader * option Q :=
  let v := viewport s in
  (markers v width_, dayHeaders v width_, currentTimeX v width_ showCurrentTime now).

(** [TimelineHeader]: the same of the legacy UI store's viewport. *)
Definition TimelineHeader (s : UIStore.GanttUIState) (width_ : Q) : list TimeMarker * list DayHeader :=
  let v := UIStore.viewport s in
  (markers v width_, dayHeaders v width_).

End Timeline.

(** ** Lemmas *)

Section TimelineProofs.
Variable tzOffset : Z.
Variable format : Z -> string -> string.
Variable v : ViewportState.
Variable width_ : Q.
Implicit Types (I M : Z) (lf : string) (visibleEnd : Q).

Lemma elem_of_option_list' {A} (x : A) (o : option A) : x ∈ option_list o <-> o = Some x.
Proof. destruct o; simpl; [rewrite list_elem_of_singleton|rewrite elem_of_nil]; naive_solver. Qed.

Lemma inject_Z_le_mono (a b : Z) : (a <= b)%Z -> inject_Z a <= inject_Z b.
Proof. by rewrite <- Zle_Qle. Qed.

(** The loop's markers: those of the times [time + k * I] up to the
    visible end, for [k] below the fuel. *)
Lemma markerLoop_elem I M lf visibleEnd fuel time m :
  (0 < I)%Z ->
  m ∈ markerLoop tzOffset format v width_ I M lf visibleEnd fuel time <->
  exists k : nat, (k < fuel)%nat /\ inject_Z (time + Z.of_nat k * I) <= visibleEnd /\
    markerAt tzOffset format v width_ M lf (time + Z.of_nat k * I) = Some m.
Proof.
  intros HI. revert time. induction fuel as [|fuel IH]; intros time; cbn [markerLoop].
  { split; [set_solver|intros (k & Hk & _); lia]. }
  destruct (Qle_bool (inject_Z time) visibleEnd) eqn:E.
  - rewrite elem_of_app, elem_of_option_list', IH. split.
    + intros [Hm | (k & Hk & Hle & Hm)].
      * exists 0%nat. rewrite Z.add_0_r. split_and!; [lia|by apply Qle_bool_iff|done].
      * exists (S k). rewrite Nat2Z.inj_succ, Z.mul_succ_l.
        replace (time + (Z.of_nat k * I + I))%Z with (time + I + Z.of_nat k * I)%Z by lia.
        split_and!; [lia|done|done].
    + intros ([|k] & Hk & Hle & Hm); [left; by rewrite Z.add_0_r in Hm|right].
      exists k. rewrite Nat2Z.inj_succ, Z.mul_succ_l in Hle, Hm.
      replace (time + (Z.of_nat k * I + I))%Z with (time + I + Z.of_nat k * I)%Z in Hle, Hm by lia.
      split_and!; [lia|done|done].
  - split; [set_solver|]. intros (k & _ & Hle & _). apply Qle_bool_false in E. exfalso.
    apply (Qlt_not_le _ _ E). eapply Qle_trans; [|exact Hle]. apply inject_Z_le_mono. nia.
Qed.

(** [markerFuel] iterations are enough: every time within the visible
    end is reached. *)
Lemma markerFuel_enough I time visibleEnd (k : nat) :
  (0 < I)%Z -> inject_Z (time + Z.of_nat k * I) <= visibleEnd -> (k < markerFuel time I visibleEnd)%nat.
Proof.
  intros HI Hle. unfold markerFuel.
  assert (Hk : inject_Z (Z.of_nat k) <= (visibleEnd - inject_Z time) / inject_Z I).
  { apply Qle_shift_div_l; [change 0 with (inject_Z 0); by rewrite <- Zlt_Qlt|].
    rewrite <- inject_Z_mult. revert Hle. rewrite inject_Z_plus, inject_Z_mult. lra. }
  apply Qfloor_resp_le in Hk. rewrite Qfloor_Z in Hk. lia.
Qed.

Lemma markerLoop_enough I M lf visibleEnd time fuel m :
  (0 < I)%Z -> (markerFuel time I visibleEnd <= fuel)%nat ->
  m ∈ markerLoop tzOffset format v width_ I M lf visibleEnd fuel time <->
  m ∈ markerLoop tzOffset format v width_ I M lf visibleEnd (markerFuel time I visibleEnd) time.
Proof.
  intros HI Hf. rewrite !markerLoop_elem by done. split.
  - intros (k & _ & Hle & Hm). exists k. split_and!; [by apply markerFuel_enough|done|done].
  - intros (k & Hk & Hle & Hm). exists k. split_and!; [lia|done|done].
Qed.

(** What [markerAt] keeps. *)
Lemma markerAt_spec M lf time m :
  markerAt tzOffset format v width_ M lf time = Some m <->
  -100 <= axisX v time <= width_ + 100 /\ marker_time m = time /\ marker_x m = axisX v time /\
  m = mkTimeMarker time (marker_label m) (isMajor m) (axisX v time) /\
  isMajor m = bool_decide (Z.rem time M = 0%Z) ||
              (bool_decide (zoomLevel v = day) && bool_decide (getHours tzOffset time = 0%Z)) /\
  marker_label m = if bool_decide (zoomLevel v = hour) || bool_decide (zoomLevel v = day) then
                     (if bool_decide (getHours tzOffset time = 0%Z) then format time "MMM d"
                      else format time lf)
                   else format time lf.
Proof.
  unfold markerAt. destruct (Qlt_bool (axisX v time) (-100)) eqn:E1;
    destruct (Qlt_bool (width_ + 100) (axisX v time)) eqn:E2; simpl.
  all: try (apply Qlt_bool_iff in E1); try (apply Qlt_bool_iff in E2).
  all: try (apply Qlt_bool_false in E1); try (apply Qlt_bool_false in E2).
  1-3: split; [done|]; intros ([? ?] & _); lra.
  split; [intros [= <-]; simpl; split_and!; done|].
  intros (_ & _ & _ & Hm & Hmaj & Hlab). rewrite Hm, Hmaj, Hlab. done.
Qed.

(** [Math.floor(q / I) * I <= t] for a multiple [t] of [I]: the first
    marker is the last multiple at or before the visible start. *)
Lemma floor_mul_le_iff (q : Q) (I t : Z) :
  (0 < I)%Z -> (t mod I = 0)%Z ->
  ((Qfloor (q / inject_Z I) * I <= t)%Z <-> q - inject_Z I < inject_Z t).
Proof.
  intros HI Ht. apply Z.mod_divide in Ht as [j ->]; [|lia].
  assert (HIq : 0 < inject_Z I) by (change 0 with (inject_Z 0); by rewrite <- Zlt_Qlt).
  rewrite <- Z.mul_le_mono_pos_r by done.
  assert (E : q - inject_Z I < inject_Z (j * I) <-> q / inject_Z I < inject_Z (j + 1)).
  { rewrite inject_Z_plus, inject_Z_mult. split; intros H.
    - apply Qlt_shift_div_r; [done|]. clear HIq. qlra.
    - assert (H' : q / inject_Z I * inject_Z I < (inject_Z j + inject_Z 1) * inject_Z I)
        by (apply Qmult_lt_r; done).
      assert (Hnz : ~ inject_Z I == 0) by (intros E; rewrite E in HIq; discriminate).
      setoid_replace (q / inject_Z I * inject_Z I) with q using relation Qeq in H' by (field; done).
      clear HIq Hnz. qlra. }
  rewrite E. pose proof (Qfloor_le (q / inject_Z I)) as Hfl. pose proof (Qlt_floor (q / inject_Z I)) as Hfu.
  split; intros Hc.
  - eapply Qlt_le_trans; [exact Hfu|]. rewrite <- Zle_Qle. lia.
  - assert (Hf : (Qfloor (q / inject_Z I) < j + 1)%Z) by (rewrite Zlt_Qlt; eapply Qle_lt_trans; eauto).
    lia.
Qed.

(** The markers of a loop from the first multiple of [I] at or before
    the visible start: the multiples of [I] from there to the visible
    end, within 100 pixels of the axis. *)
Lemma markerLoop_times I M lf (vs ve : Q) (t : Z) :
  (0 < I)%Z ->
  let st := (Qfloor (vs / inject_Z I) * I)%Z in
  (exists m, m ∈ markerLoop tzOffset format v width_ I M lf ve (markerFuel st I ve) st /\ marker_time m = t)
  <-> ((t mod I = 0)%Z /\ vs - inject_Z I < inject_Z t /\ inject_Z t <= ve /\
       -100 <= axisX v t <= width_ + 100).
Proof.
  intros HI st. split.
  - intros (m & Hm & <-). apply markerLoop_elem in Hm as (k & _ & Hle & Hm); [|done].
    apply markerAt_spec in Hm as (Hb & Ht & _). rewrite Ht.
    assert (Hmod : ((st + Z.of_nat k * I) mod I = 0)%Z).
    { subst st. rewrite <- Z.mul_add_distr_r. apply Z.mod_mul. lia. }
    split_and!; [done| |done|apply Hb|apply Hb].
    apply floor_mul_le_iff; [done|done|]. fold st. nia.
  - intros (Hmod & Hlo & Hhi & Hb).
    assert (Hst : (st <= t)%Z) by (by apply floor_mul_le_iff).
    assert (Hstm : (st mod I = 0)%Z) by (subst st; apply Z.mod_mul; lia).
    apply Z.mod_divide in Hmod as [j Hj]; [|lia]. apply Z.mod_divide in Hstm as [i Hi]; [|lia].
    set (k := Z.to_nat (j - i)).
    assert (Hk : (st + Z.of_nat k * I = t)%Z) by (subst k; rewrite Z2Nat.id; nia).
    destruct (markerAt tzOffset format v width_ M lf t) as [m|] eqn:Hm.
    2: { unfold markerAt in Hm.
         rewrite (proj2 (Qlt_bool_false _ _)), (proj2 (Qlt_bool_false _ _)) in Hm by lra. discriminate. }
    exists m. split; [|by apply markerAt_spec in Hm as (_ & -> & _)].
    rewrite markerLoop_elem by done. exists k. rewrite Hk.
    split_and!; [apply markerFuel_enough; [done|by rewrite Hk]|done|done].
Qed.

End TimelineProofs.

(** The interval between markers, in ms, at each zoom level. *)
Definition markerInterval (z : ZoomLevel) : Z := ((markerConfig z).1.1 * 3600000)%Z.

Lemma markerConfig_pos z : (0 < (markerConfig z).1.1 * 3600000)%Z.
Proof. destruct z; simpl; lia. Qed.

(** Each marker is the one [markerAt] makes of its time, a multiple of
    the interval. *)
Lemma markers_at tzOffset format v width_ m :
  m ∈ markers tzOffset format v width_ ->
  markerAt tzOffset format v width_ ((markerConfig (zoomLevel v)).1.2 * 3600000)
           (markerConfig (zoomLevel v)).2 (marker_time m) = Some m /\
  (marker_time m mod markerInterval (zoomLevel v) = 0)%Z.
Proof.
  unfold markers, markerInterval. pose proof (markerConfig_pos (zoomLevel v)) as HI.
  destruct (markerConfig (zoomLevel v)) as [[ih mh] lf]; cbn [fst snd] in *.
  intros Hm. apply markerLoop_elem in Hm as (k & _ & _ & Hm); [|done].
  pose proof Hm as Hm'. apply markerAt_spec in Hm' as (_ & Ht & _). rewrite Ht.
  split; [done|]. rewrite <- Z.mul_add_distr_r. apply Z.mod_mul. lia.
Qed.

(** A multiple of 6 hours, in a time zone whose offset is 1 to 5 hours
    modulo 6, is not in the local hour 0. *)
Lemma getHours_six_hour_grid tzOffset t :
  (t mod 21600000 = 0)%Z -> (3600000 <= tzOffset mod 21600000)%Z -> getHours tzOffset t <> 0%Z.
Proof.
  intros Ht Hz. unfold getHours. intros H0.
  assert (Hr : (((t + tzOffset) mod 86400000) mod 21600000 = tzOffset mod 21600000)%Z).
  { rewrite Z.mod_mod_divide by (exists 4%Z; lia).
    rewrite Z.add_mod, Ht by lia. simpl. apply Z.mod_mod. lia. }
  pose proof (Z.mod_pos_bound (t + tzOffset) 86400000 ltac:(lia)).
  pose proof (Z.mod_le ((t + tzOffset) mod 86400000) 21600000 ltac:(lia) ltac:(lia)).
  assert (((t + tzOffset) mod 86400000 < 3600000)%Z) by (apply Z.div_small_iff in H0; lia).
  lia.
Qed.

(** (C16) The time axis's markers are exactly the multiples of the zoom
    level's interval that lie after the visible start less one interval
    and up to the visible end, and within 100 pixels of the axis; each is
    drawn at the viewport's [timeToX] of its time. *)
Theorem markers_spec tzOffset format v width_ t :
  ((exists m, m ∈ markers tzOffset format v width_ /\ marker_time m = t) <->
   ((t mod markerInterval (zoomLevel v) = 0)%Z /\
    visibleStartTime v - inject_Z (markerInterval (zoomLevel v)) < inject_Z t /\
    inject_Z t <= visibleEndTime v width_ /\ -100 <= axisX v t <= width_ + 100)) /\
  (forall m, m ∈ markers tzOffset format v width_ -> marker_x m = timeToX v (inject_Z (marker_time m))).
Proof.
  split.
  - unfold markers, markerInterval. pose proof (markerConfig_pos (zoomLevel v)) as HI.
    destruct (markerConfig (zoomLevel v)) as [[ih mh] lf]; cbn [fst snd] in *. by apply markerLoop_times.
  - intros m Hm. apply markers_at in Hm as [Hm _]. by apply markerAt_spec in Hm as (_ & _ & -> & _).
Qed.

(** The markers are counted from the epoch in UTC, not from local
    midnight: at the day zoom, in a time zone whose offset is 1 to 5
    hours modulo 6 (UTC+1, for one), no marker falls in the local hour 0,
    so none gets the date label, every label is the time of day, and the
    major markers are the UTC midnights (local 01:00 at UTC+1). *)
Theorem day_markers_utc_grid tzOffset format v width_ m :
  zoomLevel v = day -> (3600000 <= tzOffset mod 21600000)%Z ->
  m ∈ markers tzOffset format v width_ ->
  getHours tzOffset (marker_time m) <> 0%Z /\ marker_label m = format (marker_time m) "HH:mm" /\
  (isMajor m = true <-> (marker_time m mod 86400000 = 0)%Z).
Proof.
  intros Hz Htz Hm. apply markers_at in Hm as [Hm Hmod]. rewrite Hz in Hm, Hmod. simpl in Hm, Hmod.
  assert (Hh : getHours tzOffset (marker_time m) <> 0%Z) by (by apply getHours_six_hour_grid).
  apply markerAt_spec in Hm as (_ & _ & _ & _ & Hmaj & Hlab). rewrite Hz in Hmaj, Hlab.
  rewrite (bool_decide_eq_false_2 (getHours tzOffset (marker_time m) = 0%Z)) in Hmaj, Hlab by done.
  cbn in Hlab. rewrite andb_false_r in Hmaj.
  split_and!; [done|done|]. rewrite Hmaj, orb_false_r, bool_decide_eq_true.
  apply Z.rem_mod_eq_0. lia.
Qed.

(** The day loop's fuel: one iteration per day to the end day, and one
    more for the final test. *)
Lemma dayLoop_enough v width_ endDay fuel cur :
  ((endDay - cur) mod 86400000 = 0)%Z -> (Z.to_nat ((endDay - cur) / 86400000) < fuel)%nat ->
  dayLoop v width_ endDay fuel cur = dayLoop v width_ endDay (S fuel) cur.
Proof.
  revert cur. induction fuel as [|fuel IH]; intros cur Hm Hf; [lia|].
  cbn [dayLoop]. destruct (cur <? endDay)%Z eqn:E; [|done]. f_equal.
  apply Z.ltb_lt in E. unfold addDay.
  pose proof (Z.div_mod (endDay - cur) 86400000 ltac:(lia)) as Hd. rewrite Hm in Hd.
  apply IH; replace (endDay - (cur + 86400000))%Z with ((endDay - cur) + (-1) * 86400000)%Z by lia;
    [rewrite Z.mod_add; lia|]. rewrite Z.div_add by lia. lia.
Qed.

(** The day headers are local midnights, each starting within the axis. *)
Lemma dayLoop_spec tzOffset v width_ endDay fuel cur h :
  ((cur + tzOffset) mod 86400000 = 0)%Z -> h ∈ dayLoop v width_ endDay fuel cur ->
  ((header_date h + tzOffset) mod 86400000 = 0)%Z /\ 0 <= header_x h /\
  header_x h = Qmax 0 (axisX v (header_date h)) /\ axisX v (header_date h) < width_.
Proof.
  revert cur. induction fuel as [|fuel IH]; intros cur Hc; cbn [dayLoop]; [set_solver|].
  destruct (cur <? endDay)%Z; [|set_solver]. rewrite elem_of_app. intros [Hh|Hh].
  - destruct (Qlt_bool 0 _ && Qlt_bool (axisX v cur) width_) eqn:E; [|set_solver].
    apply andb_true_iff in E as [_ E]. apply Qlt_bool_iff in E.
    apply list_elem_of_singleton in Hh as ->. simpl. split_and!; [done|apply Q.le_max_l|done|done].
  - apply (IH (addDay cur)); [|done]. unfold addDay.
    rewrite Z.add_comm, Z.add_assoc, Z.add_mod, Z.mod_same, Z.add_0_r by lia.
    rewrite Z.add_comm, Z.mod_mod by lia. done.
Qed.

(** Each day header of the loop: the day's x within the axis, its box
    as the code computes it. *)
Lemma dayLoop_box v width_ endDay fuel cur h :
  h ∈ dayLoop v width_ endDay fuel cur ->
  let x := axisX v (header_date h) in
  let dayWidth := 24 * pixelsPerHour v in
  0 < x + dayWidth /\ x < width_ /\ header_x h = Qmax 0 x /\
  header_width h = Qmin (Qmin dayWidth (width_ - x)) (if Qlt_bool x 0 then dayWidth + x else dayWidth).
Proof.
  revert cur. induction fuel as [|fuel IH]; intros cur; cbn [dayLoop]; [set_solver|].
  destruct (cur <? endDay)%Z; [|set_solver]. rewrite elem_of_app. intros [Hh|Hh]; [|by apply (IH (addDay cur))].
  destruct (Qlt_bool 0 _ && Qlt_bool (axisX v cur) width_) eqn:E; [|set_solver].
  apply andb_true_iff in E as [E1 E2]. apply Qlt_bool_iff in E1, E2.
  apply list_elem_of_singleton in Hh as ->. done.
Qed.

(** The right edge of a header box, [max(0, x)] plus its width. *)
Lemma header_right_edge (x dayWidth w : Q) :
  Qmax 0 x + Qmin (Qmin dayWidth (w - x)) (if Qlt_bool x 0 then dayWidth + x else dayWidth) ==
  Qmin (w - Qmin 0 x) (x + dayWidth).
Proof.
  destruct (Qlt_bool x 0) eqn:E; [apply Qlt_bool_iff in E|].
  2: assert (0 <= x) by (apply Qnot_lt_le; intros H%Qlt_bool_iff; congruence).
  all: destruct (Q.max_spec 0 x) as [[? ->]|[? ->]], (Q.min_spec 0 x) as [[? ->]|[? ->]],
         (Q.min_spec dayWidth (w - x)) as [[? ->]|[? ->]].
  all: try match goal with |- context [Qmin ?a ?b] =>
         destruct (Q.min_spec a b) as [[? ->]|[? ->]] end.
  all: try match goal with |- context [Qmin ?a ?b] =>
         destruct (Q.min_spec a b) as [[? ->]|[? ->]] end.
  all: lra.
Qed.

(** At the week zoom the markers are the UTC midnights, and the major
    ones those a whole number of weeks after 1970-01-01, a Thursday. *)
Lemma week_major_markers tzOffset format v width_ m :
  zoomLevel v = week -> m ∈ markers tzOffset format v width_ ->
  (marker_time m mod 86400000 = 0)%Z /\
  (isMajor m = true <-> ((marker_time m / 86400000) mod 7 = 0)%Z).
Proof.
  intros Hz Hm. apply markers_at in Hm as [Hm Hmod]. rewrite Hz in Hm, Hmod. simpl in Hm, Hmod.
  split; [done|]. apply markerAt_spec in Hm as (_ & _ & _ & _ & Hmaj & _). rewrite Hz in Hmaj.
  rewrite (bool_decide_eq_false_2 (week = day)) in Hmaj by discriminate.
  rewrite andb_false_l, orb_false_r in Hmaj. rewrite Hmaj, bool_decide_eq_true, Z.rem_mod_eq_0 by lia.
  unfold markerInterval in Hmod; cbn in Hmod.
  apply Z.mod_divide in Hmod as [j ->]; [|lia]. rewrite Z.div_mul by lia.
  replace (24 * 7 * 3600000)%Z with (86400000 * 7)%Z by lia.
  rewrite (Z.mul_comm j), Z.mul_mod_distr_l by lia. lia.
Qed.

(** (C17) A day header starts at the visible start of its day,
    [max(0, x)], and ends at [min(width - min(0, x), x + dayWidth)]: the
    visible end of the day, [min(width, x + dayWidth)], when the day
    starts in view or ends in view, but past the timeline's right edge
    when the day starts before the view and ends after it, because the
    width is clipped by [width - x] with [x < 0]. *)
Theorem dayHeaders_box tzOffset v width_ h :
  h ∈ dayHeaders tzOffset v width_ ->
  let x := axisX v (header_date h) in
  let dayWidth := 24 * pixelsPerHour v in
  header_x h == Qmax 0 x /\
  header_x h + header_width h == Qmin (width_ - Qmin 0 x) (x + dayWidth) /\
  (x < 0 -> width_ < x + dayWidth -> width_ < header_x h + header_width h).
Proof.
  unfold dayHeaders. case_match; [set_solver|]. intros Hh%dayLoop_box. cbv zeta in *.
  set (x := axisX v (header_date h)) in *. set (dayWidth := 24 * pixelsPerHour v) in *.
  destruct Hh as (_ & _ & Hx & Hw). rewrite Hw, Hx.
  pose proof (header_right_edge x dayWidth width_) as He. split_and!; [done|done|].
  intros Hneg Hend. rewrite He.
  destruct (Q.min_spec 0 x) as [[? _]|[_ ->]]; [lra|].
  destruct (Q.min_spec (width_ - x) (x + dayWidth)) as [[? ->]|[? ->]]; lra.
Qed.

(** At the hour zoom, 120 pixels an hour, on an 800-pixel axis scrolled
    900 pixels into the first day. *)
Definition timeline_hour_viewport : ViewportState := mkViewport 900 0 120 0 40 800 50 hour.

Lemma dayHeaders_box_witness :
  let h := hd (mkDayHeader 0 0 0) (dayHeaders 0 timeline_hour_viewport 800) in
  h ∈ dayHeaders 0 timeline_hour_viewport 800 /\
  axisX timeline_hour_viewport (header_date h) < 0 /\
  800 < axisX timeline_hour_viewport (header_date h) + 24 * pixelsPerHour timeline_hour_viewport /\
  800 < header_x h + header_width h.
Proof.
  intros h.
  assert (Hh : h ∈ dayHeaders 0 timeline_hour_viewport 800)
    by (apply list_elem_of_In; vm_compute; left; reflexivity).
  assert (Hx : axisX timeline_hour_viewport (header_date h) < 0) by (vm_compute; reflexivity).
  assert (He : 800 < axisX timeline_hour_viewport (header_date h) + 24 * pixelsPerHour timeline_hour_viewport)
    by (vm_compute; reflexivity).
  split_and!; [exact Hh|exact Hx|exact He|].
  exact (proj2 (proj2 (dayHeaders_box 0 timeline_hour_viewport 800 h Hh)) Hx He).
Defined.

(** There the day's header is 1700 pixels wide from 0, so its centred
    label is at 850, outside the 800-pixel timeline, while the day
    covers the whole view. *)
Example dayHeader_label_outside :
  map (fun h => Qred (header_x h + header_width h / 2)) (dayHeaders 0 timeline_hour_viewport 800) = [850] /\
  800 < 850.
Proof. split; [vm_compute|]; reflexivity. Qed.

(** ** Examples *)

(** An 800-pixel axis at the day zoom from the epoch, ten pixels an hour;
    [format] gives back its pattern. *)
Definition timeline_example_viewport : ViewportState := mkViewport 0 0 10 0 40 800 400 day.
Definition patternFormat (_ : Z) (pattern : string) : string := pattern.

Lemma day_markers_utc_grid_witness :
  let m := hd (mkTimeMarker 0 "" false 0) (markers 3600000 patternFormat timeline_example_viewport 800) in
  zoomLevel timeline_example_viewport = day /\ (3600000 <= 3600000 mod 21600000)%Z /\
  m ∈ markers 3600000 patternFormat timeline_example_viewport 800 /\
  (getHours 3600000 (marker_time m) <> 0%Z /\ marker_label m = patternFormat (marker_time m) "HH:mm" /\
   (isMajor m = true <-> (marker_time m mod 86400000 = 0)%Z)).
Proof.
  intros m.
  assert (Hm : m ∈ markers 3600000 patternFormat timeline_example_viewport 800)
    by (apply list_elem_of_In; vm_compute; left; reflexivity).
  split_and!; [reflexivity|vm_compute; discriminate|exact Hm|..];
    apply (day_markers_utc_grid 3600000 patternFormat timeline_example_viewport 800 m);
    first [reflexivity | vm_compute; discriminate | exact Hm].
Defined.

(** At UTC+1 the day zoom's markers are at local 01:00, 07:00, 13:00 and
    19:00, all labelled with the time of day, and the local 01:00 ones
    are the major ones. *)
Example utc_plus_one_day_axis :
  map (fun m => (getHours 3600000 (marker_time m), marker_label m, isMajor m))
      (take 5 (markers 3600000 patternFormat timeline_example_viewport 800)) =
  [(1%Z, "HH:mm", true); (7%Z, "HH:mm", false); (13%Z, "HH:mm", false); (19%Z, "HH:mm", false);
   (1%Z, "HH:mm", true)].
Proof. vm_compute. reflexivity. Qed.
