(* ===== verification/Grid.v ===== *)
(** * Grid: the grid layer of the canvas
    (src/unnamed/part_007, renderers/grid-renderer.ts)

    [GridRenderer.render] paints the bottom canvas of the chart: the
    background, one stripe per visible row, the vertical lines of the
    time grid, the highlight of the current day with the line of the
    current time, and the horizontal separators of the rows.  Its colours
    come from [getGridColors] (ThemeColors.v), so the renderer runs in
    the colour cache's state monad; the drawing is the list of canvas
    calls (Canvas.v).  The renderer's fields are those of Renderers.v,
    [Date.now()] is the parameter [now], local time is Timeline.v's fixed
    offset [tzOffset].

    The theorems: the vertical lines are drawn at the times
    [floor(visibleStart / 1h) * 1h + k * minor], so their phase follows
    the scroll position (one hour of scrolling moves every line of the
    day, week and month grids); a line is major when its local hour is a
    multiple of [major / minor], which at the day zoom makes every 4th
    hour, noon included, a major hour; the highlight of the current day
    stays within the canvas and around the line of the current time. *)

From S2P Require Import Prelude Types Viewport RowLayout Canvas ThemeColors Renderers Timeline.

Open Scope Q_scope.

(** [GRID_INTERVALS]: the minor and the major interval in hours. *)
Definition GRID_INTERVALS (z : ZoomLevel) : Z * Z :=
  match z with
  | hour => (1, 6)
  | day => (6, 24)
  | week => (24, 168)
  | month => (168, 720)
  end%Z.

(** JavaScript's [%] on numbers: the remainder of the division truncated
    toward zero. *)
Definition js_rem (a b : Q) : Q := a - b * inject_Z (js_trunc (a / b)).

(** The times of [for (let time = start; time <= bound; time += step)],
    on fuel. *)
Fixpoint forTimes (bound : Q) (step : Z) (fuel : nat) (time : Z) : list Z :=
  match fuel with
  | O => []
  | S fuel' =>
      if Qle_bool (inject_Z time) bound then time :: forTimes bound step fuel' (time + step)
      else []
  end.

Module GridRenderer.
Section Grid.
Variable tzOffset : Z.
Variable r : Renderer.

(** One iteration of [renderRowBackgrounds]: the stripe of the [i]-th
    visible row, none for a row [continue] skips. *)
Definition rowBackground (v : ViewportState) (hoveredRowId : option string) (COLORS : GridColors)
    (i : nat) (row : VirtualRow) : list CanvasOp :=
  let y := virtualY row - scrollY v in
  if Qlt_bool (y + row_height row) 0 || Qlt_bool (rd_height r) y then [] else
  let bgColor := if bool_decide (Some (row_id row) = hoveredRowId) then rowHover COLORS
                 else if isGroupHeader row then groupHeader COLORS
                 else if Nat.even i then rowEven COLORS else rowOdd COLORS in
  [OpSetFillStyle bgColor; OpFillRect 0 y (rd_width r) (row_height row)].

(** [renderRowBackgrounds]: [i] indexes [visibleRows]. *)
Definition renderRowBackgrounds (v : ViewportState) (visibleRows : list VirtualRow)
    (hoveredRowId : option string) (COLORS : GridColors) : list CanvasOp :=
  mjoin (imap (rowBackground v hoveredRowId COLORS) visibleRows).

(** [isMajor = hourOfDay % (intervals.major / (intervals.minor || 1)) === 0] *)
Definition gridIsMajor (minor major hourOfDay : Z) : bool :=
  Qeq_bool (js_rem (inject_Z hourOfDay) (inject_Z major / inject_Z (if Z.eqb minor 0 then 1 else minor))) 0.

(** One iteration of the loop of [renderTimeGrid]. *)
Definition gridLineAt (v : ViewportState) (COLORS : GridColors) (minor major : Z) (time : Z)
    : list CanvasOp :=
  let x := axisX v time in
  if Qlt_bool x 0 || Qlt_bool (rd_width r) x then [] else
  let hourOfDay := getHours tzOffset time in
  let isMajor_ := gridIsMajor minor major hourOfDay in
  [OpSetStrokeStyle (if isMajor_ then gridLineMajor COLORS else gridLine COLORS);
   OpSetLineWidth (if isMajor_ then 1 else 1 # 2);
   OpBeginPath; OpMoveTo x 0; OpLineTo x (rd_height r); OpStroke].

(** [startTime = Math.floor(visibleStartTime / 3600000) * 3600000] *)
Definition gridStartTime (v : ViewportState) : Z :=
  (Qfloor (visibleStartTime v / 3600000) * 3600000)%Z.

(** [renderTimeGrid]; [markerFuel] iterations are enough for the loop. *)
Definition renderTimeGrid (v : ViewportState) (COLORS : GridColors) : list CanvasOp :=
  let '(minor, major) := GRID_INTERVALS (zoomLevel v) in
  let startTime := gridStartTime v in
  let visibleEnd := visibleEndTime v (rd_width r) in
  let stepMs := (minor * 3600000)%Z in
  [OpSetStrokeStyle (gridLine COLORS); OpSetLineWidth (1 # 2)] ++
  flat_map (gridLineAt v COLORS minor major)
    (forTimes visibleEnd stepMs (markerFuel startTime stepMs visibleEnd) startTime).

(** [renderTodayMarker] *)
Definition renderTodayMarker (v : ViewportState) (COLORS : GridColors) (now : Z) : list CanvasOp :=
  let x := axisX v now in
  if Qlt_bool x 0 || Qlt_bool (rd_width r) x then [] else
  let startOfTodayTime := startOfDay tzOffset now in
  let endOfTodayTime := (startOfTodayTime + 24 * 3600000)%Z in
  let todayStartX := axisX v startOfTodayTime in
  let todayEndX := axisX v endOfTodayTime in
  [OpSetFillStyle (todayBackground COLORS);
   OpFillRect (Qmax 0 todayStartX) 0 (Qmin (rd_width r) todayEndX - Qmax 0 todayStartX) (rd_height r);
   OpSetStrokeStyle (todayLine COLORS); OpSetLineWidth 2;
   OpBeginPath; OpMoveTo x 0; OpLineTo x (rd_height r); OpStroke].

(** One iteration of [renderRowSeparators]. *)
Definition rowSeparator (v : ViewportState) (row : VirtualRow) : list CanvasOp :=
  let y := virtualY row + row_height row - scrollY v in
  if Qlt_bool y 0 || Qlt_bool (rd_height r) y then [] else
  [OpBeginPath; OpMoveTo 0 y; OpLineTo (rd_width r) y; OpStroke].

(** [renderRowSeparators] *)
Definition renderRowSeparators (v : ViewportState) (visibleRows : list VirtualRow) (COLORS : GridColors)
    : list CanvasOp :=
  [OpSetStrokeStyle (gridLine COLORS); OpSetLineWidth (1 # 2)] ++ flat_map (rowSeparator v) visibleRows.

(** [render]: nothing without a context; otherwise the colours are read
    through the cache and the layer is drawn. *)
Definition render (doc : option Document) (v : ViewportState) (visibleRows : list VirtualRow)
    (hoveredRowId : option string) (now : Z) : St ThemeCache (list CanvasOp) :=
  if negb (hasContext r) then mret [] else
  COLORS ← getGridColors doc;
  mret (clearCanvas (rd_width r) (rd_height r) ++
        [OpSetFillStyle (gc_background COLORS); OpFillRect 0 0 (rd_width r) (rd_height r)] ++
        renderRowBackgrounds v visibleRows hoveredRowId COLORS ++
        renderTimeGrid v COLORS ++
        renderTodayMarker v COLORS now ++
        renderRowSeparators v visibleRows COLORS).

End Grid.

(** [getGridRenderer]: the module's singleton, created on first use. *)
Definition getGridRenderer : St (option Renderer) Renderer :=
  inst ← st_get;
  match inst with
  | Some g => mret g
  | None => _ ← st_put (Some newRenderer); mret newRenderer
  end.

End GridRenderer.

(** ** The loop of the time grid *)

Lemma forTimes_elem bound step fuel time t :
  (0 < step)%Z ->
  t ∈ forTimes bound step fuel time <->
  exists k : nat, (k < fuel)%nat /\ t = (time + Z.of_nat k * step)%Z /\ inject_Z t <= bound.
Proof.
  intros Hs. revert time. induction fuel as [|fuel IH]; intros time; cbn [forTimes].
  { split; [set_solver|intros (k & Hk & _); lia]. }
  qbool_case.
  - rewrite elem_of_cons, IH. split.
    + intros [-> | (k & Hk & -> & Hle)].
      * exists 0%nat. split_and!; [lia|lia|done].
      * exists (S k). split_and!; [lia|lia|]. by replace (time + Z.of_nat (S k) * step)%Z
          with (time + step + Z.of_nat k * step)%Z by lia.
    + intros ([|k] & Hk & -> & Hle); [left; lia|right].
      exists k. split_and!; [lia|lia|]. by replace (time + step + Z.of_nat k * step)%Z
          with (time + Z.of_nat (S k) * step)%Z by lia.
  - split; [set_solver|]. intros (k & _ & -> & Hle). exfalso.
    apply (Qlt_not_le _ _ E). eapply Qle_trans; [|exact Hle]. apply inject_Z_le_mono. nia.
Qed.

(** With [markerFuel] iterations the loop reaches every step up to the
    bound. *)
Lemma forTimes_full bound step time t :
  (0 < step)%Z ->
  t ∈ forTimes bound step (markerFuel time step bound) time <->
  exists k : nat, t = (time + Z.of_nat k * step)%Z /\ inject_Z t <= bound.
Proof.
  intros Hs. rewrite forTimes_elem by done. split.
  - intros (k & _ & Ht & Hle). eauto.
  - intros (k & -> & Hle). exists k. split_and!; [by apply markerFuel_enough|done|done].
Qed.

Lemma GRID_INTERVALS_minor_pos z : (0 < (GRID_INTERVALS z).1)%Z.
Proof. by destruct z. Qed.

(** The x of the axis is affine in the time, increasing for a positive
    zoom. *)
Lemma axisX_diff v a b :
  axisX v b - axisX v a == inject_Z (b - a) * (pixelsPerHour v / 3600000).
Proof. unfold axisX, Z.sub. rewrite inject_Z_plus, inject_Z_opp. field. Qed.

Lemma axisX_le v a b : 0 < pixelsPerHour v -> (a <= b)%Z -> axisX v a <= axisX v b.
Proof.
  intros Hp Hab. pose proof (axisX_diff v a b) as E.
  assert (0 <= inject_Z (b - a)) by (change 0 with (inject_Z 0); rewrite <- Zle_Qle; lia).
  assert (0 < pixelsPerHour v / 3600000) by (apply Qlt_shift_div_l; lra).
  nra.
Qed.

Lemma axisX_inj v a b : 0 < pixelsPerHour v -> axisX v a = axisX v b -> a = b.
Proof.
  intros Hp E.
  destruct (Z.lt_total a b) as [H|[H|H]]; [|done|]; exfalso.
  - pose proof (axisX_diff v a b) as D. rewrite E in D.
    assert (0 < inject_Z (b - a)) by (change 0 with (inject_Z 0); rewrite <- Zlt_Qlt; lia).
    assert (0 < pixelsPerHour v / 3600000) by (apply Qlt_shift_div_l; lra). nra.
  - pose proof (axisX_diff v b a) as D. rewrite E in D.
    assert (0 < inject_Z (a - b)) by (change 0 with (inject_Z 0); rewrite <- Zlt_Qlt; lia).
    assert (0 < pixelsPerHour v / 3600000) by (apply Qlt_shift_div_l; lra). nra.
Qed.

(** The local hour is an hour of the day; the local day starts at most a
    day before the time. *)
Lemma getHours_range tzOffset t : (0 <= getHours tzOffset t < 24)%Z.
Proof.
  unfold getHours. pose proof (Z.mod_pos_bound (t + tzOffset) 86400000 ltac:(lia)).
  split; [apply Z.div_pos; lia|]. apply Z.div_lt_upper_bound; lia.
Qed.

Lemma startOfDay_bounds tzOffset t :
  (startOfDay tzOffset t <= t < startOfDay tzOffset t + 86400000)%Z.
Proof. unfold startOfDay. pose proof (Z.mod_pos_bound (t + tzOffset) 86400000 ltac:(lia)). lia. Qed.

(** The hours [gridIsMajor] accepts at each zoom level: the multiples of
    [major / minor], that is 6, 4 and 7 hours, and at the month zoom,
    where 720 / 168 is not an integer, only hour 0. *)
Definition majorHour (z : ZoomLevel) (h : Z) : bool :=
  match z with
  | hour => Z.eqb (h mod 6) 0
  | day => Z.eqb (h mod 4) 0
  | week => Z.eqb (h mod 7) 0
  | month => Z.eqb h 0
  end.

Lemma gridIsMajor_hours z h :
  (0 <= h < 24)%Z ->
  GridRenderer.gridIsMajor (GRID_INTERVALS z).1 (GRID_INTERVALS z).2 h = majorHour z h.
Proof.
  intros Hh.
  assert (Hall : forallb (fun h => Bool.eqb (GridRenderer.gridIsMajor (GRID_INTERVALS z).1
                                              (GRID_INTERVALS z).2 h) (majorHour z h))
                         (seqZ 0 24) = true) by (destruct z; vm_compute; reflexivity).
  rewrite forallb_forall in Hall. apply Bool.eqb_prop, Hall, list_elem_of_In, elem_of_seqZ. lia.
Qed.

(** Panning right by one hour's width moves the first grid line by one
    hour. *)
Lemma gridStartTime_pan_hour v :
  0 < pixelsPerHour v -> 0 <= scrollX v ->
  GridRenderer.gridStartTime (panViewport v (pixelsPerHour v) 0) = (GridRenderer.gridStartTime v + 3600000)%Z.
Proof.
  intros Hp Hs. unfold GridRenderer.gridStartTime.
  assert (E : visibleStartTime (panViewport v (pixelsPerHour v) 0) / 3600000 ==
              visibleStartTime v / 3600000 + inject_Z 1).
  { unfold visibleStartTime, panViewport; cbn [scrollX timeOrigin pixelsPerHour].
    rewrite Q.max_r by lra. field. intros Hz. rewrite Hz in Hp. discriminate. }
  rewrite (Qfloor_comp _ _ E), Qfloor_plus_Z. lia.
Qed.

Section GridProofs.
Variable tzOffset : Z.
Variable r : Renderer.
Variable v : ViewportState.
Variable COLORS : GridColors.

(** The lines of one iteration: one vertical line at the time's x, when
    it lies on the canvas. *)
Lemma gridLineAt_moveTo mi ma t x y :
  OpMoveTo x y ∈ GridRenderer.gridLineAt tzOffset r v COLORS mi ma t <->
  y = 0 /\ x = axisX v t /\ 0 <= x <= rd_width r.
Proof.
  unfold GridRenderer.gridLineAt. do 2 qbool_case; simpl.
  all: rewrite ?elem_of_nil, ?elem_of_cons, ?elem_of_nil.
  1-3: split; [done|]; intros (_ & -> & ?); lra.
  split; [intros [|[|[|[|[|[|[]]]]]]]; simplify_eq; split_and!; try done; lra|].
  intros (-> & -> & _). right; right; right; by left.
Qed.

(** The vertical lines of the time grid: [renderTimeGrid] draws a
    line at [x] exactly when [x] is on the canvas and is the x of a time
    [startTime + k * minor] (startTime the visible start floored to the
    hour, minor the zoom level's minor interval) up to the visible end. *)
Theorem renderTimeGrid_lines x y :
  OpMoveTo x y ∈ GridRenderer.renderTimeGrid tzOffset r v COLORS <->
  y = 0 /\ exists k : nat,
    let t := (GridRenderer.gridStartTime v + Z.of_nat k * ((GRID_INTERVALS (zoomLevel v)).1 * 3600000))%Z in
    inject_Z t <= visibleEndTime v (rd_width r) /\ x = axisX v t /\ 0 <= x <= rd_width r.
Proof.
  pose proof (GRID_INTERVALS_minor_pos (zoomLevel v)) as Hpos.
  unfold GridRenderer.renderTimeGrid. destruct (GRID_INTERVALS (zoomLevel v)) as [mi ma].
  simpl in Hpos. cbv beta iota zeta.
  rewrite elem_of_app, elem_of_flat_map. setoid_rewrite forTimes_full; [|lia].
  setoid_rewrite gridLineAt_moveTo. split.
  - intros [Hc | (t & (k & -> & Hle) & -> & -> & Hx)]; [set_solver|]. split; [done|]. by exists k.
  - intros (-> & k & Hle & -> & Hx). right. eexists. split; [eauto|]. done.
Qed.

End GridProofs.

(** (C18) The phase of the grid follows the scroll position: at the day,
    week and month zoom levels, after panning right by one hour's width
    no time that had a grid line has one, since the lines are counted
    from the visible start floored to the hour, not from multiples of the
    minor interval. *)
Theorem grid_lines_follow_scroll tzOffset r v COLORS t :
  zoomLevel v <> hour -> 0 < pixelsPerHour v -> 0 <= scrollX v ->
  OpMoveTo (axisX v t) 0 ∈ GridRenderer.renderTimeGrid tzOffset r v COLORS ->
  OpMoveTo (axisX (panViewport v (pixelsPerHour v) 0) t) 0
    ∉ GridRenderer.renderTimeGrid tzOffset r (panViewport v (pixelsPerHour v) 0) COLORS.
Proof.
  intros Hz Hp Hs H1 H2.
  apply (renderTimeGrid_lines tzOffset r v COLORS) in H1 as (_ & k1 & _ & Hx1 & _).
  apply (renderTimeGrid_lines tzOffset r _ COLORS) in H2 as (_ & k2 & _ & Hx2 & _).
  apply axisX_inj in Hx1, Hx2; [|done|done].
  rewrite gridStartTime_pan_hour in Hx2 by done. cbn [panViewport zoomLevel] in Hx2.
  destruct (zoomLevel v); [done| | |]; cbn in Hx1, Hx2; lia.
Qed.

(** (C19) The style of a grid line: a line on the canvas is drawn major
    (the major colour, width 1) exactly when its local hour is a multiple
    of [major / minor] hours: 6 at the hour zoom, 4 at the day zoom (so
    the 04:00, 08:00, 12:00 and 20:00 lines count as major, not only
    midnight), 7 at the week zoom, and at the month zoom hour 0 only. *)
Theorem gridLineAt_major tzOffset r v COLORS t :
  0 <= axisX v t <= rd_width r ->
  take 2 (GridRenderer.gridLineAt tzOffset r v COLORS (GRID_INTERVALS (zoomLevel v)).1
            (GRID_INTERVALS (zoomLevel v)).2 t) =
    [OpSetStrokeStyle (gridLineMajor COLORS); OpSetLineWidth 1] <->
  majorHour (zoomLevel v) (getHours tzOffset t) = true.
Proof.
  intros [H0 Hw]. unfold GridRenderer.gridLineAt.
  rewrite (proj2 (Qlt_bool_false _ _) H0), (proj2 (Qlt_bool_false _ _) Hw). cbn [orb take].
  rewrite gridIsMajor_hours by apply getHours_range.
  destruct (majorHour _ _); split; intros E; done.
Qed.

(** The highlight of the current day: when the line of the current
    time is drawn, the rectangle filled before it starts on the canvas,
    has a non-negative width, ends on the canvas and contains the line. *)
Theorem todayMarker_bounds tzOffset r v COLORS now c x0 y0 w0 h0 rest :
  0 < pixelsPerHour v ->
  GridRenderer.renderTodayMarker tzOffset r v COLORS now =
    OpSetFillStyle c :: OpFillRect x0 y0 w0 h0 :: rest ->
  0 <= x0 /\ 0 <= w0 /\ x0 + w0 <= rd_width r /\ x0 <= axisX v now <= x0 + w0.
Proof.
  intros Hp. unfold GridRenderer.renderTodayMarker. do 2 qbool_case; cbn [orb]; try discriminate.
  intros [= <- <- <- <- <- <-].
  pose proof (startOfDay_bounds tzOffset now) as [Hs1 Hs2].
  pose proof (axisX_le v _ _ Hp Hs1) as Ha.
  pose proof (axisX_le v now (startOfDay tzOffset now + 24 * 3600000) Hp ltac:(lia)) as Hb.
  set (a := axisX v (startOfDay tzOffset now)) in *.
  set (b := axisX v (startOfDay tzOffset now + 24 * 3600000)) in *.
  pose proof (Q.le_max_l 0 a). pose proof (Q.le_min_l (rd_width r) b).
  assert (Qmax 0 a <= axisX v now) by (apply Q.max_lub; lra).
  assert (axisX v now <= Qmin (rd_width r) b) by (apply Q.min_glb; lra).
  split_and!; lra.
Qed.

(** ** Examples *)

Definition grid_example_renderer : Renderer := mkRenderer true 800 400.
Definition grid_example_colors : GridColors :=
  mkGridColors "bg" "odd" "even" "hover" "line" "major" "today" "todaybg" "weekend" "text" "group".

Lemma grid_lines_follow_scroll_witness :
  zoomLevel timeline_example_viewport <> hour /\ 0 < pixelsPerHour timeline_example_viewport /\
  0 <= scrollX timeline_example_viewport /\
  OpMoveTo (axisX timeline_example_viewport 0) 0
    ∈ GridRenderer.renderTimeGrid 0 grid_example_renderer timeline_example_viewport grid_example_colors /\
  OpMoveTo (axisX (panViewport timeline_example_viewport (pixelsPerHour timeline_example_viewport) 0) 0) 0
    ∉ GridRenderer.renderTimeGrid 0 grid_example_renderer
        (panViewport timeline_example_viewport (pixelsPerHour timeline_example_viewport) 0) grid_example_colors.
Proof.
  assert (H : OpMoveTo (axisX timeline_example_viewport 0) 0
    ∈ GridRenderer.renderTimeGrid 0 grid_example_renderer timeline_example_viewport grid_example_colors).
  { apply renderTimeGrid_lines. split; [done|]. exists 0%nat. vm_compute.
    split_and!; try reflexivity; discriminate. }
  split_and!; [discriminate|reflexivity|discriminate|exact H|].
  apply grid_lines_follow_scroll; [discriminate|reflexivity|discriminate|exact H].
Defined.

(** At the day zoom, the line of local noon is drawn major. *)
Lemma gridLineAt_major_witness :
  0 <= axisX timeline_example_viewport (12 * 3600000) <= rd_width grid_example_renderer /\
  take 2 (GridRenderer.gridLineAt 0 grid_example_renderer timeline_example_viewport grid_example_colors
            (GRID_INTERVALS (zoomLevel timeline_example_viewport)).1
            (GRID_INTERVALS (zoomLevel timeline_example_viewport)).2 (12 * 3600000)) =
    [OpSetStrokeStyle "major"; OpSetLineWidth 1].
Proof.
  assert (H : 0 <= axisX timeline_example_viewport (12 * 3600000) <= rd_width grid_example_renderer)
    by (vm_compute; split; discriminate).
  split; [exact H|]. apply (gridLineAt_major 0 _ _ grid_example_colors); [exact H|].
  vm_compute. reflexivity.
Defined.

Lemma todayMarker_bounds_witness :
  exists x0 w0 rest,
    0 < pixelsPerHour timeline_example_viewport /\
    GridRenderer.renderTodayMarker 0 grid_example_renderer timeline_example_viewport grid_example_colors
      (12 * 3600000) = OpSetFillStyle "todaybg" :: OpFillRect x0 0 w0 400 :: rest /\
    (0 <= x0 /\ 0 <= w0 /\ x0 + w0 <= 800 /\
     x0 <= axisX timeline_example_viewport (12 * 3600000) <= x0 + w0).
Proof.
  eexists _, _, _.
  assert (Hp : 0 < pixelsPerHour timeline_example_viewport) by reflexivity.
  assert (E : GridRenderer.renderTodayMarker 0 grid_example_renderer timeline_example_viewport
                grid_example_colors (12 * 3600000) = OpSetFillStyle "todaybg" :: OpFillRect _ 0 _ 400 :: _)
    by (cbv; reflexivity).
  split_and!; [exact Hp|exact E|..];
    apply (todayMarker_bounds 0 grid_example_renderer timeline_example_viewport grid_example_colors _ _ _ _ _ _ _ Hp E).
Defined.

(** The rows of a layout of ten resource rows of 40 pixels. *)
Definition stripe_example_rows : list VirtualRow :=
  imap (fun i id => mkRow id (Some id) (inject_Z (40 * Z.of_nat i)) 40 false None None None)
       ["a"; "b"; "c"; "d"; "e"; "f"; "g"; "h"; "i"; "j"].

(** The stripe of a row depends on the scroll position: the sixth row is
    painted with the odd colour at [scrollY = 0] and with the even colour
    at [scrollY = 200], where the first row has left the visible slice. *)
Example row_stripe_follows_scroll :
  let v0 := timeline_example_viewport in
  let v1 := panViewport timeline_example_viewport 0 200 in
  let ops v := GridRenderer.renderRowBackgrounds grid_example_renderer v
                 (useComposableVisibleRows stripe_example_rows (scrollY v) 400 40) None grid_example_colors in
  ops v0 !! 10%nat = Some (OpSetFillStyle "odd") /\ ops v0 !! 11%nat = Some (OpFillRect 0 200 800 40) /\
  ops v1 !! 2%nat = Some (OpSetFillStyle "even") /\ ops v1 !! 3%nat = Some (OpFillRect 0 0 800 40).
Proof. vm_compute. split_and!; reflexivity. Qed.
