(* ===== verification/LegacyCanvas.v ===== *)
(** * LegacyCanvas: the canvas components of the split stores
    (src/unnamed/part_011, and the second component of src/unnamed/part_010)

    Two earlier versions of [GanttCanvas] read the legacy UI and data
    stores (LegacyStore.v) and take their rows as props.  Like the
    composable canvas (GanttCanvas.v) they wire the render scheduler, the
    index manager and the four renderers through effects, run at commit
    in the order they are written; they hand the legacy interaction hook
    (Interaction.v) [viewportManagerRef.current] during the render.

    Module [Legacy] holds both.  They differ in how they keep the
    [ViewportManager]:
    - part_011 ([commitV1]) creates a new manager whenever the viewport
      changes;
    - part_010 ([commitV0]) creates one manager at mount and calls its
      [setViewport] when the viewport changes, and marks each layer dirty
      from an effect of its own.
    The hook keeps the object it was given, so what its listeners read
    depends on aliasing: the managers are objects of a heap
    ([lw_managers], a list indexed by the object's number), the ref and
    the hook's argument are object numbers, and a method call updates the
    object in the heap.

    A session is a list of renders, store actions ([UIStore.step]) and
    frames ([legacyRun]).  The theorems: in part_010 the listeners always
    read the viewport of the last committed render, since the one manager
    they hold is updated in place; in part_011 they read the viewport of
    the render before it, as in the composable canvas.  Both hand the
    hook [null] at the first render, before any effect ran. *)

From S2P Require Import Prelude Types Viewport Store LegacyStore SpatialIndex IndexManager.
From S2P Require Import RenderScheduler Renderers Interaction GanttCanvas.

Open Scope Q_scope.

Module Legacy.

(** [GanttCanvasProps] of the legacy components: all four are required. *)
Record LegacyCanvasProps := mkLegacyProps {
  lp_virtualRows : list VirtualRow;
  lp_visibleRows : list VirtualRow;
  lp_width : Q;
  lp_height : Q;
}.

(** The values a render reads from its props and the two stores. *)
Record LegacyDeps := mkLegacyDeps {
  ld_width : Q;
  ld_height : Q;
  ld_viewport : ViewportState;
  ld_selection : SelectionState;
  ld_drag : option DragState;
  ld_hovered : option string;
  ld_tasks : jsobj Task;
  ld_dependencies : jsobj TaskDependency;
  ld_virtualRows : list VirtualRow;
  ld_visibleRows : list VirtualRow;
}.

Definition legacyRenderDeps (p : LegacyCanvasProps) (w : UIStore.World) : LegacyDeps :=
  let u := UIStore.ui w in
  mkLegacyDeps (lp_width p) (lp_height p) (UIStore.viewport u) (UIStore.selection u)
               (UIStore.drag u) (UIStore.hoveredTaskId u)
               (DataStore.tasks (UIStore.data w)) (DataStore.dependencies (UIStore.data w))
               (lp_virtualRows p) (lp_visibleRows p).

(** What a draw callback closes over (the interaction renderer takes no
    [minResolution]: the [30] part_011 passes is ignored). *)
Record LegacyClosure := mkLegacyClosure {
  lc_viewport : ViewportState;
  lc_visibleRows : list VirtualRow;
  lc_tasks : jsobj Task;
  lc_dependencies : jsobj TaskDependency;
  lc_selectedTaskIds : gset string;
  lc_hovered : option string;
  lc_drag : option DragState;
}.

Definition legacyClosureOf (d : LegacyDeps) : LegacyClosure :=
  mkLegacyClosure (ld_viewport d) (ld_visibleRows d) (ld_tasks d) (ld_dependencies d)
                  (sel_taskIds (ld_selection d)) (ld_hovered d) (ld_drag d).

(** [Object.is] on the dependencies the two versions list. *)
Definition ldimsChanged (d0 d : LegacyDeps) : bool :=
  numChanged (ld_width d0) (ld_width d) || numChanged (ld_height d0) (ld_height d).
Definition lviewportChanged (d0 d : LegacyDeps) : bool := bool_decide (ld_viewport d0 <> ld_viewport d).
Definition lindexDepsChanged (d0 d : LegacyDeps) : bool :=
  bool_decide (ld_tasks d0 <> ld_tasks d) || bool_decide (ld_dependencies d0 <> ld_dependencies d) ||
  bool_decide (ld_virtualRows d0 <> ld_virtualRows d).
Definition lregisterDepsChanged (d0 d : LegacyDeps) : bool :=
  lviewportChanged d0 d || bool_decide (ld_visibleRows d0 <> ld_visibleRows d) ||
  bool_decide (ld_tasks d0 <> ld_tasks d) || bool_decide (ld_dependencies d0 <> ld_dependencies d) ||
  bool_decide (ld_selection d0 <> ld_selection d) || bool_decide (ld_hovered d0 <> ld_hovered d) ||
  bool_decide (ld_drag d0 <> ld_drag d).

(** Whether an effect runs: at mount, then when a dependency changed. *)
Definition lruns (prev : option LegacyDeps) (changed : LegacyDeps -> bool) : bool :=
  match prev with None => true | Some d0 => changed d0 end.

Section LegacyCanvas.
Context {T : Type} `{!RBushOps T}.

(** [window.devicePixelRatio] and the interaction canvas's [left] and
    [top]. *)
Variable dpr : Q.
Variable canvasRect : Q * Q.

(** The state the component's effects touch; [lw_managers] is the heap
    of [ViewportManager] objects, [lw_vmRef] is
    [viewportManagerRef.current] and [lw_hookManager] the manager the
    interaction hook received at the last render. *)
Record LegacyWorld := mkLegacyWorld {
  lw_stores : UIStore.World;
  lw_registry : Registry;
  lw_index : IndexManager T;
  lw_managers : list ViewportManager;
  lw_vmRef : option nat;
  lw_hookManager : option nat;
  lw_renderers : LayerRenderers;
  lw_closures : list (RenderCallback * (RenderLayer * LegacyClosure));
  lw_nextCb : RenderCallback;
  lw_committed : option LegacyDeps;
}.

Definition lw_with_registry (w : LegacyWorld) (g : Registry) : LegacyWorld :=
  mkLegacyWorld (lw_stores w) g (lw_index w) (lw_managers w) (lw_vmRef w) (lw_hookManager w)
                (lw_renderers w) (lw_closures w) (lw_nextCb w) (lw_committed w).
Definition lw_with_managers (w : LegacyWorld) (ms : list ViewportManager) (ref : option nat)
    : LegacyWorld :=
  mkLegacyWorld (lw_stores w) (lw_registry w) (lw_index w) ms ref (lw_hookManager w)
                (lw_renderers w) (lw_closures w) (lw_nextCb w) (lw_committed w).
Definition lw_sched (w : LegacyWorld) (f : RenderScheduler.World -> RenderScheduler.World)
    : LegacyWorld :=
  lw_with_registry w (sched_call (lw_registry w) f).

(** [new ViewportManager(viewport)]: a new object, which the ref now
    holds. *)
Definition newManager (v : ViewportState) (w : LegacyWorld) : LegacyWorld :=
  lw_with_managers w (lw_managers w ++ [createViewportManager v dpr]) (Some (length (lw_managers w))).

(** A method call on [viewportManagerRef.current], when it is set. *)
Definition onManager (f : ViewportManager -> ViewportManager) (w : LegacyWorld) : LegacyWorld :=
  match lw_vmRef w with
  | Some i => lw_with_managers w (alter f i (lw_managers w)) (lw_vmRef w)
  | None => w
  end.

(** [updateCanvasRect]: the interaction canvas is always mounted. *)
Definition updateCanvasRect : LegacyWorld -> LegacyWorld :=
  onManager (fun m => vm_setCanvasRect m canvasRect.1 canvasRect.2).

(** The UI store's [setViewport({ width, height })] for positive sizes. *)
Definition setViewportSize (d : LegacyDeps) (w : LegacyWorld) : LegacyWorld :=
  let u := mkViewportUpdate None None None None None (Some (ld_width d)) (Some (ld_height d)) None in
  let s := lw_stores w in
  mkLegacyWorld (UIStore.mkWorld (UIStore.data s) (UIStore.ui_setViewport (UIStore.ui s) u))
                (lw_registry w) (lw_index w) (lw_managers w) (lw_vmRef w) (lw_hookManager w)
                (lw_renderers w) (lw_closures w) (lw_nextCb w) (lw_committed w).

(** The high-DPI setup: the four renderers get a context and the size,
    then [markAllDirty()]. *)
Definition effectSetupCanvases (d : LegacyDeps) (w : LegacyWorld) : LegacyWorld :=
  if Qle_bool (ld_width d) 0 || Qle_bool (ld_height d) 0 then w else
  let rs := fold_left (fun rs l => setLayerContext rs l (ld_width d) (ld_height d))
                      defaultLayers (lw_renderers w) in
  lw_sched (mkLegacyWorld (lw_stores w) (lw_registry w) (lw_index w) (lw_managers w) (lw_vmRef w)
                          (lw_hookManager w) rs (lw_closures w) (lw_nextCb w) (lw_committed w))
           markAllDirty.

(** [buildIndexes], then the task and dependency layers are dirty. *)
Definition effectBuildIndexes (d : LegacyDeps) (w : LegacyWorld) : LegacyWorld :=
  let im := buildIndexes (lw_index w) (obj_values (ld_tasks d)) (obj_values (ld_dependencies d))
                         (ld_virtualRows d) in
  lw_sched (mkLegacyWorld (lw_stores w) (lw_registry w) im (lw_managers w) (lw_vmRef w)
                          (lw_hookManager w) (lw_renderers w) (lw_closures w) (lw_nextCb w)
                          (lw_committed w))
           (fun sw => markDirtyMany sw [layer_tasks; layer_dependencies]).

(** One [registerRenderer]: a fresh callback closing over the render. *)
Definition registerLayer (d : LegacyDeps) (w : LegacyWorld) (l : RenderLayer) : LegacyWorld :=
  let cb := lw_nextCb w in
  let w1 := lw_sched w (fun sw => registerRenderer sw l cb) in
  mkLegacyWorld (lw_stores w1) (lw_registry w1) (lw_index w1) (lw_managers w1) (lw_vmRef w1)
                (lw_hookManager w1) (lw_renderers w1) ((cb, (l, legacyClosureOf d)) :: lw_closures w1)
                (S cb) (lw_committed w1).

Definition registerAll (d : LegacyDeps) (w : LegacyWorld) : LegacyWorld :=
  fold_left (registerLayer d) defaultLayers w.

(** The cleanup of the registering effect. *)
Definition cleanupRegister (w : LegacyWorld) : LegacyWorld :=
  lw_sched w (fun sw => fold_left unregisterRenderer defaultLayers sw).

Definition lwhen (b : bool) (f : LegacyWorld -> LegacyWorld) (w : LegacyWorld) : LegacyWorld :=
  if b then f w else w.

(** The commit's end: the render is the committed one. *)
Definition setCommitted (d : LegacyDeps) (w : LegacyWorld) : LegacyWorld :=
  mkLegacyWorld (lw_stores w) (lw_registry w) (lw_index w) (lw_managers w) (lw_vmRef w)
                (lw_hookManager w) (lw_renderers w) (lw_closures w) (lw_nextCb w) (Some d).

(** A render: the selectors, and the hook's argument
    [viewportManagerRef.current] as the last commit left it. *)
Definition renderStart (w : LegacyWorld) : LegacyWorld :=
  mkLegacyWorld (lw_stores w) (lw_registry w) (lw_index w) (lw_managers w) (lw_vmRef w)
                (lw_vmRef w) (lw_renderers w) (lw_closures w) (lw_nextCb w) (lw_committed w).

(** What the interaction hook's listeners read at an event: the
    viewport of the manager object they were given. *)
Definition legacyEnv (w : LegacyWorld) : Env (T := T) :=
  mkEnv (Some canvasRect) (vm_viewport <$> (lw_hookManager w ≫= fun i => lw_managers w !! i))
        (lw_index w).

(** Unmount: the register cleanup, then [resetRenderScheduler()]. *)
Definition unmount (w : LegacyWorld) : LegacyWorld :=
  let w1 := match lw_committed w with Some _ => cleanupRegister w | None => w end in
  lw_with_registry w1 (resetRenderScheduler (lw_registry w1)).

(** ** part_011 *)

(** Its commit: the cleanup of the registering effect when it runs
    again, then the bodies of the effects whose dependencies changed, in
    the order they are written: a new manager for a new viewport; the
    size ([setViewport] and [updateCanvasRect] are stable, so only
    [width] and [height] count); the canvases; the indexes; the draw
    callbacks and [markAllDirty()]. *)
Definition commitV1 (d : LegacyDeps) (w : LegacyWorld) : LegacyWorld :=
  let prev := lw_committed w in
  let r5 := lruns prev (fun d0 => lregisterDepsChanged d0 d) in
  let rDims := lruns prev (fun d0 => ldimsChanged d0 d) in
  let w0 := match prev with Some _ => lwhen r5 cleanupRegister w | None => w end in
  let w1 := lwhen (lruns prev (fun d0 => lviewportChanged d0 d)) (newManager (ld_viewport d)) w0 in
  let w2 := lwhen rDims (fun w => if Qlt_bool 0 (ld_width d) && Qlt_bool 0 (ld_height d)
                                  then updateCanvasRect (setViewportSize d w) else w) w1 in
  let w3 := lwhen rDims (effectSetupCanvases d) w2 in
  let w4 := lwhen (lruns prev (fun d0 => lindexDepsChanged d0 d)) (effectBuildIndexes d) w3 in
  let w5 := lwhen r5 (fun w => lw_sched (registerAll d w) markAllDirty) w4 in
  setCommitted d w5.

Definition renderCommitV1 (p : LegacyCanvasProps) (w : LegacyWorld) : LegacyWorld :=
  commitV1 (legacyRenderDeps p (lw_stores w)) (renderStart w).

(** ** part_010 *)

(** The dependencies of its four [markDirty] effects. *)
Definition gridDirtyDepsChanged (d0 d : LegacyDeps) : bool :=
  numChanged (scrollX (ld_viewport d0)) (scrollX (ld_viewport d)) ||
  numChanged (scrollY (ld_viewport d0)) (scrollY (ld_viewport d)) ||
  numChanged (pixelsPerHour (ld_viewport d0)) (pixelsPerHour (ld_viewport d)) ||
  bool_decide (ld_visibleRows d0 <> ld_visibleRows d).
Definition tasksDirtyDepsChanged (d0 d : LegacyDeps) : bool :=
  lviewportChanged d0 d || bool_decide (ld_tasks d0 <> ld_tasks d) ||
  bool_decide (sel_taskIds (ld_selection d0) <> sel_taskIds (ld_selection d)) ||
  bool_decide (ld_hovered d0 <> ld_hovered d) || bool_decide (ld_visibleRows d0 <> ld_visibleRows d).
Definition depsDirtyDepsChanged (d0 d : LegacyDeps) : bool :=
  lviewportChanged d0 d || bool_decide (ld_dependencies d0 <> ld_dependencies d) ||
  bool_decide (sel_taskIds (ld_selection d0) <> sel_taskIds (ld_selection d)) ||
  bool_decide (ld_visibleRows d0 <> ld_visibleRows d).

(** Its commit: one manager, created at mount, whose [setViewport] runs
    when the viewport changes; the canvas rectangle and the size; the
    canvases; the indexes; the draw callbacks (no [markAllDirty]); then
    one [markDirty] effect per layer. *)
Definition commitV0 (d : LegacyDeps) (w : LegacyWorld) : LegacyWorld :=
  let prev := lw_committed w in
  let r7 := lruns prev (fun d0 => lregisterDepsChanged d0 d) in
  let rDims := lruns prev (fun d0 => ldimsChanged d0 d) in
  let w0 := match prev with Some _ => lwhen r7 cleanupRegister w | None => w end in
  let w1 := lwhen (lruns prev (fun _ => false)) (newManager (ld_viewport d)) w0 in
  let w2 := lwhen (lruns prev (fun d0 => lviewportChanged d0 d))
                  (onManager (fun m => vm_setViewport m (ld_viewport d))) w1 in
  let w3 := lwhen rDims updateCanvasRect w2 in
  let w4 := lwhen rDims (fun w => if Qlt_bool 0 (ld_width d) && Qlt_bool 0 (ld_height d)
                                  then setViewportSize d w else w) w3 in
  let w5 := lwhen rDims (effectSetupCanvases d) w4 in
  let w6 := lwhen (lruns prev (fun d0 => lindexDepsChanged d0 d)) (effectBuildIndexes d) w5 in
  let w7 := lwhen r7 (registerAll d) w6 in
  let w8 := lwhen (lruns prev (fun d0 => gridDirtyDepsChanged d0 d))
                  (fun w => lw_sched w (fun sw => markDirty sw layer_grid)) w7 in
  let w9 := lwhen (lruns prev (fun d0 => tasksDirtyDepsChanged d0 d))
                  (fun w => lw_sched w (fun sw => markDirty sw layer_tasks)) w8 in
  let w10 := lwhen (lruns prev (fun d0 => depsDirtyDepsChanged d0 d))
                   (fun w => lw_sched w (fun sw => markDirty sw layer_dependencies)) w9 in
  let w11 := lwhen (lruns prev (fun d0 => bool_decide (ld_drag d0 <> ld_drag d)))
                   (fun w => lw_sched w (fun sw => markDirty sw layer_interaction)) w10 in
  setCommitted d w11.

Definition renderCommitV0 (p : LegacyCanvasProps) (w : LegacyWorld) : LegacyWorld :=
  commitV0 (legacyRenderDeps p (lw_stores w)) (renderStart w).

End LegacyCanvas.

(** A store action between two renders: the legacy stores' [step]. *)
Definition legacyStoreStep {T} (loadTime : Z) (w : LegacyWorld (T := T)) (a : UIStore.WorldAction)
    : LegacyWorld (T := T) :=
  match UIStore.step loadTime (lw_stores w) a with
  | JsOk s => mkLegacyWorld s (lw_registry w) (lw_index w) (lw_managers w) (lw_vmRef w)
                            (lw_hookManager w) (lw_renderers w) (lw_closures w) (lw_nextCb w)
                            (lw_committed w)
  | JsFail _ => w
  end.

(** The browser runs the pending frame of the scheduler's singleton. *)
Definition legacyFrame {T} (throws : RenderCallback -> bool) (w : LegacyWorld (T := T))
    : LegacyWorld (T := T) :=
  match schedulerInstance (lw_registry w) with
  | Some s =>
      let sw := fireFrame throws (RenderScheduler.mkWorld s (reg_browser (lw_registry w))
                                                         (reg_trace (lw_registry w))) in
      lw_with_registry w (mkRegistry (Some (sched sw)) (browser sw) (trace sw))
  | None => w
  end.

(** A session: renders (each committed at once), the stores' actions
    between them, and frames; [render] is one of the two versions. *)
Inductive LegacyEvent :=
  | LRender (p : LegacyCanvasProps)
  | LStore (a : UIStore.WorldAction)
  | LFrame.

Definition legacyStep {T} (render : LegacyCanvasProps -> LegacyWorld (T := T) -> LegacyWorld (T := T))
    (loadTime : Z) (throws : RenderCallback -> bool) (w : LegacyWorld (T := T)) (e : LegacyEvent)
    : LegacyWorld (T := T) :=
  match e with
  | LRender p => render p w
  | LStore a => legacyStoreStep loadTime w a
  | LFrame => legacyFrame throws w
  end.

Definition legacyRun {T} (render : LegacyCanvasProps -> LegacyWorld (T := T) -> LegacyWorld (T := T))
    (loadTime : Z) (throws : RenderCallback -> bool) (w : LegacyWorld (T := T)) (es : list LegacyEvent)
    : LegacyWorld (T := T) :=
  fold_left (legacyStep render loadTime throws) es w.

(** Before the first render: no scheduler, no manager, renderers without
    a context. *)
Definition legacyInitialWorld {T} (s : UIStore.World) (im : IndexManager T) (next : nat)
    : LegacyWorld (T := T) :=
  mkLegacyWorld s (mkRegistry None (mkBrowser [] next) []) im [] None None
                (mkLayerRenderers newRenderer newRenderer newRenderer newRenderer) [] 0%nat None.

(** ** The managers the listeners read *)

Section Managers.
Context {T : Type} `{!RBushOps T}.
Variable dpr : Q.
Variable canvasRect : Q * Q.
Implicit Types w : LegacyWorld (T := T).

(** The viewport of the manager object [i]. *)
Definition vm_view w (i : nat) : option ViewportState := vm_viewport <$> lw_managers w !! i.

(** A step that keeps the ref, the hook's argument, the committed render
    and the viewport of every manager. *)
Definition keeps_vm w w' : Prop :=
  lw_vmRef w' = lw_vmRef w /\ lw_hookManager w' = lw_hookManager w /\
  lw_committed w' = lw_committed w /\ forall i, vm_view w' i = vm_view w i.

#[local] Instance keeps_vm_preorder : PreOrder keeps_vm.
Proof.
  split; [intros w; by split_and!|].
  intros w1 w2 w3 (?&?&?&Hv1) (?&?&?&Hv2). split_and!; congruence.
Qed.

Lemma keeps_sched a b f : keeps_vm a b -> keeps_vm a (lw_sched b f).
Proof. done. Qed.

Lemma keeps_registerAll a b d : keeps_vm a b -> keeps_vm a (registerAll d b).
Proof.
  unfold registerAll. generalize defaultLayers. intros ls. revert b.
  induction ls as [|l ls IH]; intros b Hb; [done|]. apply IH. exact Hb.
Qed.

Lemma keeps_setup a b d : keeps_vm a b -> keeps_vm a (effectSetupCanvases d b).
Proof. unfold effectSetupCanvases. by case_match. Qed.

Lemma keeps_index a b d : keeps_vm a b -> keeps_vm a (effectBuildIndexes d b).
Proof. done. Qed.

Lemma keeps_size a b d : keeps_vm a b -> keeps_vm a (setViewportSize d b).
Proof. done. Qed.

(** A method that leaves the viewport alone keeps every manager's
    viewport. *)
Lemma keeps_onManager a b f :
  (forall m, vm_viewport (f m) = vm_viewport m) -> keeps_vm a b -> keeps_vm a (onManager f b).
Proof.
  intros Hf Hb. unfold onManager. case_match; [|done].
  etransitivity; [exact Hb|]. split_and!; try done. intros j. unfold vm_view; cbn.
  rewrite list_lookup_alter. case_decide; [|done]. subst. by destruct (lw_managers b !! j); cbn; [rewrite Hf|].
Qed.

Lemma keeps_when a b c f : keeps_vm a b -> (forall x, keeps_vm a x -> keeps_vm a (f x)) ->
  keeps_vm a (lwhen c f b).
Proof. intros Hb Hf. destruct c; [by apply Hf|done]. Qed.

Lemma keeps_when_false a b f : keeps_vm a b -> keeps_vm a (lwhen false f b).
Proof. done. Qed.

(** Peel the effects that keep the managers off a commit. *)
Ltac keeps_solve :=
  repeat match goal with
  | |- keeps_vm ?a ?a => reflexivity
  | H : keeps_vm ?a ?x |- keeps_vm ?a ?x => exact H
  | |- keeps_vm _ (lwhen false _ _) => apply keeps_when_false
  | |- keeps_vm _ (lwhen _ _ _) => apply keeps_when; [|let x := fresh "x" in let Hx := fresh "Hx" in
                                                         intros x Hx; cbv beta]
  | |- keeps_vm _ (if _ then _ else _) => case_match
  | |- keeps_vm _ (lw_sched _ _) => apply keeps_sched
  | |- keeps_vm _ (cleanupRegister _) => apply keeps_sched
  | |- keeps_vm _ (registerAll _ _) => apply keeps_registerAll
  | |- keeps_vm _ (effectSetupCanvases _ _) => apply keeps_setup
  | |- keeps_vm _ (effectBuildIndexes _ _) => apply keeps_index
  | |- keeps_vm _ (setViewportSize _ _) => apply keeps_size
  | |- keeps_vm _ (updateCanvasRect _ _) => apply keeps_onManager; [done|]
  end.

Lemma setCommitted_keeps d x :
  lw_vmRef (setCommitted d x) = lw_vmRef x /\ lw_hookManager (setCommitted d x) = lw_hookManager x /\
  lw_committed (setCommitted d x) = Some d /\ forall i, vm_view (setCommitted d x) i = vm_view x i.
Proof. done. Qed.

(** [setViewport] on the manager the ref holds. *)
Lemma onManager_setViewport x i v :
  lw_vmRef x = Some i -> is_Some (vm_view x i) ->
  let x' := onManager (fun m => vm_setViewport m v) x in
  lw_vmRef x' = Some i /\ lw_hookManager x' = lw_hookManager x /\ lw_committed x' = lw_committed x /\
  vm_view x' i = Some v.
Proof.
  intros Hr [v0 Hv] x'. subst x'. unfold onManager. rewrite Hr. split_and!; try done.
  unfold vm_view in *; cbn. rewrite list_lookup_alter_eq.
  by destruct (lw_managers x !! i).
Qed.

(** [new ViewportManager(viewport)] leaves the other objects alone. *)
Lemma newManager_view x v :
  let x' := newManager dpr v x in
  lw_vmRef x' = Some (length (lw_managers x)) /\ lw_hookManager x' = lw_hookManager x /\
  lw_committed x' = lw_committed x /\ vm_view x' (length (lw_managers x)) = Some v /\
  forall i, is_Some (vm_view x i) -> vm_view x' i = vm_view x i.
Proof.
  cbn. split_and!; try done.
  - unfold vm_view; cbn. by rewrite lookup_app_r, Nat.sub_diag by lia.
  - intros i [v0 Hv]. unfold vm_view in *; cbn. rewrite lookup_app_l; [done|].
    apply lookup_lt_is_Some. destruct (lw_managers x !! i); [by eexists|discriminate].
Qed.

(** part_010's commit, on a mounted component whose ref holds the
    manager [i] with the committed viewport: the ref, the hook's argument
    and the manager stay, and the manager now has the new viewport. *)
Lemma commitV0_manager w d i d0 :
  lw_vmRef w = Some i -> lw_committed w = Some d0 -> vm_view w i = Some (ld_viewport d0) ->
  let w' := commitV0 dpr canvasRect d w in
  lw_vmRef w' = Some i /\ lw_hookManager w' = lw_hookManager w /\ lw_committed w' = Some d /\
  vm_view w' i = Some (ld_viewport d).
Proof.
  intros Hr Hc Hv w'. subst w'. unfold commitV0. rewrite Hc. cbv zeta. cbn [lruns].
  match goal with |- context [lwhen ?b (onManager ?f) ?x] => set (W2 := lwhen b (onManager f) x) end.
  match goal with |- context [setCommitted _ ?X] =>
    assert (K : keeps_vm W2 X) by keeps_solve; destruct (setCommitted_keeps d X) as (-> & -> & -> & ->) end.
  destruct K as (-> & -> & _ & ->).
  subst W2. match goal with |- context [lwhen (lviewportChanged _ _) _ ?x] =>
    assert (K1 : keeps_vm w x) by keeps_solve end.
  destruct K1 as (Kr & Kh & Kc & Kv). unfold lviewportChanged.
  case_bool_decide as Hne; cbn [lwhen] in *.
  - set (x := lwhen (lregisterDepsChanged d0 d) cleanupRegister w) in *.
    destruct (onManager_setViewport x i (ld_viewport d)) as (-> & -> & _ & ->);
      [congruence|rewrite Kv, Hv; by eexists|]. by split_and!.
  - rewrite Kr, Kh, Kv, Hv, Hne. by split_and!.
Qed.

(** part_011's commit after a render that handed the hook the manager
    [i]: the hook keeps [i], whose viewport is the previous render's, and
    the ref holds a manager with the new viewport. *)
Lemma commitV1_manager w d i d0 :
  lw_vmRef w = Some i -> lw_committed w = Some d0 -> vm_view w i = Some (ld_viewport d0) ->
  let w' := commitV1 dpr canvasRect d (renderStart w) in
  lw_hookManager w' = Some i /\ vm_view w' i = Some (ld_viewport d0) /\ lw_committed w' = Some d /\
  exists j, lw_vmRef w' = Some j /\ vm_view w' j = Some (ld_viewport d).
Proof.
  intros Hr Hc Hv w'. subst w'. unfold commitV1. cbn [lw_committed renderStart]. rewrite Hc.
  cbv zeta. cbn [lruns].
  match goal with |- context [lwhen ?b (newManager ?dp ?vp) ?x] => set (W1 := lwhen b (newManager dp vp) x) end.
  match goal with |- context [setCommitted _ ?X] => set (WX := X) end.
  assert (K : keeps_vm W1 WX) by (subst WX; keeps_solve). clearbody WX.
  destruct (setCommitted_keeps d WX) as (-> & -> & -> & Ev). setoid_rewrite Ev. clear Ev.
  destruct K as (-> & -> & _ & Kv). setoid_rewrite Kv. clear Kv.
  subst W1. match goal with |- context [lwhen (lviewportChanged _ _) _ ?x] => set (x0 := x) end.
  assert (K1 : keeps_vm (renderStart w) x0) by (subst x0; keeps_solve). clearbody x0.
  destruct K1 as (Kr & Kh & _ & Kv1). unfold lviewportChanged.
  assert (Hv' : vm_view x0 i = Some (ld_viewport d0)) by (rewrite Kv1; exact Hv).
  case_bool_decide as Hne; cbn [lwhen].
  - destruct (newManager_view x0 (ld_viewport d)) as (Hr' & Hh' & _ & Hn & Ho).
    rewrite Hh', Ho, Kh, Hv' by (rewrite Hv'; by eexists).
    split_and!; [exact Hr|done|done|]. eexists. split; [exact Hr'|exact Hn].
  - rewrite Kh, Hv'. split_and!; [exact Hr|done|done|]. exists i. rewrite Kr, Hv', <- Hne. by split.
Qed.

(** The first commit creates the manager the ref then holds. *)
Lemma commitV0_mount w d :
  lw_committed w = None ->
  let w' := commitV0 dpr canvasRect d w in
  lw_committed w' = Some d /\ lw_hookManager w' = lw_hookManager w /\
  exists i, lw_vmRef w' = Some i /\ vm_view w' i = Some (ld_viewport d).
Proof.
  intros Hc w'. subst w'. unfold commitV0. rewrite Hc. cbv zeta. cbn [lruns lwhen].
  match goal with |- context [onManager ?f ?x] => set (W2 := onManager f x) end.
  match goal with |- context [setCommitted _ ?X] => set (WX := X) end.
  assert (K : keeps_vm W2 WX) by (subst WX; keeps_solve). clearbody WX.
  destruct (setCommitted_keeps d WX) as (-> & -> & -> & Ev). setoid_rewrite Ev.
  destruct K as (-> & -> & _ & Kv). setoid_rewrite Kv. subst W2.
  destruct (newManager_view w (ld_viewport d)) as (Hr' & Hh' & _ & Hn & _).
  destruct (onManager_setViewport (newManager dpr (ld_viewport d) w) _ (ld_viewport d) Hr')
    as (Hr2 & -> & _ & Hv2); [rewrite Hn; by eexists|].
  split_and!; [done|done|]. by exists (length (lw_managers w)).
Qed.

Lemma commitV1_mount w d :
  lw_committed w = None ->
  let w' := commitV1 dpr canvasRect d w in
  lw_committed w' = Some d /\ lw_hookManager w' = lw_hookManager w /\
  exists i, lw_vmRef w' = Some i /\ vm_view w' i = Some (ld_viewport d).
Proof.
  intros Hc w'. subst w'. unfold commitV1. rewrite Hc. cbv zeta. cbn [lruns lwhen].
  match goal with |- context [setCommitted _ ?X] => set (WX := X) end.
  assert (K : keeps_vm (newManager dpr (ld_viewport d) w) WX) by (subst WX; keeps_solve). clearbody WX.
  destruct (setCommitted_keeps d WX) as (-> & -> & -> & Ev). setoid_rewrite Ev.
  destruct K as (-> & -> & _ & Kv). setoid_rewrite Kv.
  destruct (newManager_view w (ld_viewport d)) as (-> & -> & _ & Hn & _).
  split_and!; [done|done|]. by exists (length (lw_managers w)).
Qed.

Lemma keeps_storeStep loadTime w a : keeps_vm w (legacyStoreStep loadTime w a).
Proof. unfold legacyStoreStep. by case_match. Qed.

Lemma keeps_frame throws w : keeps_vm w (legacyFrame throws w).
Proof. unfold legacyFrame. by case_match. Qed.

(** After a commit: the ref holds a manager with the committed viewport. *)
Definition managed w : Prop :=
  exists i d0, lw_vmRef w = Some i /\ lw_committed w = Some d0 /\ vm_view w i = Some (ld_viewport d0).

(** ... and, in part_010, the hook holds that very manager. *)
Definition hookManaged w : Prop :=
  exists i d0, lw_vmRef w = Some i /\ lw_hookManager w = Some i /\ lw_committed w = Some d0 /\
               vm_view w i = Some (ld_viewport d0).

Lemma managed_keeps w w' : keeps_vm w w' -> managed w -> managed w'.
Proof. intros (Hr & _ & Hc & Hv) (i & d0 & ? & ? & ?). exists i, d0. rewrite Hr, Hc, Hv. done. Qed.

Lemma hookManaged_keeps w w' : keeps_vm w w' -> hookManaged w -> hookManaged w'.
Proof.
  intros (Hr & Hh & Hc & Hv) (i & d0 & ? & ? & ? & ?). exists i, d0. rewrite Hr, Hh, Hc, Hv. done.
Qed.

Lemma managed_renderV0 p w : managed w -> hookManaged (renderCommitV0 dpr canvasRect p w).
Proof.
  intros (i & d0 & Hr & Hc & Hv). unfold renderCommitV0.
  destruct (commitV0_manager (renderStart w) (legacyRenderDeps p (lw_stores w)) i d0 Hr Hc Hv)
    as (Hr' & Hh' & Hc' & Hv').
  exists i, (legacyRenderDeps p (lw_stores w)). by rewrite Hr', Hh', Hc', Hv'.
Qed.

Lemma managed_renderV1 p w : managed w -> managed (renderCommitV1 dpr canvasRect p w).
Proof.
  intros (i & d0 & Hr & Hc & Hv). unfold renderCommitV1.
  destruct (commitV1_manager w (legacyRenderDeps p (lw_stores w)) i d0 Hr Hc Hv)
    as (_ & _ & Hc' & j & Hr' & Hv'). by exists j, (legacyRenderDeps p (lw_stores w)).
Qed.

Lemma run_hookManaged_V0 loadTime throws w es :
  hookManaged w -> hookManaged (legacyRun (renderCommitV0 dpr canvasRect) loadTime throws w es).
Proof.
  revert w. induction es as [|e es IH]; intros w Hw; [done|]. apply IH. destruct e; cbn.
  - apply managed_renderV0. destruct Hw as (i & d0 & ? & _ & ? & ?). by exists i, d0.
  - eapply hookManaged_keeps; [apply keeps_storeStep|done].
  - eapply hookManaged_keeps; [apply keeps_frame|done].
Qed.

Lemma run_managed_V0 loadTime throws w es :
  managed w -> managed (legacyRun (renderCommitV0 dpr canvasRect) loadTime throws w es).
Proof.
  revert w. induction es as [|e es IH]; intros w Hw; [done|]. apply IH. destruct e; cbn.
  - destruct (managed_renderV0 p w Hw) as (i & d0 & ? & _ & ? & ?). by exists i, d0.
  - eapply managed_keeps; [apply keeps_storeStep|done].
  - eapply managed_keeps; [apply keeps_frame|done].
Qed.

Lemma run_managed_V1 loadTime throws w es :
  managed w -> managed (legacyRun (renderCommitV1 dpr canvasRect) loadTime throws w es).
Proof.
  revert w. induction es as [|e es IH]; intros w Hw; [done|]. apply IH. destruct e; cbn.
  - by apply managed_renderV1.
  - eapply managed_keeps; [apply keeps_storeStep|done].
  - eapply managed_keeps; [apply keeps_frame|done].
Qed.

End Managers.

(** ** What the listeners read *)

(** At the first render the ref is still [null]: both versions hand the
    hook no manager, and its listeners have no viewport until the next
    render. *)
Lemma first_render_no_manager {T} `{!RBushOps T} dpr rect (s : UIStore.World) (im : IndexManager T)
    (n : nat) p :
  vmViewport (legacyEnv rect (renderCommitV0 dpr rect p (legacyInitialWorld s im n))) = None /\
  vmViewport (legacyEnv rect (renderCommitV1 dpr rect p (legacyInitialWorld s im n))) = None.
Proof.
  unfold renderCommitV0, renderCommitV1.
  destruct (commitV0_mount dpr rect (renderStart (legacyInitialWorld s im n)) (legacyRenderDeps p (lw_stores (legacyInitialWorld s im n)))
              eq_refl) as (_ & H0 & _).
  destruct (commitV1_mount dpr rect (renderStart (legacyInitialWorld s im n)) (legacyRenderDeps p (lw_stores (legacyInitialWorld s im n)))
              eq_refl) as (_ & H1 & _).
  unfold legacyEnv; cbn [vmViewport]. by rewrite H0, H1.
Qed.

(** (C14) part_010 shares one manager with the interaction hook: from
    the second render on, whatever renders, store actions and frames
    follow, the listeners read the viewport of the last committed render
    (the one drawn), since the manager they were handed is the one
    [setViewport] updates in place. *)
Theorem v0_listeners_read_committed_viewport {T} `{!RBushOps T} dpr rect loadTime throws
    (s : UIStore.World) (im : IndexManager T) (n : nat) p1 es1 p2 es2 :
  let run := legacyRun (renderCommitV0 dpr rect) loadTime throws in
  let w := run (renderCommitV0 dpr rect p2
                  (run (renderCommitV0 dpr rect p1 (legacyInitialWorld s im n)) es1)) es2 in
  exists d, lw_committed w = Some d /\ vmViewport (legacyEnv rect w) = Some (ld_viewport d).
Proof.
  cbv zeta.
  assert (H1 : managed (renderCommitV0 dpr rect p1 (legacyInitialWorld s im n))).
  { destruct (commitV0_mount dpr rect (renderStart (legacyInitialWorld s im n))
                (legacyRenderDeps p1 s) eq_refl) as (Hc & _ & i & Hr & Hv).
    exists i, (legacyRenderDeps p1 s). by split_and!. }
  pose proof (run_managed_V0 dpr rect loadTime throws _ es1 H1) as H2.
  destruct (run_hookManaged_V0 dpr rect loadTime throws _ es2 (managed_renderV0 dpr rect p2 _ H2))
    as (i & d & _ & Hh & Hc & Hv).
  exists d. split; [done|]. unfold legacyEnv; cbn [vmViewport]. rewrite Hh. exact Hv.
Qed.

(** (C15) part_011 creates a new manager for each new viewport: from the
    first render on, the listeners of a render read the viewport of the
    render committed before it, not the one it draws. *)
Theorem v1_listeners_read_previous_viewport {T} `{!RBushOps T} dpr rect loadTime throws
    (s : UIStore.World) (im : IndexManager T) (n : nat) p1 es p :
  let w := legacyRun (renderCommitV1 dpr rect) loadTime throws
             (renderCommitV1 dpr rect p1 (legacyInitialWorld s im n)) es in
  vmViewport (legacyEnv rect (renderCommitV1 dpr rect p w)) = ld_viewport <$> lw_committed w.
Proof.
  intros w.
  assert (H1 : managed (renderCommitV1 dpr rect p1 (legacyInitialWorld s im n))).
  { destruct (commitV1_mount dpr rect (renderStart (legacyInitialWorld s im n))
                (legacyRenderDeps p1 s) eq_refl) as (Hc & _ & i & Hr & Hv).
    exists i, (legacyRenderDeps p1 s). by split_and!. }
  destruct (run_managed_V1 dpr rect loadTime throws _ es H1) as (i & d0 & Hr & Hc & Hv). fold w in Hr, Hc, Hv.
  destruct (commitV1_manager dpr rect w (legacyRenderDeps p (lw_stores w)) i d0 Hr Hc Hv)
    as (Hh & Hv' & _).
  unfold renderCommitV1 at 1, legacyEnv; cbn [vmViewport]. rewrite Hh, Hc. exact Hv'.
Qed.

(** ** Example *)

(** The legacy stores with task [t1], the canvas 800 by 400 pixels. *)
Definition legacy_canvas_world : LegacyWorld (T := list RBushItem) :=
  legacyInitialWorld (UIStore.mkWorld (DataStore.setTasks DataStore.initialState [example_t1])
                                      (UIStore.initialState 0)) newIndexManager 1.
Definition legacy_canvas_props : LegacyCanvasProps := mkLegacyProps [] [] 800 400.

(** A render, a pan of 200 pixels, a render: part_011's listeners read
    the viewport before the pan, part_010's the one after it. *)
Example listeners_after_pan :
  let es := [LRender legacy_canvas_props; LStore (UIStore.WUI (UIStore.UPanViewport 200 0));
             LRender legacy_canvas_props] in
  let w1 := legacyRun (renderCommitV1 1 (0, 0)) 0 (fun _ => false) legacy_canvas_world es in
  let w0 := legacyRun (renderCommitV0 1 (0, 0)) 0 (fun _ => false) legacy_canvas_world es in
  bool_decide (vmViewport (legacyEnv (0, 0) w1) = ld_viewport <$> lw_committed w1) = false /\
  bool_decide (vmViewport (legacyEnv (0, 0) w0) = ld_viewport <$> lw_committed w0) = true.
Proof. vm_compute. split; reflexivity. Qed.

End Legacy.
