(* ===== verification/DemoData.v ===== *)
(** * DemoData: the sample data generator of
    src/src/features/gantt/utils/demo-data.ts

    [generateDemoData] builds two resource groups, [resourceCount]
    resources (40% operators, the rest machines), [orderCount] orders and
    [taskCount] tasks spread over the resources, then draws dependencies
    between the tasks of each order sorted by start time.
    [generateLargeDataset] picks the counts from the number of tasks.

    The generator reads two sources the model takes as parameters:
    [rnd n] is the [n]-th number [Math.random()] returns and [clock n] the
    [n]-th of [Date.now()].  The generator runs in the monad [GenM] that
    counts the calls to each ([Gen]) and fails with a [JsFault] where the
    code throws: with no resource or no order, [resources[i % 0]] and
    [orders[NaN]] are [undefined] and reading their [id] is a
    [TypeError].  Counts are [nat]; the start times, which the code does
    not round, are [Q] ([DemoTask]); the description, colour of an order
    and other display-only fields are left out as in Types.v.

    The theorems: for every random stream within [0, 1) the data is
    well formed (ids unique, references resolved, phase durations in the
    ranges the comments give, the priority within [0, 5] and 0 only for a
    draw of 0); the dependencies go from an earlier to a later task of
    the same order, so they form no cycle; without resources or orders
    the generator throws; [generateLargeDataset] never does. *)

From stdpp Require Import pretty.
From S2P Require Import Prelude Types.

Open Scope Q_scope.

(** A generated task: a [StoredTask] whose start time is the rational
    the code computes. *)
Record DemoTask := mkDemoTask {
  dt_id : string;
  dt_name : string;
  dt_description : string;
  dt_resourceId : string;
  dt_orderId : string;
  dt_startTime : Q;
  dt_phases : list TaskPhase;
  dt_color : string;
  dt_priority : Z;
  dt_status : TaskStatus;
  dt_progress : Z;
}.

(** A generated order: an [Order] with its colour and due date. *)
Record DemoOrder := mkDemoOrder {
  do_id : string;
  do_name : string;
  do_priority : Z;
  do_color : string;
  do_dueDate : Z;
}.

(** The object [generateDemoData] returns. *)
Record DemoData := mkDemoData {
  dd_tasks : list DemoTask;
  dd_resources : list Resource;
  dd_dependencies : list TaskDependency;
  dd_orders : list DemoOrder;
  dd_groups : list ResourceGroup;
}.

(** The options; [None] is a key left out. *)
Record DemoOptions := mkDemoOptions {
  opt_taskCount : option nat;
  opt_resourceCount : option nat;
  opt_orderCount : option nat;
  opt_dependencyRatio : option Q;
}.

(** How many times [Math.random()] and [Date.now()] were called. *)
Record Gen := mkGen { draws : nat; clockCalls : nat }.

(** The generator's monad: the call counts, and a fault where it throws. *)
Definition GenM (A : Type) : Type := Gen -> js_result (A * Gen).

#[export] Instance GenM_ret : MRet GenM := fun A a g => JsOk (a, g).
#[export] Instance GenM_bind : MBind GenM :=
  fun A B f m g => match m g with JsOk (a, g') => f a g' | JsFail e => JsFail e end.

Definition gen_throw {A} (e : JsFault) : GenM A := fun _ => JsFail e.

(** [arr[i].field] on an index past the end: [undefined.field]. *)
Definition gen_lookup {A} (l : list A) (i : nat) : GenM A :=
  match l !! i with Some a => mret a | None => gen_throw TypeError_undefined end.

(** A [for (let i = start; i < start + n; i++)] loop collecting its
    bodies' results. *)
Fixpoint gen_for {A} (body : nat -> GenM A) (start n : nat) : GenM (list A) :=
  match n with
  | O => mret []
  | S n' => a ← body start; rest ← gen_for body (S start) n'; mret (a :: rest)
  end.

(** The hour and the day in milliseconds. *)
Definition hourMs : Z := 3600000.
Definition dayMs : Z := 24 * hourMs.

(** The colour lists. *)
Definition orderColors : list string := ["#ef4444"; "#f59e0b"; "#10b981"; "#3b82f6"; "#8b5cf6"].
Definition taskColors : list string :=
  ["#3b82f6"; "#10b981"; "#f59e0b"; "#ef4444"; "#8b5cf6"; "#ec4899"; "#06b6d4"].

(** The two resource groups. *)
Definition demoGroups : list ResourceGroup :=
  [mkGroup "operators" "Operators" operator (Some "#3b82f6");
   mkGroup "machines" "Machines" machine (Some "#10b981")].

(** [`Machine ${String.fromCharCode(65 + (i % 26))}${Math.floor(i / 26) || ""}`] *)
Definition machineName (i : nat) : string :=
  "Machine " +:+ String (Ascii.ascii_of_nat (65 + i mod 26)) "" +:+
  (if decide (i / 26 = 0)%nat then "" else pretty (i / 26)%nat).

Definition operatorResource (i : nat) : Resource :=
  mkResource ("op-" +:+ pretty i) ("Operator " +:+ pretty (S i)) operator 1 (Some "operators") None.
Definition machineResource (i : nat) : Resource :=
  mkResource ("machine-" +:+ pretty i) (machineName i) machine 1 (Some "machines") None.

(** [Math.floor(resourceCount * 0.4)] operators, the rest machines. *)
Definition operatorCount (resourceCount : nat) : nat := (resourceCount * 2 / 5)%nat.

Definition demoResources (resourceCount : nat) : list Resource :=
  map operatorResource (seq 0 (operatorCount resourceCount)) ++
  map machineResource (seq 0 (resourceCount - operatorCount resourceCount)).

(** The defaults of the destructured [options]. *)
Definition taskCountOf (o : DemoOptions) : nat := default 100%nat (opt_taskCount o).
Definition resourceCountOf (o : DemoOptions) : nat := default 20%nat (opt_resourceCount o).
Definition orderCountOf (o : DemoOptions) : nat := default 5%nat (opt_orderCount o).
Definition dependencyRatioOf (o : DemoOptions) : Q := default (3 # 10) (opt_dependencyRatio o).

Section Demo.
Variable rnd : nat -> Q.
Variable clock : nat -> Z.

(** [Math.random()] and [Date.now()] *)
Definition random : GenM Q := fun g => JsOk (rnd (draws g), mkGen (S (draws g)) (clockCalls g)).
Definition dateNow : GenM Z := fun g => JsOk (clock (clockCalls g), mkGen (draws g) (S (clockCalls g))).

(** One order: its due date reads the clock. *)
Definition genOrder (i : nat) : GenM DemoOrder :=
  now ← dateNow;
  mret (mkDemoOrder ("order-" +:+ pretty i) ("Order #" +:+ pretty (1000 + i)%nat) (Z.of_nat i + 1)
                    (default "" (orderColors !! (i mod length orderColors)%nat))
                    (now + (Z.of_nat i + 2) * 7 * dayMs)%Z).

(** [Math.floor(i / Math.ceil(taskCount / orderCount)) % orderCount]:
    with no order, [i / Infinity % 0] is [NaN], which indexes nothing. *)
Definition orderIndexOf (taskCount orderCount i : nat) : nat :=
  if decide (orderCount = 0%nat) then orderCount
  else (i / ((taskCount + orderCount - 1) / orderCount) mod orderCount)%nat.

(** The optional setup and cleanup phases and the execution. *)
Definition genPhases : GenM (list TaskPhase) :=
  r1 ← random; r2 ← random;
  let hasSetup := Qlt_bool (3 # 10) r1 in
  let hasCleanup := Qlt_bool (1 # 2) r2 in
  setupPhase ← (if hasSetup then r ← random; mret [mkPhase setup (15 + Qfloor (r * 30))%Z None]
                else mret []);
  r ← random;
  let executionPhase := mkPhase execution (30 + Qfloor (r * 180))%Z None in
  cleanupPhase ← (if hasCleanup then r ← random; mret [mkPhase cleanup (10 + Qfloor (r * 20))%Z None]
                  else mret []);
  mret (setupPhase ++ [executionPhase] ++ cleanupPhase).

(** One iteration of the task loop.  [resources[i % 0]] and
    [orders[NaN]] are [undefined]; reading their [id] throws. *)
Definition genTask (taskCount orderCount : nat) (resources : list Resource) (orders : list DemoOrder)
    (now : Z) (i : nat) : GenM DemoTask :=
  let resourceIndex := (i mod length resources)%nat in
  let orderIndex := orderIndexOf taskCount orderCount i in
  let startOffset := (Z.of_nat (i / length resources) * 4 * hourMs)%Z in
  r ← random;
  let randomOffset := r * inject_Z (8 * hourMs) in
  let startTime := inject_Z (now - 2 * dayMs + startOffset) + randomOffset in
  phases ← genPhases;
  resource ← gen_lookup resources (if decide (length resources = 0%nat) then 0%nat else resourceIndex);
  order ← gen_lookup orders orderIndex;
  rp ← random;
  rs ← random;
  rg ← random;
  progress ← (if Qlt_bool (7 # 10) rg then r ← random; mret (Qfloor (r * 100)) else mret 0%Z);
  mret (mkDemoTask ("task-" +:+ pretty i) ("Task " +:+ pretty (S i))
                   ("Description for task " +:+ pretty (S i)) (resource_id resource)
                   (do_id order) startTime phases
                   (default "" (taskColors !! (orderIndex mod length taskColors)%nat))
                   (Qceiling (rp * 5)) (if Qlt_bool (4 # 5) rs then completed else scheduled) progress).

(** [tasksByOrder]: a [Map] keeps its keys in insertion order, as a
    [jsobj] does. *)
Definition tasksByOrder (tasks : list DemoTask) : jsobj (list DemoTask) :=
  foldl (fun m t => obj_set (dt_orderId t) (default [] (obj_get (dt_orderId t) m) ++ [t]) m) [] tasks.

(** [orderTasks.sort((a, b) => a.startTime - b.startTime)]: a stable
    sort by start time. *)
Definition startLe (a b : DemoTask) : Prop := dt_startTime a <= dt_startTime b.
#[export] Instance startLe_dec : RelDecision startLe := fun a b => decide (dt_startTime a <= dt_startTime b).
Definition sortByStart (ts : list DemoTask) : list DemoTask := merge_sort startLe ts.

(** The inner loop for [i] from [1]: a dependency from a random earlier
    task of the sorted order, with probability [dependencyRatio]. *)
Fixpoint depsLoop (ratio : Q) (sorted : list DemoTask) (i n : nat) (depIndex : nat)
    : GenM (list TaskDependency * nat) :=
  match n with
  | O => mret ([], depIndex)
  | S n' =>
      r ← random;
      if Qlt_bool r ratio then
        r' ← random;
        pred ← gen_lookup sorted (Z.to_nat (Qfloor (r' * inject_Z (Z.of_nat i))));
        succ ← gen_lookup sorted i;
        '(rest, k) ← depsLoop ratio sorted (S i) n' (S depIndex);
        mret (mkDependency ("dep-" +:+ pretty depIndex) (dt_id pred) (dt_id succ) FS 0 :: rest, k)
      else depsLoop ratio sorted (S i) n' depIndex
  end.

(** The outer loop over the orders of [tasksByOrder]. *)
Fixpoint ordersLoop (ratio : Q) (groups : list (string * list DemoTask)) (depIndex : nat)
    : GenM (list TaskDependency) :=
  match groups with
  | [] => mret []
  | (_, orderTasks) :: groups' =>
      let sorted := sortByStart orderTasks in
      '(ds, k) ← depsLoop ratio sorted 1 (length sorted - 1) depIndex;
      rest ← ordersLoop ratio groups' k;
      mret (ds ++ rest)
  end.

(** [generateDemoData] *)
Definition generateDemoData (o : DemoOptions) : GenM DemoData :=
  let taskCount := taskCountOf o in
  let resourceCount := resourceCountOf o in
  let orderCount := orderCountOf o in
  let dependencyRatio := dependencyRatioOf o in
  let resources := demoResources resourceCount in
  orders ← gen_for genOrder 0 orderCount;
  now ← dateNow;
  tasks ← gen_for (genTask taskCount orderCount resources orders now) 0 taskCount;
  dependencies ← ordersLoop dependencyRatio (tasksByOrder tasks) 0;
  mret (mkDemoData tasks resources dependencies orders demoGroups).

(** [generateLargeDataset] *)
Definition generateLargeDataset (taskCount : nat) : GenM DemoData :=
  let resourceCount := Nat.min 100 (Nat.max 20 (taskCount / 50)) in
  let orderCount := Nat.min 20 (Nat.max 5 (taskCount / 200)) in
  generateDemoData (mkDemoOptions (Some taskCount) (Some resourceCount) (Some orderCount) (Some (1 # 5))).

End Demo.

(** ** Reasoning about [GenM] *)

(** [m] returns, whatever the counts, a value satisfying [P]. *)
Definition gen_spec {A} (m : GenM A) (P : A -> Prop) : Prop :=
  forall g, exists a g', m g = JsOk (a, g') /\ P a.

Lemma gen_spec_ret {A} (a : A) (P : A -> Prop) : P a -> gen_spec (mret a) P.
Proof. intros HP g. by exists a, g. Qed.

Lemma gen_spec_bind {A B} (m : GenM A) (f : A -> GenM B) (P : A -> Prop) (Q : B -> Prop) :
  gen_spec m P -> (forall a, P a -> gen_spec (f a) Q) -> gen_spec (m ≫= f) Q.
Proof.
  intros Hm Hf g. destruct (Hm g) as (a & g' & E & Ha). destruct (Hf a Ha g') as (b & g'' & E' & Hb).
  exists b, g''. unfold mbind, GenM_bind. by rewrite E.
Qed.

Lemma gen_bind_ok {A B} (m : GenM A) (f : A -> GenM B) g a g' :
  m g = JsOk (a, g') -> (m ≫= f) g = f a g'.
Proof. intros E. unfold mbind, GenM_bind. by rewrite E. Qed.

Lemma gen_bind_fail {A B} (m : GenM A) (f : A -> GenM B) g e :
  m g = JsFail e -> (m ≫= f) g = JsFail e.
Proof. intros E. unfold mbind, GenM_bind. by rewrite E. Qed.

Lemma gen_spec_weaken {A} (m : GenM A) (P Q : A -> Prop) :
  gen_spec m P -> (forall a, P a -> Q a) -> gen_spec m Q.
Proof. intros Hm HPQ g. destruct (Hm g) as (a & g' & E & Ha). eauto. Qed.

Lemma gen_spec_lookup {A} (l : list A) i (P : A -> Prop) :
  (forall a, l !! i = Some a -> P a) -> (i < length l)%nat -> gen_spec (gen_lookup l i) P.
Proof.
  intros HP Hi. unfold gen_lookup. destruct (l !! i) as [a|] eqn:E.
  - by apply gen_spec_ret, HP.
  - apply lookup_ge_None in E. lia.
Qed.

(** A loop whose every iteration returns: its results, one per index. *)
Lemma gen_spec_for {A} (body : nat -> GenM A) (P : nat -> A -> Prop) start n :
  (forall i, (start <= i < start + n)%nat -> gen_spec (body i) (P i)) ->
  gen_spec (gen_for body start n)
    (fun l => length l = n /\ forall k a, l !! k = Some a -> P (start + k)%nat a).
Proof.
  revert start. induction n as [|n IH]; intros start Hb; cbn [gen_for].
  { apply gen_spec_ret. split; [done|]. by intros ? ?. }
  eapply gen_spec_bind; [apply Hb; lia|]. intros a Ha.
  eapply gen_spec_bind; [apply IH; intros i Hi; apply Hb; lia|]. intros l (Hl & Hk).
  apply gen_spec_ret. split; [cbn; lia|]. intros [|k] b Hkb; cbn in Hkb.
  - injection Hkb as <-. by rewrite Nat.add_0_r.
  - replace (start + S k)%nat with (S start + k)%nat by lia. by apply Hk.
Qed.

(** ** Bounds of the random draws *)

Lemma floor_draw (r : Q) (n : Z) :
  0 <= r < 1 -> (0 < n)%Z -> (0 <= Qfloor (r * (n # 1)) < n)%Z.
Proof.
  intros [H0 H1] Hn. change (n # 1) with (inject_Z n). assert (Hq : 0 < inject_Z n) by (change 0 with (inject_Z 0); by rewrite <- Zlt_Qlt).
  pose proof (Qfloor_le (r * inject_Z n)) as Hf. split.
  - change 0%Z with (Qfloor 0). apply Qfloor_resp_le. clear Hf. set (q := inject_Z n) in *; clearbody q. nra.
  - rewrite Zlt_Qlt. eapply Qle_lt_trans; [exact Hf|]. set (q := inject_Z n) in *; clearbody q. nra.
Qed.

Lemma ceiling_draw (r : Q) : 0 <= r < 1 -> (0 <= Qceiling (r * 5) <= 5)%Z.
Proof.
  intros [H0 H1]. split.
  - change 0%Z with (Qceiling 0). apply Qceiling_resp_le. lra.
  - transitivity (Qceiling 5); [apply Qceiling_resp_le; lra|done].
Qed.

(** What [genPhases] returns: an execution phase of 30 to 209 minutes,
    after an optional setup of 15 to 44 and before an optional cleanup of
    10 to 29. *)
Definition phases_ok (ps : list TaskPhase) : Prop :=
  exists s e c, ps = s ++ [mkPhase execution e None] ++ c /\ (30 <= e < 210)%Z /\
    (s = [] \/ exists d, s = [mkPhase setup d None] /\ (15 <= d < 45)%Z) /\
    (c = [] \/ exists d, c = [mkPhase cleanup d None] /\ (10 <= d < 30)%Z).

(** What one task of the loop is. *)
Definition task_ok (resources : list Resource) (orders : list DemoOrder) (now : Z) (i : nat)
    (nres : nat) (t : DemoTask) : Prop :=
  dt_id t = "task-" +:+ pretty i /\ dt_resourceId t ∈ resource_id <$> resources /\
  dt_orderId t ∈ do_id <$> orders /\ phases_ok (dt_phases t) /\
  (0 <= dt_priority t <= 5)%Z /\ (0 <= dt_progress t < 100)%Z /\
  let base := inject_Z (now - 2 * dayMs + Z.of_nat (i / nres) * 4 * hourMs) in
  base <= dt_startTime t < base + inject_Z (8 * hourMs).

(** ** The groups of [tasksByOrder] *)

Definition ofOrder (key : string) (t : DemoTask) : Prop := dt_orderId t = key.
#[local] Instance ofOrder_dec key t : Decision (ofOrder key t) := decide (dt_orderId t = key).

Lemma filter_ofOrder_nil key ts : key ∉ dt_orderId <$> ts -> filter (ofOrder key) ts = [].
Proof.
  induction ts as [|t ts IH]; intros Hk; [done|]. cbn in Hk. rewrite elem_of_cons in Hk.
  rewrite filter_cons_False; [apply IH|]; unfold ofOrder; naive_solver.
Qed.

(** A [Map] from order ids to their tasks, in generation order. *)
Lemma tasksByOrder_get ts key :
  obj_get key (tasksByOrder ts) =
    if decide (key ∈ dt_orderId <$> ts) then Some (filter (ofOrder key) ts) else None.
Proof.
  induction ts as [|t ts IH] using rev_ind; [done|].
  unfold tasksByOrder in *. rewrite foldl_app. cbn [foldl].
  rewrite fmap_app, filter_app. cbn. destruct (decide (key = dt_orderId t)) as [->|Hne].
  - rewrite obj_get_set_eq, IH.
    repeat case_decide; try set_solver; try (exfalso; unfold ofOrder in *; congruence).
    cbn. by rewrite filter_ofOrder_nil.
  - rewrite obj_get_set_ne, IH by done.
    repeat case_decide; try set_solver; try (exfalso; unfold ofOrder in *; congruence).
    by rewrite app_nil_r.
Qed.

Lemma tasksByOrder_wf ts : obj_wf (tasksByOrder ts).
Proof.
  induction ts as [|t ts IH] using rev_ind; [constructor|].
  unfold tasksByOrder in *. rewrite foldl_app. by apply obj_wf_set.
Qed.

Lemma tasksByOrder_elem ts key L : (key, L) ∈ tasksByOrder ts -> L = filter (ofOrder key) ts.
Proof.
  intros Hin. apply obj_elem_of_get in Hin; [|apply tasksByOrder_wf].
  rewrite tasksByOrder_get in Hin. case_decide; congruence.
Qed.

(** ** Unique ids and ranks *)

Lemma NoDup_fmap_eq {A B} (f : A -> B) (l : list A) x y :
  NoDup (f <$> l) -> x ∈ l -> y ∈ l -> f x = f y -> x = y.
Proof.
  intros Hnd (i & Hi)%list_elem_of_lookup (j & Hj)%list_elem_of_lookup Hf.
  assert (i = j) as ->; [|congruence].
  eapply NoDup_lookup; [exact Hnd| |]; rewrite list_lookup_fmap; [rewrite Hi|rewrite Hj]; cbn; [done|].
  by rewrite Hf.
Qed.

Lemma NoDup_fmap_filter {A B} (f : A -> B) (P : A -> Prop) `{!forall x, Decision (P x)} l :
  NoDup (f <$> l) -> NoDup (f <$> filter P l).
Proof.
  intros Hnd. apply NoDup_fmap_2_strong.
  - intros x y Hx%list_elem_of_filter Hy%list_elem_of_filter. apply (NoDup_fmap_eq f l); naive_solver.
  - apply NoDup_filter. by eapply NoDup_fmap_1.
Qed.

(** The position of [x] in [l], [0] when absent. *)
Definition indexOf (x : string) (l : list string) : nat :=
  default 0%nat (fst <$> list_find (fun y => y = x) l).

Lemma indexOf_lookup x l a : NoDup l -> l !! a = Some x -> indexOf x l = a.
Proof.
  intros Hnd Ha. unfold indexOf. destruct (list_find (fun y => y = x) l) as [[j y]|] eqn:E.
  - apply list_find_Some in E as (Hj & -> & _). cbn. by eapply NoDup_lookup.
  - apply list_find_None in E. rewrite Forall_forall in E. exfalso.
    by apply (E x); [eapply list_elem_of_lookup_2|].
Qed.

(** The path relation of a dependency list, and a rank it increases. *)
Definition dep_edge (ds : list TaskDependency) (a b : string) : Prop :=
  exists d, d ∈ ds /\ predecessorId d = a /\ successorId d = b.

Lemma tc_rank {X} (R : X -> X -> Prop) (f : X -> nat) a b :
  (forall x y, R x y -> (f x < f y)%nat) -> tc R a b -> (f a < f b)%nat.
Proof. intros Hf Htc. induction Htc as [x y Hxy|x y z Hxy _ IH]; [by apply Hf|]. pose proof (Hf _ _ Hxy). lia. Qed.

(** The rank of a task: its place among the sorted tasks of its order. *)
Definition demoRank (ts : list DemoTask) (id : string) : nat :=
  match list_find (fun t => dt_id t = id) ts with
  | Some (_, t) => indexOf id (dt_id <$> sortByStart (filter (ofOrder (dt_orderId t)) ts))
  | None => 0%nat
  end.

(** A task of an order group has, as rank, its place in the sorted group. *)
Lemma demoRank_at ts key a p :
  NoDup (dt_id <$> ts) -> sortByStart (filter (ofOrder key) ts) !! a = Some p ->
  demoRank ts (dt_id p) = a.
Proof.
  intros Hnd Ha. set (L := filter (ofOrder key) ts) in *.
  assert (Hp : p ∈ L).
  { unfold sortByStart in Ha. rewrite <-(merge_sort_Permutation startLe L). by eapply list_elem_of_lookup_2. }
  assert (HpL := Hp). apply list_elem_of_filter in Hp as [Hk Hp].
  unfold demoRank. destruct (list_find (fun t => dt_id t = dt_id p) ts) as [[j t]|] eqn:E.
  - apply list_find_Some in E as (Hj & Hid & _).
    assert (t = p) as -> by (apply (NoDup_fmap_eq dt_id ts); [done|eapply list_elem_of_lookup_2, Hj|done|done]).
    unfold ofOrder in Hk. rewrite Hk. fold L. apply indexOf_lookup; [|by rewrite list_lookup_fmap, Ha].
    unfold sortByStart. rewrite (merge_sort_Permutation startLe L). by apply NoDup_fmap_filter.
  - apply list_find_None in E. rewrite Forall_forall in E. by destruct (E p Hp).
Qed.

(** The ids [dep-k], [dep-(k+1)], ... of the dependencies drawn from
    the counter [k]. *)
Definition depIds (k n : nat) : list string := (fun j => "dep-" +:+ pretty j) <$> seq k n.

(** A dependency drawn from the sorted tasks [L] of one order: from the
    [a]-th to the [b]-th, with [a < b]. *)
Definition drawn_from (L : list DemoTask) (d : TaskDependency) : Prop :=
  exists a b p s, (a < b)%nat /\ L !! a = Some p /\ L !! b = Some s /\
    predecessorId d = dt_id p /\ successorId d = dt_id s /\ dep_type d = FS /\ lag d = 0%Z.

Lemma depIds_S k n : depIds k (S n) = ("dep-" +:+ pretty k) :: depIds (S k) n.
Proof. done. Qed.

Lemma depIds_app k a b : depIds k (a + b) = depIds k a ++ depIds (k + a) b.
Proof. unfold depIds. by rewrite seq_app, fmap_app. Qed.

(** ** Soundness and acyclicity of the dependencies *)

#[local] Instance startLe_trans : Transitive startLe.
Proof. intros a b c. unfold startLe. apply Qle_trans. Qed.
#[local] Instance startLe_total : Total startLe.
Proof. intros a b. unfold startLe. destruct (Qlt_le_dec (dt_startTime a) (dt_startTime b)); [left; lra|by right]. Qed.

(** What a dependency of the demo data links: two distinct tasks of one
    order, the predecessor starting no later than the successor. *)
Definition dep_sound (ts : list DemoTask) (d : TaskDependency) : Prop :=
  exists p s, p ∈ ts /\ s ∈ ts /\ predecessorId d = dt_id p /\ successorId d = dt_id s /\
    dt_id p <> dt_id s /\ dt_orderId p = dt_orderId s /\ dt_startTime p <= dt_startTime s /\
    dep_type d = FS /\ lag d = 0%Z.

(** A dependency drawn from a sorted group of [tasksByOrder] is sound and
    raises the rank. *)
Lemma drawn_from_group ts key L d :
  NoDup (dt_id <$> ts) -> (key, L) ∈ tasksByOrder ts -> drawn_from (sortByStart L) d ->
  dep_sound ts d /\ (demoRank ts (predecessorId d) < demoRank ts (successorId d))%nat.
Proof.
  intros Hnd Hin (a & b & p & s & Hab & Ha & Hb & Hp & Hs & Ht & Hl).
  apply tasksByOrder_elem in Hin as ->.
  assert (Hmem : forall i x, sortByStart (filter (ofOrder key) ts) !! i = Some x -> x ∈ ts /\ ofOrder key x).
  { intros i x Hi. apply list_elem_of_lookup_2 in Hi. unfold sortByStart in Hi.
    rewrite (merge_sort_Permutation startLe (filter _ ts)) in Hi. by apply list_elem_of_filter in Hi as [? ?]. }
  destruct (Hmem _ _ Ha) as [Hpin Hpo], (Hmem _ _ Hb) as [Hsin Hso].
  rewrite Hp, Hs, (demoRank_at _ _ _ _ Hnd Ha), (demoRank_at _ _ _ _ Hnd Hb). split; [|done].
  exists p, s. split_and!; try done.
  - intros Hid. assert (p = s) as <- by (apply (NoDup_fmap_eq dt_id ts); done).
    pose proof (demoRank_at _ _ _ _ Hnd Ha). pose proof (demoRank_at _ _ _ _ Hnd Hb). lia.
  - unfold ofOrder in *. congruence.
  - apply (StronglySorted_lookup startLe (sortByStart (filter (ofOrder key) ts)) a b); [apply StronglySorted_merge_sort; apply _|done..].
Qed.

(** A relation whose every edge raises a rank has no cycle. *)
Lemma dep_edge_acyclic ts ds :
  (forall d, d ∈ ds -> (demoRank ts (predecessorId d) < demoRank ts (successorId d))%nat) ->
  forall a, ~ tc (dep_edge ds) a a.
Proof.
  intros Hd a Hc. apply (tc_rank _ (demoRank ts)) in Hc; [lia|].
  intros x y (d & Hin & <- & <-). by apply Hd.
Qed.

(** ** Unique ids *)

(** A list whose [k]-th element is named by an injective [g k] has unique names. *)
Lemma NoDup_indexed {A} (f : A -> string) (g : nat -> string) (l : list A) :
  Inj eq eq g -> (forall k a, l !! k = Some a -> f a = g k) -> NoDup (f <$> l).
Proof.
  intros Hg Hl. apply NoDup_alt. intros i j x.
  rewrite !list_lookup_fmap. intros Hi Hj.
  destruct (l !! i) as [a|] eqn:Ei, (l !! j) as [b|] eqn:Ej; try done. cbn in *; simplify_eq.
  apply (inj g). by rewrite <-(Hl _ _ Ei), <-(Hl _ _ Ej).
Qed.

Lemma prefixed_inj (pre : string) : Inj eq eq (fun i : nat => pre +:+ pretty i).
Proof. intros i j H. by apply (inj pretty), (inj (String.app pre)). Qed.

Lemma demoResources_length rc : length (demoResources rc) = rc.
Proof.
  unfold demoResources, operatorCount. rewrite length_app, !length_map, !length_seq.
  assert (rc * 2 / 5 <= rc)%nat by (apply Nat.Div0.div_le_upper_bound; lia). lia.
Qed.

Lemma demoResources_NoDup rc : NoDup (resource_id <$> demoResources rc).
Proof.
  unfold demoResources. rewrite fmap_app, <-!list_fmap_compose. apply NoDup_app. split_and!.
  - apply NoDup_fmap_2; [apply prefixed_inj|apply NoDup_seq].
  - intros x (i & -> & _)%list_elem_of_fmap (j & Hj & _)%list_elem_of_fmap. discriminate Hj.
  - apply NoDup_fmap_2; [apply prefixed_inj|apply NoDup_seq].
Qed.

Lemma depIds_NoDup k n : NoDup (depIds k n).
Proof. apply NoDup_fmap_2; [apply prefixed_inj|apply NoDup_seq]. Qed.


(** ** What [generateDemoData] promises *)

(** The shape of the data: the requested counts, unique ids, every task's
    resource and order present, its phases, priority and progress in
    range, and every dependency sound. *)
Definition demo_wf (taskCount resourceCount orderCount : nat) (d : DemoData) : Prop :=
  length (dd_tasks d) = taskCount /\ length (dd_resources d) = resourceCount /\
  length (dd_orders d) = orderCount /\ dd_groups d = demoGroups /\
  NoDup (dt_id <$> dd_tasks d) /\ NoDup (resource_id <$> dd_resources d) /\
  NoDup (do_id <$> dd_orders d) /\ NoDup (dep_id <$> dd_dependencies d) /\
  (forall t, t ∈ dd_tasks d ->
     dt_resourceId t ∈ resource_id <$> dd_resources d /\ dt_orderId t ∈ do_id <$> dd_orders d /\
     phases_ok (dt_phases t) /\ (0 <= dt_priority t <= 5)%Z /\ (0 <= dt_progress t < 100)%Z) /\
  (forall dep, dep ∈ dd_dependencies d -> dep_sound (dd_tasks d) dep).

(** No task depends on itself through a chain of dependencies. *)
Definition demo_acyclic (d : DemoData) : Prop := forall a, ~ tc (dep_edge (dd_dependencies d)) a a.

Section DemoProofs.
Variable rnd : nat -> Q.
Variable clock : nat -> Z.
Hypothesis rnd_range : forall n, 0 <= rnd n < 1.

Lemma gen_spec_random : gen_spec (random rnd) (fun r => 0 <= r < 1).
Proof. intros g. eexists _, _. split; [reflexivity|]. apply rnd_range. Qed.

Lemma gen_spec_dateNow : gen_spec (dateNow clock) (fun _ => True).
Proof. intros g. by eexists _, _. Qed.

(** One step of a [GenM] proof: the draw, the clock, a lookup. *)
Ltac gen_step :=
  match goal with
  | |- gen_spec (random _ ≫= _) _ =>
      eapply gen_spec_bind; [apply gen_spec_random|]; let r := fresh "r" in let Hr := fresh "Hr" in intros r Hr
  | |- gen_spec (dateNow _ ≫= _) _ =>
      eapply gen_spec_bind; [apply gen_spec_dateNow|]; intros ? _
  | |- gen_spec (mret _) _ => apply gen_spec_ret
  end.

Lemma genPhases_ok : gen_spec (genPhases rnd) phases_ok.
Proof.
  unfold genPhases. do 2 gen_step.
  eapply (gen_spec_bind _ _ (fun s => s = [] \/ exists d, s = [mkPhase setup d None] /\ (15 <= d < 45)%Z)).
  { case_match; [gen_step; gen_step; right; eexists; split; [done|] | by gen_step; left].
    pose proof (floor_draw r1 30 Hr1 ltac:(lia)). lia. }
  intros s Hs. gen_step.
  eapply (gen_spec_bind _ _ (fun c => c = [] \/ exists d, c = [mkPhase cleanup d None] /\ (10 <= d < 30)%Z)).
  { case_match; [gen_step; gen_step; right; eexists; split; [done|] | by gen_step; left].
    pose proof (floor_draw r2 20 Hr2 ltac:(lia)). lia. }
  intros c Hc. gen_step. exists s, (30 + Qfloor (r1 * 180))%Z, c.
  pose proof (floor_draw r1 180 Hr1 ltac:(lia)). split_and!; try done; lia.
Qed.

(** A lookup at an index in range returns an element of the list. *)
Lemma gen_spec_lookup_elem {A} (l : list A) i :
  (i < length l)%nat -> gen_spec (gen_lookup l i) (fun a => a ∈ l).
Proof. intros Hi. apply gen_spec_lookup; [|done]. intros a. apply list_elem_of_lookup_2. Qed.

(** One iteration of the task loop, when there is a resource and the
    order index is in range. *)
Lemma genTask_ok tc oc resources orders now i :
  resources <> [] -> (orderIndexOf tc oc i < length orders)%nat ->
  gen_spec (genTask rnd tc oc resources orders now i) (task_ok resources orders now i (length resources)).
Proof.
  intros Hres Ho. assert (Hl : length resources <> 0%nat) by (by destruct resources).
  unfold genTask. gen_step.
  eapply gen_spec_bind; [apply genPhases_ok|]. intros ps Hps.
  eapply gen_spec_bind.
  { apply gen_spec_lookup_elem. case_decide; [done|]. by apply Nat.mod_upper_bound. }
  intros res Hres'.
  eapply gen_spec_bind; [by apply gen_spec_lookup_elem|]. intros ord Hord.
  do 3 gen_step.
  eapply (gen_spec_bind _ _ (fun p => (0 <= p < 100)%Z)).
  { case_match; [gen_step; gen_step; by apply (floor_draw _ 100)|gen_step; lia]. }
  intros p Hp. gen_step. unfold task_ok. cbn -[pretty].
  pose proof (ceiling_draw r0 Hr0).
  replace (inject_Z (8 * hourMs)) with (28800000 : Q) by reflexivity.
  destruct Hr. split_and!; cbn; try done; try lia; try lra.
  all: by apply list_elem_of_fmap_2.
Qed.

(** The inner loop over [i], ..., [i + n - 1]. *)
Lemma depsLoop_ok ratio L i n k :
  (1 <= i)%nat -> (n = 0 \/ i + n <= length L)%nat ->
  gen_spec (depsLoop rnd ratio L i n k)
    (fun '(ds, k') => k' = (k + length ds)%nat /\ dep_id <$> ds = depIds k (length ds) /\
                      forall d, d ∈ ds -> drawn_from L d).
Proof.
  revert i k. induction n as [|n IH]; intros i k Hi Hn; cbn [depsLoop].
  { gen_step. cbn. split_and!; [lia|done|set_solver]. }
  destruct Hn as [?|Hn]; [lia|]. gen_step. case_match.
  - gen_step.
    pose proof (floor_draw r0 (Z.of_nat i) Hr0 ltac:(lia)) as Hf.
    change (Z.of_nat i # 1) with (inject_Z (Z.of_nat i)) in Hf.
    set (a := Z.to_nat (Qfloor (r0 * inject_Z (Z.of_nat i)))).
    assert (Ha : (a < i)%nat) by (subst a; lia).
    eapply (gen_spec_bind _ _ (fun p => L !! a = Some p)); [apply gen_spec_lookup; [done|lia]|].
    intros p Hp.
    eapply (gen_spec_bind _ _ (fun s => L !! i = Some s)); [apply gen_spec_lookup; [done|lia]|].
    intros s Hs.
    eapply gen_spec_bind; [apply (IH (S i) (S k)); lia|]. intros [rest k'] (-> & Hid & Hd).
    gen_step. cbn [length fmap list_fmap dep_id]. rewrite depIds_S, Hid. split_and!; [lia|done|].
    intros d [-> | Hd']%elem_of_cons; [|by apply Hd].
    by exists a, i, p, s.
  - apply IH; lia.
Qed.

(** The outer loop: each dependency is drawn from the sorted tasks of one
    entry of [tasksByOrder]. *)
Lemma ordersLoop_ok ratio G k :
  gen_spec (ordersLoop rnd ratio G k)
    (fun ds => dep_id <$> ds = depIds k (length ds) /\
               forall d, d ∈ ds -> exists key L, (key, L) ∈ G /\ drawn_from (sortByStart L) d).
Proof.
  revert k. induction G as [|[key L] G IH]; intros k; cbn [ordersLoop].
  { gen_step. split; [done|set_solver]. }
  eapply gen_spec_bind; [apply depsLoop_ok; lia|]. intros [ds k'] (-> & Hid & Hd).
  eapply gen_spec_bind; [apply IH|]. intros rest (Hid' & Hr).
  gen_step. split.
  - by rewrite length_app, depIds_app, fmap_app, Hid, Hid'.
  - intros d [Hd1 | Hd2]%elem_of_app.
    + exists key, L. split; [by left|by apply Hd].
    + destruct (Hr d Hd2) as (key' & L' & Hin & Hdr). exists key', L'. split; [by right|done].
Qed.

Lemma genOrder_ok i : gen_spec (genOrder clock i) (fun o => do_id o = "order-" +:+ pretty i).
Proof. unfold genOrder. gen_step. by gen_step. Qed.

(** The orders loop returns one order per index. *)
Lemma orderLoop_ok oc :
  gen_spec (gen_for (genOrder clock) 0 oc)
    (fun os => length os = oc /\ forall k a, os !! k = Some a -> do_id a = "order-" +:+ pretty (0 + k)%nat).
Proof. apply (gen_spec_for _ (fun i o => do_id o = "order-" +:+ pretty i)). intros i _. apply genOrder_ok. Qed.

(** The task loop, when each iteration finds its resource and order. *)
Lemma taskLoop_ok tc oc resources orders now :
  (tc = 0 \/ resources <> [] /\ length orders = oc /\ 0 < oc)%nat ->
  gen_spec (gen_for (genTask rnd tc oc resources orders now) 0 tc)
    (fun ts => length ts = tc /\
       forall k t, ts !! k = Some t -> task_ok resources orders now k (length resources) t).
Proof.
  intros Hpre. eapply gen_spec_weaken.
  { apply (gen_spec_for _ (fun k => task_ok resources orders now k (length resources))).
    intros i Hi. destruct Hpre as [->|(Hr & Ho & Hoc)]; [lia|].
    apply genTask_ok; [done|]. unfold orderIndexOf. rewrite decide_False by lia.
    rewrite Ho. apply Nat.mod_upper_bound. lia. }
  intros ts [Hl Hk]. split; [done|]. intros k t. apply Hk.
Qed.

Lemma generateDemoData_ok o :
  (taskCountOf o = 0 \/ 0 < resourceCountOf o /\ 0 < orderCountOf o)%nat ->
  gen_spec (generateDemoData rnd clock o)
    (fun d => demo_wf (taskCountOf o) (resourceCountOf o) (orderCountOf o) d /\ demo_acyclic d).
Proof.
  intros Hpre. unfold generateDemoData.
  eapply gen_spec_bind; [apply orderLoop_ok|]. intros orders [Hol Hoid].
  gen_step.
  eapply gen_spec_bind; [apply taskLoop_ok|].
  { destruct Hpre as [?|[? ?]]; [by left|right]. split_and!; [|done|lia].
    intros E. pose proof (demoResources_length (resourceCountOf o)) as L. rewrite E in L. cbn in L. lia. }
  intros ts [Htl Hts].
  eapply gen_spec_bind; [apply ordersLoop_ok|]. intros ds [Hdid Hds]. gen_step.
  assert (Hnd : NoDup (dt_id <$> ts)).
  { apply (NoDup_indexed dt_id (fun i => "task-" +:+ pretty i)); [apply prefixed_inj|].
    intros k t Hk. apply (Hts k t Hk). }
  assert (Hsound : forall d, d ∈ ds ->
    dep_sound ts d /\ (demoRank ts (predecessorId d) < demoRank ts (successorId d))%nat).
  { intros d Hd. destruct (Hds d Hd) as (key & L & Hin & Hdr). by eapply drawn_from_group. }
  split; [|intros x; apply (dep_edge_acyclic ts); intros d Hd; by apply Hsound].
  unfold demo_wf; cbn. split_and!; try done.
  - apply demoResources_length.
  - apply demoResources_NoDup.
  - apply (NoDup_indexed do_id (fun i => "order-" +:+ pretty i)); [apply prefixed_inj|done].
  - rewrite Hdid. apply depIds_NoDup.
  - intros t (k & Hk)%list_elem_of_lookup. destruct (Hts k t Hk) as (_ & ? & ? & ? & ? & ? & _). done.
  - intros d Hd. by apply Hsound.
Qed.

(** An iteration without a resource, or whose order index is past the
    orders, reads [undefined.id] and throws. *)
Lemma genTask_fail tc oc resources orders now i g :
  (resources = [] \/ length orders <= orderIndexOf tc oc i)%nat ->
  genTask rnd tc oc resources orders now i g = JsFail TypeError_undefined.
Proof.
  intros Hf. unfold genTask. erewrite gen_bind_ok by reflexivity.
  match goal with |- _ ?g = _ => destruct (genPhases_ok g) as (ps & g1 & E1 & _) end.
  erewrite gen_bind_ok by exact E1.
  destruct resources as [|res0 rs]; [by apply gen_bind_fail|].
  destruct Hf as [Hf|Hf]; [done|].
  edestruct (gen_spec_lookup_elem (res0 :: rs) (i mod length (res0 :: rs)) ltac:(by apply Nat.mod_upper_bound) g1)
    as (res & g2 & E2 & _).
  erewrite gen_bind_ok by exact E2.
  apply gen_bind_fail. unfold gen_lookup. by rewrite lookup_ge_None_2 by lia.
Qed.


End DemoProofs.

(** ** The generator's contract *)

(** (C27) Given draws of [Math.random()] in [0, 1), and a resource and an
    order whenever there is a task to generate, [generateDemoData]
    returns: the requested numbers of tasks, resources and orders, the two
    groups, unique ids for tasks, resources, orders and dependencies, every
    task on a resource and an order of the data with valid phases, a
    priority in [0..5] and a progress in [0..99], and every dependency
    linking two distinct tasks of one order, the predecessor starting no
    later than the successor. *)
Theorem generateDemoData_well_formed rnd clock o :
  (forall n, 0 <= rnd n < 1) ->
  (taskCountOf o = 0 \/ 0 < resourceCountOf o /\ 0 < orderCountOf o)%nat ->
  gen_spec (generateDemoData rnd clock o) (demo_wf (taskCountOf o) (resourceCountOf o) (orderCountOf o)).
Proof.
  intros Hr Hpre. eapply gen_spec_weaken; [by apply generateDemoData_ok|]. by intros d [? _].
Qed.

Lemma generateDemoData_well_formed_witness :
  (forall n, 0 <= (fun _ : nat => 0) n < 1) /\
  gen_spec (generateDemoData (fun _ => 0) (fun _ => 0%Z) (mkDemoOptions None None None None)) (demo_wf 100 20 5).
Proof.
  assert (Hr : forall n, 0 <= (fun _ : nat => 0) n < 1) by (intros; cbn; lra).
  split; [exact Hr|]. exact (generateDemoData_well_formed _ _ (mkDemoOptions None None None None) Hr ltac:(right; cbn; lia)).
Defined.

(** (C28) Under the same conditions the dependencies of [generateDemoData]
    have no cycle: each goes from an earlier to a later place of its
    order's tasks sorted by start time. *)
Theorem generateDemoData_acyclic rnd clock o :
  (forall n, 0 <= rnd n < 1) ->
  (taskCountOf o = 0 \/ 0 < resourceCountOf o /\ 0 < orderCountOf o)%nat ->
  gen_spec (generateDemoData rnd clock o) demo_acyclic.
Proof.
  intros Hr Hpre. eapply gen_spec_weaken; [by apply generateDemoData_ok|]. by intros d [_ ?].
Qed.

Lemma generateDemoData_acyclic_witness :
  (forall n, 0 <= (fun _ : nat => 1 # 2) n < 1) /\
  gen_spec (generateDemoData (fun _ => 1 # 2) (fun _ => 0%Z) (mkDemoOptions (Some 10%nat) (Some 2%nat) (Some 1%nat) (Some 1))) demo_acyclic.
Proof.
  assert (Hr : forall n, 0 <= (fun _ : nat => 1 # 2) n < 1) by (intros; cbn; lra).
  split; [exact Hr|].
  exact (generateDemoData_acyclic _ _ (mkDemoOptions (Some 10%nat) (Some 2%nat) (Some 1%nat) (Some 1)) Hr ltac:(right; cbn; lia)).
Defined.

(** (C29) With tasks to generate and no resource or no order,
    [generateDemoData] throws a [TypeError] on the first task:
    [resources[0 % 0].id] or [orders[NaN].id]. *)
Theorem generateDemoData_fails rnd clock o g :
  (forall n, 0 <= rnd n < 1) -> (0 < taskCountOf o)%nat ->
  (resourceCountOf o = 0 \/ orderCountOf o = 0)%nat ->
  generateDemoData rnd clock o g = JsFail TypeError_undefined.
Proof.
  intros Hr Ht Hro. unfold generateDemoData. cbv zeta.
  destruct (orderLoop_ok clock (orderCountOf o) g) as (orders & g1 & E1 & Hl & _).
  erewrite gen_bind_ok by exact E1. erewrite gen_bind_ok by reflexivity.
  destruct (taskCountOf o) as [|tc] eqn:Etc; [lia|]. cbn [gen_for].
  apply gen_bind_fail, gen_bind_fail, genTask_fail; [done|].
  destruct Hro as [Hrc|Hoc]; [left; by rewrite Hrc|right].
  unfold orderIndexOf. rewrite decide_True by done. lia.
Qed.

Lemma generateDemoData_fails_witness :
  (forall n, 0 <= (fun _ : nat => 0) n < 1) /\ (0 < taskCountOf (mkDemoOptions None None (Some 0%nat) None))%nat /\
  generateDemoData (fun _ => 0) (fun _ => 0%Z) (mkDemoOptions None None (Some 0%nat) None) (mkGen 0 0) =
    JsFail TypeError_undefined.
Proof.
  assert (Hr : forall n, 0 <= (fun _ : nat => 0) n < 1) by (intros; cbn; lra).
  split_and!; [exact Hr|cbn; lia|]. apply generateDemoData_fails; [exact Hr|cbn; lia|right; reflexivity].
Defined.

(** [generateLargeDataset] never throws: its clamped counts give at
    least 20 resources and 5 orders, so its data has the shape of
    [demo_wf] with those counts and acyclic dependencies. *)
Theorem generateLargeDataset_ok rnd clock taskCount :
  (forall n, 0 <= rnd n < 1) ->
  gen_spec (generateLargeDataset rnd clock taskCount)
    (fun d => demo_wf taskCount (Nat.min 100 (Nat.max 20 (taskCount / 50)))
                      (Nat.min 20 (Nat.max 5 (taskCount / 200))) d /\ demo_acyclic d).
Proof.
  intros Hr. refine (generateDemoData_ok _ _ Hr _ _). right. cbn -[Nat.min Nat.max Nat.div]. lia.
Qed.

Lemma generateLargeDataset_ok_witness :
  (forall n, 0 <= (fun _ : nat => 0) n < 1) /\
  gen_spec (generateLargeDataset (fun _ => 0) (fun _ => 0%Z) 1000)
    (fun d => demo_wf 1000 20 5 d /\ demo_acyclic d).
Proof.
  assert (Hr : forall n, 0 <= (fun _ : nat => 0) n < 1) by (intros; cbn; lra).
  split; [exact Hr|]. exact (generateLargeDataset_ok _ _ 1000 Hr).
Defined.

(** [Math.ceil(Math.random() * 5)] is [0] when [Math.random()]
    returns [0]: the generated priority leaves the range 1..5 of
    [Task.priority]. *)
Example generateDemoData_priority_zero :
  match generateDemoData (fun _ => 0) (fun _ => 0%Z) (mkDemoOptions (Some 1%nat) (Some 1%nat) (Some 1%nat) None) (mkGen 0 0) with
  | JsOk (d, _) => dt_priority <$> dd_tasks d = [0%Z]
  | JsFail _ => False
  end.
Proof. vm_compute. reflexivity. Qed.

