(* ===== verification/Provider.v ===== *)
(** * Provider: [GanttProvider] and the selection hooks of src/unnamed/part_000

    [GanttProvider] creates the store once, at its first render, with
    [createGanttStore(config)], then runs an effect that calls the
    store's [initializeData] with the [tasks], [resources],
    [dependencies], [orders] and [groups] props, at the first commit and
    whenever one of them changed; [initializeData] goes through the
    store's [set], so the history middleware sees it (History.v).  Its
    [onTaskChange] subscription calls back, after a change of
    [state.tasks], once for every key of the new tasks whose task
    differs from the one before.

    [useGanttSelectedTaskIds] and [useGanttSelectedTasks] read the
    selection: the second keeps the ids that name a task.  The selection
    set's order is not kept by the model (a [gset]); the components that
    read these hooks use the first element only when there is one.

    The theorems: right after a provider mounts with tasks, the undo
    button is enabled and undoing empties the chart, with no [onTaskChange]
    call; deleting a task is never reported to [onTaskChange], while an
    update that changes a task is reported once, for that task. *)

From S2P Require Import Prelude Types TaskUtils Viewport Store History Controls.

#[export] Instance StoredTask_eq_dec : EqDecision StoredTask.
Proof. solve_decision. Defined.

(** ** The selection hooks *)

(** [useGanttSelectedTaskIds]: [Array.from(state.selection.taskIds)]. *)
Definition selectedTaskIds (s : GanttStoreState) : list string :=
  elements (sel_taskIds (selection s)).

(** [useGanttSelectedTasks]: the selected ids that name a task, with
    their tasks. *)
Definition selectedTasks (s : GanttStoreState) : list Task :=
  omap (fun taskId => (tasks s)⟦taskId⟧%gantt) (selectedTaskIds s).

(** ** [GanttProvider] *)

(** The props [GanttProvider] reads; the callbacks are given apart. *)
Record ProviderProps := mkProviderProps {
  pp_tasks : option (list StoredTask);
  pp_resources : option (list Resource);
  pp_dependencies : option (list TaskDependency);
  pp_orders : option (list Order);
  pp_groups : option (list ResourceGroup);
  pp_config : GanttStoreConfig;
}.

(** The dependencies of the initialisation effect. *)
Definition providerData (p : ProviderProps) :=
  (pp_tasks p, pp_resources p, pp_dependencies p, pp_orders p, pp_groups p).

(** [storeRef.current = createGanttStore(config)]: the store and its
    temporal store, with empty stacks. *)
Definition providerStore (p : ProviderProps) (now : Z) : Tracked GanttStoreState :=
  mkTracked (createGanttStore (pp_config p) now) (mkTemporal [] []).

(** The effect body: [initializeData] when [tasks] and [resources] are
    given (an array, even empty, is truthy). *)
Definition initializeEffect (p : ProviderProps) (t : Tracked GanttStoreState)
    : js_result (Tracked GanttStoreState) :=
  match pp_tasks p, pp_resources p with
  | Some ts, Some rs =>
      ganttAction t (GStore (AInitializeData ts rs (pp_dependencies p) (pp_orders p) (pp_groups p)))
  | _, _ => JsOk t
  end.

(** A mounted provider: its store and the props of its last commit. *)
Record ProviderInstance := mkProviderInstance {
  pi_store : Tracked GanttStoreState;
  pi_props : ProviderProps;
}.

(** The first render and commit. *)
Definition providerMount (p : ProviderProps) (now : Z) : js_result ProviderInstance :=
  match initializeEffect p (providerStore p now) with
  | JsOk t => JsOk (mkProviderInstance t p)
  | JsFail f => JsFail f
  end.

(** A later render and commit with new props: the store is kept (a new
    [config] is ignored); the effect runs when its dependencies changed. *)
Definition providerRerender (i : ProviderInstance) (p : ProviderProps) : js_result ProviderInstance :=
  let r := if decide (providerData (pi_props i) = providerData p) then JsOk (pi_store i)
           else initializeEffect p (pi_store i) in
  match r with
  | JsOk t => JsOk (mkProviderInstance t p)
  | JsFail f => JsFail f
  end.

(** A call of [useGanttActions] on the provider's store. *)
Definition providerAct (i : ProviderInstance) (a : GanttAction) : js_result ProviderInstance :=
  match ganttAction (pi_store i) a with
  | JsOk t => JsOk (mkProviderInstance t (pi_props i))
  | JsFail f => JsFail f
  end.

(** The [onTaskChange] listener's loop over [Object.keys(tasks)]:
    [tasks[taskId] !== prevTasks[taskId]]. *)
Definition taskChanges (prevTasks newTasks : jsobj Task) : list (string * Task) :=
  omap (fun taskId => match newTasks⟦taskId⟧%gantt with
                      | Some t => if decide (prevTasks⟦taskId⟧%gantt = Some t) then None
                                  else Some (taskId, t)
                      | None => None
                      end) (obj_keys newTasks).

(** The subscription: the listener runs when [state.tasks] changed. *)
Definition onTaskChangeCalls (prev next : GanttStoreState) : list (string * Task) :=
  if decide (tasks prev = tasks next) then [] else taskChanges (tasks prev) (tasks next).

(** ** Lemmas *)

Lemma obj_set_not_nil {V} (k : string) (v : V) o : obj_set k v o <> [].
Proof. intros E. pose proof (obj_get_set_eq k v o) as H. by rewrite E in H. Qed.

Lemma obj_of_list_nil {A V} (key : A -> string) (f : A -> V) xs :
  obj_of_list key f xs = [] -> xs = [].
Proof.
  unfold obj_of_list. destruct xs as [|x xs _] using rev_ind; [done|].
  rewrite fold_left_app. cbn. intros E. by apply obj_set_not_nil in E.
Qed.

(** No key of the new tasks whose task was already there is reported. *)
Lemma taskChanges_nil prevTasks newTasks :
  (forall k t, newTasks⟦k⟧%gantt = Some t -> prevTasks⟦k⟧%gantt = Some t) ->
  taskChanges prevTasks newTasks = [].
Proof.
  intros H. unfold taskChanges. induction (obj_keys newTasks) as [|k ks IH]; [done|].
  cbn. destruct (newTasks⟦k⟧%gantt) as [t|] eqn:E; [|done].
  rewrite decide_True by (by apply H). exact IH.
Qed.

(** The key [k] is the only one of the list [g] keeps. *)
Lemma omap_single {A B} `{!EqDecision A} (g : A -> option B) (l : list A) k x :
  NoDup l -> k ∈ l -> g k = Some x -> (forall k', k' <> k -> g k' = None) -> omap g l = [x].
Proof.
  induction l as [|a l IH]; intros Hnd Hk Hg Hn; [set_solver|]. apply NoDup_cons in Hnd as [Ha Hnd].
  cbn. destruct (decide (a = k)) as [->|Hne].
  - rewrite Hg. f_equal. clear IH Hk. induction l as [|b l IHl]; [done|]. cbn.
    rewrite Hn by set_solver. apply IHl; [set_solver|by apply NoDup_cons in Hnd as [_ ?]].
  - rewrite (Hn a Hne). apply IH; [done|set_solver|done|done].
Qed.

Lemma createGanttStore_tasks cfg now : tasks (createGanttStore cfg now) = [].
Proof. unfold createGanttStore. by repeat case_match. Qed.

(** The mount effect with tasks: one [set], which the history records
    whatever the data ([initializeData] assigns new collections). *)
Lemma providerMount_init p now ts rs :
  pp_tasks p = Some ts -> pp_resources p = Some rs ->
  let s0 := createGanttStore (pp_config p) now in
  providerMount p now =
    JsOk (mkProviderInstance
            (mkTracked (initializeData s0 ts rs (pp_dependencies p) (pp_orders p) (pp_groups p))
                       (mkTemporal [s0] [])) p).
Proof.
  intros Ht Hr s0. unfold providerMount, initializeEffect. rewrite Ht, Hr. cbn -[createGanttStore initializeData].
  unfold providerStore. rewrite store_set_push; [done|reflexivity|cbn; unfold HISTORY_LIMIT; lia].
Qed.

(** (C30) [initializeData] goes through the history: right after a
    provider mounts with a non-empty task list, the undo button is
    enabled, and undoing brings back the empty store [createGanttStore]
    made, removing every task without any [onTaskChange] call. *)
Theorem provider_mount_undo_clears p now ts rs :
  pp_tasks p = Some ts -> ts <> [] -> pp_resources p = Some rs ->
  exists i, providerMount p now = JsOk i /\ canUndo (pi_store i) = true /\
    tasks (present (undo (pi_store i))) = [] /\
    onTaskChangeCalls (present (pi_store i)) (present (undo (pi_store i))) = [].
Proof.
  intros Ht Hts Hr. rewrite (providerMount_init p now ts rs Ht Hr).
  eexists; split; [reflexivity|]. cbn [pi_store].
  unfold undo. cbn -[createGanttStore initializeData]. rewrite createGanttStore_tasks.
  split_and!; [done|done|]. unfold onTaskChangeCalls. by case_decide.
Qed.

Lemma provider_mount_undo_clears_witness :
  exists i, providerMount (mkProviderProps (Some example_tasks) (Some []) None None None
                             (mkConfig None None None None None None)) 0 = JsOk i /\
    canUndo (pi_store i) = true /\ tasks (present (undo (pi_store i))) = [] /\
    onTaskChangeCalls (present (pi_store i)) (present (undo (pi_store i))) = [].
Proof. by apply (provider_mount_undo_clears _ 0 example_tasks []). Defined.

(** Deleting a task is never reported: after [deleteTask] the
    [onTaskChange] listener makes no call, since it only visits the keys
    of the new tasks. *)
Theorem deleteTask_not_reported s taskId :
  onTaskChangeCalls s (deleteTask s taskId) = [].
Proof.
  unfold onTaskChangeCalls. case_decide; [done|]. apply taskChanges_nil.
  intros k t Hk. cbn in Hk. destruct (decide (k = taskId)) as [->|Hne].
  - by rewrite obj_get_delete_eq in Hk.
  - by rewrite obj_get_delete_ne in Hk.
Qed.

(** An update that changes an existing task is reported once, with
    the updated task, and no other task is reported. *)
Theorem updateTask_reported s taskId u t :
  obj_wf (tasks s) -> (tasks s)⟦taskId⟧%gantt = Some t -> applyTaskUpdate u t <> t ->
  onTaskChangeCalls s (updateTask s taskId u) = [(taskId, applyTaskUpdate u t)].
Proof.
  intros Hwf Ht Hch. unfold onTaskChangeCalls, updateTask, taskChanges. cbn [tasks with_tasks].
  assert (Hnew : (obj_alter (applyTaskUpdate u) taskId (tasks s))⟦taskId⟧%gantt = Some (applyTaskUpdate u t))
    by (by rewrite obj_get_alter_eq, Ht).
  rewrite decide_False by (intros E; rewrite <-E, Ht in Hnew; congruence).
  rewrite obj_keys_alter. apply (omap_single _ _ taskId).
  - exact Hwf.
  - by eapply obj_keys_elem_of, obj_get_elem_of.
  - rewrite Hnew, Ht. by rewrite decide_False by congruence.
  - intros k Hk. rewrite obj_get_alter_ne by done.
    destruct ((tasks s)⟦k⟧%gantt); [by rewrite decide_True|done].
Qed.

Lemma updateTask_reported_witness :
  let u := mkTaskUpdate None (Some 3600000%Z) None None None None None None None None None in
  obj_wf (tasks example_store) /\ (tasks example_store)⟦"t1"⟧%gantt = Some (hydrateTask example_t1) /\
  applyTaskUpdate u (hydrateTask example_t1) <> hydrateTask example_t1 /\
  onTaskChangeCalls example_store (updateTask example_store "t1" u) =
    [("t1", applyTaskUpdate u (hydrateTask example_t1))].
Proof.
  intros u. assert (Hwf : obj_wf (tasks example_store)) by (unfold obj_wf; apply (bool_decide_unpack _ (dec := NoDup_dec _)); vm_compute; reflexivity).
  assert (Ht : (tasks example_store)⟦"t1"⟧%gantt = Some (hydrateTask example_t1)) by reflexivity.
  assert (Hch : applyTaskUpdate u (hydrateTask example_t1) <> hydrateTask example_t1) by (vm_compute; congruence).
  split_and!; [exact Hwf|exact Ht|exact Hch|]. exact (updateTask_reported _ _ _ _ Hwf Ht Hch).
Defined.
