(* ===== verification/Subscriptions.v ===== *)
(** * Subscriptions: the store's context hooks and [GanttProvider]'s
    selection and viewport callbacks (src/unnamed/part_000)

    [useGanttStoreApi] (lines 151-157) reads the provider's context and
    throws outside a provider; [useGanttStore] and the convenience hooks
    (lines 163-272) apply a selector to the store's state.

    [GanttProvider] subscribes [onSelectionChange] to
    [state.selection.taskIds] and [onViewportChange] to [state.viewport]
    (lines 112-138) with zustand's [subscribeWithSelector]: after a [set]
    the listener runs when the selected value is not [Object.is] the one
    before.  The store's recipes run under Immer (part_001, lines
    278-281, with [enableMapSet]), which gives a field a new object
    exactly when the recipe changed it: an assignment changes a draft
    when the value differs from the draft's ([Object.is], numeric
    equality on the model's exact numbers), a draft [Set]'s [add] when
    the element is new and its [delete] when it is present, and an
    assigned [new Set(...)] is always a new object.  A recipe is the
    sequence of writes it makes to the draft ([draftRun]); the
    notification is the new value when one of them changed the draft.
    [reset] replaces the whole state with [createInitialState()], so both
    fields are new objects.

    The theorems: the writes of each action rebuild the state the store
    model of Store.v computes; no action that returns changes the selected
    ids or the viewport without calling the callback, which receives the
    new value; some actions call it with an unchanged value.

    Not modelled: the notifications of [undo] and [redo], which restore a
    snapshot whose objects may or may not be the current ones (the value
    model of History.v does not keep object identity), and the order of
    [Array.from(taskIds)] (insertion order; the set is a [gset]). *)

From S2P Require Import Prelude Types Viewport Store.

Local Open Scope Q_scope.

(** ** Immer drafts *)

Section Draft.
Context {V W : Type}.
Variable apply : V -> W -> V.
Variable changes : V -> W -> bool.

(** A recipe's writes to one field of the draft: the final value and
    whether some write changed it. *)
Fixpoint draftRun (ws : list W) (v : V) : V * bool :=
  match ws with
  | [] => (v, false)
  | w :: ws' => let '(v', m) := draftRun ws' (apply v w) in (v', changes v w || m)
  end.

End Draft.

(** A write to a field of [state.viewport]. *)
Inductive VpWrite :=
  | WScrollX (q : Q) | WTimeOrigin (q : Q) | WPixelsPerHour (q : Q) | WScrollY (q : Q)
  | WRowHeight (q : Q) | WWidth (q : Q) | WHeight (q : Q) | WZoomLevel (z : ZoomLevel).

Definition vpApply (v : ViewportState) (w : VpWrite) : ViewportState :=
  match w with
  | WScrollX q => mkViewport q (timeOrigin v) (pixelsPerHour v) (scrollY v) (rowHeight v) (width v) (height v) (zoomLevel v)
  | WTimeOrigin q => mkViewport (scrollX v) q (pixelsPerHour v) (scrollY v) (rowHeight v) (width v) (height v) (zoomLevel v)
  | WPixelsPerHour q => mkViewport (scrollX v) (timeOrigin v) q (scrollY v) (rowHeight v) (width v) (height v) (zoomLevel v)
  | WScrollY q => mkViewport (scrollX v) (timeOrigin v) (pixelsPerHour v) q (rowHeight v) (width v) (height v) (zoomLevel v)
  | WRowHeight q => mkViewport (scrollX v) (timeOrigin v) (pixelsPerHour v) (scrollY v) q (width v) (height v) (zoomLevel v)
  | WWidth q => mkViewport (scrollX v) (timeOrigin v) (pixelsPerHour v) (scrollY v) (rowHeight v) q (height v) (zoomLevel v)
  | WHeight q => mkViewport (scrollX v) (timeOrigin v) (pixelsPerHour v) (scrollY v) (rowHeight v) (width v) q (zoomLevel v)
  | WZoomLevel z => mkViewport (scrollX v) (timeOrigin v) (pixelsPerHour v) (scrollY v) (rowHeight v) (width v) (height v) z
  end.

(** Immer's set trap: the write changes the draft unless the value is
    [Object.is] the current one. *)
Definition vpChanges (v : ViewportState) (w : VpWrite) : bool :=
  match w with
  | WScrollX q => negb (Qeq_bool q (scrollX v))
  | WTimeOrigin q => negb (Qeq_bool q (timeOrigin v))
  | WPixelsPerHour q => negb (Qeq_bool q (pixelsPerHour v))
  | WScrollY q => negb (Qeq_bool q (scrollY v))
  | WRowHeight q => negb (Qeq_bool q (rowHeight v))
  | WWidth q => negb (Qeq_bool q (width v))
  | WHeight q => negb (Qeq_bool q (height v))
  | WZoomLevel z => negb (bool_decide (z = zoomLevel v))
  end.

(** [Object.assign(state.viewport, viewport)]: one write per key of the
    partial viewport (each key once, so their order does not matter). *)
Definition assignWrites (u : ViewportUpdate) : list VpWrite :=
  option_list (WScrollX <$> vu_scrollX u) ++ option_list (WTimeOrigin <$> vu_timeOrigin u) ++
  option_list (WPixelsPerHour <$> vu_pixelsPerHour u) ++ option_list (WScrollY <$> vu_scrollY u) ++
  option_list (WRowHeight <$> vu_rowHeight u) ++ option_list (WWidth <$> vu_width u) ++
  option_list (WHeight <$> vu_height u) ++ option_list (WZoomLevel <$> vu_zoomLevel u).

(** The writes of the viewport actions' recipes (part_001, lines
    459-515); the other actions do not touch [state.viewport]. *)
Definition viewportWrites (v : ViewportState) (a : StoreAction) : list VpWrite :=
  match a with
  | ASetViewport u =>
      assignWrites u ++ option_list ((fun p => WZoomLevel (getZoomLevel p)) <$> vu_pixelsPerHour u)
  | APanViewport dx dy =>
      [WScrollX (Qmax 0 (scrollX v + dx)); WScrollY (Qmax 0 (scrollY v + dy))]
  | AZoomViewport factor centerX =>
      let oldPixelsPerHour := pixelsPerHour v in
      let newPixelsPerHour := clampZoom (oldPixelsPerHour * factor) in
      let scrollXOffset := centerX + scrollX v in
      let timeOffset := scrollXOffset / oldPixelsPerHour in
      let newScrollX := timeOffset * newPixelsPerHour - centerX in
      [WPixelsPerHour newPixelsPerHour; WScrollX (Qmax 0 newScrollX);
       WZoomLevel (getZoomLevel newPixelsPerHour)]
  | ASetZoomLevel level => [WPixelsPerHour (ZOOM_CONFIG_pixelsPerHour level); WZoomLevel level]
  | AScrollToTime timestamp =>
      let hoursFromOrigin := (timestamp - timeOrigin v) / (60 * 60 * 1000) in
      [WScrollX (hoursFromOrigin * pixelsPerHour v - width v / 2)]
  | AScrollToRow rowIndex => [WScrollY (rowIndex * rowHeight v)]
  | _ => []
  end.

(** An operation on the draft of [state.selection.taskIds]. *)
Inductive SetWrite :=
  | SetAssign (x : gset string)
  | SetAdd (k : string)
  | SetDelete (k : string).

Definition setApply (E : gset string) (w : SetWrite) : gset string :=
  match w with
  | SetAssign x => x
  | SetAdd k => {[k]} ∪ E
  | SetDelete k => E ∖ {[k]}
  end.

(** A new [Set] is a new object; Immer's draft [Set] copies itself on an
    [add] of a new element or a [delete] of a present one. *)
Definition setChanges (E : gset string) (w : SetWrite) : bool :=
  match w with
  | SetAssign _ => true
  | SetAdd k => bool_decide (k ∉ E)
  | SetDelete k => bool_decide (k ∈ E)
  end.

(** The selection recipes' operations on [taskIds] (part_001, lines
    518-560). *)
Definition taskIdsWrites (s : GanttStoreState) (a : StoreAction) : list SetWrite :=
  match a with
  | ASelectTask taskId select_replace => [SetAssign {[taskId]}]
  | ASelectTask taskId select_add => [SetAdd taskId]
  | ASelectTask taskId select_toggle =>
      if decide (taskId ∈ sel_taskIds (selection s)) then [SetDelete taskId] else [SetAdd taskId]
  | ASelectTasks taskIds true => [SetAssign (list_to_set taskIds)]
  | ASelectTasks taskIds false => map SetAdd taskIds
  | AClearSelection => [SetAssign ∅]
  | ASelectAllTasks => [SetAssign (list_to_set (obj_keys (tasks s)))]
  | _ => []
  end.

(** ** The callbacks *)

(** The value the [onSelectionChange] listener receives after the action,
    [Array.from(taskIds)], or [None] when it is not called. *)
Definition selectionNotify (s : GanttStoreState) (a : StoreAction) : option (list string) :=
  match a with
  | AReset _ => Some []
  | _ =>
      let '(ids, changed) := draftRun setApply setChanges (taskIdsWrites s a) (sel_taskIds (selection s)) in
      if changed then Some (elements ids) else None
  end.

(** The viewport the [onViewportChange] listener receives. *)
Definition viewportNotify (s : GanttStoreState) (a : StoreAction) : option ViewportState :=
  match a with
  | AReset now => Some (viewport (createInitialState now))
  | _ =>
      let '(v, changed) := draftRun vpApply vpChanges (viewportWrites (viewport s) a) (viewport s) in
      if changed then Some v else None
  end.

(** The callbacks [GanttProvider] passes, as far as the subscriptions
    see them: whether each is given. *)
Record ProviderCallbacks := mkProviderCallbacks {
  cb_onSelectionChange : bool;
  cb_onViewportChange : bool;
}.

Inductive ProviderNotification :=
  | SelectionChanged (taskIds : list string)
  | ViewportChanged (v : ViewportState).

(** The calls after one action: the effects return early without a
    callback; the selection listener was subscribed before the viewport
    listener, and zustand calls listeners in subscription order. *)
Definition providerNotifications (cb : ProviderCallbacks) (s : GanttStoreState) (a : StoreAction)
    : list ProviderNotification :=
  (if cb_onSelectionChange cb then option_list (SelectionChanged <$> selectionNotify s a) else []) ++
  (if cb_onViewportChange cb then option_list (ViewportChanged <$> viewportNotify s a) else []).

(** ** The context hooks *)

(** [useGanttStoreApi]: the context's store, or the [Error] it throws. *)
Definition useGanttStoreApi {A} (context : option A) : js_result A :=
  match context with
  | Some store => JsOk store
  | None => JsFail (ThrownError "useGanttStoreApi must be used within a GanttProvider")
  end.

(** [useGanttStore(selector)]: the selector on the store's state. *)
Definition useGanttStore {T} (context : option GanttStoreState) (selector : GanttStoreState -> T)
    : js_result T :=
  match useGanttStoreApi context with
  | JsOk s => JsOk (selector s)
  | JsFail f => JsFail f
  end.

(** [useGanttStoreShallow(selector)]: the same value; the shallow
    equality decides only when a component renders again. *)
Definition useGanttStoreShallow {T} (context : option GanttStoreState) (selector : GanttStoreState -> T)
    : js_result T :=
  useGanttStore context selector.

Definition useGanttTasks context := useGanttStore context tasks.
Definition useGanttResources context := useGanttStore context resources.
Definition useGanttDependencies context := useGanttStore context dependencies.
Definition useGanttOrders context := useGanttStore context orders.
Definition useGanttGroups context := useGanttStore context groups.
Definition useGanttViewport context := useGanttStoreShallow context viewport.
Definition useGanttZoom context := useGanttStore context (fun s => zoomLevel (viewport s)).
Definition useGanttSelection context := useGanttStoreShallow context selection.
Definition useGanttGrouping context := useGanttStoreShallow context grouping.
Definition useGanttGroupingMode context := useGanttStore context (fun s => mode (grouping s)).
Definition useGanttDrag context := useGanttStore context drag.
Definition useGanttHoveredTaskId context := useGanttStore context hoveredTaskId.
Definition useGanttSidebarWidth context := useGanttStore context sidebarWidth.
Definition useGanttMinResolution context := useGanttStore context minResolution.

(** ** Lemmas *)

(** The viewport's numbers are compared by value, as [Object.is] compares
    doubles. *)
Definition vp_eqv (v w : ViewportState) : Prop :=
  scrollX v == scrollX w /\ timeOrigin v == timeOrigin w /\ pixelsPerHour v == pixelsPerHour w /\
  scrollY v == scrollY w /\ rowHeight v == rowHeight w /\ width v == width w /\
  height v == height w /\ zoomLevel v = zoomLevel w.

#[export] Instance vp_eqv_equiv : Equivalence vp_eqv.
Proof.
  split.
  - intros v. split_and!; reflexivity.
  - intros v w H. unfold vp_eqv in *. intuition (by symmetry).
  - intros u v w H1 H2. unfold vp_eqv in *. intuition (etransitivity; eauto).
Qed.

Section DraftLemmas.
Context {V W : Type}.
Variable apply : V -> W -> V.
Variable changes : V -> W -> bool.

Lemma draftRun_fst ws v : (draftRun apply changes ws v).1 = fold_left apply ws v.
Proof.
  revert v. induction ws as [|w ws IH]; intros v; [done|]. cbn.
  specialize (IH (apply v w)). destruct (draftRun apply changes ws (apply v w)). done.
Qed.

(** A recipe none of whose writes changed the draft leaves the value
    equivalent to the one before, for any equivalence each unchanging
    write keeps. *)
Lemma draftRun_unchanged (R : relation V) `{!PreOrder R} ws v :
  (forall v w, changes v w = false -> R (apply v w) v) ->
  (draftRun apply changes ws v).2 = false -> R (fold_left apply ws v) v.
Proof.
  intros Hw. revert v. induction ws as [|w ws IH]; intros v; [done|]. cbn.
  pose proof (IH (apply v w)) as IH'.
  destruct (draftRun apply changes ws (apply v w)) as [v' m].
  intros [Hc Hm]%orb_false_iff. etransitivity; [by apply IH'|by apply Hw].
Qed.

End DraftLemmas.

#[export] Instance vp_eqv_preorder : PreOrder vp_eqv.
Proof. split; apply _. Qed.

Lemma vpChanges_false v w : vpChanges v w = false -> vp_eqv (vpApply v w) v.
Proof.
  unfold vp_eqv. destruct w; cbn; intros H; apply negb_false_iff in H;
    [apply Qeq_bool_iff in H..|apply bool_decide_eq_true in H]; split_and!; done.
Qed.

Lemma setChanges_false E w : setChanges E w = false -> setApply E w = E.
Proof.
  destruct w as [x|k|k]; cbn; try case_bool_decide; intros; try discriminate.
  - destruct (decide (k ∈ E)); set_solver.
  - set_solver.
Qed.

Lemma fold_setAdd (ks : list string) E :
  fold_left setApply (map SetAdd ks) E = list_to_set ks ∪ E.
Proof.
  revert E. induction ks as [|k ks IH]; intros E; cbn; [set_solver|].
  rewrite IH. set_solver.
Qed.

(** [commitDrag] only writes the tasks and the drag. *)
Lemma commitDrag_frame s s' :
  commitDrag s = JsOk s' -> viewport s' = viewport s /\ selection s' = selection s.
Proof.
  unfold commitDrag, commitDragSets. destruct (drag s) as [d|]; [|by intros [= <-]].
  destruct (dependencyViolations d); [|by intros [= <-]].
  destruct (drag_type d);
    try (destruct ((tasks s)⟦drag_taskId d⟧%gantt); [|done];
         destruct (resizePhases _ _ _); [|done]);
    by intros [= <-].
Qed.

Lemma assignWrites_apply v u :
  fold_left vpApply (assignWrites u ++
    option_list ((fun p => WZoomLevel (getZoomLevel p)) <$> vu_pixelsPerHour u)) v = setViewport v u.
Proof.
  destruct v, u as [o1 o2 o3 o4 o5 o6 o7 o8].
  destruct o1, o2, o3, o4, o5, o6, o7, o8; reflexivity.
Qed.

(** The writes of an action other than [reset] give the viewport of
    Store.v's action. *)
Lemma viewportWrites_apply s a s' :
  apply_action s a = JsOk s' -> (forall now, a <> AReset now) ->
  fold_left vpApply (viewportWrites (viewport s) a) (viewport s) = viewport s'.
Proof.
  intros Ha Hr. destruct a; cbn [apply_action] in Ha;
    try (exfalso; by eapply Hr); try (apply commitDrag_frame in Ha as [-> _]; reflexivity);
    injection Ha as <-; try reflexivity.
  - apply assignWrites_apply.
  - unfold startDrag. by repeat case_match.
  - unfold updateDrag. by repeat case_match.
Qed.

(** The operations of an action other than [reset] give the selected ids
    of Store.v's action. *)
Lemma taskIdsWrites_apply s a s' :
  apply_action s a = JsOk s' -> (forall now, a <> AReset now) ->
  fold_left setApply (taskIdsWrites s a) (sel_taskIds (selection s)) = sel_taskIds (selection s').
Proof.
  intros Ha Hr. destruct a; cbn [apply_action] in Ha;
    try (exfalso; by eapply Hr); try (apply commitDrag_frame in Ha as [_ ->]; reflexivity);
    injection Ha as <-; try reflexivity.
  - destruct m; cbn; [done|done|]. unfold set_toggle. by case_decide.
  - destruct replace; [done|apply fold_setAdd].
  - unfold startDrag. by repeat case_match.
  - unfold updateDrag. by repeat case_match.
Qed.

Lemma reset_or_not (a : StoreAction) : (exists now, a = AReset now) \/ forall now, a <> AReset now.
Proof. destruct a; try (right; by intros ? [=]). left; eauto. Qed.

Lemma selectionNotify_draft s a :
  (forall now, a <> AReset now) ->
  selectionNotify s a =
  let '(ids, changed) := draftRun setApply setChanges (taskIdsWrites s a) (sel_taskIds (selection s)) in
  if changed then Some (elements ids) else None.
Proof. intros Hr. destruct a; try reflexivity. by destruct (Hr now). Qed.

Lemma viewportNotify_draft s a :
  (forall now, a <> AReset now) ->
  viewportNotify s a =
  let '(v, changed) := draftRun vpApply vpChanges (viewportWrites (viewport s) a) (viewport s) in
  if changed then Some v else None.
Proof. intros Hr. destruct a; try reflexivity. by destruct (Hr now). Qed.

(** The selection listener: not called only when the ids are unchanged,
    called with the new ids. *)
Lemma selectionNotify_spec s a s' :
  apply_action s a = JsOk s' ->
  (selectionNotify s a = None -> sel_taskIds (selection s') = sel_taskIds (selection s)) /\
  (forall l, selectionNotify s a = Some l -> l = elements (sel_taskIds (selection s'))).
Proof.
  intros Ha. destruct (reset_or_not a) as [[now ->]|Hr].
  - injection Ha as <-. split; [done|]. by intros l [= <-].
  - rewrite selectionNotify_draft by done.
    pose proof (draftRun_fst setApply setChanges (taskIdsWrites s a) (sel_taskIds (selection s))) as Hf.
    pose proof (draftRun_unchanged setApply setChanges eq (taskIdsWrites s a) (sel_taskIds (selection s))) as Hu.
    rewrite (taskIdsWrites_apply s a s') in Hf, Hu by done.
    destruct (draftRun _ _ _ _) as [ids []]; cbn in Hf, Hu; split; try discriminate.
    + intros l [= <-]. by subst.
    + intros _. apply Hu; [apply setChanges_false|done].
Qed.

(** The viewport listener: not called only when the viewport is
    unchanged, called with the new viewport. *)
Lemma viewportNotify_spec s a s' :
  apply_action s a = JsOk s' ->
  (viewportNotify s a = None -> vp_eqv (viewport s') (viewport s)) /\
  (forall v, viewportNotify s a = Some v -> v = viewport s').
Proof.
  intros Ha. destruct (reset_or_not a) as [[now ->]|Hr].
  - injection Ha as <-. split; [done|]. by intros v [= <-].
  - rewrite viewportNotify_draft by done.
    pose proof (draftRun_fst vpApply vpChanges (viewportWrites (viewport s) a) (viewport s)) as Hf.
    pose proof (draftRun_unchanged vpApply vpChanges vp_eqv (viewportWrites (viewport s) a) (viewport s)) as Hu.
    rewrite (viewportWrites_apply s a s') in Hf, Hu by done.
    destruct (draftRun _ _ _ _) as [v []]; cbn in Hf, Hu; split; try discriminate.
    + intros w [= <-]. by subst.
    + intros _. apply Hu; [apply vpChanges_false|done].
Qed.

(** ** Theorems *)

(** (C31) The provider reports every change of the selection and of the
    viewport: after a store action that returns, a given
    [onSelectionChange] is called with the new selected ids whenever they
    changed, a given [onViewportChange] with the new viewport whenever a
    field of it changed, and every call carries the new value. *)
Theorem provider_callbacks_report_changes cb s a s' :
  apply_action s a = JsOk s' ->
  (cb_onSelectionChange cb = true -> sel_taskIds (selection s') <> sel_taskIds (selection s) ->
     SelectionChanged (elements (sel_taskIds (selection s'))) ∈ providerNotifications cb s a) /\
  (cb_onViewportChange cb = true -> ~ vp_eqv (viewport s') (viewport s) ->
     ViewportChanged (viewport s') ∈ providerNotifications cb s a) /\
  (forall n, n ∈ providerNotifications cb s a ->
     n = SelectionChanged (elements (sel_taskIds (selection s'))) \/ n = ViewportChanged (viewport s')).
Proof.
  intros Ha. destruct (selectionNotify_spec s a s' Ha) as [Sn Ss], (viewportNotify_spec s a s' Ha) as [Vn Vs].
  unfold providerNotifications.
  destruct (selectionNotify s a) as [l|]; [rewrite (Ss l) by done|];
    (destruct (viewportNotify s a) as [v|]; [rewrite (Vs v) by done|]);
    destruct cb as [[] []]; cbn; split_and!; intros; set_solver.
Qed.

Lemma provider_callbacks_report_changes_witness :
  let s := createInitialState 0 in
  let a := ASelectTask "t1" select_replace in
  apply_action s a = JsOk (selectTask s "t1" select_replace) /\
  sel_taskIds (selection (selectTask s "t1" select_replace)) <> sel_taskIds (selection s) /\
  SelectionChanged (elements (sel_taskIds (selection (selectTask s "t1" select_replace))))
    ∈ providerNotifications (mkProviderCallbacks true false) s a.
Proof.
  assert (Hne : sel_taskIds (selection (selectTask (createInitialState 0) "t1" select_replace))
                <> sel_taskIds (selection (createInitialState 0))).
  { cbn. intros H. assert ("t1" ∈ (∅ : gset string)) as []%not_elem_of_empty.
    rewrite <- H. apply elem_of_singleton. reflexivity. }
  split; [reflexivity|]. split; [exact Hne|].
  apply (provider_callbacks_report_changes (mkProviderCallbacks true false) (createInitialState 0)
    (ASelectTask "t1" select_replace) _ eq_refl); [reflexivity|exact Hne].
Defined.

(** [clearSelection] on an empty selection assigns a new [Set], and a
    [setViewport] giving both [zoomLevel] and a [pixelsPerHour] of the
    same zoom level writes the level twice: the callbacks are called
    with unchanged values. *)
Example provider_callbacks_unchanged_values :
  let s := createInitialState 0 in
  providerNotifications (mkProviderCallbacks true true) s AClearSelection = [SelectionChanged []] /\
  providerNotifications (mkProviderCallbacks true true) s
    (ASetViewport (mkViewportUpdate None None (Some 10) None None None None (Some week))) =
    [ViewportChanged (viewport s)].
Proof. split; vm_compute; reflexivity. Qed.
