(* ===== verification/Routes.v ===== *)
(** * Routes: the demo pages of src/src/routes/gantt-bottom-toolbar.tsx

    The file holds three route modules, each a page built on the
    composable context (Provider.v) and the demo generator (DemoData.v):
    - [GanttBottomToolbar] (lines 1-184): a task count selector, the
      sidebar, time axis and canvas sized from the container, the toolbar
      at the bottom and a selection info bar;
    - [GanttSidebarRight] (lines 185-568): the canvas narrowed by a
      320-pixel detail panel while tasks are selected, the panel showing
      one task's details or a summary of several, status badges and a
      zoom indicator;
    - [GanttMinimal] (lines 744-1008): a header with the visible date
      range, corner zoom and undo buttons, a time navigator panning by
      half the width, and a selection counter.

    A page's state is its task count and the container's size; a button
    is a call of [useGanttActions] (Controls.v) on the store.  The markup
    and class names other than the status badge's are not modelled;
    date-fns's [format] is left to the reader of the start times.  The
    demo data reach the store through [GanttProvider], whose store keeps
    integral start times (Store.v): the generator's fractional start
    times are not carried over.

    The theorems: the minimal header's date range is the viewport's
    visible time range; the corner zoom buttons (1.3 and 0.7) do not
    undo each other, unlike the toolbar's (1.25 and 0.8, Controls.v);
    panning left then right restores the scroll only when it was at least
    half a width; the average progress of a multi-selection lies between
    the smallest and largest progress; a priority outside 1..5 has no
    label. *)

From Stdlib Require Import Ascii.
From stdpp Require Import pretty.
From S2P Require Import Prelude Types TaskUtils Viewport Store History Controls Provider DemoData.

Open Scope Q_scope.

(** ** Shared pieces *)

(** The container's [contentRect], set by the resize observer. *)
Record Dims := mkDims { dimWidth : Q; dimHeight : Q }.

(** A page: [useState(500)] for the task count and the dimensions. *)
Record RouteState := mkRouteState { rs_taskCount : nat; rs_dims : Dims }.

Definition routeInit : RouteState := mkRouteState 500 (mkDims 0 0).

(** What changes a page's state: a count button and the resize observer. *)
Inductive RouteEvent :=
  | SetTaskCount (count : nat)
  | ResizeEntry (width height : Q).

Definition routeStep (r : RouteState) (e : RouteEvent) : RouteState :=
  match e with
  | SetTaskCount c => mkRouteState c (rs_dims r)
  | ResizeEntry w h => mkRouteState (rs_taskCount r) (mkDims w h)
  end.

(** [useMemo(() => generateLargeDataset(taskCount), [taskCount])] *)
Definition routeData (rnd : nat -> Q) (clock : nat -> Z) (r : RouteState) : GenM DemoData :=
  generateLargeDataset rnd clock (rs_taskCount r).

(** The count buttons of [TaskCountSelector] and of [MinimalHeader]. *)
Definition taskCountOptions : list nat := [100; 500; 1000; 2500]%nat.
Definition minimalTaskCountOptions : list nat := [100; 500; 1000]%nat.

(** [${count / 1000}] for a whole count: JS prints the quotient with the
    fewest decimals, here at most three. *)
Fixpoint dropZeros (l : list Ascii.ascii) : list Ascii.ascii :=
  match l with
  | "0"%char :: l' => dropZeros l'
  | _ => l
  end.

Definition pad3 (r : nat) : string :=
  (if decide (r < 10)%nat then "00" else if decide (r < 100)%nat then "0" else "") +:+ pretty r.

Definition thousandths (c : nat) : string :=
  pretty (c / 1000)%nat +:+
  (if decide (c mod 1000 = 0)%nat then ""
   else "." +:+ String.string_of_list_ascii (rev (dropZeros (rev (String.list_ascii_of_string (pad3 (c mod 1000))))))).

(** [count >= 1000 ? `${count / 1000}k` : count] *)
Definition countLabel (count : nat) : string :=
  if decide (1000 <= count)%nat then thousandths count +:+ "k" else pretty count.

(** The buttons: label and whether it is the selected one. *)
Definition taskCountButtons (options : list nat) (value : nat) : list (string * bool) :=
  (fun c => (countLabel c, bool_decide (value = c))) <$> options.

(** [StatusBadge]: its class and [status.replace("_", " ")], which
    replaces the first underscore. *)
Inductive BadgeSize := badge_sm | badge_md.

Record Badge := mkBadge { badge_class : string; badge_text : string }.

Definition statusName (s : TaskStatus) : string :=
  match s with
  | scheduled => "scheduled" | in_progress => "in_progress"
  | completed => "completed" | blocked => "blocked"
  end.

Definition statusColor (s : TaskStatus) : string :=
  match s with
  | scheduled => "bg-secondary text-secondary-foreground"
  | in_progress => "bg-primary/20 text-primary"
  | completed => "bg-success/20 text-success"
  | blocked => "bg-destructive/20 text-destructive"
  end.

Definition sizeClass (sz : BadgeSize) : string :=
  match sz with badge_sm => "px-1.5 py-0.5 text-xs" | badge_md => "px-2 py-1 text-xs" end.

Fixpoint replaceFirst (c r : Ascii.ascii) (s : string) : string :=
  match s with
  | EmptyString => EmptyString
  | String a s' => if Ascii.ascii_dec a c then String r s' else String a (replaceFirst c r s')
  end.

Definition statusBadge (status : TaskStatus) (sz : BadgeSize) : Badge :=
  mkBadge ("rounded " +:+ statusColor status +:+ " " +:+ sizeClass sz)
          (replaceFirst "_" " " (statusName status)).

(** ** [GanttBottomToolbar] *)

Definition bt_sidebarWidth : Q := 200.
Definition bt_timelineHeight : Q := 50.
Definition bt_toolbarHeight : Q := 48.
Definition bt_headerHeight : Q := 60.

Definition bottomCanvasWidth (d : Dims) : Q := Qmax 0 (dimWidth d - bt_sidebarWidth).
Definition bottomCanvasHeight (d : Dims) : Q :=
  Qmax 0 (dimHeight d - bt_timelineHeight - bt_toolbarHeight - bt_headerHeight).

(** [SelectionInfoBar]: the hint, or the count with the single task's
    name, status and progress. *)
Inductive SelectionInfo :=
  | InfoHint
  | InfoSelected (summary : string) (single : option (string * TaskStatus * Z)).

Definition selectionInfoBar (sel : list Task) : SelectionInfo :=
  match sel with
  | [] => InfoHint
  | t :: _ =>
      InfoSelected (pretty (length sel) +:+ " task" +:+
                    (if decide (1 < length sel)%nat then "s" else "") +:+ " selected")
                   (if decide (length sel = 1)%nat then Some (task_name t, status t, progress t) else None)
  end.

(** ** [GanttSidebarRight] *)

Definition sr_timelineHeight : Q := 50.
Definition sr_headerHeight : Q := 60.

(** [MainContent]: the detail panel is 320 pixels wide while tasks are
    selected. *)
Definition detailPanelWidth (sel : list Task) : Q := if decide (0 < length sel)%nat then 320 else 0.
Definition mainCanvasWidth (d : Dims) (sel : list Task) : Q := Qmax 0 (dimWidth d - detailPanelWidth sel).
Definition mainCanvasHeight (d : Dims) (timelineHeight : Q) : Q := Qmax 0 (dimHeight d - timelineHeight).

(** [["Lowest", "Low", "Medium", "High", "Highest"][task.priority - 1]]:
    [undefined] out of the array, negative indices included. *)
Definition priorityLabels : list string := ["Lowest"; "Low"; "Medium"; "High"; "Highest"].

Definition priorityLabel (priority : Z) : option string :=
  if (priority - 1 <? 0)%Z then None else priorityLabels !! Z.to_nat (priority - 1).

(** [SingleTaskDetails] *)
Record TaskDetails := mkTaskDetails {
  det_name : string;
  det_status : Badge;
  det_startTime : Z;
  det_duration : Z;
  det_progress : Z;
  det_priority : option string;
  det_phases : list (PhaseType * Z);
}.

Definition singleTaskDetails (t : Task) : TaskDetails :=
  mkTaskDetails (task_name t) (statusBadge (status t) badge_md) (startTime t) (_totalDuration t)
    (progress t) (priorityLabel (task_priority t))
    ((fun ph => (phaseType ph, duration ph)) <$> phases t).

(** [MultiTaskSummary]: the two reductions from 0 and the list. *)
Record MultiSummary := mkMultiSummary {
  ms_totalDuration : Z;
  ms_avgProgress : Z;
  ms_rows : list (string * Badge);
}.

Definition sumProgress (ts : list Task) : Z := foldl (fun sum t => sum + progress t)%Z 0%Z ts.

Definition multiTaskSummary (ts : list Task) : MultiSummary :=
  mkMultiSummary (foldl (fun sum t => sum + _totalDuration t)%Z 0%Z ts)
    (js_round (inject_Z (sumProgress ts) / inject_Z (Z.of_nat (length ts))))
    ((fun t => (task_name t, statusBadge (status t) badge_sm)) <$> ts).

(** [TaskDetailPanel] *)
Inductive DetailPanel :=
  | NoPanel
  | SinglePanel (title : string) (details : TaskDetails)
  | MultiPanel (title : string) (summary : MultiSummary).

Definition taskDetailPanel (sel : list Task) : DetailPanel :=
  match sel with
  | [] => NoPanel
  | t :: _ =>
      if decide (1 < length sel)%nat
      then MultiPanel (pretty (length sel) +:+ " Tasks Selected") (multiTaskSummary sel)
      else SinglePanel "Task Details" (singleTaskDetails t)
  end.

(** [ZoomIndicator] *)
Definition zoomLevelName (z : ZoomLevel) : string :=
  match z with hour => "hour" | day => "day" | week => "week" | month => "month" end.

Definition zoomIndicator (s : GanttStoreState) : string := "Zoom: " +:+ zoomLevelName (zoomLevel (viewport s)).

(** ** [GanttMinimal] *)

(** [MinimalHeader]'s visible time range. *)
Definition headerVisibleRange (v : ViewportState) : Q * Q :=
  let visibleStartTime := timeOrigin v + scrollX v / pixelsPerHour v * 3600000 in
  (visibleStartTime, visibleStartTime + width v / pixelsPerHour v * 3600000).

(** [CornerControls]: zoom by 1.3 and 0.7 about the middle of the
    viewport; its undo and redo buttons are [undoClick] and [redoClick]. *)
Definition cornerZoomIn (t : Tracked GanttStoreState) : js_result (Tracked GanttStoreState) :=
  ganttAction t (GStore (AZoomViewport (13 # 10) (width (viewport (present t)) / 2))).
Definition cornerZoomOut (t : Tracked GanttStoreState) : js_result (Tracked GanttStoreState) :=
  ganttAction t (GStore (AZoomViewport (7 # 10) (width (viewport (present t)) / 2))).

(** [TimeNavigator]: pan by half the width; its Today button is
    [todayClick]. *)
Definition panLeftClick (t : Tracked GanttStoreState) : js_result (Tracked GanttStoreState) :=
  ganttAction t (GStore (APanViewport (- width (viewport (present t)) / 2) 0)).
Definition panRightClick (t : Tracked GanttStoreState) : js_result (Tracked GanttStoreState) :=
  ganttAction t (GStore (APanViewport (width (viewport (present t)) / 2) 0)).

(** [SelectionIndicator]: the number of selected ids, nothing when 0. *)
Definition selectionIndicator (s : GanttStoreState) : option nat :=
  let n := length (selectedTaskIds s) in if decide (n = 0)%nat then None else Some n.

(** ** Lemmas *)

Lemma clampZoom_in x : 1 # 4 <= x -> x <= 120 -> clampZoom x == x.
Proof. intros H1 H2. unfold clampZoom. rewrite Q.min_r by lra. apply Q.max_r. lra. Qed.

(** Half a width back and forth, the first step clamped at 0. *)
Lemma pan_back (s w : Q) : 0 <= w -> Qmax 0 (Qmax 0 (s + - w / 2) + w / 2) == Qmax s (w / 2).
Proof.
  intros Hw. unfold Qdiv. change (/ 2) with (1 # 2). destruct (Qlt_le_dec s (w * (1 # 2))).
  - assert (E : Qmax 0 (s + - w * (1 # 2)) == 0) by (apply Q.max_l; lra). rewrite E, Qplus_0_l.
    transitivity (w * (1 # 2)); [apply Q.max_r; lra|]. symmetry. apply Q.max_r. lra.
  - assert (E : Qmax 0 (s + - w * (1 # 2)) == s + - w * (1 # 2)) by (apply Q.max_r; lra). rewrite E.
    transitivity s; [rewrite Q.max_r; [ring|lra]|]. symmetry. apply Q.max_l. lra.
Qed.

Lemma sumProgress_bounds ts lo hi :
  (forall t, t ∈ ts -> (lo <= progress t <= hi)%Z) ->
  (Z.of_nat (length ts) * lo <= sumProgress ts <= Z.of_nat (length ts) * hi)%Z.
Proof.
  unfold sumProgress. intros Hts.
  assert (forall acc, Z.of_nat (length ts) * lo + acc <= foldl (fun sum t => sum + progress t)%Z acc ts <=
                      Z.of_nat (length ts) * hi + acc)%Z as H.
  { induction ts as [|t ts IH]; intros a; cbn [foldl length]; [lia|].
    destruct (Hts t ltac:(set_solver)). specialize (IH ltac:(set_solver) (a + progress t)%Z). lia. }
  specialize (H 0%Z). lia.
Qed.

(** ** Theorems *)

(** [MinimalHeader] computes the engine's visible time range: its
    start and end are [xToTime 0] and [xToTime width] of the viewport. *)
Theorem headerVisibleRange_is_visible_range v :
  ~ pixelsPerHour v == 0 ->
  fst (headerVisibleRange v) == fst (getVisibleTimeRange v) /\
  snd (headerVisibleRange v) == snd (getVisibleTimeRange v).
Proof. intros Hp. unfold headerVisibleRange, getVisibleTimeRange, xToTime, MS_PER_HOUR. cbn. split; field; exact Hp. Qed.

Lemma headerVisibleRange_is_visible_range_witness :
  ~ pixelsPerHour (viewport (createInitialState 0)) == 0 /\
  fst (headerVisibleRange (viewport (createInitialState 0))) == fst (getVisibleTimeRange (viewport (createInitialState 0))) /\
  snd (headerVisibleRange (viewport (createInitialState 0))) == snd (getVisibleTimeRange (viewport (createInitialState 0))).
Proof.
  assert (Hp : ~ pixelsPerHour (viewport (createInitialState 0)) == 0) by (cbn; discriminate).
  split; [exact Hp|]. exact (headerVisibleRange_is_visible_range _ Hp).
Defined.

(** The corner zoom buttons do not undo each other: zooming in
    (1.3) then out (0.7), neither clamped, leaves [pixelsPerHour] at 91%
    of its value. *)
Theorem corner_zoom_in_out_drift t :
  1 # 4 <= pixelsPerHour (viewport (present t)) * (91 # 100) ->
  pixelsPerHour (viewport (present t)) * (13 # 10) <= 120 ->
  exists t1 t2, cornerZoomIn t = JsOk t1 /\ cornerZoomOut t1 = JsOk t2 /\
    pixelsPerHour (viewport (present t2)) == pixelsPerHour (viewport (present t)) * (91 # 100).
Proof.
  intros H1 H2. unfold cornerZoomIn, cornerZoomOut.
  destruct (ganttAction_store t (AZoomViewport (13 # 10) (width (viewport (present t)) / 2)) _ eq_refl)
    as (t1 & E1 & P1).
  destruct (ganttAction_store t1 (AZoomViewport (7 # 10) (width (viewport (present t1)) / 2)) _ eq_refl)
    as (t2 & E2 & P2).
  exists t1, t2. rewrite E1, E2. split_and!; [done|done|].
  rewrite P2, P1. unfold store_zoomViewport, zoomViewport. cbn [viewport with_viewport pixelsPerHour].
  set (p := pixelsPerHour (viewport (present t))) in *.
  assert (E : clampZoom (p * (13 # 10)) == p * (13 # 10)) by (apply clampZoom_in; lra).
  transitivity (clampZoom (p * (13 # 10)) * (7 # 10)); [apply clampZoom_in; rewrite E; lra|]. rewrite E. ring.
Qed.

Lemma corner_zoom_in_out_drift_witness :
  let t := mkTracked (createInitialState 0) (mkTemporal [] []) in
  1 # 4 <= pixelsPerHour (viewport (present t)) * (91 # 100) /\
  pixelsPerHour (viewport (present t)) * (13 # 10) <= 120 /\
  exists t1 t2, cornerZoomIn t = JsOk t1 /\ cornerZoomOut t1 = JsOk t2 /\
    pixelsPerHour (viewport (present t2)) == pixelsPerHour (viewport (present t)) * (91 # 100).
Proof.
  intros t. assert (H1 : 1 # 4 <= pixelsPerHour (viewport (present t)) * (91 # 100)) by (cbn; lra).
  assert (H2 : pixelsPerHour (viewport (present t)) * (13 # 10) <= 120) by (cbn; lra).
  split_and!; [exact H1|exact H2|]. exact (corner_zoom_in_out_drift t H1 H2).
Defined.

(** [TimeNavigator]'s pan left then pan right moves the scroll to
    the larger of where it was and half the width: it comes back exactly
    when the scroll was at least half a width, the left pan being clamped
    at 0 otherwise. *)
Theorem pan_left_right t :
  0 <= width (viewport (present t)) ->
  exists t1 t2, panLeftClick t = JsOk t1 /\ panRightClick t1 = JsOk t2 /\
    scrollX (viewport (present t2)) == Qmax (scrollX (viewport (present t))) (width (viewport (present t)) / 2) /\
    scrollY (viewport (present t2)) == Qmax 0 (scrollY (viewport (present t))).
Proof.
  intros Hw. unfold panLeftClick, panRightClick.
  destruct (ganttAction_store t (APanViewport (- width (viewport (present t)) / 2) 0) _ eq_refl)
    as (t1 & E1 & P1).
  destruct (ganttAction_store t1 (APanViewport (width (viewport (present t1)) / 2) 0) _ eq_refl)
    as (t2 & E2 & P2).
  exists t1, t2. rewrite E1, E2. split_and!; [done|done| |]; rewrite P2, P1;
    unfold store_panViewport, panViewport; cbn [viewport with_viewport scrollX scrollY width];
    set (s := scrollX (viewport (present t))); set (sy := scrollY (viewport (present t)));
    set (w := width (viewport (present t))).
  - by apply pan_back.
  - rewrite !Qplus_0_r. apply Q.max_r, Q.le_max_l.
Qed.

Lemma pan_left_right_witness :
  let t := mkTracked (store_setViewport (createInitialState 0)
                        (mkViewportUpdate None None None None None (Some 800) None None)) (mkTemporal [] []) in
  0 <= width (viewport (present t)) /\
  exists t1 t2, panLeftClick t = JsOk t1 /\ panRightClick t1 = JsOk t2 /\
    scrollX (viewport (present t2)) == Qmax (scrollX (viewport (present t))) (width (viewport (present t)) / 2) /\
    scrollY (viewport (present t2)) == Qmax 0 (scrollY (viewport (present t))).
Proof.
  intros t. assert (Hw : 0 <= width (viewport (present t))) by (vm_compute; discriminate).
  split; [exact Hw|]. exact (pan_left_right t Hw).
Defined.

(** (C33) [MultiTaskSummary]'s average progress, [Math.round] of the mean,
    lies between bounds every selected task's progress respects: in
    particular within 0..100. *)
Theorem multiTaskSummary_avg_bounds ts lo hi :
  ts <> [] -> (forall t, t ∈ ts -> (lo <= progress t <= hi)%Z) ->
  (lo <= ms_avgProgress (multiTaskSummary ts) <= hi)%Z.
Proof.
  intros Hne Hts. pose proof (sumProgress_bounds ts lo hi Hts) as Hb. cbn [ms_avgProgress multiTaskSummary].
  assert (Hn : (0 < Z.of_nat (length ts))%Z) by (destruct ts; [done|cbn; lia]).
  rewrite js_round_div by exact Hn. set (n := Z.of_nat (length ts)) in *. split.
  - apply Z.div_le_lower_bound; lia.
  - apply Z.lt_succ_r, Z.div_lt_upper_bound; lia.
Qed.

Lemma multiTaskSummary_avg_bounds_witness :
  [hydrateTask example_t1; hydrateTask example_t2] <> [] /\
  (forall t, t ∈ [hydrateTask example_t1; hydrateTask example_t2] -> (0 <= progress t <= 100)%Z) /\
  (0 <= ms_avgProgress (multiTaskSummary [hydrateTask example_t1; hydrateTask example_t2]) <= 100)%Z.
Proof.
  assert (Hne : [hydrateTask example_t1; hydrateTask example_t2] <> []) by discriminate.
  assert (Hts : forall t, t ∈ [hydrateTask example_t1; hydrateTask example_t2] -> (0 <= progress t <= 100)%Z).
  { apply Forall_forall. repeat constructor; vm_compute; discriminate. }
  split; [exact Hne|split; [exact Hts|]]. exact (multiTaskSummary_avg_bounds _ 0 100 Hne Hts).
Defined.

(** [SingleTaskDetails] shows a priority label exactly for the
    priorities 1 to 5; any other priority indexes outside the array and
    shows nothing. *)
Theorem priorityLabel_defined p : is_Some (priorityLabel p) <-> (1 <= p <= 5)%Z.
Proof.
  unfold priorityLabel. destruct (Z.ltb_spec (p - 1) 0) as [H|H].
  - split; [by intros []|lia].
  - rewrite lookup_lt_is_Some. cbn [length priorityLabels]. lia.
Qed.

(** The demo generator's priority 0 (when [Math.random()] returns 0)
    reaches the detail panel as a missing label. *)
Example demo_priority_zero_no_label :
  match generateDemoData (fun _ => 0) (fun _ => 0%Z)
          (mkDemoOptions (Some 1%nat) (Some 1%nat) (Some 1%nat) None) (mkGen 0 0) with
  | JsOk (d, _) => priorityLabel <$> (dt_priority <$> dd_tasks d) = [None]
  | JsFail _ => False
  end.
Proof. vm_compute. reflexivity. Qed.

(** The count buttons' labels. *)
Example taskCountButtons_labels :
  taskCountButtons taskCountOptions 500 =
    [("100", false); ("500", true); ("1k", false); ("2.5k", false)].
Proof. vm_compute. reflexivity. Qed.
