(* ===== verification/Sidebar.v ===== *)
(** * Sidebar: the composable [GanttSidebar]
    (src/src/features/gantt/components/composable/GanttSidebar.tsx)

    The sidebar lists the virtual rows (its [virtualRows] prop, else the
    row layout of the store, RowLayout.v) in a column translated by the
    vertical scroll: a group header toggles its group when clicked or on
    Enter and Space; a resource row shows the resource's name and an icon
    of its type.  An effect on the rows marks the resource rows that were
    not shown before as new, for a 300 ms entry animation, and remembers
    the rows it saw in [prevRowIdsRef].  A collapse button folds the
    sidebar to a 32-pixel button; a resize handle reports the pointer's
    horizontal distance from where it was pressed to [setSidebarWidth].

    The state of a mounted sidebar is the ref, the two [useState]s, a
    pending timeout and the rows of the last commit.  The effect depends
    on the identity of the [virtualRows] array: a commit says whether it
    is a new array ([fresh]).  [useComposableVirtualRows]' memo returns
    a new array whenever one of its dependencies is a new object (the
    store's [tasks] after a move, say), even with the same rows, and
    rows that differ are always a new array.

    The theorems: the content height is the sum of the row heights; once
    the sidebar has shown a resource row, [prevRowIdsRef] is never
    updated again while rows keep appearing, so every change of the rows
    marks all resource rows as new; the width is 200 whatever the props,
    and a resize changes the store's width only. *)

From S2P Require Import Prelude Types Viewport Store History Controls RowLayout.

Open Scope Q_scope.

(** ** Props, view and state *)

Inductive SidebarPosition := pos_left | pos_right.

(** [GanttSidebarProps]; an absent prop is [None]. *)
Record SidebarProps := mkSidebarProps {
  sp_width : option Q;
  sp_height : option Q;
  sp_position : option SidebarPosition;
  sp_resizable : option bool;
  sp_collapsible : option bool;
  sp_className : option string;
  sp_virtualRows : option (list VirtualRow);
}.

Definition positionOf (p : SidebarProps) : SidebarPosition := default pos_left (sp_position p).
Definition resizableOf (p : SidebarProps) : bool := default false (sp_resizable p).
Definition collapsibleOf (p : SidebarProps) : bool := default false (sp_collapsible p).

(** [externalVirtualRows ?? internalVirtualRows] *)
Definition sidebarRows (p : SidebarProps) (s : GanttStoreState) : list VirtualRow :=
  default (useComposableVirtualRows (resources s) (tasks s) (orders s) (grouping s)
             (rowHeight (viewport s))) (sp_virtualRows p).

(** [(propWidth ?? viewport.width > 0) ? 200 : 200]: [??] binds looser
    than [>], and both branches are 200. *)
Definition sidebarWidthOf (p : SidebarProps) (v : ViewportState) : Q :=
  let cond := match sp_width p with
              | Some w => negb (Qeq_bool w 0)
              | None => Qlt_bool 0 (width v)
              end in
  if cond then 200 else 200.

(** [totalHeight]: the end of the last row, [0] without rows. *)
Definition totalHeight (rows : list VirtualRow) : Q :=
  match last rows with
  | Some r => virtualY r + row_height r
  | None => 0
  end.

(** The icon of a resource row. *)
Inductive RowIcon := icon_user | icon_cpu.

(** What a row renders. *)
Inductive SidebarRowView :=
  | HeaderView (rowId : string) (name : option string) (top height : Q) (rotated : bool)
  | ResourceView (rowId : string) (name : string) (icon : RowIcon) (isNew : bool)
                 (staggerDelay : Q) (top height : Q).

Inductive SidebarView :=
  | CollapsedButton (height : option Q)
  | SidebarPanel (width : Q) (height : option Q) (translateY : Q) (contentHeight : Q)
                 (collapseButton : bool) (rows : list SidebarRowView) (resizeHandle : bool).

(** A mounted sidebar: [prevRowIdsRef.current], [newRowIds],
    [isCollapsed], whether a [setTimeout] of the effect is pending, and
    the rows of the last commit (the effect's dependency). *)
Record SidebarState := mkSidebarState {
  sb_prevRowIds : gset string;
  sb_newRowIds : gset string;
  sb_isCollapsed : bool;
  sb_timeout : bool;
  sb_lastRows : option (list VirtualRow);
}.

Definition sidebarInit : SidebarState := mkSidebarState ∅ ∅ false false None.

(** ** The rendering *)

(** [ResourceRow]'s [Math.min(staggerIndex * 20, 150)]. *)
Definition staggerDelay (index : nat) : Q := Qmin (inject_Z (Z.of_nat index) * 20) 150.

(** [resources[row.resourceId]], its [name ?? "Unknown"] and its icon
    ([type ?? "generic"] is a [User] only for operators). *)
Definition resourceRowView (res : jsobj Resource) (newRowIds : gset string) (index : nat)
    (row : VirtualRow) : SidebarRowView :=
  let resource := match row_resourceId row with Some rid => res⟦rid⟧%gantt | None => None end in
  ResourceView (row_id row) (default "Unknown" (resource_name <$> resource))
    (match resource_type <$> resource with Some operator => icon_user | _ => icon_cpu end)
    (bool_decide (row_id row ∈ newRowIds)) (staggerDelay index) (virtualY row) (row_height row).

(** [GroupHeaderRow]: the chevron is turned unless the group is collapsed. *)
Definition headerView (row : VirtualRow) : SidebarRowView :=
  HeaderView (row_id row) (groupName row) (virtualY row) (row_height row)
    (negb (default false (isCollapsed row))).

(** [virtualRows.map((row, index) => ...)] *)
Definition rowViews (res : jsobj Resource) (newRowIds : gset string) (rows : list VirtualRow)
    : list SidebarRowView :=
  imap (fun index row => if isGroupHeader row then headerView row
                         else resourceRowView res newRowIds index row) rows.

(** A render of [GanttSidebar]. *)
Definition sidebarView (p : SidebarProps) (s : GanttStoreState) (st : SidebarState) : SidebarView :=
  let rows := sidebarRows p s in
  if sb_isCollapsed st && collapsibleOf p then CollapsedButton (sp_height p)
  else SidebarPanel (sidebarWidthOf p (viewport s)) (sp_height p) (scrollY (viewport s))
         (totalHeight rows) (collapsibleOf p) (rowViews (resources s) (sb_newRowIds st) rows)
         (resizableOf p).

(** ** The new-row effect *)

(** The ids of [currentIds] missing from [prevIds] whose first row
    ([virtualRows.find]) is not a group header. *)
Definition newRowIdsOf (prevIds : gset string) (rows : list VirtualRow) : gset string :=
  list_to_set (omap (fun id =>
    if decide (id ∈ prevIds) then None
    else match list_find (fun r => row_id r = id) rows with
         | Some (_, r) => if isGroupHeader r then None else Some id
         | None => None
         end) (row_id <$> rows)).

(** The effect body: with new rows it shows them and schedules their
    reset, returning before [prevRowIdsRef.current = currentIds]. *)
Definition sidebarEffect (rows : list VirtualRow) (st : SidebarState) : SidebarState :=
  let currentIds : gset string := list_to_set (row_id <$> rows) in
  let newIds := newRowIdsOf (sb_prevRowIds st) rows in
  if decide (newIds = ∅) then
    mkSidebarState currentIds (sb_newRowIds st) (sb_isCollapsed st) false (Some rows)
  else mkSidebarState (sb_prevRowIds st) newIds (sb_isCollapsed st) true (Some rows).

(** A commit with [virtualRows] [rows], a new array when [fresh]: when
    the array is not the last commit's, the last run's cleanup clears its
    timeout, then the effect runs. *)
Definition sidebarCommit (fresh : bool) (rows : list VirtualRow) (st : SidebarState) : SidebarState :=
  if negb fresh && bool_decide (sb_lastRows st = Some rows) then st
  else sidebarEffect rows (mkSidebarState (sb_prevRowIds st) (sb_newRowIds st) (sb_isCollapsed st)
                             false (sb_lastRows st)).

(** The timeout fires: [setNewRowIds(new Set())]. *)
Definition sidebarTimeout (st : SidebarState) : SidebarState :=
  if sb_timeout st then mkSidebarState (sb_prevRowIds st) ∅ (sb_isCollapsed st) false (sb_lastRows st)
  else st.

(** The collapse button and the expand button. *)
Definition setCollapsed (b : bool) (st : SidebarState) : SidebarState :=
  mkSidebarState (sb_prevRowIds st) (sb_newRowIds st) b (sb_timeout st) (sb_lastRows st).

(** ** Store calls *)

(** A group header's [onClick]: [row.groupId && toggleGroup(row.groupId)]. *)
Definition headerClick (t : Tracked GanttStoreState) (row : VirtualRow) : js_result (Tracked GanttStoreState) :=
  match row_groupId row with
  | Some g => if String.eqb g "" then JsOk t else ganttAction t (GStore (AToggleGroup g))
  | None => JsOk t
  end.

(** [GroupHeaderRow]'s [handleKeyDown]: Enter and Space click the header. *)
Definition headerKeyDown (t : Tracked GanttStoreState) (row : VirtualRow) (key : string)
    : js_result (Tracked GanttStoreState) :=
  if String.eqb key "Enter" || String.eqb key " " then headerClick t row else JsOk t.

(** A mouse move of a resize started at [startX]: the handle's delta,
    given to the [onResize] of the render that started the drag. *)
Definition resizeDelta (pos : SidebarPosition) (startX clientX : Q) : Q :=
  match pos with pos_left => clientX - startX | pos_right => startX - clientX end.

Definition resizeMove (p : SidebarProps) (v : ViewportState) (t : Tracked GanttStoreState)
    (startX clientX : Q) : js_result (Tracked GanttStoreState) :=
  ganttAction t (GStore (ASetSidebarWidth (sidebarWidthOf p v + resizeDelta (positionOf p) startX clientX))).

(** The ids of the resource rows. *)
Definition resourceRowIds (rows : list VirtualRow) : gset string :=
  list_to_set (row_id <$> filter (fun r => isGroupHeader r = false) rows).

(** ** Lemmas *)

Lemma totalHeight_end_of rows : contiguous_from 0 rows -> totalHeight rows = end_of 0 rows.
Proof.
  destruct rows as [|r rows _] using rev_ind; [done|].
  rewrite contiguous_from_snoc. intros [_ Hr]. unfold totalHeight.
  by rewrite last_snoc, end_of_snoc, Hr.
Qed.

Lemma sidebarWidthOf_200 p v : sidebarWidthOf p v = 200.
Proof. unfold sidebarWidthOf. cbv zeta. by repeat case_match. Qed.

(** With unique ids, [virtualRows.find] on a row's id finds the row. *)
Lemma find_row_id rows r :
  NoDup (row_id <$> rows) -> r ∈ rows ->
  exists i, list_find (fun r' => row_id r' = row_id r) rows = Some (i, r).
Proof.
  intros Hnd (j & Hj)%list_elem_of_lookup.
  destruct (list_find (fun r' => row_id r' = row_id r) rows) as [[i r']|] eqn:E.
  - apply list_find_Some in E as (Hi & Hid & _). exists i.
    assert (i = j) as -> by (eapply NoDup_lookup; [exact Hnd| |]; rewrite list_lookup_fmap;
      [rewrite Hi|rewrite Hj]; cbn; [by rewrite Hid|done]).
    congruence.
  - apply list_find_None in E. rewrite Forall_forall in E. exfalso. by apply (E r); [eapply list_elem_of_lookup_2|].
Qed.

(** From an empty [prevIds], the new ids are those of the resource rows. *)
Lemma newRowIdsOf_empty rows : NoDup (row_id <$> rows) -> newRowIdsOf ∅ rows = resourceRowIds rows.
Proof.
  intros Hnd. unfold newRowIdsOf, resourceRowIds. f_equal.
  assert (H : forall l : list VirtualRow, (forall r, r ∈ l -> r ∈ rows) ->
    omap (fun id => if decide (id ∈ (∅ : gset string)) then None
                    else match list_find (fun r => row_id r = id) rows with
                         | Some (_, r) => if isGroupHeader r then None else Some id
                         | None => None end) (row_id <$> l) =
    row_id <$> filter (fun r => isGroupHeader r = false) l).
  { induction l as [|r l IH]; intros Hl; [done|]. cbn [fmap list_fmap omap list_omap].
    rewrite decide_False by set_solver.
    destruct (find_row_id rows r Hnd (Hl r ltac:(set_solver))) as [i ->].
    rewrite IH by set_solver. rewrite filter_cons. by destruct (isGroupHeader r). }
  by apply H.
Qed.

(** A commit whose rows show a resource never seen keeps [prevRowIdsRef]. *)
Lemma sidebarCommit_prev fresh rows st :
  sb_lastRows st <> Some rows -> newRowIdsOf (sb_prevRowIds st) rows <> ∅ ->
  sb_prevRowIds (sidebarCommit fresh rows st) = sb_prevRowIds st /\
  sb_newRowIds (sidebarCommit fresh rows st) = newRowIdsOf (sb_prevRowIds st) rows /\
  sb_lastRows (sidebarCommit fresh rows st) = Some rows.
Proof.
  intros Hl Hn. unfold sidebarCommit. rewrite (bool_decide_eq_false_2 _ Hl), andb_false_r.
  unfold sidebarEffect. cbn. by rewrite decide_False by done.
Qed.

(** ** Theorems *)

(** (C34) [prevRowIdsRef] is only updated by a commit that finds no new
    row: once the sidebar has shown a resource row, a change of the rows
    (expanding a group, say) marks every resource row as new again, those
    shown before included, and the ref stays empty. *)
Theorem sidebar_new_rows_repeat rows0 rows1 fresh0 fresh1 :
  NoDup (row_id <$> rows0) -> NoDup (row_id <$> rows1) -> rows1 <> rows0 ->
  resourceRowIds rows0 <> ∅ -> resourceRowIds rows1 <> ∅ ->
  let st := sidebarCommit fresh1 rows1 (sidebarCommit fresh0 rows0 sidebarInit) in
  sb_prevRowIds st = ∅ /\ sb_newRowIds st = resourceRowIds rows1.
Proof.
  intros Hnd0 Hnd1 Hne H0 H1 st.
  destruct (sidebarCommit_prev fresh0 rows0 sidebarInit) as (P0 & _ & L0); [done|cbn; by rewrite newRowIdsOf_empty|].
  destruct (sidebarCommit_prev fresh1 rows1 (sidebarCommit fresh0 rows0 sidebarInit)) as (P1 & N1 & _).
  - rewrite L0. congruence.
  - rewrite P0. cbn. by rewrite newRowIdsOf_empty.
  - subst st. rewrite P1, N1, P0. cbn. split; [done|]. by apply newRowIdsOf_empty.
Qed.

(** The sidebar is 200 pixels wide whatever its [width] prop and
    the store's [sidebarWidth]: a resize move writes
    [clamp(100, 200 + delta, 400)] to the store, and the sidebar is still
    drawn 200 pixels wide. *)
Theorem sidebar_resize_not_shown p t startX clientX st :
  exists t', resizeMove p (viewport (present t)) t startX clientX = JsOk t' /\
    sidebarWidth (present t') = Qmax 100 (Qmin 400 (200 + resizeDelta (positionOf p) startX clientX)) /\
    match sidebarView p (present t') st with
    | SidebarPanel w _ _ _ _ _ _ => w = 200
    | CollapsedButton _ => True
    end.
Proof.
  unfold resizeMove. rewrite sidebarWidthOf_200.
  destruct (ganttAction_store t (ASetSidebarWidth (200 + resizeDelta (positionOf p) startX clientX)) _ eq_refl)
    as (t' & E & P).
  exists t'. split; [exact E|]. rewrite P. split; [done|].
  unfold sidebarView. destruct (sb_isCollapsed st && collapsibleOf p); [done|]. apply sidebarWidthOf_200.
Qed.

Lemma sidebar_new_rows_repeat_witness :
  let rows0 := [resourceRow "r1" "r1" None 40 0] in
  let rows1 := [resourceRow "r1" "r1" None 40 0; resourceRow "r2" "r2" None 40 40] in
  NoDup (row_id <$> rows0) /\ NoDup (row_id <$> rows1) /\ rows1 <> rows0 /\
  resourceRowIds rows0 <> ∅ /\ resourceRowIds rows1 <> ∅ /\
  let st := sidebarCommit true rows1 (sidebarCommit true rows0 sidebarInit) in
  sb_prevRowIds st = ∅ /\ sb_newRowIds st = resourceRowIds rows1.
Proof.
  intros rows0 rows1.
  assert (H0 : NoDup (row_id <$> rows0)) by (apply NoDup_singleton).
  assert (H1 : NoDup (row_id <$> rows1)) by (apply (bool_decide_unpack _); vm_compute; reflexivity).
  assert (Hne : rows1 <> rows0) by discriminate.
  assert (R0 : resourceRowIds rows0 <> ∅) by (apply (bool_decide_unpack _); vm_compute; reflexivity).
  assert (R1 : resourceRowIds rows1 <> ∅) by (apply (bool_decide_unpack _); vm_compute; reflexivity).
  do 5 (split; [assumption|]). exact (sidebar_new_rows_repeat rows0 rows1 true true H0 H1 Hne R0 R1).
Defined.

(** A new array with the same rows (after a task moved, say) runs the
    effect again: every resource row is new again and the 300 ms timeout
    starts over; the same array does not. *)
Example sidebar_same_rows_new_array :
  let rows0 := [resourceRow "r1" "r1" None 40 0] in
  let st0 := sidebarTimeout (sidebarCommit true rows0 sidebarInit) in
  sb_newRowIds st0 = ∅ /\
  sb_newRowIds (sidebarCommit true rows0 st0) = {["r1"]} /\ sb_timeout (sidebarCommit true rows0 st0) = true /\
  sidebarCommit false rows0 st0 = st0.
Proof. split_and!; vm_compute; reflexivity. Qed.
