(* ===== verification/RowFade.v ===== *)
(** * RowFade: the entry fade of the sidebar's resource rows
    (src/src/features/gantt/components/composable/GanttSidebar.tsx,
    [ResourceRow], lines 219-257, and the rows of [GanttSidebar], lines
    133-157)

    A [ResourceRow] keeps [mounted] in state, [useState(!isNew)] at its
    mount; an effect on [isNew] requests an animation frame that sets
    [mounted] when [isNew] holds, and its cleanup cancels the frame.
    The row is drawn at opacity 0, shifted 10 pixels left, while
    [mounted] is false, and fades in when it becomes true.  The sidebar
    keys its rows by [row.id] and passes [isNew = newRowIds.has(row.id)];
    its own effect (Sidebar.v, [sidebarCommit]) fills [newRowIds] after
    the commit, and React runs the rows' effects before the sidebar's.

    A [FadeWorld] is the sidebar's state and the mounted rows by key.  A
    commit renders the rows (a new array or the last one) with the
    current [newRowIds]: a key not
    mounted before mounts, a key no longer rendered unmounts (all of
    them while the sidebar is collapsed), then the rows' effects run,
    then the sidebar's.  An animation frame runs every requested
    callback; the sidebar's timeout clears [newRowIds].

    The theorems: while the rows only grow and the sidebar stays
    expanded, every row is drawn at opacity 1 in every state, so the
    fade never plays: a row appears in a render before its id reaches
    [newRowIds], and [isNew] turning true later only requests a frame
    that sets [mounted] again.  Only a row that comes back while its id
    is still in [newRowIds] (collapsing and expanding within 300 ms)
    fades in. *)

From stdpp Require Import gmap.
From S2P Require Import Prelude Types RowLayout Sidebar.

Open Scope Q_scope.

(** ** A resource row *)

(** A mounted [ResourceRow]: [mounted], the [isNew] of its last commit
    (its effect's dependency) and whether its frame is pending. *)
Record RowInstance := mkRowInstance {
  ri_mounted : bool;
  ri_isNew : bool;
  ri_frame : bool;
}.

(** The mount: [useState(!isNew)], then the effect's first run. *)
Definition rowMount (isNew : bool) : RowInstance := mkRowInstance (negb isNew) isNew isNew.

(** A later commit: when [isNew] changed, the cleanup cancels the frame
    and the effect requests one if [isNew]. *)
Definition rowUpdate (isNew : bool) (ri : RowInstance) : RowInstance :=
  if Bool.eqb isNew (ri_isNew ri) then ri else mkRowInstance (ri_mounted ri) isNew isNew.

(** The frame's callback: [setMounted(true)]. *)
Definition rowFrame (ri : RowInstance) : RowInstance :=
  if ri_frame ri then mkRowInstance true (ri_isNew ri) false else ri.

(** The row's [opacity] and [transform]. *)
Definition rowOpacity (ri : RowInstance) : Q := if ri_mounted ri then 1 else 0.
Definition rowTransform (ri : RowInstance) : string :=
  if ri_mounted ri then "translateX(0)" else "translateX(-10px)".

(** ** The sidebar's rows *)

Record FadeWorld := mkFadeWorld {
  fw_sidebar : SidebarState;
  fw_rows : gmap string RowInstance;
}.

Definition fadeInit : FadeWorld := mkFadeWorld sidebarInit ∅.

(** The keys of the [ResourceRow]s a render returns: none when the
    sidebar is collapsed (the early [return] of the button). *)
Definition renderedRowIds (collapsible : bool) (st : SidebarState) (rows : list VirtualRow)
    : list string :=
  if sb_isCollapsed st && collapsible then []
  else row_id <$> filter (fun r => isGroupHeader r = false) rows.

(** A render and commit with [rows] (a new array when [fresh]):
    reconciliation by key with the current [newRowIds], the rows'
    effects, then the sidebar's effect. *)
Definition fadeCommit (collapsible fresh : bool) (rows : list VirtualRow) (w : FadeWorld) : FadeWorld :=
  let st := fw_sidebar w in
  let rowAt k :=
    let isNew := bool_decide (k ∈ sb_newRowIds st) in
    match fw_rows w !! k with
    | Some ri => rowUpdate isNew ri
    | None => rowMount isNew
    end in
  mkFadeWorld (sidebarCommit fresh rows st)
    (list_to_map ((fun k => (k, rowAt k)) <$> renderedRowIds collapsible st rows)).

(** An animation frame: every pending callback runs. *)
Definition fadeFrame (w : FadeWorld) : FadeWorld :=
  mkFadeWorld (fw_sidebar w) (rowFrame <$> fw_rows w).

(** The sidebar's timeout fires. *)
Definition fadeTimeout (w : FadeWorld) : FadeWorld :=
  mkFadeWorld (sidebarTimeout (fw_sidebar w)) (fw_rows w).

(** The collapse and expand buttons. *)
Definition fadeCollapse (b : bool) (w : FadeWorld) : FadeWorld :=
  mkFadeWorld (setCollapsed b (fw_sidebar w)) (fw_rows w).

(** The sessions in which the rows only grow and the sidebar stays
    expanded: each commit renders every row mounted before, with a new
    array of rows or the same one. *)
Inductive fade_grow (collapsible : bool) : FadeWorld -> Prop :=
  | fade_grow_init : fade_grow collapsible fadeInit
  | fade_grow_commit w fresh rows :
      fade_grow collapsible w ->
      dom (fw_rows w) ⊆ list_to_set (renderedRowIds collapsible (fw_sidebar w) rows) ->
      sb_isCollapsed (fw_sidebar w) = false ->
      fade_grow collapsible (fadeCommit collapsible fresh rows w)
  | fade_grow_frame w : fade_grow collapsible w -> fade_grow collapsible (fadeFrame w)
  | fade_grow_timeout w : fade_grow collapsible w -> fade_grow collapsible (fadeTimeout w).

(** ** Lemmas *)

(** The rows the effect marks new are resource rows of the commit. *)
Lemma newRowIdsOf_sub prev rows :
  newRowIdsOf prev rows ⊆ list_to_set (row_id <$> filter (fun r => isGroupHeader r = false) rows).
Proof.
  intros k. unfold newRowIdsOf. rewrite !elem_of_list_to_set, list_elem_of_omap. intros (k' & _ & Hk).
  case_decide; [done|]. destruct (list_find _ rows) as [[i r]|] eqn:Hf; [|done].
  apply list_find_Some in Hf as (Hr & Hid & _). destruct (isGroupHeader r) eqn:Hg; [done|].
  injection Hk as <-. subst k'. apply list_elem_of_fmap. exists r. split; [done|].
  apply list_elem_of_filter. split; [done|]. by eapply list_elem_of_lookup_2.
Qed.

Lemma fmap_pair_fst {A B} (f : A -> B) (l : list A) : ((fun k => (k, f k)) <$> l).*1 = l.
Proof. induction l as [|x l IH]; [done|]. cbn. by rewrite IH. Qed.

(** Every mounted row is drawn, and the ids in [newRowIds] are mounted
    rows. *)
Definition fade_inv (w : FadeWorld) : Prop :=
  (forall k ri, fw_rows w !! k = Some ri -> ri_mounted ri = true) /\
  sb_newRowIds (fw_sidebar w) ⊆ dom (fw_rows w).

Lemma fadeCommit_inv c fresh rows w :
  fade_inv w -> dom (fw_rows w) ⊆ list_to_set (renderedRowIds c (fw_sidebar w) rows) ->
  sb_isCollapsed (fw_sidebar w) = false -> fade_inv (fadeCommit c fresh rows w).
Proof.
  intros [Hm Hn] Hg Hc. unfold fadeCommit. split; cbn.
  - intros k ri Hk. apply elem_of_list_to_map_2, list_elem_of_fmap in Hk as (k' & [= <- ->] & _).
    destruct (fw_rows w !! k) as [ri|] eqn:E.
    + unfold rowUpdate. case_match; [by eapply Hm|]. cbn. by eapply Hm.
    + rewrite bool_decide_eq_false_2; [done|]. intros Hk%Hn. apply elem_of_dom in Hk as [? ?]. congruence.
  - rewrite dom_list_to_map, fmap_pair_fst.
    unfold sidebarCommit. destruct (negb fresh && _); [set_solver|]. unfold sidebarEffect. cbn.
    case_decide; cbn; [set_solver|].
    unfold renderedRowIds. rewrite Hc. apply newRowIdsOf_sub.
Qed.

Lemma fadeFrame_inv w : fade_inv w -> fade_inv (fadeFrame w).
Proof.
  intros [Hm Hn]. split; cbn.
  - intros k ri. rewrite lookup_fmap. destruct (fw_rows w !! k) as [ri'|] eqn:E; [|done].
    intros [= <-]. unfold rowFrame. case_match; [done|]. by eapply Hm.
  - by rewrite dom_fmap_L.
Qed.

Lemma fadeTimeout_inv w : fade_inv w -> fade_inv (fadeTimeout w).
Proof.
  intros [Hm Hn]. split; [done|]. cbn. unfold sidebarTimeout. case_match; [set_solver|done].
Qed.

Lemma fade_grow_inv c w : fade_grow c w -> fade_inv w.
Proof.
  induction 1.
  - split; [done|]. set_solver.
  - by apply fadeCommit_inv.
  - by apply fadeFrame_inv.
  - by apply fadeTimeout_inv.
Qed.

(** ** Theorems *)

(** (C35) The entry fade of the sidebar's resource rows never plays while
    the rows only grow and the sidebar stays expanded: in every state of
    such a session, from the first mount on, whichever commits bring a
    new array of rows, every mounted row is drawn at opacity 1, because
    a row mounts in a render where [newRowIds] does not hold its id
    yet. *)
Theorem resource_rows_never_fade c w k ri :
  fade_grow c w -> fw_rows w !! k = Some ri -> rowOpacity ri = 1 /\ rowTransform ri = "translateX(0)".
Proof.
  intros Hw Hk. destruct (fade_grow_inv c w Hw) as [Hm _].
  unfold rowOpacity, rowTransform. by rewrite (Hm k ri Hk).
Qed.

(** A group of one machine, expanded, then a second machine added. *)
Definition fade_rows0 : list VirtualRow :=
  [mkRow "group-a" None 0 32 true (Some "a") (Some "A") (Some false);
   mkRow "res-1" (Some "r1") 32 40 false None None None].
Definition fade_rows1 : list VirtualRow :=
  fade_rows0 ++ [mkRow "res-2" (Some "r2") 72 40 false None None None].

Lemma resource_rows_never_fade_witness :
  let w0 := fadeCommit true true fade_rows0 fadeInit in
  let w1 := fadeCommit true true fade_rows0 w0 in
  let w := fadeCommit true true fade_rows1 (fadeFrame w1) in
  fade_grow true w /\ fw_rows w !! "res-2" = Some (mkRowInstance true false false) /\
  rowOpacity (mkRowInstance true false false) = 1.
Proof.
  intros w0 w1 w.
  assert (Hw : fade_grow true w).
  { apply fade_grow_commit; [|apply (bool_decide_unpack _); vm_compute; reflexivity|reflexivity].
    apply fade_grow_frame, fade_grow_commit;
      [|apply (bool_decide_unpack _); vm_compute; reflexivity|reflexivity].
    apply fade_grow_commit; [apply fade_grow_init|set_solver|reflexivity]. }
  assert (Hk : fw_rows w !! "res-2" = Some (mkRowInstance true false false)) by (vm_compute; reflexivity).
  split_and!; [exact Hw|exact Hk|].
  exact (proj1 (resource_rows_never_fade true w "res-2" _ Hw Hk)).
Defined.

(** Collapsing the sidebar and expanding it before the 300 ms timeout
    mounts the row again while its id is in [newRowIds]: only then is it
    drawn at opacity 0 until the next frame. *)
Example resource_row_fades_after_reexpand :
  let w0 := fadeCommit true true fade_rows0 fadeInit in
  let w1 := fadeCommit true true fade_rows0 (fadeCollapse true w0) in
  let w2 := fadeCommit true true fade_rows0 (fadeCollapse false w1) in
  (rowOpacity <$> fw_rows w2 !! "res-1") = Some 0 /\
  (rowOpacity <$> fw_rows (fadeFrame w2) !! "res-1") = Some 1.
Proof. split; vm_compute; reflexivity. Qed.
