(* ===== verification/LegacyToolbar.v ===== *)
(** * LegacyToolbar: the components of
    src/src/features/gantt/components/GanttToolbar.tsx

    The file holds three components over the legacy stores
    (LegacyStore.v):
    - [GanttToolbar] (lines 1-145): zoom buttons (1.25 and 0.8 about the
      middle of the viewport), the zoom level and grouping selects, the
      Today button (the UI store's [scrollToTime(Date.now())], then the
      optional [onScrollToToday] callback) and the undo and redo buttons,
      which call the data store's zundo history;
    - an animated [GanttSidebar] (lines 146-336), the composable
      sidebar's rows and new-row effect (Sidebar.v) with the width and
      height it is given;
    - a static [GanttSidebar] (lines 337-450): the same rows without the
      effect, its headers showing a right or down chevron.

    The legacy data store runs under the zundo middleware with [limit: 50]
    and an equality on the tasks and the dependencies (data-store.ts lines
    297-306), the History.v model instantiated at its state; the UI store
    has no history.  An application is the pair of stores.

    The lemma: the toolbar's undo button takes back a data store action
    that the history recorded, offering its result to redo, and leaves
    the UI store as it is. *)

From S2P Require Import Prelude Types Viewport Store History LegacyStore RowLayout Sidebar.

Open Scope Q_scope.

(** ** The application *)

(** The two module stores, the data store under its history
    (History.v's [dataStep]). *)
Record LegacyApp := mkLegacyApp {
  la_data : Tracked DataStore.GanttDataState;
  la_ui : UIStore.GanttUIState;
}.

(** ** [GanttToolbar] *)

Definition with_ui (app : LegacyApp) (ui : UIStore.GanttUIState) : LegacyApp :=
  mkLegacyApp (la_data app) ui.

Definition toolbarZoomIn (app : LegacyApp) : LegacyApp :=
  with_ui app (UIStore.ui_zoomViewport (la_ui app) (5 # 4) (width (UIStore.viewport (la_ui app)) / 2)).
Definition toolbarZoomOut (app : LegacyApp) : LegacyApp :=
  with_ui app (UIStore.ui_zoomViewport (la_ui app) (4 # 5) (width (UIStore.viewport (la_ui app)) / 2)).

(** The two selects' options and [onChange]s. *)
Definition toolbarZoomLevels : list (ZoomLevel * string) :=
  [(hour, "Hour"); (day, "Day"); (week, "Week"); (month, "Month")].
Definition toolbarGroupingModes : list (GroupingMode * string) :=
  [(mode_none, "No Grouping"); (mode_resource_type, "By Type"); (mode_order, "By Order")].

Definition toolbarZoomSelect (app : LegacyApp) (z : ZoomLevel) : LegacyApp :=
  with_ui app (UIStore.ui_setZoomLevel (la_ui app) z).
Definition toolbarGroupingSelect (app : LegacyApp) (m : GroupingMode) : LegacyApp :=
  with_ui app (UIStore.setGroupingMode (la_ui app) m).

(** [handleScrollToToday]: the scroll, then whether [onScrollToToday]
    is called (when it is given). *)
Definition toolbarToday (app : LegacyApp) (now : Z) (hasCallback : bool) : LegacyApp * bool :=
  (with_ui app (UIStore.ui_scrollToTime (la_ui app) (inject_Z now)), hasCallback).

(** [useGanttDataStore.temporal.getState().undo()] and [redo()]. *)
Definition toolbarUndo (app : LegacyApp) : LegacyApp := mkLegacyApp (undo (la_data app)) (la_ui app).
Definition toolbarRedo (app : LegacyApp) : LegacyApp := mkLegacyApp (redo (la_data app)) (la_ui app).

(** ** The animated [GanttSidebar] *)

(** Its render: the width and height it is given, the UI store's scroll,
    the data store's resources, the rows' views of Sidebar.v. *)
Definition animatedSidebarView (rows : list VirtualRow) (w h : Q) (app : LegacyApp)
    (st : SidebarState) : SidebarView :=
  SidebarPanel w (Some h) (scrollY (UIStore.viewport (la_ui app))) (totalHeight rows) false
    (rowViews (DataStore.resources (present (la_data app))) (sb_newRowIds st) rows) false.

(** A header's [onClick]: [row.groupId && toggleGroup(row.groupId)] on
    the UI store. *)
Definition legacyHeaderClick (app : LegacyApp) (row : VirtualRow) : LegacyApp :=
  match row_groupId row with
  | Some g => if String.eqb g "" then app else with_ui app (UIStore.toggleGroup (la_ui app) g)
  | None => app
  end.

(** ** The static [GanttSidebar] *)

Inductive StaticRowView :=
  | StaticHeader (rowId : string) (name : option string) (top height : Q) (chevronRight : bool)
  | StaticResource (rowId : string) (name : string) (icon : RowIcon) (top height : Q).

Definition staticRowView (res : jsobj Resource) (row : VirtualRow) : StaticRowView :=
  if isGroupHeader row then
    StaticHeader (row_id row) (groupName row) (virtualY row) (row_height row) (default false (isCollapsed row))
  else
    let resource := match row_resourceId row with Some rid => res⟦rid⟧%gantt | None => None end in
    StaticResource (row_id row) (default "Unknown" (resource_name <$> resource))
      (match resource_type <$> resource with Some operator => icon_user | _ => icon_cpu end)
      (virtualY row) (row_height row).

Record StaticSidebarView := mkStaticSidebarView {
  ss_width : Q;
  ss_height : Q;
  ss_translateY : Q;
  ss_contentHeight : Q;
  ss_rows : list StaticRowView;
}.

Definition staticSidebarView (rows : list VirtualRow) (w h : Q) (app : LegacyApp) : StaticSidebarView :=
  mkStaticSidebarView w h (scrollY (UIStore.viewport (la_ui app))) (totalHeight rows)
    (staticRowView (DataStore.resources (present (la_data app))) <$> rows).

(** ** Lemmas *)

(** The toolbar's undo after a data action the history records (one
    that gave the tasks or the dependencies a new object) brings back
    the data before it, offers the action's result to redo, and leaves
    the UI store as it is. *)
Lemma toolbar_undo_restores_data app a :
  dataEquality (present (la_data app)) a = false ->
  (length (pastStates (temporal (la_data app))) < HISTORY_LIMIT)%nat ->
  let app' := toolbarUndo (mkLegacyApp (dataStep (la_data app) a) (la_ui app)) in
  present (la_data app') = present (la_data app) /\ la_ui app' = la_ui app /\
  futureStates (temporal (la_data app')) = [DataStore.apply_data (present (la_data app)) a].
Proof.
  intros Heq Hl app'. subst app'. unfold toolbarUndo, dataStep. cbn [la_data la_ui].
  rewrite tracked_set_push by done. by rewrite undo_push.
Qed.
