(* ===== verification/DemoPage.v ===== *)
(** * DemoPage: the legacy [GanttChart] (src/unnamed/part_014) and the
    demo page [GanttDemo] of src/src/routes/gantt.tsx

    [GanttChart] (part_014, lines 34-140) is the chart over the legacy
    stores (LegacyStore.v): an effect on its data props loads them with
    the data store's [initializeData], a [set] that the zundo history
    records (LegacyToolbar.v, [dataStep]); a resize observer keeps the
    container's size, from which the canvas is sized next to the UI
    store's sidebar width, under a 44-pixel toolbar when it is shown and
    the 50-pixel time axis; the rows are LegacyRows.v's.

    [GanttDemo] (gantt.tsx lines 10-161) holds a task count and a loading
    flag.  A count button sets the flag and schedules a 10 ms timeout
    that sets the count and clears the flag; the buttons are disabled
    while the flag is set.  The data is [useMemo] of
    [generateLargeDataset(taskCount)] (DemoData.v), a new dataset each
    time the count changes; while loading, a placeholder replaces the
    chart, which is unmounted and mounted again with the new data.

    [DemoPage] is the page's state and [demoPageStep] its step on a
    button click or the timeout; all timeouts have the same delay, so
    they fire in the order they were set.  [DemoWorld] adds the
    generator's call counts, the memoised data, the chart's instance and
    the legacy stores; [demoStep] runs a page event with the render and
    commit that follow it, the chart's resize and its toolbar's undo
    button (LegacyToolbar.v).  The chart's tasks are the store's
    [StoredTask]s, whose start times the model keeps as whole
    milliseconds ([Z]).  The generator's start times are fractional in
    almost every run ([Math.random() * 8 * hourMs]), which JavaScript
    stores as they are; the model stops there with the fault
    [FractionalTime] (Prelude), so the chart's data is covered only for
    whole-millisecond starts and no theorem here is about it.

    The theorems: in every reachable page at most one timeout is pending,
    exactly while the page is loading, and the next timeout leaves the
    page idle with the clicked count. *)

From S2P Require Import Prelude Types Viewport History LegacyStore LegacyRows DemoData Routes LegacyToolbar.

Open Scope Q_scope.

(** ** [GanttChart] *)

(** [GanttChartProps]: [None] is an absent prop. *)
Record ChartProps := mkChartProps {
  cp_tasks : option (list StoredTask);
  cp_resources : option (list Resource);
  cp_dependencies : option (list TaskDependency);
  cp_orders : option (list Order);
  cp_groups : option (list ResourceGroup);
  cp_showToolbar : option bool;
}.

(** The effect on the data props: [if (tasks && resources)
    initializeData({...})], through the data store's history. *)
Definition chartInitializeEffect (p : ChartProps) (app : LegacyApp) : LegacyApp :=
  match cp_tasks p, cp_resources p with
  | Some ts, Some rs =>
      mkLegacyApp (dataStep (la_data app)
                     (DataStore.DInitializeData ts rs (cp_dependencies p) (cp_orders p) (cp_groups p)))
                  (la_ui app)
  | _, _ => app
  end.

Definition chartTimelineHeight : Q := 50.

(** [showToolbar ? 44 : 0], [showToolbar] defaulting to [true]. *)
Definition chartToolbarHeight (p : ChartProps) : Q := if default true (cp_showToolbar p) then 44 else 0.

Definition chartCanvasWidth (d : Dims) (app : LegacyApp) : Q :=
  Qmax 0 (dimWidth d - UIStore.sidebarWidth (la_ui app)).

Definition chartCanvasHeight (d : Dims) (p : ChartProps) : Q :=
  Qmax 0 (dimHeight d - chartToolbarHeight p - chartTimelineHeight).

(** What the chart renders: the toolbar or not, the sidebar's width,
    height and rows, the time axis's and the canvas's sizes, the rows the
    canvas draws. *)
Record ChartView := mkChartView {
  cv_showToolbar : bool;
  cv_sidebarWidth : Q;
  cv_sidebarHeight : Q;
  cv_virtualRows : list VirtualRow;
  cv_timelineWidth : Q;
  cv_canvasWidth : Q;
  cv_canvasHeight : Q;
  cv_visibleRows : list VirtualRow;
}.

Definition chartView (p : ChartProps) (d : Dims) (app : LegacyApp) : ChartView :=
  let ui := la_ui app in
  let virtualRows := useVirtualRows (present (la_data app)) ui in
  mkChartView (default true (cp_showToolbar p)) (UIStore.sidebarWidth ui) (chartCanvasHeight d p)
    virtualRows (chartCanvasWidth d app) (chartCanvasWidth d app) (chartCanvasHeight d p)
    (useVisibleRows ui virtualRows).

(** ** [GanttDemo]'s state *)

Record DemoPage := mkDemoPage {
  dp_taskCount : nat;
  dp_isLoading : bool;
  dp_timers : list nat;
}.

(** [useState(500)], [useState(false)], no timeout pending. *)
Definition demoPageInit : DemoPage := mkDemoPage 500 false [].

Definition demoCountOptions : list nat := [100; 500; 1000; 2500; 5000; 10000]%nat.

(** [handleTaskCountChange]: the flag, and a timeout carrying the count. *)
Definition handleTaskCountChange (p : DemoPage) (count : nat) : DemoPage :=
  mkDemoPage (dp_taskCount p) true (dp_timers p ++ [count]).

(** The oldest timeout fires: [setTaskCount(count); setIsLoading(false)]. *)
Definition demoTimeout (p : DemoPage) : DemoPage :=
  match dp_timers p with
  | [] => p
  | count :: rest => mkDemoPage count false rest
  end.

Inductive DemoPageEvent := ClickCount (i : nat) | TimerElapsed.

(** The [i]-th button's click, ignored while it is [disabled]. *)
Definition demoPageStep (p : DemoPage) (e : DemoPageEvent) : DemoPage :=
  match e with
  | ClickCount i =>
      match demoCountOptions !! i with
      | Some count => if dp_isLoading p then p else handleTaskCountChange p count
      | None => p
      end
  | TimerElapsed => demoTimeout p
  end.

Definition demoPageRun (p : DemoPage) (es : list DemoPageEvent) : DemoPage := foldl demoPageStep p es.

(** The buttons: label, selected, disabled. *)
Definition demoCountButtons (p : DemoPage) : list (string * bool * bool) :=
  (fun count => (countLabel count, bool_decide (dp_taskCount p = count), dp_isLoading p)) <$> demoCountOptions.

(** The stats bar. *)
Record DemoStats := mkDemoStats {
  stat_tasks : nat;
  stat_resources : nat;
  stat_dependencies : nat;
  stat_orders : nat;
}.

Definition demoStats (d : DemoData) : DemoStats :=
  mkDemoStats (length (dd_tasks d)) (length (dd_resources d)) (length (dd_dependencies d))
    (length (dd_orders d)).

(** The pages reached from the first render by clicks and timeouts. *)
Inductive demo_page_reach : DemoPage -> Prop :=
  | demo_page_reach_init : demo_page_reach demoPageInit
  | demo_page_reach_step p e : demo_page_reach p -> demo_page_reach (demoPageStep p e).

(** ** The page with its data, chart and stores *)

(** A generated task as the legacy store's [StoredTask]: the order's
    colour is the task's, no constraints.  JavaScript stores a fractional
    start as it is; the model's start is [Z], so a fractional one stops
    the run with [FractionalTime]. *)
Definition demoStoredTask (t : DemoTask) : js_result StoredTask :=
  match Q_to_Z_exact (dt_startTime t) with
  | Some start =>
      JsOk (mkStoredTask (dt_id t) start (dt_phases t) (dt_resourceId t) (dt_orderId t) (dt_name t)
              (Some (dt_color t)) (dt_priority t) (dt_status t) (dt_progress t) None)
  | None => JsFail FractionalTime
  end.

Fixpoint demoStoredTasks (ts : list DemoTask) : js_result (list StoredTask) :=
  match ts with
  | [] => JsOk []
  | t :: ts' =>
      match demoStoredTask t, demoStoredTasks ts' with
      | JsOk s, JsOk ss => JsOk (s :: ss)
      | JsFail f, _ | _, JsFail f => JsFail f
      end
  end.

(** A generated order as an [Order]; its colour is display only. *)
Definition demoOrder (o : DemoOrder) : Order := mkOrder (do_id o) (do_name o) (do_priority o) (Some (do_dueDate o)).

(** [<GanttChart tasks={demoData.tasks} ... showToolbar={true} />] *)
Definition demoChartProps (d : DemoData) : js_result ChartProps :=
  match demoStoredTasks (dd_tasks d) with
  | JsOk ts =>
      JsOk (mkChartProps (Some ts) (Some (dd_resources d)) (Some (dd_dependencies d))
              (Some (demoOrder <$> dd_orders d)) (Some (dd_groups d)) (Some true))
  | JsFail f => JsFail f
  end.

Record DemoWorld := mkDemoWorld {
  dw_page : DemoPage;
  dw_gen : Gen;
  dw_data : DemoData;
  dw_chart : option Dims;
  dw_app : LegacyApp;
}.

Inductive DemoEvent :=
  | DPage (e : DemoPageEvent)
  | DChartResize (width height : Q)
  | DToolbarUndo.

Section DemoWorldSteps.
Variable rnd : nat -> Q.
Variable clock : nat -> Z.

(** [useMemo]: the same data while the count is the same, otherwise a
    new run of the generator. *)
Definition demoMemo (w : DemoWorld) (p : DemoPage) : js_result (DemoData * Gen) :=
  if decide (dp_taskCount p = dp_taskCount (dw_page w)) then JsOk (dw_data w, dw_gen w)
  else generateLargeDataset rnd clock (dp_taskCount p) (dw_gen w).

(** The chart's data effect on the page's data. *)
Definition demoChartEffect (d : DemoData) (app : LegacyApp) : js_result LegacyApp :=
  match demoChartProps d with
  | JsOk props => JsOk (chartInitializeEffect props app)
  | JsFail f => JsFail f
  end.

(** The render of a new page state and its commit: the placeholder
    unmounts the chart; a chart mounted, or mounted before with other
    data, runs its data effect. *)
Definition demoCommit (w : DemoWorld) (p : DemoPage) : js_result DemoWorld :=
  match demoMemo w p with
  | JsFail f => JsFail f
  | JsOk (d, g) =>
      if dp_isLoading p then JsOk (mkDemoWorld p g d None (dw_app w))
      else
        let chart := default (mkDims 0 0) (dw_chart w) in
        if decide (is_Some (dw_chart w) /\ dp_taskCount p = dp_taskCount (dw_page w))
        then JsOk (mkDemoWorld p g d (Some chart) (dw_app w))
        else match demoChartEffect d (dw_app w) with
             | JsOk app => JsOk (mkDemoWorld p g d (Some chart) app)
             | JsFail f => JsFail f
             end
  end.

(** The first render: 500 tasks, the chart mounted. *)
Definition demoMount (g : Gen) (app : LegacyApp) : js_result DemoWorld :=
  match generateLargeDataset rnd clock 500 g with
  | JsOk (d, g') =>
      match demoChartEffect d app with
      | JsOk app' => JsOk (mkDemoWorld demoPageInit g' d (Some (mkDims 0 0)) app')
      | JsFail f => JsFail f
      end
  | JsFail f => JsFail f
  end.

(** A page event with its render, the chart's resize observer, the
    chart's toolbar undo button. *)
Definition demoStep (w : DemoWorld) (e : DemoEvent) : js_result DemoWorld :=
  match e with
  | DPage pe => demoCommit w (demoPageStep (dw_page w) pe)
  | DChartResize x y =>
      match dw_chart w with
      | Some _ => JsOk (mkDemoWorld (dw_page w) (dw_gen w) (dw_data w) (Some (mkDims x y)) (dw_app w))
      | None => JsOk w
      end
  | DToolbarUndo =>
      match dw_chart w with
      | Some _ => JsOk (mkDemoWorld (dw_page w) (dw_gen w) (dw_data w) (dw_chart w) (toolbarUndo (dw_app w)))
      | None => JsOk w
      end
  end.

Fixpoint demoRun (w : DemoWorld) (es : list DemoEvent) : js_result DemoWorld :=
  match es with
  | [] => JsOk w
  | e :: es' => match demoStep w e with JsOk w' => demoRun w' es' | JsFail f => JsFail f end
  end.

End DemoWorldSteps.

(** The page's render: the buttons, the stats bar of the memoised data,
    and the placeholder or the chart. *)
Inductive DemoBody := BodyLoading | BodyChart (v : ChartView).

Record DemoView := mkDemoView {
  dv_buttons : list (string * bool * bool);
  dv_stats : DemoStats;
  dv_body : DemoBody;
}.

Definition demoView (w : DemoWorld) : js_result DemoView :=
  let p := dw_page w in
  let mk body := JsOk (mkDemoView (demoCountButtons p) (demoStats (dw_data w)) body) in
  if dp_isLoading p then mk BodyLoading
  else match demoChartProps (dw_data w) with
       | JsOk props => mk (BodyChart (chartView props (default (mkDims 0 0) (dw_chart w)) (dw_app w)))
       | JsFail f => JsFail f
       end.

(** ** The page's invariant *)

(** Idle with no timeout, or loading with one timeout pending, its count
    one of the buttons'; the count is one of the buttons'. *)
Definition demo_page_ok (p : DemoPage) : Prop :=
  dp_taskCount p ∈ demoCountOptions /\
  ((dp_isLoading p = false /\ dp_timers p = []) \/
   (exists count, dp_isLoading p = true /\ dp_timers p = [count] /\ count ∈ demoCountOptions)).

Lemma demoPageStep_ok p e : demo_page_ok p -> demo_page_ok (demoPageStep p e).
Proof.
  intros [Hc Hl]. destruct e as [i|]; cbn.
  - destruct (demoCountOptions !! i) as [count|] eqn:Hi; [|exact (conj Hc Hl)].
    destruct (dp_isLoading p) eqn:E; [split; [done|]; rewrite E; exact Hl|].
    destruct Hl as [[_ Ht]|(? & ? & _)]; [|congruence].
    split; [done|]. right. exists count. cbn. rewrite Ht. split_and!; [done|done|].
    by eapply list_elem_of_lookup_2.
  - unfold demoTimeout. destruct Hl as [[? Ht]|(count & ? & -> & ?)].
    + rewrite Ht. split; [done|by left].
    + split; [done|by left].
Qed.

Lemma demo_page_reach_ok p : demo_page_reach p -> demo_page_ok p.
Proof.
  induction 1; [|by apply demoPageStep_ok].
  split; [apply (list_elem_of_lookup_2 _ 1%nat); reflexivity|by left].
Qed.

(** (C32) In every page reached by clicks and timeouts, at most one
    timeout is pending, exactly while the page is loading (the buttons
    being disabled then), and the task count and a pending timeout's count
    are counts of the buttons. *)
Theorem demo_page_one_timeout p :
  demo_page_reach p ->
  (length (dp_timers p) <= 1)%nat /\ (dp_isLoading p = true <-> dp_timers p <> []) /\
  dp_taskCount p ∈ demoCountOptions /\ Forall (.∈ demoCountOptions) (dp_timers p).
Proof.
  intros H. destruct (demo_page_reach_ok p H) as [Hc [[-> ->]|(count & -> & -> & Hin)]];
    split_and!; cbn; try done; try lia; by constructor.
Qed.

Lemma demo_page_one_timeout_witness :
  let p := demoPageRun demoPageInit [ClickCount 2; ClickCount 5] in
  demo_page_reach p /\ (length (dp_timers p) <= 1)%nat /\ dp_timers p = [1000%nat].
Proof.
  assert (H : demo_page_reach (demoPageRun demoPageInit [ClickCount 2; ClickCount 5]))
    by (apply demo_page_reach_step, demo_page_reach_step, demo_page_reach_init).
  split_and!; [exact H|apply (demo_page_one_timeout _ H)|reflexivity].
Defined.

(** A loading page becomes idle: in every reachable page the next
    timeout leaves no timeout pending and the page not loading, with the
    count of the button that set the timeout. *)
Theorem demo_page_timeout_idle p :
  demo_page_reach p ->
  let p' := demoPageStep p TimerElapsed in
  dp_isLoading p' = false /\ dp_timers p' = [] /\
  (forall count, dp_timers p = [count] -> dp_taskCount p' = count).
Proof.
  intros H p'. subst p'. cbn. unfold demoTimeout.
  destruct (demo_page_reach_ok p H) as [_ [[Hl Ht]|(count & _ & Ht & _)]]; rewrite Ht; [done|].
  split_and!; [done|done|]. by intros ? [= ->].
Qed.

Lemma demo_page_timeout_idle_witness :
  demo_page_reach (demoPageRun demoPageInit [ClickCount 3]) /\
  dp_taskCount (demoPageStep (demoPageRun demoPageInit [ClickCount 3]) TimerElapsed) = 2500%nat.
Proof.
  assert (H : demo_page_reach (demoPageRun demoPageInit [ClickCount 3]))
    by (apply demo_page_reach_step, demo_page_reach_init).
  split; [exact H|].
  destruct (demo_page_timeout_idle _ H) as (_ & _ & Hc). by apply Hc.
Defined.
